(** * Prosegur statement parsers: row-scanning state machines

    Shallow embedding of the tabular extraction code of
    [prosegur_unificado_v4_2.py] (module [V4]) and [comsol.py] (module
    [Comsol]): the ledger parsers [get_ec_atm] and [get_ec_banco], the
    opening-balance extractor [_extraer_saldos_desde_fila], the inventory
    parsers [get_inv_atm] / [get_inv_bco] and the agency normaliser
    [normalize_agencia_col].

    Text.  A Python [str] is a [string] whose characters are read as the code
    points U+0000..U+00FF (Latin-1, which covers the Spanish text of the
    statements).  The tables of module [Text] give, for these code points,
    what [str.strip], [str.upper], [str.isdigit], NFD accent stripping and the
    regex classes [\s], [\d], [\w] do in Python 3.

    Numbers.  A Python [int] is a [Z].  A [float] is a binary64 number of
    module [Float], which gives the rounding of [float(...)], [round] and
    [int] on it and the text of [repr].

    Loops.  Each [for ... in df.iterrows()] loop is a function [row_step]
    from the loop variables and one row to an [outcome] ([continue] with the
    new variables and the records appended, or [break]), folded over the
    rows by [run]. *)

From Stdlib Require Import String Ascii List ZArith NArith Bool Lia.
From Stdlib Require Import DecimalString DecimalPos.
Import ListNotations.
Open Scope string_scope.
Open Scope list_scope.

(* ================================================================== *)
(** * Text: the string primitives of Python used by the parsers        *)
(* ================================================================== *)

Module Text.

Definition code (c : ascii) : N := N_of_ascii c.

Definition between (lo hi : N) (c : ascii) : bool :=
  (N.leb lo (code c) && N.leb (code c) hi)%bool.

Definition code_is (n : N) (c : ascii) : bool := N.eqb (code c) n.

(** [str.isspace] and the regex class [\s]. *)
Definition isspace (c : ascii) : bool :=
  between 9 13 c || between 28 32 c || code_is 133 c || code_is 160 c.

(** The regex class [\d] (Unicode category Nd). *)
Definition isdecimal (c : ascii) : bool := between 48 57 c.

(** [str.isdigit]: decimal digits and the superscripts 1, 2, 3. *)
Definition isdigit (c : ascii) : bool :=
  isdecimal c || code_is 178 c || code_is 179 c || code_is 185 c.

Definition isalpha (c : ascii) : bool :=
  between 65 90 c || between 97 122 c || code_is 170 c || code_is 181 c
  || code_is 186 c || between 192 214 c || between 216 246 c
  || between 248 255 c.

(** The regex class [\w]: alphanumeric (letters, digits, numeric signs such
    as the vulgar fractions) or underscore. *)
Definition isword (c : ascii) : bool :=
  isalpha c || isdigit c || between 188 190 c || code_is 95 c.

Definition shift_down (c : ascii) : ascii := ascii_of_N (code c - 32).
Definition shift_up (c : ascii) : ascii := ascii_of_N (code c + 32).

(** [str.upper] on one character.  The sharp s becomes "SS"; the micro sign
    and y-diaeresis, whose capitals lie outside Latin-1, are kept. *)
Definition upper_char (c : ascii) : string :=
  if between 97 122 c || between 224 246 c || between 248 254 c
  then String (shift_down c) EmptyString
  else if code_is 223 c then "SS"
  else String c EmptyString.

Fixpoint upper (s : string) : string :=
  match s with
  | EmptyString => EmptyString
  | String c t => upper_char c ++ upper t
  end.

(** Simple lower-casing, the comparison key of [re.IGNORECASE]. *)
Definition lower_char (c : ascii) : ascii :=
  if between 65 90 c || between 192 214 c || between 216 222 c
  then shift_up c else c.

Definition ci_eq (a b : ascii) : bool :=
  Ascii.eqb (lower_char a) (lower_char b).

(** One character of [unicodedata.normalize('NFD', s)] with the combining
    marks (category Mn) dropped: the base letter of an accented letter. *)
Definition base_char (c : ascii) : ascii :=
  if between 192 197 c then "A"%char else
  if code_is 199 c then "C"%char else
  if between 200 203 c then "E"%char else
  if between 204 207 c then "I"%char else
  if code_is 209 c then "N"%char else
  if between 210 214 c then "O"%char else
  if between 217 220 c then "U"%char else
  if code_is 221 c then "Y"%char else
  if between 224 229 c then "a"%char else
  if code_is 231 c then "c"%char else
  if between 232 235 c then "e"%char else
  if between 236 239 c then "i"%char else
  if code_is 241 c then "n"%char else
  if between 242 246 c then "o"%char else
  if between 249 252 c then "u"%char else
  if code_is 253 c || code_is 255 c then "y"%char else c.

Fixpoint strip_marks (s : string) : string :=
  match s with
  | EmptyString => EmptyString
  | String c t => String (base_char c) (strip_marks t)
  end.

(** [_strip_accents(s).upper()], the folding applied before every keyword
    test. *)
Definition fold (s : string) : string := upper (strip_marks s).

Definition nonempty (s : string) : bool :=
  match s with EmptyString => false | _ => true end.

Fixpoint lstrip (s : string) : string :=
  match s with
  | String c t => if isspace c then lstrip t else s
  | EmptyString => EmptyString
  end.

Fixpoint rstrip (s : string) : string :=
  match s with
  | EmptyString => EmptyString
  | String c t =>
      match rstrip t with
      | EmptyString => if isspace c then EmptyString else String c EmptyString
      | t' => String c t'
      end
  end.

(** [s.strip()] *)
Definition strip (s : string) : string := rstrip (lstrip s).

(** [sub in s] *)
Fixpoint contains (sub s : string) : bool :=
  if String.prefix sub s then true
  else match s with
       | EmptyString => false
       | String _ t => contains sub t
       end.

(** [any(k in s for k in ks)] *)
Definition contains_any (ks : list string) (s : string) : bool :=
  existsb (fun k => contains k s) ks.

(** [sep.join(parts)] *)
Fixpoint join (sep : string) (parts : list string) : string :=
  match parts with
  | [] => EmptyString
  | [p] => p
  | p :: rest => p ++ sep ++ join sep rest
  end.

(** [''.join(ch for ch in s if p(ch))] *)
Fixpoint keep (p : ascii -> bool) (s : string) : string :=
  match s with
  | EmptyString => EmptyString
  | String c t => if p c then String c (keep p t) else keep p t
  end.

(** [s.replace(a, b)] for single characters. *)
Fixpoint replace_char (a b : ascii) (s : string) : string :=
  match s with
  | EmptyString => EmptyString
  | String c t => String (if Ascii.eqb c a then b else c) (replace_char a b t)
  end.

(** [s.split()]: the maximal runs of non-space characters.  [cur] holds the
    run being read, reversed. *)
Fixpoint rev_string (acc s : string) : string :=
  match s with
  | EmptyString => acc
  | String c t => rev_string (String c acc) t
  end.

Definition flush (cur : string) : list string :=
  match cur with
  | EmptyString => []
  | _ => [rev_string EmptyString cur]
  end.

Fixpoint split_ws_from (cur s : string) : list string :=
  match s with
  | EmptyString => flush cur
  | String c t =>
      if isspace c then flush cur ++ split_ws_from EmptyString t
      else split_ws_from (String c cur) t
  end.

Definition split_ws (s : string) : list string := split_ws_from EmptyString s.

(** [re.sub(r"\s+", " ", s)] *)
Fixpoint collapse_ws_from (in_run : bool) (s : string) : string :=
  match s with
  | EmptyString => EmptyString
  | String c t =>
      if isspace c
      then if in_run then collapse_ws_from true t
           else String " "%char (collapse_ws_from true t)
      else String c (collapse_ws_from false t)
  end.

Definition collapse_ws (s : string) : string := collapse_ws_from false s.

(** The accented capitals of the source's literals, as Latin-1 code
    points: this file is UTF-8, so a literal with an accent is decoded by
    [u8] (lead bytes C2 and C3 followed by one continuation byte). *)
Fixpoint u8 (s : string) : string :=
  match s with
  | EmptyString => EmptyString
  | String a rest =>
      match rest with
      | String b t =>
          if code_is 195 a then String (ascii_of_N (code b + 64)) (u8 t)
          else if code_is 194 a then String b (u8 t)
          else String a (u8 rest)
      | EmptyString => s
      end
  end.

(** [s.replace(a, '')] for a single character. *)
Definition remove_char (a : ascii) (s : string) : string :=
  keep (fun c => negb (Ascii.eqb c a)) s.

(** [s.startswith(p)] *)
Definition startswith (s p : string) : bool := String.prefix p s.

End Text.

(* ================================================================== *)
(** * Re: the regular expressions of the parsers                        *)
(* ================================================================== *)

(** A backtracking matcher in the order Python's [re] explores: the left
    alternative first, a greedy repetition as long as possible first, a lazy
    one as short as possible first.  Every pattern of the parsers has at
    most one group whose text is read ([m.group(1)]); [Group] marks it. *)
Module Re.
Import Text.

Inductive regex : Type :=
| Eps
| Chr (p : ascii -> bool)
| Seq (a b : regex)
| Alt (a b : regex)
| Star (a : regex)
| LazyStar (a : regex)
| Group (a : regex)
| Bol
| Eol
| WordB.

(** Position of the matcher: the character before the cursor ([None] at the
    start of the text), the text after it, the text at which the open group
    began, and the text of the group once closed. *)
Record cursor : Type := Cursor {
  before : option ascii;
  rest : string;
  opened : string;
  group1 : option string
}.

Definition start_at (b : option ascii) (s : string) : cursor :=
  Cursor b s EmptyString None.

Definition advance (c : ascii) (t : string) (m : cursor) : cursor :=
  Cursor (Some c) t (opened m) (group1 m).

Definition open_group (m : cursor) : cursor :=
  Cursor (before m) (rest m) (rest m) (group1 m).

Definition close_group (m : cursor) : cursor :=
  Cursor (before m) (rest m) (opened m)
    (Some (substring 0 (String.length (opened m) - String.length (rest m))
             (opened m))).

Definition word_before (m : cursor) : bool :=
  match before m with Some c => isword c | None => false end.

Definition word_after (m : cursor) : bool :=
  match rest m with String c _ => isword c | EmptyString => false end.

(** [$] without MULTILINE: the end of the text, or just before a final
    newline. *)
Definition at_eol (m : cursor) : bool :=
  match rest m with
  | EmptyString => true
  | String c EmptyString => code_is 10 c
  | _ => false
  end.

Definition or_else {A} (x : option A) (y : option A) : option A :=
  match x with Some _ => x | None => y end.

Fixpoint run_re (r : regex) (m : cursor) (k : cursor -> option cursor)
  : option cursor :=
  match r with
  | Eps => k m
  | Chr p =>
      match rest m with
      | String c t => if p c then k (advance c t m) else None
      | EmptyString => None
      end
  | Seq a b => run_re a m (fun m1 => run_re b m1 k)
  | Alt a b => or_else (run_re a m k) (run_re b m k)
  | Star a =>
      (fix more (n : nat) (m : cursor) : option cursor :=
         match n with
         | O => k m
         | S n' =>
             or_else
               (run_re a m (fun m1 =>
                  if Nat.ltb (String.length (rest m1)) (String.length (rest m))
                  then more n' m1 else None))
               (k m)
         end) (String.length (rest m)) m
  | LazyStar a =>
      (fix more (n : nat) (m : cursor) : option cursor :=
         match n with
         | O => k m
         | S n' =>
             or_else (k m)
               (run_re a m (fun m1 =>
                  if Nat.ltb (String.length (rest m1)) (String.length (rest m))
                  then more n' m1 else None))
         end) (String.length (rest m)) m
  | Group a => run_re a (open_group m) (fun m1 => k (close_group m1))
  | Bol => match before m with None => k m | Some _ => None end
  | Eol => if at_eol m then k m else None
  | WordB => if xorb (word_before m) (word_after m) then k m else None
  end.

(** [rx.match(s)] *)
Definition re_match (r : regex) (s : string) : option cursor :=
  run_re r (start_at None s) Some.

(** [re.fullmatch(rx, s)] *)
Definition re_fullmatch (r : regex) (s : string) : option cursor :=
  run_re r (start_at None s)
    (fun m => match rest m with EmptyString => Some m | _ => None end).

(** [rx.search(s)]: the first position, left to right, at which the
    pattern matches. *)
Fixpoint search_from (r : regex) (b : option ascii) (s : string)
  : option cursor :=
  match run_re r (start_at b s) Some with
  | Some m => Some m
  | None =>
      match s with
      | EmptyString => None
      | String c t => search_from r (Some c) t
      end
  end.

Definition re_search (r : regex) (s : string) : option cursor :=
  search_from r None s.

Definition matches (x : option cursor) : bool :=
  match x with Some _ => true | None => false end.

(** [m.group(1)] *)
Definition group (m : cursor) : string :=
  match group1 m with Some g => g | None => EmptyString end.

(** ** The walks of the matcher *)

(** [walks r m m1]: the pattern [r] takes the matcher from the position
    [m] to the position [m1].  The relation has one rule for each step
    [run_re] can take, without the order in which it tries them. *)
Inductive walks : regex -> cursor -> cursor -> Prop :=
| walks_eps m : walks Eps m m
| walks_chr p c t m :
    rest m = String c t -> p c = true -> walks (Chr p) m (advance c t m)
| walks_seq a b m1 m2 m3 :
    walks a m1 m2 -> walks b m2 m3 -> walks (Seq a b) m1 m3
| walks_alt_l a b m1 m2 : walks a m1 m2 -> walks (Alt a b) m1 m2
| walks_alt_r a b m1 m2 : walks b m1 m2 -> walks (Alt a b) m1 m2
| walks_star_0 a m : walks (Star a) m m
| walks_star_s a m1 m2 m3 :
    walks a m1 m2 -> walks (Star a) m2 m3 -> walks (Star a) m1 m3
| walks_lazy_0 a m : walks (LazyStar a) m m
| walks_lazy_s a m1 m2 m3 :
    walks a m1 m2 -> walks (LazyStar a) m2 m3 -> walks (LazyStar a) m1 m3
| walks_group a m m1 :
    walks a (open_group m) m1 -> walks (Group a) m (close_group m1)
| walks_bol m : before m = None -> walks Bol m m
| walks_eol m : at_eol m = true -> walks Eol m m
| walks_wordb m :
    xorb (word_before m) (word_after m) = true -> walks WordB m m.

(** A pattern with no group in it. *)
Fixpoint groupless (r : regex) : bool :=
  match r with
  | Eps | Chr _ | Bol | Eol | WordB => true
  | Seq a b | Alt a b => groupless a && groupless b
  | Star a | LazyStar a => groupless a
  | Group _ => false
  end.

(** ** Pattern constructors *)

Definition chr (c : ascii) : regex := Chr (Ascii.eqb c).
Definition chr_ci (c : ascii) : regex := Chr (ci_eq c).

(** A literal, as produced by [re.escape]. *)
Fixpoint lit (s : string) : regex :=
  match s with
  | EmptyString => Eps
  | String c t => Seq (chr c) (lit t)
  end.

(** A literal under [re.IGNORECASE]. *)
Fixpoint lit_ci (s : string) : regex :=
  match s with
  | EmptyString => Eps
  | String c t => Seq (chr_ci c) (lit_ci t)
  end.

Definition one_of_ci (s : string) : regex :=
  Chr (fun c => existsb (ci_eq c) (list_ascii_of_string s)).

Definition opt (a : regex) : regex := Alt a Eps.
Definition plus (a : regex) : regex := Seq a (Star a).
Definition seqs (l : list regex) : regex := fold_right Seq Eps l.
Fixpoint alts (l : list regex) : regex :=
  match l with
  | [] => Chr (fun _ => false)
  | [a] => a
  | a :: rest => Alt a (alts rest)
  end.

Definition ws : regex := Chr isspace.
Definition digit : regex := Chr isdecimal.
(** [.] without DOTALL *)
Definition dot : regex := Chr (fun c => negb (code_is 10 c)).

(** [\d{1,2}/\d{1,2}/\d{4}] *)
Definition date_dmy : regex :=
  seqs [digit; opt digit; chr "/"; digit; opt digit; chr "/";
        digit; digit; digit; digit].

End Re.

(* ================================================================== *)
(** * Helpers shared by the ledger parsers                               *)
(* ================================================================== *)

(** The helper functions below are defined with the same text in
    [prosegur_unificado_v4_2.py] and in [comsol.py]. *)
Module Helpers.
Import Text Re.

Definition _strip_accents (s : string) : string := strip_marks s.

(** [x or d] on strings: the empty string is falsy. *)
Definition or_str (x d : string) : string := if nonempty x then x else d.

(** [next((i for i, c in enumerate(l) if p(c)), None)], counting from [i]. *)
Fixpoint find_index_from {A} (p : A -> bool) (i : nat) (l : list A)
  : option nat :=
  match l with
  | [] => None
  | c :: t => if p c then Some i else find_index_from p (S i) t
  end.

Definition find_index {A} (p : A -> bool) (l : list A) : option nat :=
  find_index_from p 0 l.

(** [for i in range(start_idx + 1, len(row_vals))]: the first index whose
    stripped cell is not empty. *)
Definition _first_non_empty_after (row_vals : list string) (start_idx : nat)
  : option nat :=
  find_index_from (fun c => nonempty (strip c)) (S start_idx)
    (skipn (S start_idx) row_vals).

(** [_first_non_empty_after(cells, i) if i is not None else None] *)
Definition next_after (row_vals : list string) (idx : option nat)
  : option nat :=
  match idx with
  | Some i => _first_non_empty_after row_vals i
  | None => None
  end.

Definition _get_cell (row_vals : list string) (idx : option nat)
  (default : string) : string :=
  match idx with
  | None => default
  | Some i =>
      match nth_error row_vals i with
      | None => default
      | Some c => let v := strip c in if nonempty v then v else default
      end
  end.

Definition _only_digits (s : string) : string := keep isdigit s.

(** [rx_fecha_cell = ^\s*\d{1,2}/\d{1,2}/\d{4}\s*$] *)
Definition rx_fecha_cell : regex :=
  seqs [Bol; Star ws; date_dmy; Star ws; Eol].

(** [rx_fecha_linea = ^\s*(\d{1,2}/\d{1,2}/\d{4})\b] *)
Definition rx_fecha_linea : regex :=
  seqs [Bol; Star ws; Group date_dmy; WordB].

(** [rx_totales = \b(TOTAL|SUBTOTAL)\b], IGNORECASE *)
Definition rx_totales : regex :=
  seqs [WordB; Alt (lit_ci "TOTAL") (lit_ci "SUBTOTAL"); WordB].

(** [SUCURSAL:\s*([^)]+)\)], IGNORECASE *)
Definition rx_sucursal : regex :=
  seqs [lit_ci "SUCURSAL:"; Star ws;
        Group (plus (Chr (fun c => negb (Ascii.eqb c ")"%char))));
        chr ")"].

(** [AL:\s*(\d{1,2}/\d{1,2}/\d{4})], IGNORECASE *)
Definition rx_al_fecha : regex :=
  seqs [lit_ci "AL:"; Star ws; Group date_dmy].

(** [AL[:\s]+(\d{1,2}/\d{1,2}/\d{4})], IGNORECASE *)
Definition rx_al_fecha_sp : regex :=
  seqs [lit_ci "AL";
        plus (Chr (fun c => Ascii.eqb c ":"%char || isspace c));
        Group date_dmy].

(** [' '.join([c for c in strip_cells if c])] *)
Definition join_cells (strip_cells : list string) : string :=
  join " " (filter nonempty strip_cells).

(** [line_join] and [upper_join] of a row of the sheet. *)
Definition line_join_of (cells : list string) : string :=
  join_cells (map strip cells).

Definition upper_join_of (cells : list string) : string :=
  upper (_strip_accents (line_join_of cells)).

(** The first cell matching [rx_fecha_cell]. *)
Definition date_index (strip_cells : list string) : option nat :=
  find_index (fun c => matches (re_match rx_fecha_cell c)) strip_cells.

(** A sheet read with [dtype=str] and [fillna('')]: rows of text cells. *)
Definition row : Type := list string.

(** The rule of the loop body that takes a row, in the order the body tests
    them. *)
Inductive kind : Type :=
| Blank
| Label
| Agency
| Statement
| SectionIn
| SectionOut
| Terminal
| Total
| Data.

End Helpers.

(* ================================================================== *)
(** * Float: the binary floating point of Python                        *)
(* ================================================================== *)

(** A Python [float] is an IEEE 754 binary64 number.  [Finite neg m e] is
    the number (-1)^neg * m * 2^e; the binary64 numbers are those with
    [m < 2^53] and [-1074 <= e <= 971].  The conversions round to the
    nearest number, ties to the even mantissa, as [float(...)] does. *)
Module Float.

Local Open Scope Z_scope.

Inductive float : Type :=
| Finite (neg : bool) (m : Z) (e : Z)
| Inf (neg : bool)
| NaN.

(** The whole number nearest to [n / d], ties to even, for [0 <= n] and
    [0 < d]. *)
Definition div_half_even (n d : Z) : Z :=
  let q := n / d in
  match 2 * (n mod d) ?= d with
  | Lt => q
  | Gt => q + 1
  | Eq => if Z.even q then q else q + 1
  end.

(** [n / (d * 2^e)] as a quotient of whole numbers. *)
Definition scaled (n d e : Z) : Z * Z :=
  if 0 <=? e then (n, d * 2 ^ e) else (n * 2 ^ (- e), d).

(** The binary64 number nearest to [n / d], for [0 < n] and [0 < d]: its
    mantissa and exponent, or [None] when the quotient rounds to
    infinity.  The exponent [e1] puts the quotient between 2^52 and 2^54;
    the exponent of the smallest numbers is -1074. *)
Definition round_ratio (n d : Z) : option (Z * Z) :=
  let e1 := Z.log2 n - Z.log2 d - 53 in
  let e2 :=
    let (a, b) := scaled n d e1 in
    if 2 ^ 53 <=? a / b then e1 + 1 else e1 in
  let e := Z.max e2 (-1074) in
  let m := let (a, b) := scaled n d e in div_half_even a b in
  let (m', e') := if m =? 2 ^ 53 then (2 ^ 52, e + 1) else (m, e) in
  if 971 <? e' then None else Some (m', e').

(** The quotient [n / d] as a [float], for [0 <= n] and [0 < d]. *)
Definition of_ratio (neg : bool) (n d : Z) : float :=
  if n =? 0 then Finite neg 0 0
  else match round_ratio n d with
       | Some (m, e) => Finite neg m e
       | None => Inf neg
       end.

(** [float(z)] for an [int]; [None] is the OverflowError of an [int] too
    large to convert. *)
Definition of_int (z : Z) : option float :=
  match of_ratio (z <? 0) (Z.abs z) 1 with
  | Inf _ => None
  | x => Some x
  end.

(** [int(x)]: the whole part; [None] is the OverflowError (infinity) or
    the ValueError (NaN) of [int]. *)
Definition trunc (x : float) : option Z :=
  match x with
  | Finite neg m e =>
      let a := if 0 <=? e then m * 2 ^ e else m / 2 ^ (- e) in
      Some (if neg then - a else a)
  | _ => None
  end.

(** [round(x)] with one argument: the nearest [int], ties to even; [None]
    is its OverflowError or ValueError. *)
Definition round (x : float) : option Z :=
  match x with
  | Finite neg m e =>
      let a :=
        if 0 <=? e then m * 2 ^ e else div_half_even m (2 ^ (- e)) in
      Some (if neg then - a else a)
  | _ => None
  end.

Definition isnan (x : float) : bool :=
  match x with NaN => true | _ => false end.

(** The number a run of decimal digits spells. *)
Fixpoint digits_Z (acc : Z) (s : string) : Z :=
  match s with
  | EmptyString => acc
  | String c t => digits_Z (10 * acc + (Z.of_N (N_of_ascii c) - 48)) t
  end.

(** [float(a + "." + b)] for two runs of decimal digits. *)
Definition of_decimal (a b : string) : float :=
  of_ratio false (digits_Z 0 (a ++ b)) (10 ^ Z.of_nat (String.length b)).

(** The text before the first point and the text after it. *)
Fixpoint split_point (s : string) : string * string :=
  match s with
  | EmptyString => (EmptyString, EmptyString)
  | String c t =>
      if Ascii.eqb c "."%char then (EmptyString, t)
      else let (a, b) := split_point t in (String c a, b)
  end.

(** [int(float(s))] for a text [s] of the form digits.digits; [None] is
    the OverflowError of [int] on infinity. *)
Definition int_of_text (s : string) : option Z :=
  let (a, b) := split_point s in trunc (of_decimal a b).

(** ** [repr] *)

(** [10^k <= n / d] *)
Definition pow10_le (k n d : Z) : bool :=
  if 0 <=? k then 10 ^ k * d <=? n else d <=? n * 10 ^ (- k).

(** The [k] with [10^k <= n / d < 10^(k+1)], for [0 < n] and [0 < d],
    sought around its estimate from the binary logarithms. *)
Definition log10_floor (n d : Z) : Z :=
  let k := (Z.log2 n - Z.log2 d) * 1233 / 4096 in
  if pow10_le (k + 2) n d then k + 2
  else if pow10_le (k + 1) n d then k + 1
  else if pow10_le k n d then k
  else if pow10_le (k - 1) n d then k - 1
  else k - 2.

(** Whether the decimal [c * 10^p] reads back as the number [(m, e)]. *)
Definition reads_back (m e c p : Z) : bool :=
  let (n, d) := if 0 <=? p then (c * 10 ^ p, 1) else (c, 10 ^ (- p)) in
  if n =? 0 then false
  else match round_ratio n d with
       | Some (m', e') => (m' =? m) && (e' =? e)
       | None => false
       end.

(** Among the decimals [c * 10^p] with [nd] digits that read back as
    [(m, e)], the nearest to [n / d], ties to the even digit; [k] is
    [log10_floor n d]. *)
Definition candidate (m e n d k nd : Z) : option (Z * Z) :=
  let p := k - nd + 1 in
  let (a, b) := if 0 <=? p then (n, d * 10 ^ p) else (n * 10 ^ (- p), d) in
  let lo := a / b in
  let hi := lo + 1 in
  match reads_back m e lo p, reads_back m e hi p with
  | true, true =>
      match 2 * (a mod b) ?= b with
      | Lt => Some (lo, p)
      | Gt => Some (hi, p)
      | Eq => Some (if Z.even lo then lo else hi, p)
      end
  | true, false => Some (lo, p)
  | false, true => Some (hi, p)
  | false, false => None
  end.

(** The shortest decimal that reads back: [nd] digits, then one more, up
    to the 17 digits that always suffice. *)
Fixpoint shortest_from (m e n d k nd : Z) (fuel : nat) : Z * Z :=
  match fuel with
  | O => (n / d, 0)
  | S fuel' =>
      match candidate m e n d k nd with
      | Some r => r
      | None => shortest_from m e n d k (nd + 1) fuel'
      end
  end.

(** The trailing zeros of the digits go to the exponent. *)
Fixpoint strip_zeros (fuel : nat) (c p : Z) : Z * Z :=
  match fuel with
  | O => (c, p)
  | S fuel' =>
      if (c mod 10 =? 0) && negb (c =? 0)
      then strip_zeros fuel' (c / 10) (p + 1)
      else (c, p)
  end.

Definition digits_of (z : Z) : string :=
  NilZero.string_of_uint (N.to_uint (Z.to_N z)).

Fixpoint zeros (n : nat) : string :=
  match n with O => EmptyString | S n' => String "0" (zeros n') end.

(** The text of [repr] for the digits [ds] of a number
    0.d1d2... * 10^decpt: with an exponent outside [-4 < decpt <= 16],
    else with the point in its place and ".0" after a whole number. *)
Definition format_short (ds : string) (decpt : Z) : string :=
  let n := Z.of_nat (String.length ds) in
  if (decpt <=? -4) || (16 <? decpt) then
    let ex := decpt - 1 in
    let mantissa :=
      match ds with
      | String c EmptyString => String c EmptyString
      | String c t => String c (String "." t)
      | EmptyString => EmptyString
      end in
    let sign := if ex <? 0 then "e-" else "e+" in
    let pad := if Z.abs ex <? 10 then "0" else "" in
    (mantissa ++ sign ++ pad ++ digits_of (Z.abs ex))%string
  else if decpt <=? 0 then
    ("0." ++ zeros (Z.to_nat (- decpt)) ++ ds)%string
  else if n <=? decpt then
    (ds ++ zeros (Z.to_nat (decpt - n)) ++ ".0")%string
  else
    let i := Z.to_nat decpt in
    (substring 0 i ds ++ "." ++ substring i (String.length ds - i) ds)%string.

(** [repr(x)], which is [str(x)]: the shortest decimal that reads back as
    [x], the nearest to [x] among the shortest. *)
Definition repr (x : float) : string :=
  match x with
  | NaN => "nan"
  | Inf neg => if neg then "-inf" else "inf"
  | Finite neg m e =>
      let sign := if neg then "-" else "" in
      if m <=? 0 then (sign ++ "0.0")%string
      else
        let (n, d) := scaled m 1 (- e) in
        match round_ratio n d with
        | None => (sign ++ "inf")%string
        | Some (m', e') =>
            let k := log10_floor n d in
            let (c0, p0) := shortest_from m' e' n d k 1 17 in
            let (c, p) := strip_zeros 400 c0 p0 in
            let ds := digits_of c in
            (sign ++ format_short ds (Z.of_nat (String.length ds) + p))
            %string
        end
  end.

End Float.

(* ================================================================== *)
(** * prosegur_unificado_v4_2.py                                        *)
(* ================================================================== *)

Module V4.
Import Text Re Helpers.

(** ** [get_ec_atm]: the wide ledger (ATM cash) *)
Module EcAtm.

(** A dictionary of [registros], with the column names of the frame
    returned ([FECHA_OPER] is renamed [FECHA]). *)
Record record : Type := Record_ {
  FECHA : string;
  SUCURSAL : string;
  RECIBO : string;
  BULTOS : string;
  GUARANIES : string;
  DOLARES : string;
  ING_EGR : string;
  CLASIFICACION : string;
  FECHA_ARCHIVO : string;
  MOTIVO_MOVIMIENTO : string;
  AGENCIA : string
}.

(** The variables the loop carries from row to row. *)
Record state : Type := State {
  agencia : string;
  fecha_archivo : string;
  ing_egr : string;
  motivo_actual : string
}.

Definition clasificacion : string := "ATM".

Definition initial : state := State "" "" "" "".

Inductive outcome : Type :=
| Next (st : state) (emitted : list record)
| Break.

(** Lines 258-271: the record of a detail row whose date cell is at
    [date_idx]. *)
Definition detail (agencia_fallback : string) (st : state)
  (strip_cells : list string) (date_idx : nat) : record :=
  let fecha_oper := nth date_idx strip_cells "" in
  let suc_idx := _first_non_empty_after strip_cells date_idx in
  let sucursal := _get_cell strip_cells suc_idx "" in
  let rec_idx := next_after strip_cells suc_idx in
  let recibo_raw := _get_cell strip_cells rec_idx "" in
  let recibo_digits := _only_digits recibo_raw in
  let recibo := if nonempty recibo_digits then recibo_digits else recibo_raw in
  let bul_idx := next_after strip_cells rec_idx in
  let bultos := _get_cell strip_cells bul_idx "" in
  let gua_idx := next_after strip_cells bul_idx in
  let guaranies := or_str (_get_cell strip_cells gua_idx "0") "0" in
  let usd_idx := next_after strip_cells gua_idx in
  let dolares := or_str (_get_cell strip_cells usd_idx "0") "0" in
  Record_ fecha_oper sucursal recibo bultos guaranies dolares
    (ing_egr st) clasificacion (fecha_archivo st) (motivo_actual st)
    (or_str (agencia st) agencia_fallback).

(** The body of the loop over [df_raw.iterrows()], lines 242-271. *)
Definition row_step (agencia_fallback : string) (st : state) (cells : row)
  : outcome :=
  let strip_cells := map strip cells in
  let line_join := join_cells strip_cells in
  if negb (nonempty line_join) then Next st [] else
  let upper_join := upper (_strip_accents line_join) in
  match (if contains "PROSEGUR PARAGUAY S.A." upper_join
         then re_search rx_sucursal line_join else None) with
  | Some m =>
      Next (State (strip (group m)) (fecha_archivo st) (ing_egr st)
              (motivo_actual st)) []
  | None =>
  match (if contains "ESTADO DE CUENTA DE" upper_join
         then re_search rx_al_fecha line_join else None) with
  | Some m_f =>
      Next (State (agencia st) (group m_f) (ing_egr st) (motivo_actual st)) []
  | None =>
  if upper_join =? "INGRESOS"
  then Next (State (agencia st) (fecha_archivo st) "IN" "") []
  else if upper_join =? "EGRESOS"
  then Next (State (agencia st) (fecha_archivo st) "OUT" "") []
  else if contains "INFORME DE PROCESOS" upper_join then Break
  else if matches (re_search rx_totales line_join) then Next st []
  else
    match date_index strip_cells with
    | None =>
        if nonempty (ing_egr st)
        then Next (State (agencia st) (fecha_archivo st) (ing_egr st)
                     (strip line_join)) []
        else Next st []
    | Some date_idx =>
        if nonempty (ing_egr st) && nonempty (motivo_actual st)
        then Next st [detail agencia_fallback st strip_cells date_idx]
        else Next st []
    end
  end end.

(** The rule that takes a row: the tests of [row_step], in its order. *)
Definition classify (cells : row) : kind :=
  let line_join := join_cells (map strip cells) in
  let upper_join := upper (_strip_accents line_join) in
  if negb (nonempty line_join) then Blank
  else if contains "PROSEGUR PARAGUAY S.A." upper_join
          && matches (re_search rx_sucursal line_join) then Agency
  else if contains "ESTADO DE CUENTA DE" upper_join
          && matches (re_search rx_al_fecha line_join) then Statement
  else if upper_join =? "INGRESOS" then SectionIn
  else if upper_join =? "EGRESOS" then SectionOut
  else if contains "INFORME DE PROCESOS" upper_join then Terminal
  else if matches (re_search rx_totales line_join) then Total
  else Data.

(** The loop: the variables after the last row read, and [registros]. *)
Fixpoint run (agencia_fallback : string) (st : state) (rows : list row)
  : state * list record :=
  match rows with
  | [] => (st, [])
  | r :: rest =>
      match row_step agencia_fallback st r with
      | Break => (st, [])
      | Next st' emitted =>
          let (final, more) := run agencia_fallback st' rest in
          (final, emitted ++ more)
      end
  end.

(** [registros] of [get_ec_atm] for the sheet [df_raw];
    [agencia_fallback] is [_resolve_agencia('', name, path)]. *)
Definition get_ec_atm (agencia_fallback : string) (df_raw : list row)
  : list record :=
  snd (run agencia_fallback initial df_raw).

End EcAtm.

(** ** [get_ec_banco]: the bank-statement ledger *)
Module EcBanco.

(** A dictionary of [registros], with the column names of the frame
    returned ([FECHA_OPER] is renamed [FECHA], [MOTIVO MOVIMIENTO] becomes
    [MOTIVO_MOVIMIENTO]). *)
Record record : Type := Record_ {
  HOJA_ORIGEN : string;
  AGENCIA : string;
  FECHA_ARCHIVO : string;
  ING_EGR : string;
  CLASIFICACION : string;
  MOTIVO_MOVIMIENTO : string;
  FECHA : string;
  SUCURSAL : string;
  RECIBO : string;
  BULTOS : string;
  MONEDA : string;
  MONTO : string
}.

Record state : Type := State {
  agencia : string;
  fecha_archivo : string;
  clasificacion : string;
  ing_egr : string;
  motivo_actual : string;
  moneda_actual : string
}.

(** [continue] with the variables and the records appended, or [break]
    with the variables at that point. *)
Inductive outcome : Type :=
| Next (st : state) (emitted : list record)
| Break (st : state).

(** [rx_moneda], IGNORECASE *)
Definition rx_moneda : regex :=
  seqs [WordB;
        Group (alts [
          seqs [lit_ci "GUARAN"; one_of_ci (u8 "IÍ"); lit_ci "ES"];
          seqs [lit_ci "D"; one_of_ci (u8 "ÓO"); lit_ci "LARES"];
          seqs [lit_ci "EURO"; opt (chr_ci "S")];
          seqs [lit_ci "REALE"; opt (chr_ci "S")];
          seqs [lit_ci "PESO"; opt (chr_ci "S")];
          lit_ci "PYG"; lit_ci "USD"; lit_ci "EUR"; lit_ci "BRL";
          lit_ci "ARS"]);
        WordB].

(** [ESTADO DE CUENTA DE\s+(.*?)\s+AL:], IGNORECASE *)
Definition rx_tipo : regex :=
  seqs [lit_ci "ESTADO DE CUENTA DE"; plus ws; Group (LazyStar dot);
        plus ws; lit_ci "AL:"].

(** [\d{6,}] *)
Definition rx_recibo : regex :=
  seqs [digit; digit; digit; digit; digit; digit; Star digit].

(** [mapa_clasif.get(texto_norm, default)] *)
Definition mapa_clasif (texto_norm default : string) : string :=
  if texto_norm =? "BANCO" then "BCO"
  else if texto_norm =? "ATM" then "ATM"
  else if texto_norm =? "BULTOS DE BANCO" then "BULTO BCO"
  else if texto_norm =? "BULTOS DE ATM" then "BULTO ATM"
  else default.

Definition _guess_currency_from_sheet_name (sheet_name : string) : string :=
  let n := upper (_strip_accents sheet_name) in
  if contains_any ["USD"; "DOLAR"; u8 "DÓLAR"; "DOLARES"; u8 "DÓLARES"] n
  then "DOLARES"
  else if contains_any ["EUR"; "EURO"; "EUROS"] n then "EUROS"
  else if contains_any ["BRL"; "REAL"; "REALES"] n then "REALES"
  else if contains_any ["ARS"; "PESO"; "PESOS"; "ARG"] n then "PESOS"
  else if contains_any ["PYG"; "GUARANI"; u8 "GUARANÍ"] n then "GUARANIES"
  else "".

(** The variables at the start of each sheet, line 291-292. *)
Definition initial (nombre_hoja : string) : state :=
  State "" "" "" "" ""
    (or_str (_guess_currency_from_sheet_name nombre_hoja) "GUARANIES").

(** [' '.join([str(x).strip() for x in row.values if str(x).strip()])] *)
Definition linea_of (cells : row) : string := join_cells (map strip cells).

(** [next((i for i, p in enumerate(parts[1:], 1)
          if re.fullmatch(r'\d{6,}', p)), None)] *)
Definition receipt_index (parts : list string) : option nat :=
  find_index_from (fun p => matches (re_fullmatch rx_recibo p)) 1
    (skipn 1 parts).

(** Line 311-312: the sticky currency after the row's currency word. *)
Definition moneda_after (st : state) (linea : string) : string :=
  match re_search rx_moneda linea with
  | Some m_moneda => group m_moneda
  | None => moneda_actual st
  end.

Definition with_moneda (st : state) (moneda : string) : state :=
  State (agencia st) (fecha_archivo st) (clasificacion st) (ing_egr st)
    (motivo_actual st) moneda.

(** Lines 316-326 *)
Definition detail (nombre_hoja agencia_fallback : string) (st : state)
  (linea : string) : list record :=
  let parts := split_ws linea in
  match parts with
  | [] => []
  | fecha_oper :: _ =>
      match receipt_index parts with
      | None => []
      | Some idx_rec =>
          let sucursal :=
            strip (join " " (firstn (idx_rec - 1) (skipn 1 parts))) in
          let recibo := nth idx_rec parts "" in
          let bultos := nth (idx_rec + 1) parts "" in
          let importe := nth (idx_rec + 2) parts "" in
          [Record_ nombre_hoja (or_str (agencia st) agencia_fallback)
             (fecha_archivo st) (ing_egr st) (clasificacion st)
             (motivo_actual st) fecha_oper sucursal recibo bultos
             (moneda_actual st) importe]
      end
  end.

(** Lines 311-326: a row that is none of header, section, terminal or
    total row. *)
Definition data_row (nombre_hoja agencia_fallback : string) (st : state)
  (linea : string) : outcome :=
  let st := with_moneda st (moneda_after st linea) in
  let m_date := matches (re_match rx_fecha_linea linea) in
  if nonempty (ing_egr st) && negb m_date
  then Next (State (agencia st) (fecha_archivo st) (clasificacion st)
               (ing_egr st) (strip linea) (moneda_actual st)) []
  else if nonempty (ing_egr st) && nonempty (motivo_actual st) && m_date
  then Next st (detail nombre_hoja agencia_fallback st linea)
  else Next st [].

(** Lines 301-304: the classification read from the statement header. *)
Definition clasificacion_after (st : state) (linea : string) : string :=
  match re_search rx_tipo linea with
  | Some m_tipo =>
      let texto := strip (group m_tipo) in
      mapa_clasif (upper (_strip_accents texto)) (strip texto)
  | None => clasificacion st
  end.

(** The body of the loop over [df.iterrows()], lines 294-326. *)
Definition row_step (nombre_hoja agencia_fallback : string) (st : state)
  (cells : row) : outcome :=
  let linea := linea_of cells in
  if negb (nonempty linea) then Next st [] else
  let linea_up := upper (_strip_accents linea) in
  match (if contains "PROSEGUR PARAGUAY S.A." linea_up
         then re_search rx_sucursal linea else None) with
  | Some m =>
      Next (State (strip (group m)) (fecha_archivo st) (clasificacion st)
              (ing_egr st) (motivo_actual st) (moneda_actual st)) []
  | None =>
  let st1 :=
    if contains "ESTADO DE CUENTA DE" linea_up
    then State (agencia st) (fecha_archivo st) (clasificacion_after st linea)
           (ing_egr st) (motivo_actual st) (moneda_actual st)
    else st in
  match (if contains "ESTADO DE CUENTA DE" linea_up
         then re_search rx_al_fecha linea else None) with
  | Some m_f =>
      Next (State (agencia st1) (group m_f) (clasificacion st1) (ing_egr st1)
              (motivo_actual st1) (moneda_actual st1)) []
  | None =>
  if linea_up =? "INGRESOS"
  then Next (State (agencia st1) (fecha_archivo st1) (clasificacion st1)
               "IN" "" (moneda_actual st1)) []
  else if linea_up =? "EGRESOS"
  then Next (State (agencia st1) (fecha_archivo st1) (clasificacion st1)
               "OUT" "" (moneda_actual st1)) []
  else if contains "INFORME DE PROCESOS" linea_up then Break st1
  else if matches (re_search rx_totales linea) then Next st1 []
  else data_row nombre_hoja agencia_fallback st1 linea
  end end.

(** The rule that takes a row: the tests of [row_step], in its order.  A
    row with the statement title is a [Statement] row whether or not its
    date is found. *)
Definition classify (cells : row) : kind :=
  let linea := linea_of cells in
  let linea_up := upper (_strip_accents linea) in
  if negb (nonempty linea) then Blank
  else if contains "PROSEGUR PARAGUAY S.A." linea_up
          && matches (re_search rx_sucursal linea) then Agency
  else if contains "ESTADO DE CUENTA DE" linea_up then Statement
  else if linea_up =? "INGRESOS" then SectionIn
  else if linea_up =? "EGRESOS" then SectionOut
  else if contains "INFORME DE PROCESOS" linea_up then Terminal
  else if matches (re_search rx_totales linea) then Total
  else Data.

Fixpoint run (nombre_hoja agencia_fallback : string) (st : state)
  (rows : list row) : state * list record :=
  match rows with
  | [] => (st, [])
  | r :: rest =>
      match row_step nombre_hoja agencia_fallback st r with
      | Break st' => (st', [])
      | Next st' emitted =>
          let (final, more) := run nombre_hoja agencia_fallback st' rest in
          (final, emitted ++ more)
      end
  end.

(** One sheet of the workbook. *)
Definition sheet_records (agencia_fallback : string)
  (hoja : string * list row) : list record :=
  snd (run (fst hoja) agencia_fallback (initial (fst hoja)) (snd hoja)).

(** [registros] of [get_ec_banco] for the sheets [hojas.items()]. *)
Definition get_ec_banco (agencia_fallback : string)
  (hojas : list (string * list row)) : list record :=
  flat_map (sheet_records agencia_fallback) hojas.

End EcBanco.

(** ** [get_inv_atm] and [get_inv_bco]: the denomination inventories *)
Module Inv.

(** A cell of a sheet read with [dtype=object] and [fillna("")]: a text,
    an [int] or a [float].  The other values a workbook gives (dates, clock
    times, booleans) are neither [int] nor [float] for [_to_int], which
    reads them through their text: they are the [CStr] of that text.  The
    loader reads a whole number with [int(...)], so that an [int] of a
    sheet has at most [MAX_STR_DIGITS] digits and [str] gives its text. *)
Inductive cell : Type :=
| CStr (s : string)
| CInt (z : Z)
| CFloat (x : Float.float).

(** [str(x)] *)
Definition str (x : cell) : string :=
  match x with
  | CStr s => s
  | CInt z => NilZero.string_of_int (Z.to_int z)
  | CFloat x => Float.repr x
  end.

(** [pd.isna(x)] *)
Definition isna (x : cell) : bool :=
  match x with
  | CFloat x => Float.isnan x
  | _ => false
  end.

(** ["" if pd.isna(x) else str(x).strip()] *)
Definition _txt (x : cell) : string :=
  if isna x then "" else strip (str x).

Definition _upper (x : cell) : string := upper (collapse_ws (_txt x)).

(** A call that returns a value or lets an exception escape. *)
Inductive result (A : Type) : Type :=
| Ok (a : A)
| Raise.
Arguments Ok {A} a.
Arguments Raise {A}.

Definition bind {A B} (x : result A) (f : A -> result B) : result B :=
  match x with
  | Ok a => f a
  | Raise => Raise
  end.

Notation "x <- e ;; k" := (bind e (fun x => k))
  (at level 61, e at next level, right associativity).

Record line : Type := Line {
  FECHA_INVENTARIO : string;
  DIVISA : string;
  AGENCIA : string;
  AGRUPACION_EFECTIVO : string;
  TIPO_VALOR : string;
  DENOMINACION : Z;
  DEPOSITO : Z;
  CJE_DEP : Z;
  CANJE : Z;
  MONEDA : Z;
  IMPORTE_TOTAL : Z
}.

(** The sticky classifiers of the row walk. *)
Record state : Type := State {
  cur_divisa : string;
  cur_agrup : string;
  cur_tipo : string
}.

Definition FIN_MONEDA_UP : string := "TOTAL DE LA MONEDA".

Definition STOP_ROW_TOKENS : list string :=
  ["SUB TOTAL"; "SUBTOTAL"; u8 "TOTAL DEL DEPÓSITO"; "TOTAL DEL DEPOSITO";
   u8 "TOTAL DEPÓSITO"; "TOTAL DEPOSITO"].

(** [\d+\.\d+] *)
Definition rx_decimal : regex := seqs [plus digit; chr "."; plus digit].

(** The value of a run of decimal digits. *)
Fixpoint digits_value (acc : Z) (s : string) : option Z :=
  match s with
  | EmptyString => Some acc
  | String c t =>
      if isdecimal c
      then digits_value (10 * acc + Z.of_N (code c - 48))%Z t
      else None
  end.

(** [s] of line 112: [_txt(x).replace("\xa0", " ").strip()], the text
    [_to_int] reads. *)
Definition text_read (x : cell) : string :=
  strip (replace_char (ascii_of_N 160) " "%char (_txt x)).

(** [sys.get_int_max_str_digits()]: the longest run of digits [int] reads. *)
Definition MAX_STR_DIGITS : Z := 4300.

(** [int(digits)] inside [try ... except: return None], for a text made of
    decimal digits and minus signs: an optional sign, then at most
    [MAX_STR_DIGITS] digits; anything else is the swallowed ValueError. *)
Definition int_of_digits (digits : string) : option Z :=
  match digits with
  | EmptyString => None
  | String c t =>
      let body := if Ascii.eqb c "-"%char then t else digits in
      if (MAX_STR_DIGITS <? Z.of_nat (String.length body))%Z then None
      else if Ascii.eqb c "-"%char
      then if nonempty t then option_map Z.opp (digits_value 0 t) else None
      else digits_value 0 digits
  end.

(** [int(round(float(x)))] for an [int] or a [float], inside
    [try ... except: pass]: [None] when [x] is neither, and when the
    conversion raises (an [int] too large for [float], an infinity). *)
Definition round_number (x : cell) : option Z :=
  match x with
  | CStr _ => None
  | CInt z =>
      match Float.of_int z with
      | Some f => Float.round f
      | None => None
      end
  | CFloat f => Float.round f
  end.

Section Walk.

(** [float_int s] stands for [int(float(s))] on a text of the form
    digits.digits; [None] is the OverflowError of [int] on an infinite
    float, which [_to_int] does not catch.  [Float.int_of_text] is the
    conversion of Python; the walk is defined for any reading of the
    decimals. *)
Variable float_int : string -> option Z.

(** The keyword lists of the parser at hand. *)
Variable AGRUP_TOKENS : list string.
Variable TIPO_TOKENS : list string.

(** Lines 105-123.  A number is rounded through [float]; a text, and a
    number whose rounding raised, is read through its text. *)
Definition _to_int (x : cell) : result (option Z) :=
  if isna x then Ok None else
  match round_number x with
  | Some v => Ok (Some v)
  | None =>
      let s := text_read x in
      if negb (nonempty s) then Ok None
      else if matches (re_fullmatch rx_decimal s)
      then match float_int s with
           | Some v => Ok (Some v)
           | None => Raise
           end
      else
        let digits :=
          keep (fun c => isdecimal c || Ascii.eqb c "-"%char) s in
        if (digits =? "") || (digits =? "-") || (digits =? "--")
        then Ok None
        else Ok (int_of_digits digits)
  end.

(** Like [_to_int], but a text with ':' (clock time) or '/' (date) is never a
    denomination. *)
Definition _to_int_denom (x : cell) : result (option Z) :=
  let s_raw := _txt x in
  if contains ":" s_raw || contains "/" s_raw then Ok None
  else _to_int (CStr s_raw).

(** [[(j, _to_int_denom(c)) for j, c in enumerate(row)
      if _to_int_denom(c) is not None]], counting from [j]. *)
Fixpoint nums_from (j : nat) (cells : list cell) : result (list (nat * Z)) :=
  match cells with
  | [] => Ok []
  | c :: t =>
      v <- _to_int_denom c ;;
      l <- nums_from (S j) t ;;
      Ok (match v with Some d => (j, d) :: l | None => l end)
  end.

(** [" ".join(_upper(c) for c in cells if _txt(c))] *)
Definition left_text (cells : list cell) : string :=
  join " " (map _upper (filter (fun c => nonempty (_txt c)) cells)).

(** [for t in tokens: if t in text: cur = t; break] *)
Definition first_token (tokens : list string) (text cur : string) : string :=
  match find (fun t => contains t text) tokens with
  | Some t => t
  | None => cur
  end.

(** The inner [for j in range(idx + 1, ncols)]: the first number among
    [cells], with the cells to its right. *)
Fixpoint next_num (cells : list cell) : result (option (Z * list cell)) :=
  match cells with
  | [] => Ok None
  | c :: t =>
      v <- _to_int c ;;
      match v with
      | Some n => Ok (Some (n, t))
      | None => next_num t
      end
  end.

(** [for _ in range(n)]: the next [n] numbers to the right, 0 once the row
    is exhausted ([idx = ncols]). *)
Fixpoint take_nums (n : nat) (cells : list cell) : result (list Z) :=
  match n with
  | O => Ok []
  | S n' =>
      found <- next_num cells ;;
      match found with
      | Some (v, after) => vs <- take_nums n' after ;; Ok (v :: vs)
      | None => vs <- take_nums n' [] ;; Ok (0%Z :: vs)
      end
  end.

(** [ups = [_upper(c) for c in row if _txt(c)]] and the currency cell. *)
Definition ups_of (cells : list cell) : list string :=
  map _upper (filter (fun c => nonempty (_txt c)) cells).

Definition has_token (tok : string) (ups : list string) : bool :=
  existsb (String.eqb tok) ups.

Definition divisa_after (cur : string) (cells : list cell) : string :=
  if has_token "USD" (ups_of cells) then "USD"
  else if has_token "PYG" (ups_of cells) then "PYG"
  else cur.

Definition is_stop_row (cells : list cell) : bool :=
  let up_line := join " " (map _upper cells) in
  contains FIN_MONEDA_UP up_line || contains_any STOP_ROW_TOKENS up_line.

(** The body of the row walk (lines 524-553 of [get_inv_atm], 613-641 of
    [get_inv_bco]); [fecha] and [agencia_resuelta] are the sheet's
    metadata. *)
Definition row_step (fecha agencia_resuelta : string) (st : state)
  (cells : list cell) : result (state * list line) :=
  if is_stop_row cells then Ok (st, []) else
  let divisa := divisa_after (cur_divisa st) cells in
  nums <- nums_from 0 cells ;;
  match nums with
  | [] => Ok (State divisa (cur_agrup st) (cur_tipo st), [])
  | (denom_col, denom_val) :: _ =>
      let left_up := left_text (firstn denom_col cells) in
      let tipo := first_token TIPO_TOKENS left_up (cur_tipo st) in
      let agrup := first_token AGRUP_TOKENS left_up (cur_agrup st) in
      let st' := State divisa agrup tipo in
      if negb (nonempty agrup || nonempty tipo) then Ok (st', [])
      else
        vals <- take_nums 5 (skipn (S denom_col) cells) ;;
        Ok (st', [Line fecha (or_str divisa "PYG") agencia_resuelta agrup tipo
                    denom_val (nth 0 vals 0%Z) (nth 1 vals 0%Z)
                    (nth 2 vals 0%Z) (nth 3 vals 0%Z) (nth 4 vals 0%Z)])
  end.

(** The walk over the rows of the block.  An exception ends the sheet;
    the lines already appended to [registros] stay. *)
Fixpoint walk (fecha agencia_resuelta : string) (st : state)
  (rows : list (list cell)) : list line :=
  match rows with
  | [] => []
  | r :: rest =>
      match row_step fecha agencia_resuelta st r with
      | Raise => []
      | Ok (st', emitted) => emitted ++ walk fecha agencia_resuelta st' rest
      end
  end.

(** The loop variables after the rows walked: the state the last row
    leaves, an exception ending the walk. *)
Fixpoint walk_state (fecha agencia_resuelta : string) (st : state)
  (rows : list (list cell)) : state :=
  match rows with
  | [] => st
  | r :: rest =>
      match row_step fecha agencia_resuelta st r with
      | Raise => st
      | Ok (st', _) => walk_state fecha agencia_resuelta st' rest
      end
  end.

(** [" | ".join(_upper(c) for c in row)] contains the end marker. *)
Definition is_fin_row (cells : list cell) : bool :=
  contains FIN_MONEDA_UP (join " | " (map _upper cells)).

(** [row_end]: the first end-marker row, else [len(df)]. *)
Definition row_end_of (df : list (list cell)) : nat :=
  match find_index is_fin_row df with
  | Some i => i
  | None => List.length df
  end.

End Walk.

(** *** [get_inv_atm] *)

Definition ATM_AGRUP_TOKENS : list string :=
  ["TESORO ATM"; "FAJOS ATM"; "PICOS ATM"].
Definition ATM_TIPO_TOKENS : list string :=
  ["BILLETES (LADRILLOS)"; "BILLETES"].

(** [TOTAL\s+DE\s+LA\s+MONEDA\s+([A-Z]{3})], IGNORECASE *)
Definition rx_codigo_total : regex :=
  let letter := Chr (fun c => between 65 90 c || between 97 122 c) in
  seqs [lit_ci "TOTAL"; plus ws; lit_ci "DE"; plus ws; lit_ci "LA"; plus ws;
        lit_ci "MONEDA"; plus ws; Group (seqs [letter; letter; letter])].

Definition capturar_codigo_total (row_text_upper : string) : option string :=
  option_map (fun m => upper (group m))
    (re_search rx_codigo_total row_text_upper).

Definition buscar_fin_y_codigo (df : list (list cell)) : nat * option string :=
  match find is_fin_row df with
  | Some cells =>
      (row_end_of df, capturar_codigo_total (join " | " (map _upper cells)))
  | None => (List.length df, None)
  end.

Definition buscar_inicio_por_divisa (df : list (list cell)) (row_end : nat)
  : option nat :=
  find_index
    (fun cells =>
       has_token "USD" (ups_of cells) || has_token "PYG" (ups_of cells))
    (firstn row_end df).

(** The rows [i < row_end], counted from [i]. *)
Fixpoint inicio_fallback_from (float_int : string -> option Z) (i : nat)
  (rows : list (list cell)) : result (option nat) :=
  match rows with
  | [] => Ok None
  | cells :: rest =>
      nums <- nums_from float_int 0 cells ;;
      match nums with
      | [] => inicio_fallback_from float_int (S i) rest
      | (denom_col, _) :: _ =>
          if contains_any ATM_AGRUP_TOKENS (left_text (firstn denom_col cells))
          then Ok (Some i)
          else inicio_fallback_from float_int (S i) rest
      end
  end.

Definition buscar_inicio_fallback (float_int : string -> option Z)
  (df : list (list cell)) (row_end : nat) : result (option nat) :=
  inicio_fallback_from float_int 0 (firstn row_end df).

(** [row_start = por_divisa(...) or fallback(...)]: row 0 is falsy, so the
    fallback also runs when the currency row is the first row; no start
    raises ValueError. *)
Definition localiza_bloque (float_int : string -> option Z)
  (df : list (list cell)) : result (nat * nat * option string) :=
  let (row_end, code_total) := buscar_fin_y_codigo df in
  row_start <-
    match buscar_inicio_por_divisa df row_end with
    | Some (S i) => Ok (Some (S i))
    | _ => buscar_inicio_fallback float_int df row_end
    end ;;
  match row_start with
  | None => Raise
  | Some row_start => Ok (row_start, row_end, code_total)
  end.

Definition normaliza_divisa_inventario (code_upper : string) : string :=
  let code := upper code_upper in
  if contains "PYG" code || contains "GUARANI" (_strip_accents code)
  then "PYG"
  else if contains "USD" code || contains "DOLAR" (_strip_accents code)
  then "USD"
  else or_str code "PYG".

(** One sheet with the metadata [extrae_agencia_y_fecha] and
    [_resolve_agencia] found for it. *)
Record sheet : Type := Sheet {
  meta_fecha : string;
  agencia_resuelta : string;
  df : list (list cell)
}.

(** The lines one sheet adds to [registros] (lines 517-555); a sheet
    whose block cannot be located adds none. *)
Definition inv_atm_sheet (float_int : string -> option Z) (sh : sheet)
  : list line :=
  match localiza_bloque float_int (df sh) with
  | Raise => []
  | Ok (row_start, row_end, code) =>
      let cur_divisa :=
        normaliza_divisa_inventario
          (match code with Some c => c | None => "" end) in
      walk float_int ATM_AGRUP_TOKENS ATM_TIPO_TOKENS (meta_fecha sh)
        (agencia_resuelta sh) (State cur_divisa "" "")
        (firstn (row_end - row_start) (skipn row_start (df sh)))
  end.

(** [registros] of [get_inv_atm], before the final sort of the frame. *)
Definition get_inv_atm (float_int : string -> option Z) (sheets : list sheet)
  : list line :=
  flat_map (inv_atm_sheet float_int) sheets.

(** *** [get_inv_bco] *)

Definition BCO_AGRUP_TOKENS : list string :=
  ["TESORO EFECTIVO"; "FAJOS EFECTIVOS"; "PICOS EFECTIVO"].
Definition BCO_TIPO_TOKENS : list string :=
  ["BILLETES (LADRILLOS)"; "MONEDAS (BOLSAS)"; "MONEDAS (PAQUETES)";
   "BILLETES"; "MONEDAS"].

Definition inv_bco_sheet (float_int : string -> option Z) (sh : sheet)
  : list line :=
  walk float_int BCO_AGRUP_TOKENS BCO_TIPO_TOKENS (meta_fecha sh)
    (agencia_resuelta sh) (State "" "" "")
    (firstn (row_end_of (df sh)) (df sh)).

Definition get_inv_bco (float_int : string -> option Z) (sheets : list sheet)
  : list line :=
  flat_map (inv_bco_sheet float_int) sheets.

End Inv.

(** ** The agency normaliser *)

(** [AGENCIA_ALIASES], in the order of the dictionary. *)
Definition AGENCIA_ALIASES : list (string * list string) :=
  [("OVD", ["OVD"; "OVIEDO"]);
   ("ENC", ["ENC"; "ENCARNACION"; u8 "ENCARNACIÓN"; "ENCA"]);
   ("CON", ["CON"; "CONCEPCION"; u8 "CONCEPCIÓN"]);
   ("ASU", ["ASU"; "ASUNCION"; u8 "ASUNCIÓN"]);
   ("CDE", ["CDE"; "CIUDAD DEL ESTE"; "C. DEL ESTE"; "C DEL ESTE"; "CDE."])].

(** [re.search(r'\b' + re.escape(w) + r'\b', t)] *)
Definition has_word (w t : string) : bool :=
  matches (re_search (seqs [WordB; lit w; WordB]) t).

Definition alias_hit (t : string) (entry : string * list string) : bool :=
  existsb (fun al => has_word (upper (_strip_accents al)) t) (snd entry).

Definition _agencia_code_from_text (text : string) : option string :=
  if negb (nonempty text) then None else
  let t := upper (_strip_accents text) in
  match find (fun code => has_word code t) (map fst AGENCIA_ALIASES) with
  | Some code => Some code
  | None => option_map fst (find (alias_hit t) AGENCIA_ALIASES)
  end.

(** [val] is [None] or a text; [code or val]. *)
Definition normalize_agencia_col (val : option string) : string :=
  match val with
  | None => ""
  | Some v =>
      match _agencia_code_from_text v with
      | Some code => or_str code v
      | None => v
      end
  end.

(** ** Agency and currency resolution *)

(** [code] when it is truthy: a code that is neither [None] nor empty. *)
Definition truthy (code : option string) : option string :=
  match code with
  | Some c => if nonempty c then Some c else None
  | None => None
  end.

(** Lines 168-171: the first part that names an agency. *)
Fixpoint first_code (parts : list string) : option string :=
  match parts with
  | [] => None
  | part :: rest =>
      match truthy (_agencia_code_from_text part) with
      | Some code => Some code
      | None => first_code rest
      end
  end.

(** [_resolve_agencia(agencia_doc, filename, filepath)]; [parts] is
    [Path(filepath).parts], which the function reads from the last. *)
Definition _resolve_agencia (agencia_doc filename : string)
  (parts : list string) : string :=
  if nonempty agencia_doc then
    match truthy (_agencia_code_from_text agencia_doc) with
    | Some code => code
    | None => agencia_doc
    end
  else
    match truthy (_agencia_code_from_text filename) with
    | Some code => code
    | None =>
        match first_code (rev parts) with
        | Some code => code
        | None => or_str agencia_doc ""
        end
    end.

(** [normalize_moneda_iso]; the guarani and euro signs of its lists lie
    outside Latin-1 and cannot occur in the text. *)
Definition normalize_moneda_iso (token : string) : string :=
  let t := strip (upper (_strip_accents token)) in
  if contains_any ["PYG"; "GS"; "G$"; "GUARANI"; "GUARANIES"; u8 "GUARANÍ"] t
  then "PYG"
  else if contains_any ["USD"; "US$"; "U$S"; "DOLAR"; u8 "DÓLAR"; "DOLARES";
                        u8 "DÓLARES"] t then "USD"
  else if contains_any ["EUR"; "EURO"; "EUROS"] t then "EUR"
  else if contains_any ["BRL"; "R$"; "REAL"; "REALES"] t then "BRL"
  else if contains_any ["ARS"; "PESO"; "PESOS"; "ARG"] t then "ARS"
  else if contains "$" t then "USD"
  else or_str t "".

(** ** The dispatcher *)

Definition _detect_type (fname_upper : string) : string :=
  if startswith fname_upper "EC_ATM" then "EC_ATM"
  else if startswith fname_upper "EC_BANCO" || startswith fname_upper "EC_BCO"
  then "EC_BANCO"
  else if startswith fname_upper "EC_BULTOS_ATM" then "EC_BULTOS_ATM"
  else if startswith fname_upper "EC_BULTOS_BCO"
          || startswith fname_upper "EC_BULTOS_BANCO" then "EC_BULTOS_BCO"
  else if startswith fname_upper "INV_BILLETES_ATM"
          || startswith fname_upper "INV_ATM" then "INV_ATM"
  else if startswith fname_upper "INV_BILLETES_BANCO"
          || startswith fname_upper "INV_BCO"
          || startswith fname_upper "INV_BANCO" then "INV_BCO"
  else "".

(** ** [get_ec_bultos_atm]: the parcel ledger, one record per currency *)
Module BultosAtm.

Record record : Type := Record_ {
  FECHA : string;
  SUCURSAL : string;
  RECIBO : string;
  BULTOS : string;
  MONEDA : string;
  IMPORTE : string;
  ING_EGR : string;
  CLASIFICACION : string;
  FECHA_ARCHIVO : string;
  MOTIVO_MOVIMIENTO : string;
  AGENCIA : string
}.

Record state : Type := State {
  agencia : string;
  fecha_archivo : string;
  ing_egr : string;
  motivo_actual : string
}.

Definition clasificacion : string := "ATM".

Definition initial : state := State "" "" "" "".

(** [continue], [break], or the TypeError that leaves the function. *)
Inductive outcome : Type :=
| Next (st : state) (emitted : list record)
| Break
| Raise.

(** [_first_non_empty_after(strip_cells, idx)] called with no guard:
    [None + 1] raises TypeError. *)
Definition after_unguarded (strip_cells : list string) (idx : option nat)
  : Inv.result (option nat) :=
  match idx with
  | None => Inv.Raise
  | Some i => Inv.Ok (_first_non_empty_after strip_cells i)
  end.

(** [str(dolares).replace(',','').replace('.','').strip() in ('','0')] *)
Definition zero_like (dolares : string) : bool :=
  let t := strip (remove_char "." (remove_char "," dolares)) in
  (t =? "") || (t =? "0").

(** Lines 362-374: the records of a detail row whose date cell is at
    [date_idx]. *)
Definition detail (descartar_usd_cero : bool) (agencia_fallback : string)
  (st : state) (strip_cells : list string) (date_idx : nat)
  : Inv.result (list record) :=
  let fecha_oper := nth date_idx strip_cells "" in
  let suc_idx := _first_non_empty_after strip_cells date_idx in
  let sucursal := _get_cell strip_cells suc_idx "" in
  let rec_idx := next_after strip_cells suc_idx in
  let recibo_raw := _get_cell strip_cells rec_idx "" in
  let recibo_digits := _only_digits recibo_raw in
  let recibo := if nonempty recibo_digits then recibo_digits else recibo_raw in
  Inv.bind (after_unguarded strip_cells rec_idx) (fun b_pyg_idx =>
  let bultos_pyg := or_str (_get_cell strip_cells b_pyg_idx "0") "0" in
  Inv.bind (after_unguarded strip_cells b_pyg_idx) (fun gua_idx =>
  let guaranies := or_str (_get_cell strip_cells gua_idx "0") "0" in
  Inv.bind (after_unguarded strip_cells gua_idx) (fun b_usd_idx =>
  let bultos_usd := or_str (_get_cell strip_cells b_usd_idx "0") "0" in
  Inv.bind (after_unguarded strip_cells b_usd_idx) (fun usd_idx =>
  let dolares := or_str (_get_cell strip_cells usd_idx "0") "0" in
  let ag := or_str (agencia st) agencia_fallback in
  let pyg :=
    Record_ fecha_oper sucursal recibo bultos_pyg "PYG" guaranies
      (ing_egr st) clasificacion (fecha_archivo st) (motivo_actual st) ag in
  let usd :=
    Record_ fecha_oper sucursal recibo bultos_usd "USD" dolares
      (ing_egr st) clasificacion (fecha_archivo st) (motivo_actual st) ag in
  Inv.Ok (if descartar_usd_cero && zero_like dolares
          then [pyg] else [pyg; usd]))))).

(** The body of the loop over [df_x.iterrows()], lines 345-374. *)
Definition row_step (descartar_usd_cero : bool) (agencia_fallback : string)
  (st : state) (cells : row) : outcome :=
  let strip_cells := map strip cells in
  let line_join := join_cells strip_cells in
  if negb (nonempty line_join) then Next st [] else
  let upper_join := upper (_strip_accents line_join) in
  match (if contains "PROSEGUR PARAGUAY S.A." upper_join
         then re_search rx_sucursal line_join else None) with
  | Some m =>
      Next (State (strip (group m)) (fecha_archivo st) (ing_egr st)
              (motivo_actual st)) []
  | None =>
  match (if contains "ESTADO DE CUENTA DE BULTOS DE ATM" upper_join
         then re_search rx_al_fecha line_join else None) with
  | Some m_f =>
      Next (State (agencia st) (group m_f) (ing_egr st) (motivo_actual st)) []
  | None =>
  if upper_join =? "INGRESOS"
  then Next (State (agencia st) (fecha_archivo st) "IN" "") []
  else if upper_join =? "EGRESOS"
  then Next (State (agencia st) (fecha_archivo st) "OUT" "") []
  else if contains "INFORME DE PROCESOS" upper_join then Break
  else if matches (re_search rx_totales line_join) then Next st []
  else
    match date_index strip_cells with
    | None =>
        if nonempty (ing_egr st)
        then Next (State (agencia st) (fecha_archivo st) (ing_egr st)
                     (strip line_join)) []
        else Next st []
    | Some date_idx =>
        if nonempty (ing_egr st) && nonempty (motivo_actual st)
        then match detail descartar_usd_cero agencia_fallback st strip_cells
                     date_idx with
             | Inv.Ok emitted => Next st emitted
             | Inv.Raise => Raise
             end
        else Next st []
    end
  end end.

(** The rule that takes a row: the tests of [row_step], in its order. *)
Definition classify (cells : row) : kind :=
  let line_join := join_cells (map strip cells) in
  let upper_join := upper (_strip_accents line_join) in
  if negb (nonempty line_join) then Blank
  else if contains "PROSEGUR PARAGUAY S.A." upper_join
          && matches (re_search rx_sucursal line_join) then Agency
  else if contains "ESTADO DE CUENTA DE BULTOS DE ATM" upper_join
          && matches (re_search rx_al_fecha line_join) then Statement
  else if upper_join =? "INGRESOS" then SectionIn
  else if upper_join =? "EGRESOS" then SectionOut
  else if contains "INFORME DE PROCESOS" upper_join then Terminal
  else if matches (re_search rx_totales line_join) then Total
  else Data.

(** The loop: [registros] and the variables after the last row read, or
    the exception of the first row that raises. *)
Fixpoint run (descartar_usd_cero : bool) (agencia_fallback : string)
  (st : state) (rows : list row) : Inv.result (state * list record) :=
  match rows with
  | [] => Inv.Ok (st, [])
  | r :: rest =>
      match row_step descartar_usd_cero agencia_fallback st r with
      | Break => Inv.Ok (st, [])
      | Raise => Inv.Raise
      | Next st' emitted =>
          match run descartar_usd_cero agencia_fallback st' rest with
          | Inv.Ok (final, more) => Inv.Ok (final, emitted ++ more)
          | Inv.Raise => Inv.Raise
          end
      end
  end.

(** [registros] of [get_ec_bultos_atm] for the sheet [df_x]. *)
Definition get_ec_bultos_atm (descartar_usd_cero : bool)
  (agencia_fallback : string) (df_x : list row) : Inv.result (list record) :=
  match run descartar_usd_cero agencia_fallback initial df_x with
  | Inv.Ok (_, registros) => Inv.Ok registros
  | Inv.Raise => Inv.Raise
  end.

End BultosAtm.

(** ** [get_ec_bultos_bco]: the parcel ledger of the bank, by sheet *)
Module BultosBco.

Record record : Type := Record_ {
  FECHA : string;
  SUCURSAL : string;
  RECIBO : string;
  BULTOS : string;
  MONEDA : string;
  IMPORTE : string;
  ING_EGR : string;
  CLASIFICACION : string;
  FECHA_ARCHIVO : string;
  MOTIVO_MOVIMIENTO : string;
  AGENCIA : string
}.

Record state : Type := State {
  agencia : string;
  fecha_archivo : string;
  ing_egr : string;
  motivo_actual : string;
  moneda_actual : string
}.

Definition clasificacion : string := "BULTO BCO".

Inductive outcome : Type :=
| Next (st : state) (emitted : list record)
| Break.

(** [rx_moneda], IGNORECASE, with no word boundary; the guarani and euro
    signs among its alternatives lie outside Latin-1. *)
Definition rx_moneda : regex :=
  Group (alts [
    seqs [lit_ci "GUARAN"; one_of_ci (u8 "IÍ"); lit_ci "ES"];
    seqs [lit_ci "D"; one_of_ci (u8 "ÓO"); lit_ci "LARES"];
    seqs [lit_ci "EURO"; opt (chr_ci "S")];
    seqs [lit_ci "REALE"; opt (chr_ci "S")];
    seqs [lit_ci "PESO"; opt (chr_ci "S")];
    lit_ci "PYG"; lit_ci "GS"; lit_ci "G$"; lit_ci "USD"; lit_ci "US$";
    lit_ci "U$S"; lit_ci "R$"; lit_ci "BRL"; lit_ci "EUR"; lit_ci "ARS";
    lit_ci "$"]).

Definition initial (nombre_hoja : string) : state :=
  State "" "" "" "" (normalize_moneda_iso nombre_hoja).

(** [next((i for i, p in enumerate(parts[1:], 1)
          if re.fullmatch(r'\d{6,}', _strip_accents(p))), None)] *)
Definition receipt_index (parts : list string) : option nat :=
  find_index_from
    (fun p => matches (re_fullmatch EcBanco.rx_recibo (_strip_accents p))) 1
    (skipn 1 parts).

(** The currency after the currency word of [linea], if it has one. *)
Definition moneda_after (st : state) (linea : string) : string :=
  match re_search rx_moneda linea with
  | Some m_mon => normalize_moneda_iso (group m_mon)
  | None => moneda_actual st
  end.

Definition with_moneda (st : state) (moneda : string) : state :=
  State (agencia st) (fecha_archivo st) (ing_egr st) (motivo_actual st) moneda.

(** Lines 418-429 *)
Definition detail (agencia_fallback : string) (st : state)
  (parts : list string) (linea : string) : outcome :=
  match parts with
  | [] => Next st []
  | fecha_oper :: _ =>
      match receipt_index parts with
      | None => Next st []
      | Some idx_rec =>
          let sucursal :=
            strip (join " " (firstn (idx_rec - 1) (skipn 1 parts))) in
          let recibo := nth idx_rec parts "" in
          let bultos := nth (idx_rec + 1) parts "" in
          let importe := nth (idx_rec + 2) parts "" in
          let st' := with_moneda st (moneda_after st linea) in
          Next st'
            [Record_ fecha_oper sucursal recibo bultos
               (or_str (moneda_actual st') "PYG") importe (ing_egr st)
               clasificacion (fecha_archivo st) (motivo_actual st)
               (or_str (agencia st) agencia_fallback)]
      end
  end.

(** Lines 413-429: a row that is none of header, section, terminal or
    total row. *)
Definition data_row (agencia_fallback : string) (st : state)
  (parts_all : list string) (linea : string) : outcome :=
  let m_date := matches (re_match rx_fecha_linea linea) in
  if matches (re_search rx_moneda linea) && negb m_date
  then Next (with_moneda st (moneda_after st linea)) []
  else if nonempty (ing_egr st) && negb m_date
  then Next (State (agencia st) (fecha_archivo st) (ing_egr st)
               (strip linea) (moneda_actual st)) []
  else if nonempty (ing_egr st) && nonempty (motivo_actual st) && m_date
  then detail agencia_fallback st parts_all linea
  else Next st [].

(** The body of the loop over [df.iterrows()], lines 397-429. *)
Definition row_step (agencia_fallback : string) (st : state) (cells : row)
  : outcome :=
  let parts_all := filter nonempty (map strip cells) in
  let linea := join " " parts_all in
  if negb (nonempty linea) then Next st [] else
  let linea_up := upper (_strip_accents linea) in
  match (if contains "PROSEGUR PARAGUAY S.A." linea_up
         then re_search rx_sucursal linea else None) with
  | Some m =>
      Next (State (strip (group m)) (fecha_archivo st) (ing_egr st)
              (motivo_actual st) (moneda_actual st)) []
  | None =>
  if contains "ESTADO DE CUENTA DE" linea_up then
    let fecha :=
      match re_search rx_al_fecha_sp linea with
      | Some m_f => group m_f
      | None => fecha_archivo st
      end in
    Next (State (agencia st) fecha (ing_egr st) (motivo_actual st)
            (moneda_after st linea)) []
  else if linea_up =? "INGRESOS"
  then Next (State (agencia st) (fecha_archivo st) "IN" ""
               (moneda_actual st)) []
  else if linea_up =? "EGRESOS"
  then Next (State (agencia st) (fecha_archivo st) "OUT" ""
               (moneda_actual st)) []
  else if contains "INFORME DE PROCESOS" linea_up then Break
  else if matches (re_search rx_totales linea) then Next st []
  else data_row agencia_fallback st parts_all linea
  end.

(** The rule that takes a row: the tests of [row_step], in its order. *)
Definition classify (cells : row) : kind :=
  let linea := join " " (filter nonempty (map strip cells)) in
  let linea_up := upper (_strip_accents linea) in
  if negb (nonempty linea) then Blank
  else if contains "PROSEGUR PARAGUAY S.A." linea_up
          && matches (re_search rx_sucursal linea) then Agency
  else if contains "ESTADO DE CUENTA DE" linea_up then Statement
  else if linea_up =? "INGRESOS" then SectionIn
  else if linea_up =? "EGRESOS" then SectionOut
  else if contains "INFORME DE PROCESOS" linea_up then Terminal
  else if matches (re_search rx_totales linea) then Total
  else Data.

Fixpoint run (agencia_fallback : string) (st : state) (rows : list row)
  : state * list record :=
  match rows with
  | [] => (st, [])
  | r :: rest =>
      match row_step agencia_fallback st r with
      | Break => (st, [])
      | Next st' emitted =>
          let (final, more) := run agencia_fallback st' rest in
          (final, emitted ++ more)
      end
  end.

(** One sheet of the workbook. *)
Definition sheet_records (agencia_fallback : string)
  (hoja : string * list row) : list record :=
  snd (run agencia_fallback (initial (fst hoja)) (snd hoja)).

(** [registros] of [get_ec_bultos_bco] for the sheets [hojas.items()]. *)
Definition get_ec_bultos_bco (agencia_fallback : string)
  (hojas : list (string * list row)) : list record :=
  flat_map (sheet_records agencia_fallback) hojas.

End BultosBco.

End V4.

(* ================================================================== *)
(** * comsol.py                                                          *)
(* ================================================================== *)

Module Comsol.
Import Text Re Helpers.

(** The inner loop of [_extraer_saldos_desde_fila]: the stripped cells to
    the right of the label that hold a digit. *)
Fixpoint valores_desde (cells : list string) : list string :=
  match cells with
  | [] => []
  | c :: t =>
      let v := strip c in
      if negb (nonempty v) then valores_desde t
      else if matches (re_search digit v) then v :: valores_desde t
      else valores_desde t
  end.

Fixpoint saldos_scan (etiqueta_norm : string) (cells : list string)
  : list string :=
  match cells with
  | [] => []
  | celda :: t =>
      if contains etiqueta_norm (upper (_strip_accents celda))
      then valores_desde t
      else saldos_scan etiqueta_norm t
  end.

Definition _extraer_saldos_desde_fila (strip_cells : list string)
  (etiqueta : string) : list string :=
  saldos_scan (upper (_strip_accents etiqueta)) strip_cells.

Definition ETIQUETA : string := "SALDO ANTERIOR".

(** ** [get_ec_atm] with the opening balances *)
Module EcAtm.

Record record : Type := Record_ {
  FECHA : string;
  SUCURSAL : string;
  RECIBO : string;
  BULTOS : string;
  GUARANIES : string;
  DOLARES : string;
  ING_EGR : string;
  CLASIFICACION : string;
  FECHA_ARCHIVO : string;
  MOTIVO_MOVIMIENTO : string;
  AGENCIA : string;
  SALDO_ANTERIOR_PYG : string;
  SALDO_ANTERIOR_USD : string
}.

Record state : Type := State {
  agencia : string;
  fecha_archivo : string;
  ing_egr : string;
  motivo_actual : string;
  saldo_ant_usd : string;
  saldo_ant_pyg : string
}.

Definition clasificacion : string := "ATM".

Definition initial : state := State "" "" "" "" "" "".

Inductive outcome : Type :=
| Next (st : state) (emitted : list record)
| Break.

(** [saldo_ant_usd or saldo_ant_pyg] *)
Definition captured (st : state) : bool :=
  nonempty (saldo_ant_usd st) || nonempty (saldo_ant_pyg st).

(** Lines 446-450 *)
Definition capture (st : state) (strip_cells : list string) : state :=
  let saldos := _extraer_saldos_desde_fila strip_cells ETIQUETA in
  State (agencia st) (fecha_archivo st) (ing_egr st) (motivo_actual st)
    (match saldos with s0 :: _ => s0 | [] => saldo_ant_usd st end)
    (match saldos with _ :: s1 :: _ => s1 | _ => saldo_ant_pyg st end).

(** Lines 492-524 *)
Definition detail (st : state) (strip_cells : list string) (date_idx : nat)
  : record :=
  let fecha_oper := nth date_idx strip_cells "" in
  let suc_idx := _first_non_empty_after strip_cells date_idx in
  let sucursal := _get_cell strip_cells suc_idx "" in
  let rec_idx := next_after strip_cells suc_idx in
  let recibo_raw := _get_cell strip_cells rec_idx "" in
  let recibo := or_str (_only_digits recibo_raw) recibo_raw in
  let bul_idx := next_after strip_cells rec_idx in
  let bultos := _get_cell strip_cells bul_idx "" in
  let gua_idx := next_after strip_cells bul_idx in
  let guaranies := or_str (_get_cell strip_cells gua_idx "0") "0" in
  let usd_idx := next_after strip_cells gua_idx in
  let dolares := or_str (_get_cell strip_cells usd_idx "0") "0" in
  Record_ fecha_oper sucursal recibo bultos guaranies dolares
    (ing_egr st) clasificacion (fecha_archivo st) (motivo_actual st)
    (agencia st) (saldo_ant_pyg st) (saldo_ant_usd st).

(** Lines 453-524: the rules below the opening-balance rule. *)
Definition after_label (st : state) (strip_cells : list string)
  (line_join upper_join : string) : outcome :=
  if contains "PROSEGUR PARAGUAY S.A." upper_join then
    match re_search rx_sucursal line_join with
    | Some m =>
        Next (State (strip (group m)) (fecha_archivo st) (ing_egr st)
                (motivo_actual st) (saldo_ant_usd st) (saldo_ant_pyg st)) []
    | None => Next st []
    end
  else if contains "ESTADO DE CUENTA DE" upper_join then
    match re_search rx_al_fecha line_join with
    | Some m_f =>
        Next (State (agencia st) (group m_f) (ing_egr st) (motivo_actual st)
                (saldo_ant_usd st) (saldo_ant_pyg st)) []
    | None => Next st []
    end
  else if upper_join =? "INGRESOS"
  then Next (State (agencia st) (fecha_archivo st) "IN" ""
               (saldo_ant_usd st) (saldo_ant_pyg st)) []
  else if upper_join =? "EGRESOS"
  then Next (State (agencia st) (fecha_archivo st) "OUT" ""
               (saldo_ant_usd st) (saldo_ant_pyg st)) []
  else if contains "INFORME DE PROCESOS" upper_join then Break
  else if matches (re_search rx_totales line_join) then Next st []
  else
    match date_index strip_cells with
    | None =>
        if nonempty (ing_egr st)
        then Next (State (agencia st) (fecha_archivo st) (ing_egr st)
                     (strip line_join) (saldo_ant_usd st) (saldo_ant_pyg st))
               []
        else Next st []
    | Some date_idx =>
        if nonempty (ing_egr st) && nonempty (motivo_actual st)
        then Next st [detail st strip_cells date_idx]
        else Next st []
    end.

(** The body of the loop, lines 436-524. *)
Definition row_step (st : state) (cells : row) : outcome :=
  let strip_cells := map strip cells in
  let line_join := join_cells strip_cells in
  if negb (nonempty line_join) then Next st [] else
  let upper_join := upper (_strip_accents line_join) in
  if contains "SALDO ANTERIOR" upper_join && negb (captured st)
  then Next (capture st strip_cells) []
  else after_label st strip_cells line_join upper_join.

(** The rule that takes a row in state [st]: the tests of [row_step], in
    its order. *)
Definition classify (st : state) (cells : row) : kind :=
  let line_join := join_cells (map strip cells) in
  let upper_join := upper (_strip_accents line_join) in
  if negb (nonempty line_join) then Blank
  else if contains "SALDO ANTERIOR" upper_join && negb (captured st) then Label
  else if contains "PROSEGUR PARAGUAY S.A." upper_join then Agency
  else if contains "ESTADO DE CUENTA DE" upper_join then Statement
  else if upper_join =? "INGRESOS" then SectionIn
  else if upper_join =? "EGRESOS" then SectionOut
  else if contains "INFORME DE PROCESOS" upper_join then Terminal
  else if matches (re_search rx_totales line_join) then Total
  else Data.

Fixpoint run (st : state) (rows : list row) : state * list record :=
  match rows with
  | [] => (st, [])
  | r :: rest =>
      match row_step st r with
      | Break => (st, [])
      | Next st' emitted =>
          let (final, more) := run st' rest in (final, emitted ++ more)
      end
  end.

(** [registros] of [get_ec_atm], before [fill_agencia_column]. *)
Definition get_ec_atm (df_raw : list row) : list record :=
  snd (run initial df_raw).

End EcAtm.

(** ** [get_ec_banco] with the opening balance of each sheet *)
Module EcBanco.

Record record : Type := Record_ {
  HOJA_ORIGEN : string;
  AGENCIA : string;
  FECHA_ARCHIVO : string;
  ING_EGR : string;
  CLASIFICACION : string;
  MOTIVO_MOVIMIENTO : string;
  FECHA : string;
  SUCURSAL : string;
  RECIBO : string;
  BULTOS : string;
  MONEDA : string;
  MONTO : string;
  SALDO_ANTERIOR : string
}.

Record state : Type := State {
  saldo_anterior_hoja : string;
  agencia : string;
  fecha_archivo : string;
  ing_egr : string;
  motivo_actual : string;
  moneda_actual : string
}.

Inductive outcome : Type :=
| Next (st : state) (emitted : list record)
| Break.

(** [rx_moneda], IGNORECASE *)
Definition rx_moneda : regex :=
  seqs [WordB;
        Group (alts [
          seqs [lit_ci "GUARAN"; one_of_ci (u8 "IÍ"); lit_ci "ES"];
          seqs [lit_ci "D"; one_of_ci (u8 "ÓO"); lit_ci "LARES"];
          seqs [lit_ci "EURO"; opt (chr_ci "S")];
          seqs [lit_ci "REALE"; opt (chr_ci "S")];
          seqs [lit_ci "PESO"; opt (chr_ci "S")]]);
        WordB].

Definition _guess_currency_from_sheet_name (sheet_name : string) : string :=
  let n := upper (_strip_accents sheet_name) in
  if contains_any ["USD"; "DOLAR"; u8 "DÓLAR"; "DOLARES"; u8 "DÓLARES"] n
  then "DOLARES"
  else if contains_any ["EUR"; "EURO"; "EUROS"] n then "EUROS"
  else if contains_any ["BRL"; "REAL"; "REALES"] n then "REALES"
  else if contains_any ["ARS"; "PESO"; "PESOS"; "ARG"] n then "PESOS"
  else "GUARANIES".

(** [_normaliza_moneda_iso]; the guarani sign of its first list lies outside
    Latin-1 and cannot occur in the text. *)
Definition _normaliza_moneda_iso (token : string) : string :=
  let t := strip (upper (_strip_accents token)) in
  if contains_any ["PYG"; "GS"; "G$"; "GUARANI"; "GUARANIES"; u8 "GUARANÍ"] t
  then "PYG"
  else if contains_any ["USD"; "US$"; "U$S"; "DOLAR"; u8 "DÓLAR"; "DOLARES";
                        u8 "DÓLARES"] t then "USD"
  else if contains_any ["EUR"; "EURO"; "EUROS"] t then "EUR"
  else if contains_any ["BRL"; "R$"; "REAL"; "REALES"] t then "BRL"
  else if contains_any ["ARS"; "PESO"; "PESOS"; "ARG"] t then "ARS"
  else if contains "$" t then "USD"
  else or_str t "PYG".

Definition initial (nombre_hoja : string) : state :=
  State "" "" "" "" "" (_guess_currency_from_sheet_name nombre_hoja).

(** [sum(ch.isdigit() for ch in _strip_accents(p)) >= 4] *)
Definition looks_like_receipt (p : string) : bool :=
  Nat.leb 4 (String.length (keep isdigit (_strip_accents p))).

Definition receipt_index (parts : list string) : option nat :=
  find_index_from looks_like_receipt 1 (skipn 1 parts).

(** Lines 598-601 *)
Definition capture (st : state) (strip_cells : list string) : state :=
  State (match _extraer_saldos_desde_fila strip_cells ETIQUETA with
         | v :: _ => v
         | [] => saldo_anterior_hoja st
         end)
    (agencia st) (fecha_archivo st) (ing_egr st) (motivo_actual st)
    (moneda_actual st).

(** Lines 635-668 *)
Definition detail (nombre_hoja : string) (st : state)
  (strip_cells : list string) (fecha_oper : string) : list record :=
  let parts := filter nonempty strip_cells in
  match parts with
  | [] => []
  | _ =>
      match receipt_index parts with
      | None => []
      | Some idx_rec =>
          let sucursal :=
            strip (join " " (firstn (idx_rec - 1) (skipn 1 parts))) in
          [Record_ nombre_hoja (agencia st) (fecha_archivo st) (ing_egr st)
             "BCO" (motivo_actual st) fecha_oper sucursal
             (nth idx_rec parts "") (nth (idx_rec + 1) parts "")
             (_normaliza_moneda_iso (moneda_actual st))
             (nth (idx_rec + 2) parts "") (saldo_anterior_hoja st)]
      end
  end.

(** Lines 604-668: the rules below the opening-balance rule. *)
Definition after_label (nombre_hoja : string) (st : state)
  (strip_cells : list string) (linea linea_up : string) : outcome :=
  if contains "PROSEGUR PARAGUAY S.A." linea_up then
    match re_search rx_sucursal linea with
    | Some m =>
        Next (State (saldo_anterior_hoja st) (strip (group m))
                (fecha_archivo st) (ing_egr st) (motivo_actual st)
                (moneda_actual st)) []
    | None => Next st []
    end
  else if contains "ESTADO DE CUENTA DE" linea_up then
    let fecha :=
      match re_search rx_al_fecha_sp linea with
      | Some m_f => group m_f
      | None => fecha_archivo st
      end in
    let moneda :=
      match re_search rx_moneda linea with
      | Some m_mon => _guess_currency_from_sheet_name (group m_mon)
      | None => moneda_actual st
      end in
    Next (State (saldo_anterior_hoja st) (agencia st) fecha (ing_egr st)
            (motivo_actual st) moneda) []
  else if linea_up =? "INGRESOS"
  then Next (State (saldo_anterior_hoja st) (agencia st) (fecha_archivo st)
               "IN" "" (moneda_actual st)) []
  else if linea_up =? "EGRESOS"
  then Next (State (saldo_anterior_hoja st) (agencia st) (fecha_archivo st)
               "OUT" "" (moneda_actual st)) []
  else if contains "INFORME DE PROCESOS" linea_up then Break
  else if matches (re_search rx_totales linea) then Next st []
  else
    match re_match rx_fecha_linea linea with
    | Some m_date =>
        if nonempty (ing_egr st) && nonempty (motivo_actual st)
        then Next st (detail nombre_hoja st strip_cells (group m_date))
        else Next st []
    | None => Next st []
    end.

(** The body of the loop, lines 589-668. *)
Definition row_step (nombre_hoja : string) (st : state) (cells : row)
  : outcome :=
  let strip_cells := map strip cells in
  let linea := join_cells strip_cells in
  if negb (nonempty linea) then Next st [] else
  let linea_up := upper (_strip_accents linea) in
  if contains "SALDO ANTERIOR" linea_up
     && negb (nonempty (saldo_anterior_hoja st))
  then Next (capture st strip_cells) []
  else after_label nombre_hoja st strip_cells linea linea_up.

(** The rule that takes a row in state [st]: the tests of [row_step], in
    its order. *)
Definition classify (st : state) (cells : row) : kind :=
  let linea := join_cells (map strip cells) in
  let linea_up := upper (_strip_accents linea) in
  if negb (nonempty linea) then Blank
  else if contains "SALDO ANTERIOR" linea_up
          && negb (nonempty (saldo_anterior_hoja st)) then Label
  else if contains "PROSEGUR PARAGUAY S.A." linea_up then Agency
  else if contains "ESTADO DE CUENTA DE" linea_up then Statement
  else if linea_up =? "INGRESOS" then SectionIn
  else if linea_up =? "EGRESOS" then SectionOut
  else if contains "INFORME DE PROCESOS" linea_up then Terminal
  else if matches (re_search rx_totales linea) then Total
  else Data.

Fixpoint run (nombre_hoja : string) (st : state) (rows : list row)
  : state * list record :=
  match rows with
  | [] => (st, [])
  | r :: rest =>
      match row_step nombre_hoja st r with
      | Break => (st, [])
      | Next st' emitted =>
          let (final, more) := run nombre_hoja st' rest in
          (final, emitted ++ more)
      end
  end.

Definition sheet_records (hoja : string * list row) : list record :=
  snd (run (fst hoja) (initial (fst hoja)) (snd hoja)).

(** [registros] of [get_ec_banco], before [fill_agencia_column]. *)
Definition get_ec_banco (hojas : list (string * list row)) : list record :=
  flat_map sheet_records hojas.

End EcBanco.

(** ** Agencies *)

Definition AGENCIA_ALIASES : list (string * list string) :=
  [("ASU", ["ASU"; "ASUNCION"; u8 "ASUNCIÓN"; "ASUNCION."; u8 "ASUNCIÓN.";
            "ASUNCION CENTRO"]);
   ("CDE", ["CDE"; "CIUDAD DEL ESTE"; "C. DEL ESTE"; "C DEL ESTE";
            "CIUDAD DEL E."; "CDE."]);
   ("CNC", ["CNC"; "CONCEPCION"; u8 "CONCEPCIÓN"]);
   ("ENC", ["ENC"; "ENCARNACION"; u8 "ENCARNACIÓN"]);
   ("OVD", ["OVD"; "CORONEL OVIEDO"; "CNEL. OVIEDO"; "C. OVIEDO"])].

Definition alias_hit (t : string) (entry : string * list string) : bool :=
  existsb (fun al => V4.has_word (upper (_strip_accents al)) t) (snd entry).

Definition _agencia_code_from_text (text : string) : option string :=
  if negb (nonempty text) then None else
  let t := upper (_strip_accents text) in
  match find (fun code => V4.has_word code t) (map fst AGENCIA_ALIASES) with
  | Some code => Some code
  | None => option_map fst (find (alias_hit t) AGENCIA_ALIASES)
  end.

(** [AGENCIA_FILE_PATTERN = (^|[^0-9])([1-5])_10([^0-9]|$)]; the group
    read is the digit. *)
Definition AGENCIA_FILE_PATTERN : regex :=
  let not_digit := Chr (fun c => negb (between 48 57 c)) in
  seqs [Alt Bol not_digit; Group (Chr (between 49 53)); lit "_10";
        Alt not_digit Eol].

(** [AGENCIA_FILE_DIGIT_MAP.get(d, '')] *)
Definition AGENCIA_FILE_DIGIT_MAP (d : string) : string :=
  if d =? "1" then "ASU"
  else if d =? "2" then "CDE"
  else if d =? "5" then "CNC"
  else if d =? "3" then "ENC"
  else if d =? "4" then "OVD"
  else "".

(** [infer_agencia_from_filename(path)]; [name] is [Path(path).name]. *)
Definition infer_agencia_from_filename (name : string) : string :=
  match re_search AGENCIA_FILE_PATTERN (upper name) with
  | None => ""
  | Some m => AGENCIA_FILE_DIGIT_MAP (group m)
  end.

(** The first part that names an agency. *)
Fixpoint first_code (parts : list string) : option string :=
  match parts with
  | [] => None
  | part :: rest =>
      match V4.truthy (_agencia_code_from_text part) with
      | Some code => Some code
      | None => first_code rest
      end
  end.

(** [resolve_agencia_base(path_entrada, agencia_carpeta)]; [name] and
    [parts] are [Path(path_entrada).name] and [.parts]. *)
Definition resolve_agencia_base (name : string) (parts : list string)
  (agencia_carpeta : option string) : string :=
  let ag := infer_agencia_from_filename name in
  if nonempty ag then ag else
  match (match agencia_carpeta with
         | Some c =>
             if nonempty c then V4.truthy (_agencia_code_from_text c)
             else None
         | None => None
         end) with
  | Some code => code
  | None =>
      match first_code (rev parts) with
      | Some code => code
      | None => ""
      end
  end.

(** [code or text] *)
Definition code_or (text : string) : string :=
  match V4.truthy (_agencia_code_from_text text) with
  | Some code => code
  | None => text
  end.

(** [fill_agencia_column(df, path_entrada, agencia_carpeta)] on the AGENCIA
    column of a frame, one text per row; a frame with no row is returned as
    it is. *)
Definition fill_agencia_column (col : list string) (name : string)
  (parts : list string) (agencia_carpeta : option string) : list string :=
  match col with
  | [] => col
  | _ =>
      let non_empty := filter nonempty (map strip col) in
      let base :=
        match non_empty with
        | v :: _ => code_or v
        | [] => resolve_agencia_base name parts agencia_carpeta
        end in
      if negb (nonempty base) then col
      else map (fun _ => code_or base) col
  end.

(** [_is_zero_like] *)
Definition _is_zero_like (s : string) : bool :=
  let t := strip (remove_char "." (remove_char "," s)) in
  (t =? "") || (t =? "0").

(** ** The dispatcher *)

Definition _detectar_tipo (fname_upper : string) : option string :=
  if startswith fname_upper "EC_ATM" then Some "EC_ATM"
  else if startswith fname_upper "EC_BANCO" || startswith fname_upper "EC_BCO"
  then Some "EC_EFECT_BCO"
  else if startswith fname_upper "EC_BULTOS_ATM" then Some "EC_BULTOS_ATM"
  else if startswith fname_upper "EC_BULTOS_BCO"
          || contains "EC_BULTOS_BANCO" fname_upper then Some "EC_BULTOS_BCO"
  else if startswith fname_upper "INV_BILLETES_ATM"
          || startswith fname_upper "INV_ATM"
          || (contains "INV" fname_upper && contains "ATM" fname_upper)
  then Some "INV_ATM"
  else if startswith fname_upper "INV_BILLETES_BANCO"
          || startswith fname_upper "INV_BCO"
          || startswith fname_upper "INV_BANCO"
          || (contains "INV" fname_upper
              && (contains "BANCO" fname_upper || contains "BCO" fname_upper))
  then Some "INV_BCO"
  else None.

(** ** [get_ec_bultos_atm] with the opening balances *)
Module BultosAtm.

Record record : Type := Record_ {
  FECHA : string;
  SUCURSAL : string;
  RECIBO : string;
  BULTOS : string;
  MONEDA : string;
  IMPORTE : string;
  ING_EGR : string;
  CLASIFICACION : string;
  FECHA_ARCHIVO : string;
  MOTIVO_MOVIMIENTO : string;
  AGENCIA : string;
  SALDO_ANTERIOR_PYG : string;
  SALDO_ANTERIOR_USD : string
}.

Record state : Type := State {
  agencia : string;
  fecha_archivo : string;
  ing_egr : string;
  motivo_actual : string;
  saldo_ant_pyg : string;
  saldo_ant_usd : string
}.

Definition clasificacion : string := "ATM".

Definition initial : state := State "" "" "" "" "" "".

Inductive outcome : Type :=
| Next (st : state) (emitted : list record)
| Break.

(** [saldo_ant_pyg or saldo_ant_usd] *)
Definition captured (st : state) : bool :=
  nonempty (saldo_ant_pyg st) || nonempty (saldo_ant_usd st).

(** Lines 738-743: of [cant_pyg, saldo_pyg, cant_usd, saldo_usd] the second
    and the fourth value. *)
Definition capture (st : state) (strip_cells : list string) : state :=
  let saldos := _extraer_saldos_desde_fila strip_cells ETIQUETA in
  State (agencia st) (fecha_archivo st) (ing_egr st) (motivo_actual st)
    (match saldos with _ :: s1 :: _ => s1 | _ => saldo_ant_pyg st end)
    (match saldos with _ :: _ :: _ :: s3 :: _ => s3 | _ => saldo_ant_usd st end).

(** Lines 778-828 *)
Definition detail (descartar_usd_cero : bool) (st : state)
  (strip_cells : list string) (date_idx : nat) : list record :=
  let fecha_oper := nth date_idx strip_cells "" in
  let suc_idx := _first_non_empty_after strip_cells date_idx in
  let sucursal := _get_cell strip_cells suc_idx "" in
  let rec_idx := next_after strip_cells suc_idx in
  let recibo_raw := _get_cell strip_cells rec_idx "" in
  let recibo := or_str (_only_digits recibo_raw) recibo_raw in
  let bul_idx := next_after strip_cells rec_idx in
  let bultos_pyg := _get_cell strip_cells bul_idx "" in
  let gua_idx := next_after strip_cells bul_idx in
  let guaranies := or_str (_get_cell strip_cells gua_idx "0") "0" in
  let usd_bul_idx := next_after strip_cells gua_idx in
  let bultos_usd := _get_cell strip_cells usd_bul_idx "" in
  let usd_imp_idx := next_after strip_cells usd_bul_idx in
  let dolares := or_str (_get_cell strip_cells usd_imp_idx "0") "0" in
  let pyg :=
    Record_ fecha_oper sucursal recibo bultos_pyg "PYG" guaranies
      (ing_egr st) clasificacion (fecha_archivo st) (motivo_actual st)
      (agencia st) (saldo_ant_pyg st) (saldo_ant_usd st) in
  let usd :=
    Record_ fecha_oper sucursal recibo bultos_usd "USD" dolares
      (ing_egr st) clasificacion (fecha_archivo st) (motivo_actual st)
      (agencia st) (saldo_ant_pyg st) (saldo_ant_usd st) in
  if descartar_usd_cero && _is_zero_like dolares then [pyg] else [pyg; usd].

(** The body of the loop, lines 729-828. *)
Definition row_step (descartar_usd_cero : bool) (st : state) (cells : row)
  : outcome :=
  let strip_cells := map strip cells in
  let line_join := join_cells strip_cells in
  if negb (nonempty line_join) then Next st [] else
  let upper_join := upper (_strip_accents line_join) in
  if contains "SALDO ANTERIOR" upper_join && negb (captured st)
  then Next (capture st strip_cells) []
  else if contains "PROSEGUR PARAGUAY S.A." upper_join then
    match re_search rx_sucursal line_join with
    | Some m =>
        Next (State (strip (group m)) (fecha_archivo st) (ing_egr st)
                (motivo_actual st) (saldo_ant_pyg st) (saldo_ant_usd st)) []
    | None => Next st []
    end
  else if contains "ESTADO DE CUENTA DE BULTOS DE ATM" upper_join then
    match re_search rx_al_fecha line_join with
    | Some m_f =>
        Next (State (agencia st) (group m_f) (ing_egr st) (motivo_actual st)
                (saldo_ant_pyg st) (saldo_ant_usd st)) []
    | None => Next st []
    end
  else if upper_join =? "INGRESOS"
  then Next (State (agencia st) (fecha_archivo st) "IN" ""
               (saldo_ant_pyg st) (saldo_ant_usd st)) []
  else if upper_join =? "EGRESOS"
  then Next (State (agencia st) (fecha_archivo st) "OUT" ""
               (saldo_ant_pyg st) (saldo_ant_usd st)) []
  else if contains "INFORME DE PROCESOS" upper_join then Break
  else if matches (re_search rx_totales line_join) then Next st []
  else
    match date_index strip_cells with
    | None =>
        if nonempty (ing_egr st)
        then Next (State (agencia st) (fecha_archivo st) (ing_egr st)
                     (strip line_join) (saldo_ant_pyg st) (saldo_ant_usd st))
               []
        else Next st []
    | Some date_idx =>
        if nonempty (ing_egr st) && nonempty (motivo_actual st)
        then Next st (detail descartar_usd_cero st strip_cells date_idx)
        else Next st []
    end.

Fixpoint run (descartar_usd_cero : bool) (st : state) (rows : list row)
  : state * list record :=
  match rows with
  | [] => (st, [])
  | r :: rest =>
      match row_step descartar_usd_cero st r with
      | Break => (st, [])
      | Next st' emitted =>
          let (final, more) := run descartar_usd_cero st' rest in
          (final, emitted ++ more)
      end
  end.

(** [registros] of [get_ec_bultos_atm], before [fill_agencia_column]. *)
Definition get_ec_bultos_atm (descartar_usd_cero : bool) (df_x : list row)
  : list record :=
  snd (run descartar_usd_cero initial df_x).

End BultosAtm.

(** ** [get_ec_bultos_bco] with the opening balance of each sheet *)
Module BultosBco.

Record record : Type := Record_ {
  FECHA : string;
  SUCURSAL : string;
  RECIBO : string;
  BULTOS : string;
  MONEDA : string;
  IMPORTE : string;
  ING_EGR : string;
  CLASIFICACION : string;
  FECHA_ARCHIVO : string;
  MOTIVO_MOVIMIENTO : string;
  AGENCIA : string;
  SALDO_ANTERIOR : string
}.

Record state : Type := State {
  saldo_anterior : string;
  agencia : string;
  fecha_archivo : string;
  ing_egr : string;
  motivo_actual : string;
  moneda_actual : string
}.

Definition clasificacion : string := "BULTO BCO".

Inductive outcome : Type :=
| Next (st : state) (emitted : list record)
| Break.

Definition initial (nombre_hoja : string) : state :=
  State "" "" "" "" "" (EcBanco._normaliza_moneda_iso nombre_hoja).

(** Lines 905-909: the second value, or the only one. *)
Definition capture (st : state) (parts_all : list string) : state :=
  State (match _extraer_saldos_desde_fila parts_all ETIQUETA with
         | _ :: v1 :: _ => v1
         | [v0] => v0
         | [] => saldo_anterior st
         end)
    (agencia st) (fecha_archivo st) (ing_egr st) (motivo_actual st)
    (moneda_actual st).

(** The currency after the currency word of [linea], if it has one. *)
Definition moneda_after (st : state) (linea : string) : string :=
  match re_search V4.BultosBco.rx_moneda linea with
  | Some m_mon => EcBanco._normaliza_moneda_iso (group m_mon)
  | None => moneda_actual st
  end.

(** Lines 943-978 *)
Definition detail (st : state) (parts : list string) (linea : string)
  : outcome :=
  match parts with
  | [] => Next st []
  | fecha_oper :: _ =>
      match EcBanco.receipt_index parts with
      | None => Next st []
      | Some idx_rec =>
          let sucursal :=
            strip (join " " (firstn (idx_rec - 1) (skipn 1 parts))) in
          let moneda := moneda_after st linea in
          Next (State (saldo_anterior st) (agencia st) (fecha_archivo st)
                  (ing_egr st) (motivo_actual st) moneda)
            [Record_ fecha_oper sucursal (nth idx_rec parts "")
               (nth (idx_rec + 1) parts "") (or_str moneda "PYG")
               (nth (idx_rec + 2) parts "") (ing_egr st) clasificacion
               (fecha_archivo st) (motivo_actual st) (agencia st)
               (saldo_anterior st)]
      end
  end.

(** The body of the loop, lines 897-978. *)
Definition row_step (st : state) (cells : row) : outcome :=
  let parts_all := filter nonempty (map strip cells) in
  let linea := join " " parts_all in
  if negb (nonempty linea) then Next st [] else
  let linea_up := upper (_strip_accents linea) in
  if contains "SALDO ANTERIOR" linea_up && negb (nonempty (saldo_anterior st))
  then Next (capture st parts_all) []
  else if contains "PROSEGUR PARAGUAY S.A." linea_up then
    match re_search rx_sucursal linea with
    | Some m =>
        Next (State (saldo_anterior st) (strip (group m)) (fecha_archivo st)
                (ing_egr st) (motivo_actual st) (moneda_actual st)) []
    | None => Next st []
    end
  else if contains "ESTADO DE CUENTA DE" linea_up then
    let fecha :=
      match re_search rx_al_fecha_sp linea with
      | Some m_f => group m_f
      | None => fecha_archivo st
      end in
    Next (State (saldo_anterior st) (agencia st) fecha (ing_egr st)
            (motivo_actual st) (moneda_after st linea)) []
  else if linea_up =? "INGRESOS"
  then Next (State (saldo_anterior st) (agencia st) (fecha_archivo st)
               "IN" "" (moneda_actual st)) []
  else if linea_up =? "EGRESOS"
  then Next (State (saldo_anterior st) (agencia st) (fecha_archivo st)
               "OUT" "" (moneda_actual st)) []
  else if contains "INFORME DE PROCESOS" linea_up then Break
  else if matches (re_search rx_totales linea) then Next st []
  else if nonempty (ing_egr st) && nonempty (motivo_actual st)
          && matches (re_match rx_fecha_linea linea)
  then detail st parts_all linea
  else Next st [].

Fixpoint run (st : state) (rows : list row) : state * list record :=
  match rows with
  | [] => (st, [])
  | r :: rest =>
      match row_step st r with
      | Break => (st, [])
      | Next st' emitted =>
          let (final, more) := run st' rest in (final, emitted ++ more)
      end
  end.

Definition sheet_records (hoja : string * list row) : list record :=
  snd (run (initial (fst hoja)) (snd hoja)).

(** [registros] of [get_ec_bultos_bco], before [fill_agencia_column]. *)
Definition get_ec_bultos_bco (hojas : list (string * list row))
  : list record :=
  flat_map sheet_records hojas.

End BultosBco.

End Comsol.

(* ================================================================== *)
(** * The label-anchored extractor, as the specification words it       *)
(* ================================================================== *)

Module Spec.
Import Text Re Helpers.

(** "Contains at least one digit". *)
Definition has_digit (v : string) : bool :=
  existsb isdecimal (list_ascii_of_string v).

(** [valuesAfterLabel(row, label)]: fold the label and each cell, find the
    first cell whose folded text contains the folded label, and from the next
    cell onward collect, in row order up to the end of the row, every
    non-empty (trimmed) cell that contains at least one digit. *)
Definition valuesAfterLabel (cells : list string) (label : string)
  : list string :=
  match find_index (fun c => contains (fold label) (fold c)) cells with
  | None => []
  | Some i =>
      filter (fun v => nonempty v && has_digit v)
        (skipn (S i) (map strip cells))
  end.

(** The values the section variable [ing_egr] takes. *)
Definition section_value (s : string) : Prop :=
  s = "" \/ s = "IN" \/ s = "OUT".

End Spec.

(* ================================================================== *)
(** * Proofs                                                             *)
(* ================================================================== *)

Import Text Re Helpers.

(** ** Regular expressions and lists *)

Lemma search_chr_existsb (p : ascii -> bool) (s : string) (b : option ascii) :
  matches (search_from (Chr p) b s) = existsb p (list_ascii_of_string s).
Proof.
  revert b; induction s as [|c t IH]; intros b; simpl.
  - reflexivity.
  - unfold start_at; simpl. destruct (p c); simpl; [reflexivity | apply IH].
Qed.

Lemma search_digit_has_digit (v : string) :
  matches (re_search digit v) = Spec.has_digit v.
Proof. apply search_chr_existsb. Qed.

Lemma find_index_from_ge {A} (p : A -> bool) (l : list A) :
  forall i j, find_index_from p i l = Some j -> i <= j.
Proof.
  induction l as [|a l IH]; simpl; intros i j H; [discriminate|].
  destruct (p a).
  - injection H as <-; lia.
  - apply IH in H; lia.
Qed.

Lemma find_index_from_none {A} (p : A -> bool) (l : list A) :
  forall i, find_index_from p i l = None <-> Forall (fun a => p a = false) l.
Proof.
  induction l as [|a l IH]; simpl; intros i.
  - split; auto.
  - destruct (p a) eqn:E.
    + split; [discriminate|]. intros H; inversion H; congruence.
    + rewrite IH. split; [auto | intros H; inversion H; auto].
Qed.

(** ** C5: the opening-balance extractor *)

Lemma valores_desde_filter (cells : list string) :
  Comsol.valores_desde cells
  = filter (fun v => nonempty v && Spec.has_digit v) (map strip cells).
Proof.
  induction cells as [|c t IH]; simpl; [reflexivity|].
  rewrite search_digit_has_digit, IH.
  destruct (nonempty (strip c)); simpl; [|reflexivity].
  destruct (Spec.has_digit (strip c)); reflexivity.
Qed.

Lemma saldos_scan_spec (e : string) (cells : list string) :
  forall i,
    match find_index_from (fun c => contains e (fold c)) i cells with
    | None => Comsol.saldos_scan e cells = []
    | Some j =>
        Comsol.saldos_scan e cells
        = filter (fun v => nonempty v && Spec.has_digit v)
            (skipn (S (j - i)) (map strip cells))
    end.
Proof.
  induction cells as [|c t IH]; intros i; simpl; [reflexivity|].
  unfold _strip_accents. change (upper (strip_marks c)) with (fold c).
  destruct (contains e (fold c)) eqn:E.
  - replace (i - i) with 0 by lia. simpl. apply valores_desde_filter.
  - specialize (IH (S i)).
    destruct (find_index_from _ (S i) t) as [j|] eqn:F; [|exact IH].
    pose proof (find_index_from_ge _ _ _ _ F) as Hle.
    replace (j - i) with (S (j - S i)) by lia. exact IH.
Qed.

(** C5.  [_extraer_saldos_desde_fila] computes [valuesAfterLabel]: it folds
    the label and each cell, stops at the first cell whose folded text
    contains the folded label, and returns in row order every later cell
    (trimmed) that is non-empty and holds a digit, up to the end of the row;
    a row without a label cell gives the empty list; the row of the scenario
    gives its two amounts. *)
Theorem extraer_saldos_is_valuesAfterLabel :
  (forall cells label,
      Comsol._extraer_saldos_desde_fila cells label
      = Spec.valuesAfterLabel cells label)
  /\ (forall pre celda post label,
        Forall (fun c => contains (fold label) (fold c) = false) pre ->
        contains (fold label) (fold celda) = true ->
        Comsol._extraer_saldos_desde_fila (pre ++ celda :: post) label
        = filter (fun v => nonempty v && Spec.has_digit v) (map strip post))
  /\ (forall cells label,
        Forall (fun c => contains (fold label) (fold c) = false) cells ->
        Comsol._extraer_saldos_desde_fila cells label = [])
  /\ Comsol._extraer_saldos_desde_fila
       ["SALDO ANTERIOR"; ""; "1.200,50"; ""; "3.400.000"] "SALDO ANTERIOR"
     = ["1.200,50"; "3.400.000"].
Proof.
  assert (Heq : forall cells label,
             Comsol._extraer_saldos_desde_fila cells label
             = Spec.valuesAfterLabel cells label).
  { intros cells label.
    unfold Comsol._extraer_saldos_desde_fila, Spec.valuesAfterLabel, find_index.
    pose proof (saldos_scan_spec (fold label) cells 0) as H.
    unfold _strip_accents. change (upper (strip_marks label)) with (fold label).
    destruct (find_index_from _ 0 cells) as [j|]; [|exact H].
    rewrite Nat.sub_0_r in H. exact H. }
  split; [exact Heq|]. split; [|split].
  - intros pre celda post label Hpre Hc.
    unfold Comsol._extraer_saldos_desde_fila.
    unfold _strip_accents. change (upper (strip_marks label)) with (fold label).
    induction Hpre as [|c pre Hc' _ IH]; simpl.
    + unfold _strip_accents.
      change (upper (strip_marks celda)) with (fold celda).
      rewrite Hc. apply valores_desde_filter.
    + unfold _strip_accents. change (upper (strip_marks c)) with (fold c).
      rewrite Hc'. exact IH.
  - intros cells label Hall. rewrite Heq.
    unfold Spec.valuesAfterLabel, find_index.
    apply (find_index_from_none _ _ 0) in Hall. rewrite Hall. reflexivity.
  - vm_compute. reflexivity.
Qed.

(** A label row with a leading cell without the label: the extractor
    returns the digit-bearing cells to the right of the label. *)
Lemma extraer_saldos_witness :
  Comsol._extraer_saldos_desde_fila
    ["Cuenta"; "Saldo Anterior:"; "x"; "12"; ""; "7,5"] "SALDO ANTERIOR"
  = ["12"; "7,5"].
Proof.
  refine (proj1 (proj2 extraer_saldos_is_valuesAfterLabel)
            ["Cuenta"] "Saldo Anterior:" ["x"; "12"; ""; "7,5"]
            "SALDO ANTERIOR" _ _).
  - constructor; [vm_compute; reflexivity | constructor].
  - vm_compute; reflexivity.
Defined.

(** ** C10: the agency normaliser *)

Lemma agencia_code_canonical (text code : string) :
  V4._agencia_code_from_text text = Some code ->
  In code ["OVD"; "ENC"; "CON"; "ASU"; "CDE"].
Proof.
  unfold V4._agencia_code_from_text.
  destruct (negb (nonempty text)); [discriminate|].
  destruct (find _ (map fst V4.AGENCIA_ALIASES)) as [c|] eqn:F.
  - intros H; injection H as <-. apply find_some in F. exact (proj1 F).
  - destruct (find _ V4.AGENCIA_ALIASES) as [e|] eqn:G; simpl; [|discriminate].
    intros H; injection H as <-. apply find_some in G.
    exact (in_map fst _ _ (proj1 G)).
Qed.

Lemma normalize_canonical_code (code : string) :
  In code ["OVD"; "ENC"; "CON"; "ASU"; "CDE"] ->
  V4.normalize_agencia_col (Some code) = code /\ nonempty code = true.
Proof.
  simpl. intros [<-|[<-|[<-|[<-|[<-|[]]]]]]; split; vm_compute; reflexivity.
Qed.

(** C10.  [normalize_agencia_col] is idempotent on every input (a text or
    [None]); each of the five canonical codes is a fixed point; a text in
    which no code or alias is recognised is returned unchanged, so the
    result is always the input text or one of the five codes; [None] becomes
    the empty string. *)
Theorem normalize_agencia_col_idempotent :
  (forall val : option string,
      V4.normalize_agencia_col (Some (V4.normalize_agencia_col val))
      = V4.normalize_agencia_col val)
  /\ (forall code, In code ["ASU"; "CDE"; "OVD"; "ENC"; "CON"] ->
        V4.normalize_agencia_col (Some code) = code)
  /\ (forall text, V4._agencia_code_from_text text = None ->
        V4.normalize_agencia_col (Some text) = text)
  /\ (forall text,
        V4.normalize_agencia_col (Some text) = text
        \/ In (V4.normalize_agencia_col (Some text))
             ["ASU"; "CDE"; "OVD"; "ENC"; "CON"])
  /\ V4.normalize_agencia_col None = "".
Proof.
  assert (Hperm : forall c, In c ["OVD"; "ENC"; "CON"; "ASU"; "CDE"]
                            <-> In c ["ASU"; "CDE"; "OVD"; "ENC"; "CON"]).
  { intros c; simpl; tauto. }
  assert (Hsome : forall v code,
             V4._agencia_code_from_text v = Some code ->
             V4.normalize_agencia_col (Some v) = code).
  { intros v code E. unfold V4.normalize_agencia_col. rewrite E.
    apply agencia_code_canonical, normalize_canonical_code in E.
    unfold or_str. rewrite (proj2 E). reflexivity. }
  assert (Hnone : forall v,
             V4._agencia_code_from_text v = None ->
             V4.normalize_agencia_col (Some v) = v).
  { intros v E. unfold V4.normalize_agencia_col. rewrite E. reflexivity. }
  split; [|split; [|split; [|split]]].
  - intros [v|]; [|vm_compute; reflexivity].
    destruct (V4._agencia_code_from_text v) as [code|] eqn:E.
    + rewrite (Hsome v code E).
      apply agencia_code_canonical, normalize_canonical_code in E.
      exact (proj1 E).
    + rewrite (Hnone v E). exact (Hnone v E).
  - intros code Hin. apply Hperm in Hin.
    exact (proj1 (normalize_canonical_code code Hin)).
  - exact Hnone.
  - intros text. destruct (V4._agencia_code_from_text text) as [code|] eqn:E.
    + right. rewrite (Hsome text code E). apply Hperm.
      exact (agencia_code_canonical text code E).
    + left. exact (Hnone text E).
  - reflexivity.
Qed.

(** An unrecognised text and a canonical code, through the theorem. *)
Lemma normalize_agencia_col_witness :
  V4.normalize_agencia_col (Some "Luque") = "Luque"
  /\ V4.normalize_agencia_col (Some "CDE") = "CDE".
Proof.
  split.
  - refine (proj1 (proj2 (proj2 normalize_agencia_col_idempotent)) "Luque" _).
    vm_compute; reflexivity.
  - refine (proj1 (proj2 normalize_agencia_col_idempotent) "CDE" _).
    simpl; tauto.
Defined.

(** ** C3: one detail row of the wide ledger *)

(** C3 (amended).  In section IN with motive "DEPOSITO", the row of the
    scenario yields exactly one record and leaves the loop variables as they
    were; the receipt keeps its leading zeros ([_only_digits] only drops the
    characters that are not digits): RECIBO is "000123456". *)
Theorem ec_atm_detail_row_scenario :
  forall agencia_fallback agencia fecha_archivo : string,
    V4.EcAtm.row_step agencia_fallback
      (V4.EcAtm.State agencia fecha_archivo "IN" "DEPOSITO")
      [""; "15/03/2024"; "Ciudad del Este"; "000123456"; "3"; "1.500.000"; "0"]
    = V4.EcAtm.Next
        (V4.EcAtm.State agencia fecha_archivo "IN" "DEPOSITO")
        [V4.EcAtm.Record_ "15/03/2024" "Ciudad del Este" "000123456" "3"
           "1.500.000" "0" "IN" "ATM" fecha_archivo "DEPOSITO"
           (or_str agencia agencia_fallback)].
Proof. intros. vm_compute. reflexivity. Qed.

(** C3 as stated fails: no record emitted for the row carries the receipt
    "123456". *)
Lemma ec_atm_recibo_keeps_leading_zeros :
  ~ exists st r,
      V4.EcAtm.row_step ""
        (V4.EcAtm.State "" "" "IN" "DEPOSITO")
        [""; "15/03/2024"; "Ciudad del Este"; "000123456"; "3"; "1.500.000";
         "0"]
      = V4.EcAtm.Next st [r]
      /\ V4.EcAtm.RECIBO r = "123456".
Proof.
  intros (st & r & H & Hr).
  vm_compute in H. injection H as _ <-. discriminate Hr.
Qed.

(** ** The wide ledger of [prosegur_unificado_v4_2.py], rule by rule *)

(** [row_step] does what the rule that takes the row says. *)
Lemma v4_atm_step_by_kind (fb : string) (st : V4.EcAtm.state) (cells : row) :
  V4.EcAtm.row_step fb st cells =
  match V4.EcAtm.classify cells with
  | Blank | Total | Label => V4.EcAtm.Next st []
  | Agency =>
      V4.EcAtm.Next
        (V4.EcAtm.State
           (match re_search rx_sucursal (line_join_of cells) with
            | Some m => strip (group m)
            | None => V4.EcAtm.agencia st
            end)
           (V4.EcAtm.fecha_archivo st) (V4.EcAtm.ing_egr st)
           (V4.EcAtm.motivo_actual st)) []
  | Statement =>
      V4.EcAtm.Next
        (V4.EcAtm.State (V4.EcAtm.agencia st)
           (match re_search rx_al_fecha (line_join_of cells) with
            | Some m => group m
            | None => V4.EcAtm.fecha_archivo st
            end)
           (V4.EcAtm.ing_egr st) (V4.EcAtm.motivo_actual st)) []
  | SectionIn =>
      V4.EcAtm.Next
        (V4.EcAtm.State (V4.EcAtm.agencia st) (V4.EcAtm.fecha_archivo st)
           "IN" "") []
  | SectionOut =>
      V4.EcAtm.Next
        (V4.EcAtm.State (V4.EcAtm.agencia st) (V4.EcAtm.fecha_archivo st)
           "OUT" "") []
  | Terminal => V4.EcAtm.Break
  | Data =>
      match date_index (map strip cells) with
      | None =>
          if nonempty (V4.EcAtm.ing_egr st)
          then V4.EcAtm.Next
                 (V4.EcAtm.State (V4.EcAtm.agencia st)
                    (V4.EcAtm.fecha_archivo st) (V4.EcAtm.ing_egr st)
                    (strip (line_join_of cells))) []
          else V4.EcAtm.Next st []
      | Some date_idx =>
          if nonempty (V4.EcAtm.ing_egr st)
             && nonempty (V4.EcAtm.motivo_actual st)
          then V4.EcAtm.Next st
                 [V4.EcAtm.detail fb st (map strip cells) date_idx]
          else V4.EcAtm.Next st []
      end
  end.
Proof.
  unfold V4.EcAtm.row_step, V4.EcAtm.classify. cbv zeta.
  unfold upper_join_of, line_join_of.
  set (line_join := join_cells (map strip cells)).
  set (upper_join := upper (_strip_accents line_join)).
  destruct (negb (nonempty line_join)); [reflexivity|].
  destruct (contains "PROSEGUR PARAGUAY S.A." upper_join); cbn [andb];
    [destruct (re_search rx_sucursal line_join); cbn [matches];
     [reflexivity|]|];
  (destruct (contains "ESTADO DE CUENTA DE" upper_join); cbn [andb];
    [destruct (re_search rx_al_fecha line_join); cbn [matches];
     [reflexivity|]|];
   (destruct (upper_join =? "INGRESOS"); [reflexivity|];
    destruct (upper_join =? "EGRESOS"); [reflexivity|];
    destruct (contains "INFORME DE PROCESOS" upper_join); [reflexivity|];
    destruct (matches (re_search rx_totales line_join)); reflexivity)).
Qed.

(** What the rule that takes a row says of its text. *)
Lemma v4_atm_classify_text (cells : row) :
  match V4.EcAtm.classify cells with
  | Blank => nonempty (line_join_of cells) = false
  | Label => False
  | Agency =>
      contains "PROSEGUR PARAGUAY S.A." (upper_join_of cells)
      = true
  | Statement =>
      contains "ESTADO DE CUENTA DE" (upper_join_of cells)
      = true
  | SectionIn => upper_join_of cells = "INGRESOS"
  | SectionOut => upper_join_of cells = "EGRESOS"
  | Terminal =>
      contains "INFORME DE PROCESOS" (upper_join_of cells)
      = true
  | Total =>
      contains "INFORME DE PROCESOS" (upper_join_of cells)
      = false
      /\ matches (re_search rx_totales (line_join_of cells)) = true
  | Data =>
      contains "INFORME DE PROCESOS" (upper_join_of cells)
      = false
      /\ matches (re_search rx_totales (line_join_of cells)) = false
  end.
Proof.
  unfold upper_join_of, line_join_of, V4.EcAtm.classify, fold, _strip_accents.
  cbv zeta.
  unfold upper_join_of, line_join_of.
  set (line_join := join_cells (map strip cells)).
  set (upper_join := upper (strip_marks line_join)).
  destruct (nonempty line_join); cbn [negb]; [|reflexivity].
  destruct (contains "PROSEGUR PARAGUAY S.A." upper_join) eqn:E1; cbn [andb];
    [destruct (matches (re_search rx_sucursal line_join)); [reflexivity|]|];
  (destruct (contains "ESTADO DE CUENTA DE" upper_join) eqn:E2; cbn [andb];
    [destruct (matches (re_search rx_al_fecha line_join)); [reflexivity|]|];
   (destruct (upper_join =? "INGRESOS") eqn:E3;
      [apply String.eqb_eq; exact E3|];
    destruct (upper_join =? "EGRESOS") eqn:E4;
      [apply String.eqb_eq; exact E4|];
    destruct (contains "INFORME DE PROCESOS" upper_join) eqn:E5;
      [reflexivity|];
    destruct (matches (re_search rx_totales line_join)) eqn:E6;
      split; reflexivity)).
Qed.

(** Which rules can take a row whose text holds the terminal marker. *)
Lemma v4_atm_marker_kinds (cells : row) :
  contains "INFORME DE PROCESOS" (upper_join_of cells) = true ->
  V4.EcAtm.classify cells = Terminal
  \/ V4.EcAtm.classify cells = Agency
  \/ V4.EcAtm.classify cells = Statement.
Proof.
  intros H. pose proof (v4_atm_classify_text cells) as K.
  destruct (V4.EcAtm.classify cells); auto.
  - unfold upper_join_of in H.
    destruct (line_join_of cells); [discriminate H|discriminate K].
  - contradiction.
  - rewrite K in H. discriminate H.
  - rewrite K in H. discriminate H.
  - destruct K as [K _]. congruence.
  - destruct K as [K _]. congruence.
Qed.

(** A terminal row ends the loop: the rows after it are never read. *)
Lemma v4_atm_run_terminal (fb : string) (t : row) (suf : list row) :
  V4.EcAtm.classify t = Terminal ->
  forall pre st,
    V4.EcAtm.run fb st (pre ++ t :: suf) = V4.EcAtm.run fb st pre.
Proof.
  intros K. induction pre as [|r pre IH]; intros st; simpl.
  - rewrite v4_atm_step_by_kind, K. reflexivity.
  - destruct (V4.EcAtm.row_step fb st r) as [st' e|]; [|reflexivity].
    rewrite IH. reflexivity.
Qed.

(** A total row is read as if it were not there. *)
Lemma v4_atm_run_total (fb : string) (t : row) (suf : list row) :
  V4.EcAtm.classify t = Total ->
  forall pre st,
    V4.EcAtm.run fb st (pre ++ t :: suf) = V4.EcAtm.run fb st (pre ++ suf).
Proof.
  intros K. induction pre as [|r pre IH]; intros st; simpl.
  - rewrite v4_atm_step_by_kind, K. destruct (V4.EcAtm.run fb st suf).
    reflexivity.
  - destruct (V4.EcAtm.row_step fb st r) as [st' e|]; [|reflexivity].
    rewrite IH. reflexivity.
Qed.

(** The gate of a record: a data row with a date cell, read in a section
    and under a motive; the loop variables stay. *)
Lemma v4_atm_step_gate (fb : string) (st st' : V4.EcAtm.state) (cells : row)
  (emitted : list V4.EcAtm.record) (r : V4.EcAtm.record) :
  V4.EcAtm.row_step fb st cells = V4.EcAtm.Next st' emitted ->
  In r emitted ->
  nonempty (V4.EcAtm.ing_egr st) = true
  /\ nonempty (V4.EcAtm.motivo_actual st) = true
  /\ V4.EcAtm.ING_EGR r = V4.EcAtm.ing_egr st
  /\ V4.EcAtm.MOTIVO_MOVIMIENTO r = V4.EcAtm.motivo_actual st
  /\ emitted = [r] /\ st' = st /\ V4.EcAtm.classify cells = Data.
Proof.
  rewrite v4_atm_step_by_kind.
  destruct (V4.EcAtm.classify cells);
    try (intros H; injection H as <- <-; intros []); try discriminate.
  destruct (date_index (map strip cells)) as [d|].
  - destruct (nonempty (V4.EcAtm.ing_egr st)) eqn:E1; cbn [andb];
      [destruct (nonempty (V4.EcAtm.motivo_actual st)) eqn:E2|];
      intros H; injection H as <- <-; intros Hin; try contradiction.
    destruct Hin as [<-|[]]. repeat split; reflexivity.
  - destruct (nonempty (V4.EcAtm.ing_egr st));
      intros H; injection H as <- <-; intros [].
Qed.

(** The section changes only on a section row, which also empties the
    motive. *)
Lemma v4_atm_step_section (fb : string) (st st' : V4.EcAtm.state)
  (cells : row) (emitted : list V4.EcAtm.record) :
  V4.EcAtm.row_step fb st cells = V4.EcAtm.Next st' emitted ->
  V4.EcAtm.ing_egr st' = V4.EcAtm.ing_egr st
  \/ (upper_join_of cells = "INGRESOS"
      /\ V4.EcAtm.ing_egr st' = "IN" /\ V4.EcAtm.motivo_actual st' = "")
  \/ (upper_join_of cells = "EGRESOS"
      /\ V4.EcAtm.ing_egr st' = "OUT" /\ V4.EcAtm.motivo_actual st' = "").
Proof.
  rewrite v4_atm_step_by_kind. pose proof (v4_atm_classify_text cells) as K.
  destruct (V4.EcAtm.classify cells);
    try (intros H; injection H as <- <-; auto; fail); try discriminate.
  destruct (date_index (map strip cells)) as [d|].
  - destruct (nonempty (V4.EcAtm.ing_egr st)
              && nonempty (V4.EcAtm.motivo_actual st));
      intros H; injection H as <- <-; auto.
  - destruct (nonempty (V4.EcAtm.ing_egr st));
      intros H; injection H as <- <-; auto.
Qed.

(** Every record of a run that starts outside or inside a section is in
    section IN or OUT and carries a motive. *)
Lemma v4_atm_run_records (fb : string) (rows : list row) :
  forall st,
    Spec.section_value (V4.EcAtm.ing_egr st) ->
    forall r, In r (snd (V4.EcAtm.run fb st rows)) ->
      (V4.EcAtm.ING_EGR r = "IN" \/ V4.EcAtm.ING_EGR r = "OUT")
      /\ nonempty (V4.EcAtm.MOTIVO_MOVIMIENTO r) = true.
Proof.
  induction rows as [|cells rows IH]; intros st Hsec r; simpl; [intros []|].
  destruct (V4.EcAtm.row_step fb st cells) as [st' e|] eqn:E; [|intros []].
  destruct (V4.EcAtm.run fb st' rows) as [final more] eqn:R. simpl.
  intros Hin. apply in_app_or in Hin. destruct Hin as [Hin|Hin].
  - destruct (v4_atm_step_gate _ _ _ _ _ _ E Hin) as (H1 & H2 & H3 & H4 & _).
    rewrite H3, H4. split; [|exact H2].
    destruct Hsec as [Hs|[Hs|Hs]]; rewrite Hs in *; auto; discriminate.
  - apply (IH st'); [|rewrite R; exact Hin].
    destruct (v4_atm_step_section _ _ _ _ _ E) as [H|[(_ & H & _)|(_ & H & _)]];
      unfold Spec.section_value; rewrite H; auto.
Qed.

(** Without a section row, no record. *)
Lemma v4_atm_no_section_no_records (fb : string) (rows : list row) :
  forall st,
    V4.EcAtm.ing_egr st = "" ->
    (forall cells, In cells rows ->
       contains "INGRESOS" (upper_join_of cells) = false
       /\ contains "EGRESOS" (upper_join_of cells) = false) ->
    snd (V4.EcAtm.run fb st rows) = [].
Proof.
  induction rows as [|cells rows IH]; intros st Hst Hrows; simpl;
    [reflexivity|].
  destruct (V4.EcAtm.row_step fb st cells) as [st' e|] eqn:E; [|reflexivity].
  assert (He : e = []).
  { destruct e as [|r e]; [reflexivity|].
    destruct (v4_atm_step_gate _ _ _ _ _ r E (or_introl eq_refl)) as (H1 & _).
    rewrite Hst in H1. discriminate. }
  assert (Hst' : V4.EcAtm.ing_egr st' = "").
  { destruct (Hrows cells (or_introl eq_refl)) as [Hi Ho].
    destruct (v4_atm_step_section _ _ _ _ _ E) as [H|[(H & _)|(H & _)]].
    - congruence.
    - rewrite H in Hi. discriminate.
    - rewrite H in Ho. discriminate. }
  specialize (IH st' Hst' (fun c Hc => Hrows c (or_intror Hc))).
  destruct (V4.EcAtm.run fb st' rows). simpl in *. subst. reflexivity.
Qed.

(** Under an empty motive, rows with a date cell leave no trace. *)
Lemma v4_atm_dated_rows_without_motive (fb : string) (ds : list row) :
  forall st,
    V4.EcAtm.motivo_actual st = "" ->
    Forall (fun d => V4.EcAtm.classify d = Data
                     /\ date_index (map strip d) <> None) ds ->
    V4.EcAtm.run fb st ds = (st, []).
Proof.
  induction ds as [|d ds IH]; intros st Hm Hds; simpl; [reflexivity|].
  inversion Hds as [|? ? [K D] Hds']; subst.
  rewrite v4_atm_step_by_kind, K.
  destruct (date_index (map strip d)) as [i|]; [|congruence].
  rewrite Hm. cbn [nonempty andb]. rewrite andb_false_r.
  rewrite (IH st Hm Hds'). reflexivity.
Qed.

(** After a section row, rows with a date cell that come before the first
    motive line are dropped. *)
Lemma v4_atm_section_then_dated (fb : string) (sec : row) (ds : list row) :
  V4.EcAtm.classify sec = SectionIn \/ V4.EcAtm.classify sec = SectionOut ->
  Forall (fun d => V4.EcAtm.classify d = Data
                   /\ date_index (map strip d) <> None) ds ->
  forall pre st,
    V4.EcAtm.run fb st (pre ++ sec :: ds) = V4.EcAtm.run fb st (pre ++ [sec]).
Proof.
  intros K Hds. induction pre as [|r pre IH]; intros st; simpl.
  - rewrite v4_atm_step_by_kind.
    destruct K as [K|K]; rewrite K;
      (rewrite v4_atm_dated_rows_without_motive;
       [reflexivity | reflexivity | exact Hds]).
  - destruct (V4.EcAtm.row_step fb st r) as [st' e|]; [|reflexivity].
    rewrite IH. reflexivity.
Qed.

(** ** The wide ledger of [comsol.py], rule by rule *)

Lemma comsol_atm_step_by_kind (st : Comsol.EcAtm.state) (cells : row) :
  Comsol.EcAtm.row_step st cells =
  match Comsol.EcAtm.classify st cells with
  | Blank | Total => Comsol.EcAtm.Next st []
  | Label => Comsol.EcAtm.Next (Comsol.EcAtm.capture st (map strip cells)) []
  | Agency =>
      Comsol.EcAtm.Next
        (Comsol.EcAtm.State
           (match re_search rx_sucursal (line_join_of cells) with
            | Some m => strip (group m)
            | None => Comsol.EcAtm.agencia st
            end)
           (Comsol.EcAtm.fecha_archivo st) (Comsol.EcAtm.ing_egr st)
           (Comsol.EcAtm.motivo_actual st) (Comsol.EcAtm.saldo_ant_usd st)
           (Comsol.EcAtm.saldo_ant_pyg st)) []
  | Statement =>
      Comsol.EcAtm.Next
        (Comsol.EcAtm.State (Comsol.EcAtm.agencia st)
           (match re_search rx_al_fecha (line_join_of cells) with
            | Some m => group m
            | None => Comsol.EcAtm.fecha_archivo st
            end)
           (Comsol.EcAtm.ing_egr st) (Comsol.EcAtm.motivo_actual st)
           (Comsol.EcAtm.saldo_ant_usd st) (Comsol.EcAtm.saldo_ant_pyg st)) []
  | SectionIn =>
      Comsol.EcAtm.Next
        (Comsol.EcAtm.State (Comsol.EcAtm.agencia st)
           (Comsol.EcAtm.fecha_archivo st) "IN" ""
           (Comsol.EcAtm.saldo_ant_usd st) (Comsol.EcAtm.saldo_ant_pyg st)) []
  | SectionOut =>
      Comsol.EcAtm.Next
        (Comsol.EcAtm.State (Comsol.EcAtm.agencia st)
           (Comsol.EcAtm.fecha_archivo st) "OUT" ""
           (Comsol.EcAtm.saldo_ant_usd st) (Comsol.EcAtm.saldo_ant_pyg st)) []
  | Terminal => Comsol.EcAtm.Break
  | Data =>
      match date_index (map strip cells) with
      | None =>
          if nonempty (Comsol.EcAtm.ing_egr st)
          then Comsol.EcAtm.Next
                 (Comsol.EcAtm.State (Comsol.EcAtm.agencia st)
                    (Comsol.EcAtm.fecha_archivo st) (Comsol.EcAtm.ing_egr st)
                    (strip (line_join_of cells))
                    (Comsol.EcAtm.saldo_ant_usd st)
                    (Comsol.EcAtm.saldo_ant_pyg st)) []
          else Comsol.EcAtm.Next st []
      | Some date_idx =>
          if nonempty (Comsol.EcAtm.ing_egr st)
             && nonempty (Comsol.EcAtm.motivo_actual st)
          then Comsol.EcAtm.Next st
                 [Comsol.EcAtm.detail st (map strip cells) date_idx]
          else Comsol.EcAtm.Next st []
      end
  end.
Proof.
  unfold Comsol.EcAtm.row_step, Comsol.EcAtm.classify,
    Comsol.EcAtm.after_label. cbv zeta.
  unfold upper_join_of, line_join_of.
  set (line_join := join_cells (map strip cells)).
  set (upper_join := upper (_strip_accents line_join)).
  destruct (negb (nonempty line_join)); [reflexivity|].
  destruct (contains "SALDO ANTERIOR" upper_join
            && negb (Comsol.EcAtm.captured st)); [reflexivity|].
  destruct (contains "PROSEGUR PARAGUAY S.A." upper_join).
  { destruct (re_search rx_sucursal line_join); [reflexivity|].
    destruct st; reflexivity. }
  destruct (contains "ESTADO DE CUENTA DE" upper_join).
  { destruct (re_search rx_al_fecha line_join); [reflexivity|].
    destruct st; reflexivity. }
  destruct (upper_join =? "INGRESOS"); [reflexivity|].
  destruct (upper_join =? "EGRESOS"); [reflexivity|].
  destruct (contains "INFORME DE PROCESOS" upper_join); [reflexivity|].
  destruct (matches (re_search rx_totales line_join)); reflexivity.
Qed.

Lemma comsol_atm_classify_text (st : Comsol.EcAtm.state) (cells : row) :
  match Comsol.EcAtm.classify st cells with
  | Blank => nonempty (line_join_of cells) = false
  | Label =>
      contains "SALDO ANTERIOR" (upper_join_of cells) = true
      /\ Comsol.EcAtm.captured st = false
  | Agency =>
      contains "PROSEGUR PARAGUAY S.A." (upper_join_of cells)
      = true
  | Statement =>
      contains "ESTADO DE CUENTA DE" (upper_join_of cells)
      = true
  | SectionIn => upper_join_of cells = "INGRESOS"
  | SectionOut => upper_join_of cells = "EGRESOS"
  | Terminal =>
      contains "INFORME DE PROCESOS" (upper_join_of cells)
      = true
  | Total =>
      contains "INFORME DE PROCESOS" (upper_join_of cells)
      = false
      /\ matches (re_search rx_totales (line_join_of cells)) = true
  | Data =>
      contains "INFORME DE PROCESOS" (upper_join_of cells)
      = false
      /\ matches (re_search rx_totales (line_join_of cells)) = false
  end.
Proof.
  unfold upper_join_of, line_join_of, Comsol.EcAtm.classify, fold,
    _strip_accents.
  cbv zeta.
  unfold upper_join_of, line_join_of.
  set (line_join := join_cells (map strip cells)).
  set (upper_join := upper (strip_marks line_join)).
  destruct (nonempty line_join); cbn [negb]; [|reflexivity].
  destruct (contains "SALDO ANTERIOR" upper_join) eqn:E0; cbn [andb];
    [destruct (Comsol.EcAtm.captured st); cbn [negb]; [|split; reflexivity]|];
  (destruct (contains "PROSEGUR PARAGUAY S.A." upper_join); [reflexivity|];
   destruct (contains "ESTADO DE CUENTA DE" upper_join); [reflexivity|];
   destruct (upper_join =? "INGRESOS") eqn:E3;
     [apply String.eqb_eq; exact E3|];
   destruct (upper_join =? "EGRESOS") eqn:E4;
     [apply String.eqb_eq; exact E4|];
   destruct (contains "INFORME DE PROCESOS" upper_join); [reflexivity|];
   destruct (matches (re_search rx_totales line_join)); split; reflexivity).
Qed.

(** Once a balance is captured the label rule no longer takes any row. *)
Lemma comsol_atm_captured_no_label (st : Comsol.EcAtm.state) (cells : row) :
  Comsol.EcAtm.captured st = true ->
  Comsol.EcAtm.classify st cells <> Label.
Proof.
  intros Hc K. pose proof (comsol_atm_classify_text st cells) as T.
  rewrite K in T. destruct T as [_ T]. congruence.
Qed.

(** Only the label rule writes the balances. *)
Lemma comsol_atm_step_saldos (st st' : Comsol.EcAtm.state) (cells : row)
  (emitted : list Comsol.EcAtm.record) :
  Comsol.EcAtm.row_step st cells = Comsol.EcAtm.Next st' emitted ->
  Comsol.EcAtm.classify st cells <> Label ->
  Comsol.EcAtm.saldo_ant_usd st' = Comsol.EcAtm.saldo_ant_usd st
  /\ Comsol.EcAtm.saldo_ant_pyg st' = Comsol.EcAtm.saldo_ant_pyg st.
Proof.
  rewrite comsol_atm_step_by_kind.
  destruct (Comsol.EcAtm.classify st cells);
    try (intros H _; injection H as <- <-; split; reflexivity);
    try discriminate; try (intros _ H; contradiction H; reflexivity).
  destruct (date_index (map strip cells)) as [d|].
  - destruct (nonempty (Comsol.EcAtm.ing_egr st)
              && nonempty (Comsol.EcAtm.motivo_actual st));
      intros H _; injection H as <- <-; split; reflexivity.
  - destruct (nonempty (Comsol.EcAtm.ing_egr st));
      intros H _; injection H as <- <-; split; reflexivity.
Qed.

Lemma comsol_atm_step_captured (st st' : Comsol.EcAtm.state) (cells : row)
  (emitted : list Comsol.EcAtm.record) :
  Comsol.EcAtm.captured st = true ->
  Comsol.EcAtm.row_step st cells = Comsol.EcAtm.Next st' emitted ->
  Comsol.EcAtm.saldo_ant_usd st' = Comsol.EcAtm.saldo_ant_usd st
  /\ Comsol.EcAtm.saldo_ant_pyg st' = Comsol.EcAtm.saldo_ant_pyg st
  /\ Comsol.EcAtm.captured st' = true.
Proof.
  intros Hc E.
  destruct (comsol_atm_step_saldos _ _ _ _ E
              (comsol_atm_captured_no_label st cells Hc)) as [H1 H2].
  repeat split; try assumption.
  unfold Comsol.EcAtm.captured in *. rewrite H1, H2. exact Hc.
Qed.

(** From a state with a captured balance, no row of the rest of the sheet
    changes it. *)
Lemma comsol_atm_run_captured (rows : list row) :
  forall st,
    Comsol.EcAtm.captured st = true ->
    Comsol.EcAtm.saldo_ant_usd (fst (Comsol.EcAtm.run st rows))
    = Comsol.EcAtm.saldo_ant_usd st
    /\ Comsol.EcAtm.saldo_ant_pyg (fst (Comsol.EcAtm.run st rows))
       = Comsol.EcAtm.saldo_ant_pyg st.
Proof.
  induction rows as [|cells rows IH]; intros st Hc; simpl;
    [split; reflexivity|].
  destruct (Comsol.EcAtm.row_step st cells) as [st' e|] eqn:E;
    [|split; reflexivity].
  destruct (comsol_atm_step_captured _ _ _ _ Hc E) as (H1 & H2 & H3).
  specialize (IH st' H3).
  destruct (Comsol.EcAtm.run st' rows). simpl in *.
  rewrite <- H1, <- H2. exact IH.
Qed.

(** The balance captured by the rows read so far survives whatever rows
    follow. *)
Lemma comsol_atm_capture_once (rows2 : list row) :
  forall rows1 st,
    Comsol.EcAtm.captured (fst (Comsol.EcAtm.run st rows1)) = true ->
    Comsol.EcAtm.saldo_ant_usd (fst (Comsol.EcAtm.run st (rows1 ++ rows2)))
    = Comsol.EcAtm.saldo_ant_usd (fst (Comsol.EcAtm.run st rows1))
    /\ Comsol.EcAtm.saldo_ant_pyg (fst (Comsol.EcAtm.run st (rows1 ++ rows2)))
       = Comsol.EcAtm.saldo_ant_pyg (fst (Comsol.EcAtm.run st rows1)).
Proof.
  induction rows1 as [|cells rows1 IH]; intros st.
  - simpl. apply comsol_atm_run_captured.
  - simpl. destruct (Comsol.EcAtm.row_step st cells) as [st' e|];
      [|split; reflexivity].
    specialize (IH st').
    destruct (Comsol.EcAtm.run st' rows1),
      (Comsol.EcAtm.run st' (rows1 ++ rows2)).
    exact IH.
Qed.

Lemma comsol_atm_run_terminal (t : row) (suf : list row) :
  forall pre st,
    Comsol.EcAtm.classify (fst (Comsol.EcAtm.run st pre)) t = Terminal ->
    Comsol.EcAtm.run st (pre ++ t :: suf) = Comsol.EcAtm.run st pre.
Proof.
  induction pre as [|r pre IH]; intros st; simpl.
  - intros K. rewrite comsol_atm_step_by_kind, K. reflexivity.
  - destruct (Comsol.EcAtm.row_step st r) as [st' e|]; [|reflexivity].
    intros K. rewrite IH; [reflexivity|].
    destruct (Comsol.EcAtm.run st' pre). exact K.
Qed.

Lemma comsol_atm_run_total (t : row) (suf : list row) :
  forall pre st,
    Comsol.EcAtm.classify (fst (Comsol.EcAtm.run st pre)) t = Total ->
    Comsol.EcAtm.run st (pre ++ t :: suf) = Comsol.EcAtm.run st (pre ++ suf).
Proof.
  induction pre as [|r pre IH]; intros st; simpl.
  - intros K. rewrite comsol_atm_step_by_kind, K.
    destruct (Comsol.EcAtm.run st suf). reflexivity.
  - destruct (Comsol.EcAtm.row_step st r) as [st' e|]; [|reflexivity].
    intros K. rewrite IH; [reflexivity|].
    destruct (Comsol.EcAtm.run st' pre). exact K.
Qed.

Lemma comsol_atm_step_gate (st st' : Comsol.EcAtm.state) (cells : row)
  (emitted : list Comsol.EcAtm.record) (r : Comsol.EcAtm.record) :
  Comsol.EcAtm.row_step st cells = Comsol.EcAtm.Next st' emitted ->
  In r emitted ->
  nonempty (Comsol.EcAtm.ing_egr st) = true
  /\ nonempty (Comsol.EcAtm.motivo_actual st) = true
  /\ Comsol.EcAtm.ING_EGR r = Comsol.EcAtm.ing_egr st
  /\ Comsol.EcAtm.MOTIVO_MOVIMIENTO r = Comsol.EcAtm.motivo_actual st.
Proof.
  rewrite comsol_atm_step_by_kind.
  destruct (Comsol.EcAtm.classify st cells);
    try (intros H; injection H as <- <-; intros []); try discriminate.
  destruct (date_index (map strip cells)) as [d|].
  - destruct (nonempty (Comsol.EcAtm.ing_egr st)) eqn:E1; cbn [andb];
      [destruct (nonempty (Comsol.EcAtm.motivo_actual st)) eqn:E2|];
      intros H; injection H as <- <-; intros Hin; try contradiction.
    destruct Hin as [<-|[]]. repeat split; reflexivity.
  - destruct (nonempty (Comsol.EcAtm.ing_egr st));
      intros H; injection H as <- <-; intros [].
Qed.

Lemma comsol_atm_step_section (st st' : Comsol.EcAtm.state) (cells : row)
  (emitted : list Comsol.EcAtm.record) :
  Comsol.EcAtm.row_step st cells = Comsol.EcAtm.Next st' emitted ->
  Comsol.EcAtm.ing_egr st' = Comsol.EcAtm.ing_egr st
  \/ (upper_join_of cells = "INGRESOS"
      /\ Comsol.EcAtm.ing_egr st' = "IN")
  \/ (upper_join_of cells = "EGRESOS"
      /\ Comsol.EcAtm.ing_egr st' = "OUT").
Proof.
  rewrite comsol_atm_step_by_kind.
  pose proof (comsol_atm_classify_text st cells) as K.
  destruct (Comsol.EcAtm.classify st cells);
    try (intros H; injection H as <- <-; auto; fail); try discriminate.
  destruct (date_index (map strip cells)) as [d|].
  - destruct (nonempty (Comsol.EcAtm.ing_egr st)
              && nonempty (Comsol.EcAtm.motivo_actual st));
      intros H; injection H as <- <-; auto.
  - destruct (nonempty (Comsol.EcAtm.ing_egr st));
      intros H; injection H as <- <-; auto.
Qed.

Lemma comsol_atm_no_section_no_records (rows : list row) :
  forall st,
    Comsol.EcAtm.ing_egr st = "" ->
    (forall cells, In cells rows ->
       contains "INGRESOS" (upper_join_of cells) = false
       /\ contains "EGRESOS" (upper_join_of cells) = false) ->
    snd (Comsol.EcAtm.run st rows) = [].
Proof.
  induction rows as [|cells rows IH]; intros st Hst Hrows; simpl;
    [reflexivity|].
  destruct (Comsol.EcAtm.row_step st cells) as [st' e|] eqn:E; [|reflexivity].
  assert (He : e = []).
  { destruct e as [|r e]; [reflexivity|].
    destruct (comsol_atm_step_gate _ _ _ _ r E (or_introl eq_refl)) as (H1 & _).
    rewrite Hst in H1. discriminate. }
  assert (Hst' : Comsol.EcAtm.ing_egr st' = "").
  { destruct (Hrows cells (or_introl eq_refl)) as [Hi Ho].
    destruct (comsol_atm_step_section _ _ _ _ E) as [H|[(H & _)|(H & _)]].
    - congruence.
    - rewrite H in Hi. discriminate.
    - rewrite H in Ho. discriminate. }
  specialize (IH st' Hst' (fun c Hc => Hrows c (or_intror Hc))).
  destruct (Comsol.EcAtm.run st' rows). simpl in *. subst. reflexivity.
Qed.

(** ** The bank-statement ledger of [prosegur_unificado_v4_2.py] *)

Lemma find_index_from_sound {A} (p : A -> bool) (l : list A) :
  forall k i, find_index_from p k l = Some i ->
    exists x, nth_error l (i - k) = Some x /\ p x = true.
Proof.
  induction l as [|a l IH]; simpl; intros k i H; [discriminate|].
  destruct (p a) eqn:E.
  - injection H as <-. rewrite Nat.sub_diag. exists a. auto.
  - pose proof (find_index_from_ge _ _ _ _ H) as Hle.
    destruct (IH _ _ H) as (x & Hx & Hp). exists x. split; [|exact Hp].
    replace (i - k) with (S (i - S k)) by lia. exact Hx.
Qed.

(** The receipt of a bank record is the token found by [receipt_index]. *)
Lemma v4_bco_receipt_token (parts : list string) (i : nat) :
  V4.EcBanco.receipt_index parts = Some i ->
  matches (re_fullmatch V4.EcBanco.rx_recibo (nth i parts "")) = true.
Proof.
  unfold V4.EcBanco.receipt_index. intros H.
  pose proof (find_index_from_ge _ _ _ _ H) as Hle.
  destruct (find_index_from_sound _ _ _ _ H) as (x & Hx & Hp).
  destruct parts as [|p0 parts]; simpl in Hx.
  - destruct (i - 1); discriminate.
  - destruct i as [|i]; [lia|]. simpl in *. rewrite Nat.sub_0_r in Hx.
    rewrite (nth_error_nth _ _ _ Hx). exact Hp.
Qed.

Lemma v4_bco_detail_inv (hoja fb : string) (st : V4.EcBanco.state)
  (linea : string) (r : V4.EcBanco.record) :
  In r (V4.EcBanco.detail hoja fb st linea) ->
  V4.EcBanco.ING_EGR r = V4.EcBanco.ing_egr st
  /\ V4.EcBanco.MOTIVO_MOVIMIENTO r = V4.EcBanco.motivo_actual st
  /\ matches (re_fullmatch V4.EcBanco.rx_recibo (V4.EcBanco.RECIBO r)) = true.
Proof.
  unfold V4.EcBanco.detail.
  destruct (split_ws linea) as [|f parts] eqn:P; [intros []|].
  destruct (V4.EcBanco.receipt_index (f :: parts)) as [i|] eqn:R; [|intros []].
  intros [<-|[]]. cbn [V4.EcBanco.ING_EGR V4.EcBanco.MOTIVO_MOVIMIENTO
                        V4.EcBanco.RECIBO].
  repeat split. exact (v4_bco_receipt_token _ _ R).
Qed.

Lemma v4_bco_data_row_inv (hoja fb : string) (st st' : V4.EcBanco.state)
  (linea : string) (e : list V4.EcBanco.record) :
  V4.EcBanco.data_row hoja fb st linea = V4.EcBanco.Next st' e ->
  V4.EcBanco.ing_egr st' = V4.EcBanco.ing_egr st
  /\ forall r, In r e ->
       nonempty (V4.EcBanco.ing_egr st) = true
       /\ nonempty (V4.EcBanco.motivo_actual st) = true
       /\ V4.EcBanco.ING_EGR r = V4.EcBanco.ing_egr st
       /\ V4.EcBanco.MOTIVO_MOVIMIENTO r = V4.EcBanco.motivo_actual st
       /\ matches (re_fullmatch V4.EcBanco.rx_recibo (V4.EcBanco.RECIBO r))
          = true.
Proof.
  unfold V4.EcBanco.data_row, V4.EcBanco.with_moneda. cbv zeta.
  cbn [V4.EcBanco.ing_egr V4.EcBanco.motivo_actual V4.EcBanco.agencia
       V4.EcBanco.fecha_archivo V4.EcBanco.clasificacion
       V4.EcBanco.moneda_actual].
  destruct (nonempty (V4.EcBanco.ing_egr st)) eqn:E1; cbn [andb].
  - destruct (matches (re_match rx_fecha_linea linea)); cbn [negb andb].
    + destruct (nonempty (V4.EcBanco.motivo_actual st)) eqn:E2; cbn [andb];
        intros H; injection H as <- <-; (split; [reflexivity|]);
        [|intros r []].
      intros r Hin. apply v4_bco_detail_inv in Hin.
      cbn [V4.EcBanco.ing_egr V4.EcBanco.motivo_actual] in Hin.
      destruct Hin as (H1 & H2 & H3). auto.
    + intros H; injection H as <- <-. split; [reflexivity|intros r []].
  - intros H; injection H as <- <-. split; [reflexivity|intros r []].
Qed.

(** A data row is handled by lines 311-326. *)
Lemma v4_bco_step_data (hoja fb : string) (st : V4.EcBanco.state)
  (cells : row) :
  V4.EcBanco.classify cells = Data ->
  V4.EcBanco.row_step hoja fb st cells
  = V4.EcBanco.data_row hoja fb st (V4.EcBanco.linea_of cells).
Proof.
  unfold V4.EcBanco.classify, V4.EcBanco.row_step. cbv zeta.
  set (linea := V4.EcBanco.linea_of cells).
  set (linea_up := upper (_strip_accents linea)).
  destruct (negb (nonempty linea)); [discriminate|].
  destruct (contains "PROSEGUR PARAGUAY S.A." linea_up); cbn [andb];
    [destruct (re_search rx_sucursal linea); cbn [matches]; [discriminate|]|];
  (destruct (contains "ESTADO DE CUENTA DE" linea_up); [discriminate|];
   destruct (linea_up =? "INGRESOS"); [discriminate|];
   destruct (linea_up =? "EGRESOS"); [discriminate|];
   destruct (contains "INFORME DE PROCESOS" linea_up); [discriminate|];
   destruct (matches (re_search rx_totales linea)); [discriminate|];
   reflexivity).
Qed.

(** A dated data row without a receipt token: no record; only the sticky
    currency is written. *)
Lemma v4_bco_data_row_no_receipt (hoja fb : string) (st : V4.EcBanco.state)
  (linea : string) :
  matches (re_match rx_fecha_linea linea) = true ->
  V4.EcBanco.receipt_index (split_ws linea) = None ->
  V4.EcBanco.data_row hoja fb st linea
  = V4.EcBanco.Next
      (V4.EcBanco.with_moneda st (V4.EcBanco.moneda_after st linea)) [].
Proof.
  intros Hd Hr. unfold V4.EcBanco.data_row. cbv zeta. rewrite Hd.
  cbn [negb]. rewrite andb_false_r.
  assert (Hdet : forall s, V4.EcBanco.detail hoja fb s linea = []).
  { intros s. unfold V4.EcBanco.detail.
    destruct (split_ws linea); [reflexivity|]. rewrite Hr. reflexivity. }
  rewrite Hdet. destruct (_ && _ && true); reflexivity.
Qed.

(** The gate and the section rule, for every row. *)
Lemma v4_bco_step_inv (hoja fb : string) (st st' : V4.EcBanco.state)
  (cells : row) (e : list V4.EcBanco.record) :
  V4.EcBanco.row_step hoja fb st cells = V4.EcBanco.Next st' e ->
  (V4.EcBanco.ing_egr st' = V4.EcBanco.ing_egr st
   \/ (fold (V4.EcBanco.linea_of cells) = "INGRESOS"
       /\ V4.EcBanco.ing_egr st' = "IN")
   \/ (fold (V4.EcBanco.linea_of cells) = "EGRESOS"
       /\ V4.EcBanco.ing_egr st' = "OUT"))
  /\ forall r, In r e ->
       nonempty (V4.EcBanco.ing_egr st) = true
       /\ nonempty (V4.EcBanco.motivo_actual st) = true
       /\ V4.EcBanco.ING_EGR r = V4.EcBanco.ing_egr st
       /\ V4.EcBanco.MOTIVO_MOVIMIENTO r = V4.EcBanco.motivo_actual st
       /\ matches (re_fullmatch V4.EcBanco.rx_recibo (V4.EcBanco.RECIBO r))
          = true.
Proof.
  unfold V4.EcBanco.row_step, fold, _strip_accents. cbv zeta.
  set (linea := V4.EcBanco.linea_of cells).
  set (linea_up := upper (strip_marks linea)).
  destruct (negb (nonempty linea)).
  { intros H; injection H as <- <-. split; [auto|intros r []]. }
  assert (Hrest : forall st1,
    V4.EcBanco.ing_egr st1 = V4.EcBanco.ing_egr st ->
    V4.EcBanco.motivo_actual st1 = V4.EcBanco.motivo_actual st ->
    (if linea_up =? "INGRESOS"
     then V4.EcBanco.Next
            (V4.EcBanco.State (V4.EcBanco.agencia st1)
               (V4.EcBanco.fecha_archivo st1) (V4.EcBanco.clasificacion st1)
               "IN" "" (V4.EcBanco.moneda_actual st1)) []
     else if linea_up =? "EGRESOS"
     then V4.EcBanco.Next
            (V4.EcBanco.State (V4.EcBanco.agencia st1)
               (V4.EcBanco.fecha_archivo st1) (V4.EcBanco.clasificacion st1)
               "OUT" "" (V4.EcBanco.moneda_actual st1)) []
     else if contains "INFORME DE PROCESOS" linea_up then V4.EcBanco.Break st1
     else if matches (re_search rx_totales linea) then V4.EcBanco.Next st1 []
     else V4.EcBanco.data_row hoja fb st1 linea)
    = V4.EcBanco.Next st' e ->
    (V4.EcBanco.ing_egr st' = V4.EcBanco.ing_egr st
     \/ (linea_up = "INGRESOS" /\ V4.EcBanco.ing_egr st' = "IN")
     \/ (linea_up = "EGRESOS" /\ V4.EcBanco.ing_egr st' = "OUT"))
    /\ forall r, In r e ->
         nonempty (V4.EcBanco.ing_egr st) = true
         /\ nonempty (V4.EcBanco.motivo_actual st) = true
         /\ V4.EcBanco.ING_EGR r = V4.EcBanco.ing_egr st
         /\ V4.EcBanco.MOTIVO_MOVIMIENTO r = V4.EcBanco.motivo_actual st
         /\ matches (re_fullmatch V4.EcBanco.rx_recibo (V4.EcBanco.RECIBO r))
            = true).
  { intros st1 Hi Hm.
    destruct (linea_up =? "INGRESOS") eqn:E3.
    { apply String.eqb_eq in E3. intros H; injection H as <- <-.
      split; [auto|intros r []]. }
    destruct (linea_up =? "EGRESOS") eqn:E4.
    { apply String.eqb_eq in E4. intros H; injection H as <- <-.
      split; [auto|intros r []]. }
    destruct (contains "INFORME DE PROCESOS" linea_up); [discriminate|].
    destruct (matches (re_search rx_totales linea)).
    { intros H; injection H as <- <-. split; [auto|intros r []]. }
    intros H. apply v4_bco_data_row_inv in H. rewrite Hi, Hm in H.
    destruct H as [H1 H2]. split; [auto|exact H2]. }
  destruct (contains "PROSEGUR PARAGUAY S.A." linea_up).
  - destruct (re_search rx_sucursal linea).
    { intros H; injection H as <- <-. split; [auto|intros r []]. }
    destruct (contains "ESTADO DE CUENTA DE" linea_up).
    + destruct (re_search rx_al_fecha linea).
      { intros H; injection H as <- <-. split; [auto|intros r []]. }
      apply Hrest; reflexivity.
    + apply Hrest; reflexivity.
  - destruct (contains "ESTADO DE CUENTA DE" linea_up).
    + destruct (re_search rx_al_fecha linea).
      { intros H; injection H as <- <-. split; [auto|intros r []]. }
      apply Hrest; reflexivity.
    + apply Hrest; reflexivity.
Qed.

Lemma v4_bco_no_section_no_records (hoja fb : string) (rows : list row) :
  forall st,
    V4.EcBanco.ing_egr st = "" ->
    (forall cells, In cells rows ->
       contains "INGRESOS" (fold (V4.EcBanco.linea_of cells)) = false
       /\ contains "EGRESOS" (fold (V4.EcBanco.linea_of cells)) = false) ->
    snd (V4.EcBanco.run hoja fb st rows) = [].
Proof.
  induction rows as [|cells rows IH]; intros st Hst Hrows; simpl;
    [reflexivity|].
  destruct (V4.EcBanco.row_step hoja fb st cells) as [st' e|st'] eqn:E;
    [|reflexivity].
  destruct (v4_bco_step_inv _ _ _ _ _ _ E) as [Hsec Hgate].
  assert (He : e = []).
  { destruct e as [|r e]; [reflexivity|].
    destruct (Hgate r (or_introl eq_refl)) as (H1 & _).
    rewrite Hst in H1. discriminate. }
  assert (Hst' : V4.EcBanco.ing_egr st' = "").
  { destruct (Hrows cells (or_introl eq_refl)) as [Hi Ho].
    destruct Hsec as [H|[(H & _)|(H & _)]].
    - congruence.
    - rewrite H in Hi. discriminate.
    - rewrite H in Ho. discriminate. }
  specialize (IH st' Hst' (fun c Hc => Hrows c (or_intror Hc))).
  destruct (V4.EcBanco.run hoja fb st' rows). simpl in *. subst. reflexivity.
Qed.

(** Every record of a sheet is in section IN or OUT, under a motive, and
    has a receipt token. *)
Lemma v4_bco_run_records (hoja fb : string) (rows : list row) :
  forall st,
    Spec.section_value (V4.EcBanco.ing_egr st) ->
    forall r, In r (snd (V4.EcBanco.run hoja fb st rows)) ->
      (V4.EcBanco.ING_EGR r = "IN" \/ V4.EcBanco.ING_EGR r = "OUT")
      /\ nonempty (V4.EcBanco.MOTIVO_MOVIMIENTO r) = true
      /\ matches (re_fullmatch V4.EcBanco.rx_recibo (V4.EcBanco.RECIBO r))
         = true.
Proof.
  induction rows as [|cells rows IH]; intros st Hsec r; simpl; [intros []|].
  destruct (V4.EcBanco.row_step hoja fb st cells) as [st' e|st'] eqn:E;
    [|intros []].
  destruct (v4_bco_step_inv _ _ _ _ _ _ E) as [Hs Hgate].
  destruct (V4.EcBanco.run hoja fb st' rows) as [final more] eqn:R. simpl.
  intros Hin. apply in_app_or in Hin. destruct Hin as [Hin|Hin].
  - destruct (Hgate r Hin) as (H1 & H2 & H3 & H4 & H5).
    rewrite H3, H4. split; [|split; assumption].
    destruct Hsec as [Hx|[Hx|Hx]]; rewrite Hx in *; auto; discriminate.
  - apply (IH st'); [|rewrite R; exact Hin].
    destruct Hs as [H|[(_ & H)|(_ & H)]];
      unfold Spec.section_value; rewrite H; auto.
Qed.

(** ** The bank-statement ledger of [comsol.py] *)

Lemma comsol_bco_step_by_kind (hoja : string) (st : Comsol.EcBanco.state)
  (cells : row) :
  Comsol.EcBanco.row_step hoja st cells =
  match Comsol.EcBanco.classify st cells with
  | Blank | Total => Comsol.EcBanco.Next st []
  | Label =>
      Comsol.EcBanco.Next (Comsol.EcBanco.capture st (map strip cells)) []
  | Agency =>
      Comsol.EcBanco.Next
        (Comsol.EcBanco.State (Comsol.EcBanco.saldo_anterior_hoja st)
           (match re_search rx_sucursal (line_join_of cells) with
            | Some m => strip (group m)
            | None => Comsol.EcBanco.agencia st
            end)
           (Comsol.EcBanco.fecha_archivo st) (Comsol.EcBanco.ing_egr st)
           (Comsol.EcBanco.motivo_actual st) (Comsol.EcBanco.moneda_actual st))
        []
  | Statement =>
      Comsol.EcBanco.Next
        (Comsol.EcBanco.State (Comsol.EcBanco.saldo_anterior_hoja st)
           (Comsol.EcBanco.agencia st)
           (match re_search rx_al_fecha_sp (line_join_of cells) with
            | Some m_f => group m_f
            | None => Comsol.EcBanco.fecha_archivo st
            end)
           (Comsol.EcBanco.ing_egr st) (Comsol.EcBanco.motivo_actual st)
           (match re_search Comsol.EcBanco.rx_moneda
                    (line_join_of cells) with
            | Some m_mon =>
                Comsol.EcBanco._guess_currency_from_sheet_name (group m_mon)
            | None => Comsol.EcBanco.moneda_actual st
            end)) []
  | SectionIn =>
      Comsol.EcBanco.Next
        (Comsol.EcBanco.State (Comsol.EcBanco.saldo_anterior_hoja st)
           (Comsol.EcBanco.agencia st) (Comsol.EcBanco.fecha_archivo st)
           "IN" "" (Comsol.EcBanco.moneda_actual st)) []
  | SectionOut =>
      Comsol.EcBanco.Next
        (Comsol.EcBanco.State (Comsol.EcBanco.saldo_anterior_hoja st)
           (Comsol.EcBanco.agencia st) (Comsol.EcBanco.fecha_archivo st)
           "OUT" "" (Comsol.EcBanco.moneda_actual st)) []
  | Terminal => Comsol.EcBanco.Break
  | Data =>
      match re_match rx_fecha_linea (line_join_of cells) with
      | Some m_date =>
          if nonempty (Comsol.EcBanco.ing_egr st)
             && nonempty (Comsol.EcBanco.motivo_actual st)
          then Comsol.EcBanco.Next st
                 (Comsol.EcBanco.detail hoja st (map strip cells)
                    (group m_date))
          else Comsol.EcBanco.Next st []
      | None => Comsol.EcBanco.Next st []
      end
  end.
Proof.
  unfold Comsol.EcBanco.row_step, Comsol.EcBanco.classify,
    Comsol.EcBanco.after_label. cbv zeta.
  unfold upper_join_of, line_join_of.
  set (linea := join_cells (map strip cells)).
  set (linea_up := upper (_strip_accents linea)).
  destruct (negb (nonempty linea)); [reflexivity|].
  destruct (contains "SALDO ANTERIOR" linea_up
            && negb (nonempty (Comsol.EcBanco.saldo_anterior_hoja st)));
    [reflexivity|].
  destruct (contains "PROSEGUR PARAGUAY S.A." linea_up).
  { destruct (re_search rx_sucursal linea); [reflexivity|].
    destruct st; reflexivity. }
  destruct (contains "ESTADO DE CUENTA DE" linea_up); [reflexivity|].
  destruct (linea_up =? "INGRESOS"); [reflexivity|].
  destruct (linea_up =? "EGRESOS"); [reflexivity|].
  destruct (contains "INFORME DE PROCESOS" linea_up); [reflexivity|].
  destruct (matches (re_search rx_totales linea)); reflexivity.
Qed.

Lemma comsol_bco_captured_no_label (st : Comsol.EcBanco.state) (cells : row) :
  nonempty (Comsol.EcBanco.saldo_anterior_hoja st) = true ->
  Comsol.EcBanco.classify st cells <> Label.
Proof.
  intros Hc. unfold Comsol.EcBanco.classify. cbv zeta. rewrite Hc.
  cbn [negb]. rewrite andb_false_r.
  repeat match goal with
         | |- (if ?b then _ else _) <> _ => destruct b; try discriminate
         end.
Qed.

(** Only the label rule writes the balance of the sheet. *)
Lemma comsol_bco_step_saldo (hoja : string) (st st' : Comsol.EcBanco.state)
  (cells : row) (e : list Comsol.EcBanco.record) :
  Comsol.EcBanco.row_step hoja st cells = Comsol.EcBanco.Next st' e ->
  Comsol.EcBanco.classify st cells <> Label ->
  Comsol.EcBanco.saldo_anterior_hoja st'
  = Comsol.EcBanco.saldo_anterior_hoja st.
Proof.
  rewrite comsol_bco_step_by_kind.
  destruct (Comsol.EcBanco.classify st cells);
    try (intros H _; injection H as <- <-; reflexivity);
    try discriminate; try (intros _ H; contradiction H; reflexivity).
  destruct (re_match rx_fecha_linea (line_join_of cells)).
  - destruct (nonempty (Comsol.EcBanco.ing_egr st)
              && nonempty (Comsol.EcBanco.motivo_actual st));
      intros H _; injection H as <- <-; reflexivity.
  - intros H _; injection H as <- <-; reflexivity.
Qed.

Lemma comsol_bco_run_captured (hoja : string) (rows : list row) :
  forall st,
    nonempty (Comsol.EcBanco.saldo_anterior_hoja st) = true ->
    Comsol.EcBanco.saldo_anterior_hoja (fst (Comsol.EcBanco.run hoja st rows))
    = Comsol.EcBanco.saldo_anterior_hoja st.
Proof.
  induction rows as [|cells rows IH]; intros st Hc; simpl; [reflexivity|].
  destruct (Comsol.EcBanco.row_step hoja st cells) as [st' e|] eqn:E;
    [|reflexivity].
  pose proof (comsol_bco_step_saldo _ _ _ _ _ E
                (comsol_bco_captured_no_label st cells Hc)) as H1.
  assert (H3 : nonempty (Comsol.EcBanco.saldo_anterior_hoja st') = true)
    by (rewrite H1; exact Hc).
  specialize (IH st' H3).
  destruct (Comsol.EcBanco.run hoja st' rows). simpl in *.
  rewrite <- H1. exact IH.
Qed.

Lemma comsol_bco_capture_once (hoja : string) (rows2 : list row) :
  forall rows1 st,
    nonempty (Comsol.EcBanco.saldo_anterior_hoja
                (fst (Comsol.EcBanco.run hoja st rows1))) = true ->
    Comsol.EcBanco.saldo_anterior_hoja
      (fst (Comsol.EcBanco.run hoja st (rows1 ++ rows2)))
    = Comsol.EcBanco.saldo_anterior_hoja
        (fst (Comsol.EcBanco.run hoja st rows1)).
Proof.
  induction rows1 as [|cells rows1 IH]; intros st.
  - simpl. apply comsol_bco_run_captured.
  - simpl. destruct (Comsol.EcBanco.row_step hoja st cells) as [st' e|];
      [|reflexivity].
    specialize (IH st').
    destruct (Comsol.EcBanco.run hoja st' rows1),
      (Comsol.EcBanco.run hoja st' (rows1 ++ rows2)).
    exact IH.
Qed.

(** In [comsol.py] no rule of the bank-statement loop assigns a motive
    other than the empty one, so the gate of the detail rows never opens. *)
Lemma comsol_bco_step_motive (hoja : string) (st st' : Comsol.EcBanco.state)
  (cells : row) (e : list Comsol.EcBanco.record) :
  Comsol.EcBanco.motivo_actual st = "" ->
  Comsol.EcBanco.row_step hoja st cells = Comsol.EcBanco.Next st' e ->
  Comsol.EcBanco.motivo_actual st' = "" /\ e = [].
Proof.
  intros Hm. rewrite comsol_bco_step_by_kind.
  destruct (Comsol.EcBanco.classify st cells);
    try (intros H; injection H as <- <-; split; [exact Hm|reflexivity]);
    try (intros H; injection H as <- <-; split; reflexivity);
    try discriminate.
  destruct (re_match rx_fecha_linea (line_join_of cells)).
  - rewrite Hm. cbn [nonempty]. rewrite andb_false_r.
    intros H; injection H as <- <-; split; [exact Hm|reflexivity].
  - intros H; injection H as <- <-; split; [exact Hm|reflexivity].
Qed.

Lemma comsol_bco_run_no_records (hoja : string) (rows : list row) :
  forall st,
    Comsol.EcBanco.motivo_actual st = "" ->
    snd (Comsol.EcBanco.run hoja st rows) = [].
Proof.
  induction rows as [|cells rows IH]; intros st Hm; simpl; [reflexivity|].
  destruct (Comsol.EcBanco.row_step hoja st cells) as [st' e|] eqn:E;
    [|reflexivity].
  destruct (comsol_bco_step_motive _ _ _ _ _ Hm E) as [Hm' ->].
  specialize (IH st' Hm'). destruct (Comsol.EcBanco.run hoja st' rows).
  simpl in *. exact IH.
Qed.

(** A data row of the bank ledger of [comsol.py] never writes a loop
    variable, and without a receipt token it adds no record. *)
Lemma comsol_bco_data_row (hoja : string) (st : Comsol.EcBanco.state)
  (cells : row) :
  Comsol.EcBanco.classify st cells = Data ->
  (exists e, Comsol.EcBanco.row_step hoja st cells = Comsol.EcBanco.Next st e)
  /\ (Comsol.EcBanco.receipt_index (filter nonempty (map strip cells)) = None ->
      Comsol.EcBanco.row_step hoja st cells = Comsol.EcBanco.Next st []).
Proof.
  intros K. rewrite comsol_bco_step_by_kind, K.
  destruct (re_match rx_fecha_linea (line_join_of cells)) as [m|].
  - destruct (nonempty (Comsol.EcBanco.ing_egr st)
              && nonempty (Comsol.EcBanco.motivo_actual st)).
    + split; [eexists; reflexivity|].
      intros Hr. unfold Comsol.EcBanco.detail.
      destruct (filter nonempty (map strip cells)); [reflexivity|].
      rewrite Hr. reflexivity.
    + split; [eexists; reflexivity|reflexivity].
  - split; [eexists; reflexivity|reflexivity].
Qed.

(** ** The inventory walk *)

Lemma In_firstn_in {A} (n : nat) (l : list A) (x : A) :
  In x (firstn n l) -> In x l.
Proof.
  revert l; induction n as [|n IH]; intros [|a l]; simpl; try tauto.
  intros [H|H]; [left; exact H | right; exact (IH l H)].
Qed.

Lemma In_skipn_in {A} (n : nat) (l : list A) (x : A) :
  In x (skipn n l) -> In x l.
Proof.
  revert l; induction n as [|n IH]; intros [|a l]; simpl; try tauto.
  intros H; right; exact (IH l H).
Qed.

Section InventoryFacts.

Variable float_int : string -> option Z.
Variable AGRUP_TOKENS TIPO_TOKENS : list string.

(** A text with ':' or '/' is not a denomination. *)
Lemma to_int_denom_rejects (c : V4.Inv.cell) :
  contains ":" (V4.Inv._txt c) = true \/ contains "/" (V4.Inv._txt c) = true ->
  V4.Inv._to_int_denom float_int c = V4.Inv.Ok None.
Proof.
  unfold V4.Inv._to_int_denom. cbv zeta.
  intros [H|H]; rewrite H; [reflexivity|].
  rewrite orb_true_r. reflexivity.
Qed.

Lemma to_int_denom_accepts (c : V4.Inv.cell) (d : Z) :
  V4.Inv._to_int_denom float_int c = V4.Inv.Ok (Some d) ->
  contains ":" (V4.Inv._txt c) = false /\ contains "/" (V4.Inv._txt c) = false.
Proof.
  unfold V4.Inv._to_int_denom. cbv zeta.
  destruct (contains ":" (V4.Inv._txt c)); [discriminate|].
  destruct (contains "/" (V4.Inv._txt c)); [discriminate|]. auto.
Qed.

(** Each entry of [nums] is the denomination reading of a cell of the row. *)
Lemma nums_from_sound (cells : list V4.Inv.cell) :
  forall j l,
    V4.Inv.nums_from float_int j cells = V4.Inv.Ok l ->
    forall k d, In (k, d) l ->
      j <= k
      /\ exists c, nth_error cells (k - j) = Some c
                   /\ V4.Inv._to_int_denom float_int c = V4.Inv.Ok (Some d).
Proof.
  induction cells as [|c cells IH]; intros j l; simpl.
  - intros H; injection H as <-. intros k d [].
  - destruct (V4.Inv._to_int_denom float_int c) as [v|] eqn:E; [|discriminate].
    simpl. destruct (V4.Inv.nums_from float_int (S j) cells) as [l'|] eqn:N;
      [|discriminate].
    simpl. intros H; injection H as <-. intros k d Hin.
    assert (Hrest :
              In (k, d) l' ->
              j <= k
              /\ exists c0,
                   nth_error (c :: cells) (k - j) = Some c0
                   /\ V4.Inv._to_int_denom float_int c0 = V4.Inv.Ok (Some d)).
    { intros Hin'. destruct (IH _ _ N _ _ Hin') as (Hle & c0 & Hn & Hc).
      split; [lia|]. exists c0. split; [|exact Hc].
      replace (k - j) with (S (k - S j)) by lia. exact Hn. }
    destruct v as [d0|]; [|exact (Hrest Hin)].
    destruct Hin as [Heq|Hin]; [|exact (Hrest Hin)].
    injection Heq as <- <-. split; [lia|]. exists c.
    rewrite Nat.sub_diag. split; [reflexivity|exact E].
Qed.

(** A line comes from a row that is not a stop row, carries the
    denomination reading of one of its cells, and the classifiers in force
    after the row's own keywords, of which one at least is set. *)
Lemma inv_step_line (fecha ag : string) (st st' : V4.Inv.state)
  (cells : list V4.Inv.cell) (e : list V4.Inv.line) (l : V4.Inv.line) :
  V4.Inv.row_step float_int AGRUP_TOKENS TIPO_TOKENS fecha ag st cells
  = V4.Inv.Ok (st', e) ->
  In l e ->
  e = [l]
  /\ (exists c,
         In c cells
         /\ V4.Inv._to_int_denom float_int c
            = V4.Inv.Ok (Some (V4.Inv.DENOMINACION l)))
  /\ V4.Inv.AGRUPACION_EFECTIVO l = V4.Inv.cur_agrup st'
  /\ V4.Inv.TIPO_VALOR l = V4.Inv.cur_tipo st'
  /\ nonempty (V4.Inv.cur_agrup st') || nonempty (V4.Inv.cur_tipo st') = true.
Proof.
  unfold V4.Inv.row_step. cbv zeta.
  destruct (V4.Inv.is_stop_row cells).
  { intros H; injection H as <- <-. intros []. }
  destruct (V4.Inv.nums_from float_int 0 cells) as [nums|] eqn:N;
    [|discriminate].
  cbn [V4.Inv.bind]. destruct nums as [|[denom_col denom_val] nums].
  { intros H; injection H as <- <-. intros []. }
  set (left_up := V4.Inv.left_text (firstn denom_col cells)).
  set (tipo := V4.Inv.first_token TIPO_TOKENS left_up (V4.Inv.cur_tipo st)).
  set (agrup := V4.Inv.first_token AGRUP_TOKENS left_up (V4.Inv.cur_agrup st)).
  destruct (nonempty agrup || nonempty tipo) eqn:G; cbn [negb].
  2:{ intros H; injection H as <- <-. intros []. }
  destruct (V4.Inv.take_nums float_int 5 (skipn (S denom_col) cells))
    as [vals|]; [|discriminate].
  cbn [V4.Inv.bind]. intros H; injection H as <- <-. intros [<-|[]].
  cbn [V4.Inv.AGRUPACION_EFECTIVO V4.Inv.TIPO_VALOR V4.Inv.DENOMINACION
       V4.Inv.cur_agrup V4.Inv.cur_tipo].
  repeat split; try reflexivity; try exact G.
  destruct (nums_from_sound _ _ _ N denom_col denom_val (or_introl eq_refl))
    as (_ & c & Hn & Hc).
  exists c. split; [exact (nth_error_In _ _ Hn)|exact Hc].
Qed.

(** With no classifier in force before the row, a line needs a keyword
    among the row's own cells. *)
Lemma inv_step_unclassified (fecha ag : string) (st st' : V4.Inv.state)
  (cells : list V4.Inv.cell) (e : list V4.Inv.line) (l : V4.Inv.line) :
  V4.Inv.cur_agrup st = "" -> V4.Inv.cur_tipo st = "" ->
  V4.Inv.row_step float_int AGRUP_TOKENS TIPO_TOKENS fecha ag st cells
  = V4.Inv.Ok (st', e) ->
  In l e ->
  In (V4.Inv.AGRUPACION_EFECTIVO l) AGRUP_TOKENS
  \/ In (V4.Inv.TIPO_VALOR l) TIPO_TOKENS.
Proof.
  intros Ha Ht. unfold V4.Inv.row_step. cbv zeta.
  destruct (V4.Inv.is_stop_row cells).
  { intros H; injection H as <- <-. intros []. }
  destruct (V4.Inv.nums_from float_int 0 cells) as [nums|]; [|discriminate].
  cbn [V4.Inv.bind]. destruct nums as [|[denom_col denom_val] nums].
  { intros H; injection H as <- <-. intros []. }
  rewrite Ha, Ht. unfold V4.Inv.first_token.
  set (left_up := V4.Inv.left_text (firstn denom_col cells)).
  destruct (find (fun t => contains t left_up) AGRUP_TOKENS) as [a|] eqn:FA;
    destruct (find (fun t => contains t left_up) TIPO_TOKENS) as [t|] eqn:FT;
    match goal with
    | |- context [negb (nonempty "" || nonempty "")] => idtac
    | _ => destruct (negb _)
    end;
    try (intros H; injection H as <- <-; intros []; fail);
    try (destruct (V4.Inv.take_nums float_int 5 (skipn (S denom_col) cells));
         [|discriminate]; cbn [V4.Inv.bind]; intros H; injection H as <- <-;
         intros [<-|[]]; cbn [V4.Inv.AGRUPACION_EFECTIVO V4.Inv.TIPO_VALOR];
         first [ left; exact (proj1 (find_some _ _ FA))
               | right; exact (proj1 (find_some _ _ FT)) ]).
Qed.

Lemma inv_walk_lines (fecha ag : string) (rows : list (list V4.Inv.cell)) :
  forall st l,
    In l (V4.Inv.walk float_int AGRUP_TOKENS TIPO_TOKENS fecha ag st rows) ->
    (exists cells c,
        In cells rows /\ In c cells
        /\ contains ":" (V4.Inv._txt c) = false
        /\ contains "/" (V4.Inv._txt c) = false
        /\ V4.Inv._to_int_denom float_int c
           = V4.Inv.Ok (Some (V4.Inv.DENOMINACION l)))
    /\ nonempty (V4.Inv.AGRUPACION_EFECTIVO l)
       || nonempty (V4.Inv.TIPO_VALOR l) = true.
Proof.
  induction rows as [|cells rows IH]; intros st l; simpl; [intros []|].
  destruct (V4.Inv.row_step float_int AGRUP_TOKENS TIPO_TOKENS fecha ag st
              cells) as [[st' e]|] eqn:E; [|intros []].
  intros Hin. apply in_app_or in Hin. destruct Hin as [Hin|Hin].
  - destruct (inv_step_line _ _ _ _ _ _ _ E Hin)
      as (_ & (c & Hc & Hd) & Ha & Ht & G).
    split; [|rewrite Ha, Ht; exact G].
    exists cells, c. destruct (to_int_denom_accepts _ _ Hd) as [H1 H2].
    repeat split; auto.
  - destruct (IH _ _ Hin) as ((cs & c & H1 & H2) & G).
    split; [|exact G]. exists cs, c. split; [right; exact H1|exact H2].
Qed.

End InventoryFacts.

(** ** Where the classifiers come from *)

Section InventoryClassifiers.

Variable float_int : string -> option Z.
Variable AGRUP_TOKENS TIPO_TOKENS : list string.

(** A row with no denomination cell leaves the classifiers as they are
    and adds no line. *)
Lemma inv_step_no_number (fecha ag : string) (st : V4.Inv.state)
  (cells : list V4.Inv.cell) :
  V4.Inv.nums_from float_int 0 cells = V4.Inv.Ok [] ->
  exists divisa,
    V4.Inv.row_step float_int AGRUP_TOKENS TIPO_TOKENS fecha ag st cells
    = V4.Inv.Ok
        (V4.Inv.State divisa (V4.Inv.cur_agrup st) (V4.Inv.cur_tipo st), []).
Proof.
  intros N. unfold V4.Inv.row_step.
  destruct (V4.Inv.is_stop_row cells).
  - exists (V4.Inv.cur_divisa st). destruct st; reflexivity.
  - cbv zeta. rewrite N. cbn [V4.Inv.bind]. eexists. reflexivity.
Qed.

(** [first_token] keeps the classifier or takes a keyword of the text. *)
Lemma first_token_cases (tokens : list string) (text cur : string) :
  V4.Inv.first_token tokens text cur = cur
  \/ (In (V4.Inv.first_token tokens text cur) tokens
      /\ contains (V4.Inv.first_token tokens text cur) text = true).
Proof.
  unfold V4.Inv.first_token.
  destruct (find (fun t => contains t text) tokens) as [t|] eqn:F;
    [right; exact (find_some _ _ F)|left; reflexivity].
Qed.

(** The classifier [cur] was read left of the denomination cell of one of
    the [rows], unless it is the one the walk began with. *)
Let read_in (tokens : list string) (cur0 cur : string)
  (rows : list (list V4.Inv.cell)) : Prop :=
  cur = cur0
  \/ exists r col d rest,
       In r rows
       /\ V4.Inv.nums_from float_int 0 r = V4.Inv.Ok ((col, d) :: rest)
       /\ In cur tokens
       /\ contains cur (V4.Inv.left_text (firstn col r)) = true.

Lemma read_in_more (tokens : list string) (cur0 cur : string)
  (rows more : list (list V4.Inv.cell)) :
  read_in tokens cur0 cur rows -> read_in tokens cur0 cur (rows ++ more).
Proof.
  intros [H|(r & col & d & rest & Hr & H)]; [left; exact H|right].
  exists r, col, d, rest. split; [apply in_or_app; left; exact Hr|exact H].
Qed.

(** A row changes a classifier only by a keyword left of its own
    denomination cell. *)
Lemma inv_step_classifiers (fecha ag : string) (st st' : V4.Inv.state)
  (cells : list V4.Inv.cell) (e : list V4.Inv.line) :
  V4.Inv.row_step float_int AGRUP_TOKENS TIPO_TOKENS fecha ag st cells
  = V4.Inv.Ok (st', e) ->
  read_in AGRUP_TOKENS (V4.Inv.cur_agrup st) (V4.Inv.cur_agrup st') [cells]
  /\ read_in TIPO_TOKENS (V4.Inv.cur_tipo st) (V4.Inv.cur_tipo st') [cells].
Proof.
  unfold V4.Inv.row_step.
  destruct (V4.Inv.is_stop_row cells).
  { intros H; injection H as <- <-. split; left; reflexivity. }
  cbv zeta.
  destruct (V4.Inv.nums_from float_int 0 cells) as [nums|] eqn:N;
    [|discriminate].
  cbn [V4.Inv.bind]. destruct nums as [|[denom_col denom_val] nums].
  { intros H; injection H as <- <-. split; left; reflexivity. }
  set (left_up := V4.Inv.left_text (firstn denom_col cells)).
  assert (R : forall tokens cur,
             read_in tokens cur (V4.Inv.first_token tokens left_up cur)
               [cells]).
  { intros tokens cur.
    destruct (first_token_cases tokens left_up cur) as [E|[H1 H2]];
      [left; exact E|right].
    exists cells, denom_col, denom_val, nums.
    split; [left; reflexivity|]. split; [exact N|]. split; assumption. }
  destruct (negb _).
  { intros H; injection H as <- <-. split; apply R. }
  destruct (V4.Inv.take_nums float_int 5 (skipn (S denom_col) cells))
    as [vals|]; [|discriminate].
  cbn [V4.Inv.bind]. intros H; injection H as <- <-. split; apply R.
Qed.

Lemma read_in_step (tokens : list string) (cur0 cur cur' : string)
  (rows : list (list V4.Inv.cell)) (cells : list V4.Inv.cell) :
  read_in tokens cur0 cur rows ->
  read_in tokens cur cur' [cells] ->
  read_in tokens cur0 cur' (rows ++ [cells]).
Proof.
  intros H [->|(r & col & d & rest & Hr & H')].
  - apply read_in_more. exact H.
  - right. exists r, col, d, rest.
    split; [apply in_or_app; right; exact Hr|exact H'].
Qed.

(** The classifiers the walk holds after some rows were read in those
    rows. *)
Lemma inv_walk_state_classifiers (fecha ag : string)
  (rows1 : list (list V4.Inv.cell)) :
  forall (rows0 : list (list V4.Inv.cell)) (st0 st : V4.Inv.state),
    read_in AGRUP_TOKENS (V4.Inv.cur_agrup st0) (V4.Inv.cur_agrup st) rows0 ->
    read_in TIPO_TOKENS (V4.Inv.cur_tipo st0) (V4.Inv.cur_tipo st) rows0 ->
    let st1 :=
      V4.Inv.walk_state float_int AGRUP_TOKENS TIPO_TOKENS fecha ag st
        rows1 in
    read_in AGRUP_TOKENS (V4.Inv.cur_agrup st0) (V4.Inv.cur_agrup st1)
      (rows0 ++ rows1)
    /\ read_in TIPO_TOKENS (V4.Inv.cur_tipo st0) (V4.Inv.cur_tipo st1)
         (rows0 ++ rows1).
Proof.
  induction rows1 as [|r rows1 IH]; intros rows0 st0 st Ha Ht;
    cbn [V4.Inv.walk_state].
  - cbv zeta. rewrite app_nil_r. split; assumption.
  - destruct (V4.Inv.row_step float_int AGRUP_TOKENS TIPO_TOKENS fecha ag
                st r) as [[st' e]|] eqn:E.
    + destruct (inv_step_classifiers _ _ _ _ _ _ E) as [Sa St].
      pose proof (read_in_step _ _ _ _ _ _ Ha Sa) as Ha'.
      pose proof (read_in_step _ _ _ _ _ _ Ht St) as Ht'.
      specialize (IH (rows0 ++ [r]) st0 st' Ha' Ht'). cbv zeta in IH.
      rewrite <- app_assoc in IH. exact IH.
    + cbv zeta. split; apply read_in_more; assumption.
Qed.

(** A classifier of a line was read left of the denomination cell of the
    row of the line or of a row before it. *)
Lemma inv_line_classifiers (fecha ag : string)
  (rows1 : list (list V4.Inv.cell)) (cells : list V4.Inv.cell)
  (st st' : V4.Inv.state) (e : list V4.Inv.line) (l : V4.Inv.line) :
  V4.Inv.row_step float_int AGRUP_TOKENS TIPO_TOKENS fecha ag
    (V4.Inv.walk_state float_int AGRUP_TOKENS TIPO_TOKENS fecha ag st rows1)
    cells
  = V4.Inv.Ok (st', e) ->
  In l e ->
  read_in AGRUP_TOKENS (V4.Inv.cur_agrup st) (V4.Inv.AGRUPACION_EFECTIVO l)
    (rows1 ++ [cells])
  /\ read_in TIPO_TOKENS (V4.Inv.cur_tipo st) (V4.Inv.TIPO_VALOR l)
       (rows1 ++ [cells]).
Proof.
  intros E Hin.
  destruct (inv_step_line _ _ _ _ _ _ _ _ _ _ E Hin)
    as (_ & _ & -> & -> & _).
  destruct (inv_walk_state_classifiers fecha ag rows1 [] st st
              (or_introl eq_refl) (or_introl eq_refl)) as [Wa Wt].
  cbn [app] in Wa, Wt.
  destruct (inv_step_classifiers _ _ _ _ _ _ E) as [Sa St].
  split; eapply read_in_step; eassumption.
Qed.

End InventoryClassifiers.

(** The lines of [get_inv_atm] and [get_inv_bco] come from walks over rows
    of their sheets. *)
Lemma inv_entry_lines (float_int : string -> option Z)
  (sheets : list V4.Inv.sheet) (l : V4.Inv.line) :
  In l (V4.Inv.get_inv_atm float_int sheets)
  \/ In l (V4.Inv.get_inv_bco float_int sheets) ->
  (exists sh cells c,
      In sh sheets /\ In cells (V4.Inv.df sh) /\ In c cells
      /\ contains ":" (V4.Inv._txt c) = false
      /\ contains "/" (V4.Inv._txt c) = false
      /\ V4.Inv._to_int_denom float_int c
         = V4.Inv.Ok (Some (V4.Inv.DENOMINACION l)))
  /\ nonempty (V4.Inv.AGRUPACION_EFECTIVO l)
     || nonempty (V4.Inv.TIPO_VALOR l) = true.
Proof.
  unfold V4.Inv.get_inv_atm, V4.Inv.get_inv_bco.
  intros [H|H]; apply in_flat_map in H; destruct H as (sh & Hsh & Hl).
  - unfold V4.Inv.inv_atm_sheet in Hl.
    destruct (V4.Inv.localiza_bloque float_int (V4.Inv.df sh))
      as [[[row_start row_end] code]|]; [|contradiction].
    apply inv_walk_lines in Hl.
    destruct Hl as ((cells & c & H1 & H2) & G). split; [|exact G].
    exists sh, cells, c. split; [exact Hsh|]. split; [|exact H2].
    exact (In_skipn_in _ _ _ (In_firstn_in _ _ _ H1)).
  - unfold V4.Inv.inv_bco_sheet in Hl. apply inv_walk_lines in Hl.
    destruct Hl as ((cells & c & H1 & H2) & G). split; [|exact G].
    exists sh, cells, c. split; [exact Hsh|]. split; [|exact H2].
    exact (In_firstn_in _ _ _ H1).
Qed.

(** ** C1: the section and motive gates *)

(** C1.  In the ledger parsers a row adds a record only when the section
    variable is set (IN or OUT, written only by a row whose folded joined
    text equals "INGRESOS" or "EGRESOS", which also empties the motive) and
    the motive is not empty at that moment.  Hence every record of a sheet
    is in section IN or OUT under a motive; a grid in which no row's folded
    text contains "INGRESOS" or "EGRESOS" gives no record; and rows with a
    date cell that come after a section row and before its first motive
    line are dropped.  Stated for [get_ec_atm] of v4_2, with the gate and
    the no-section property also for [get_ec_banco] of v4_2 and
    [get_ec_atm] of comsol. *)
Theorem ledger_records_are_gated :
  (forall fb st st' cells emitted r,
      V4.EcAtm.row_step fb st cells = V4.EcAtm.Next st' emitted ->
      In r emitted ->
      nonempty (V4.EcAtm.ing_egr st) = true
      /\ nonempty (V4.EcAtm.motivo_actual st) = true
      /\ V4.EcAtm.ING_EGR r = V4.EcAtm.ing_egr st
      /\ V4.EcAtm.MOTIVO_MOVIMIENTO r = V4.EcAtm.motivo_actual st)
  /\ (forall fb st st' cells emitted,
        V4.EcAtm.row_step fb st cells = V4.EcAtm.Next st' emitted ->
        V4.EcAtm.ing_egr st' = V4.EcAtm.ing_egr st
        \/ (upper_join_of cells = "INGRESOS"
            /\ V4.EcAtm.ing_egr st' = "IN"
            /\ V4.EcAtm.motivo_actual st' = "")
        \/ (upper_join_of cells = "EGRESOS"
            /\ V4.EcAtm.ing_egr st' = "OUT"
            /\ V4.EcAtm.motivo_actual st' = ""))
  /\ (forall fb grid r,
        In r (V4.EcAtm.get_ec_atm fb grid) ->
        (V4.EcAtm.ING_EGR r = "IN" \/ V4.EcAtm.ING_EGR r = "OUT")
        /\ nonempty (V4.EcAtm.MOTIVO_MOVIMIENTO r) = true)
  /\ (forall fb grid,
        (forall cells, In cells grid ->
           contains "INGRESOS" (upper_join_of cells) = false
           /\ contains "EGRESOS" (upper_join_of cells) = false) ->
        V4.EcAtm.get_ec_atm fb grid = [])
  /\ (forall fb st pre sec ds,
        V4.EcAtm.classify sec = SectionIn
        \/ V4.EcAtm.classify sec = SectionOut ->
        Forall (fun d => V4.EcAtm.classify d = Data
                         /\ date_index (map strip d) <> None) ds ->
        V4.EcAtm.run fb st (pre ++ sec :: ds)
        = V4.EcAtm.run fb st (pre ++ [sec]))
  /\ (forall fb hojas r,
        In r (V4.EcBanco.get_ec_banco fb hojas) ->
        (V4.EcBanco.ING_EGR r = "IN" \/ V4.EcBanco.ING_EGR r = "OUT")
        /\ nonempty (V4.EcBanco.MOTIVO_MOVIMIENTO r) = true)
  /\ (forall fb hojas,
        (forall hoja cells, In hoja hojas -> In cells (snd hoja) ->
           contains "INGRESOS" (fold (V4.EcBanco.linea_of cells)) = false
           /\ contains "EGRESOS" (fold (V4.EcBanco.linea_of cells)) = false) ->
        V4.EcBanco.get_ec_banco fb hojas = [])
  /\ (forall st st' cells emitted r,
        Comsol.EcAtm.row_step st cells = Comsol.EcAtm.Next st' emitted ->
        In r emitted ->
        nonempty (Comsol.EcAtm.ing_egr st) = true
        /\ nonempty (Comsol.EcAtm.motivo_actual st) = true)
  /\ (forall grid,
        (forall cells, In cells grid ->
           contains "INGRESOS" (upper_join_of cells) = false
           /\ contains "EGRESOS" (upper_join_of cells) = false) ->
        Comsol.EcAtm.get_ec_atm grid = []).
Proof.
  repeat match goal with |- _ /\ _ => split end.
  - intros fb st st' cells emitted r E Hin.
    destruct (v4_atm_step_gate _ _ _ _ _ _ E Hin) as (H1 & H2 & H3 & H4 & _).
    auto.
  - intros fb st st' cells emitted E. exact (v4_atm_step_section _ _ _ _ _ E).
  - intros fb grid r. apply v4_atm_run_records. left. reflexivity.
  - intros fb grid H. apply v4_atm_no_section_no_records; [reflexivity|exact H].
  - intros fb st pre sec ds K Hds. apply v4_atm_section_then_dated; assumption.
  - intros fb hojas r Hin. unfold V4.EcBanco.get_ec_banco in Hin.
    apply in_flat_map in Hin. destruct Hin as ([hoja rows] & _ & Hin).
    unfold V4.EcBanco.sheet_records in Hin. simpl fst in Hin. simpl snd in Hin.
    apply v4_bco_run_records in Hin; [|left; reflexivity].
    destruct Hin as (H1 & H2 & _). auto.
  - intros fb hojas H. unfold V4.EcBanco.get_ec_banco.
    induction hojas as [|[hoja rows] hojas IH]; [reflexivity|].
    simpl. rewrite IH by (intros h c Hh; apply H; right; exact Hh).
    rewrite app_nil_r. unfold V4.EcBanco.sheet_records. simpl fst. simpl snd.
    apply v4_bco_no_section_no_records; [reflexivity|].
    intros cells Hc. exact (H (hoja, rows) cells (or_introl eq_refl) Hc).
  - intros st st' cells emitted r E Hin.
    destruct (comsol_atm_step_gate _ _ _ _ _ E Hin) as (H1 & H2 & _). auto.
  - intros grid H.
    apply comsol_atm_no_section_no_records; [reflexivity|exact H].
Qed.

(** A grid with a motive line and a detail row but no section row gives
    no record. *)
Lemma ledger_records_are_gated_witness :
  V4.EcAtm.get_ec_atm "ASU"
    [["DEPOSITO"]; [""; "15/03/2024"; "Centro"; "000123456"; "3"; "100"; "0"]]
  = [].
Proof.
  refine (proj1 (proj2 (proj2 (proj2 ledger_records_are_gated))) "ASU" _ _).
  intros cells [<-|[<-|[]]]; split; vm_compute; reflexivity.
Defined.

(** ** C2: total rows *)

(** C2 (amended).  A total row -- a row whose joined text matches
    [\b(TOTAL|SUBTOTAL)\b] and that no rule above the total rule takes --
    adds no record and leaves every loop variable as it was, the motive
    included: the loop reads on as if the row were not there, so a detail
    row after it is recorded under the motive in force before it. *)
Theorem total_row_changes_nothing :
  (forall fb st t,
      V4.EcAtm.classify t = Total ->
      V4.EcAtm.row_step fb st t = V4.EcAtm.Next st [])
  /\ (forall fb st pre t suf,
        V4.EcAtm.classify t = Total ->
        V4.EcAtm.run fb st (pre ++ t :: suf) = V4.EcAtm.run fb st (pre ++ suf))
  /\ (forall t,
        V4.EcAtm.classify t = Total ->
        matches (re_search rx_totales (line_join_of t)) = true)
  /\ (forall st t,
        Comsol.EcAtm.classify st t = Total ->
        Comsol.EcAtm.row_step st t = Comsol.EcAtm.Next st [])
  /\ (forall st pre t suf,
        Comsol.EcAtm.classify (fst (Comsol.EcAtm.run st pre)) t = Total ->
        Comsol.EcAtm.run st (pre ++ t :: suf)
        = Comsol.EcAtm.run st (pre ++ suf)).
Proof.
  repeat match goal with |- _ /\ _ => split end.
  - intros fb st t K. rewrite v4_atm_step_by_kind, K. reflexivity.
  - intros fb st pre t suf K. apply v4_atm_run_total. exact K.
  - intros t K. pose proof (v4_atm_classify_text t) as T. rewrite K in T.
    exact (proj2 T).
  - intros st t K. rewrite comsol_atm_step_by_kind, K. reflexivity.
  - intros st pre t suf K. apply comsol_atm_run_total. exact K.
Qed.

(** A total row read under the motive "DEPOSITO". *)
Lemma total_row_changes_nothing_witness :
  V4.EcAtm.row_step "" (V4.EcAtm.State "" "" "IN" "DEPOSITO")
    ["Total general"; "5"; "1.000"]
  = V4.EcAtm.Next (V4.EcAtm.State "" "" "IN" "DEPOSITO") [].
Proof.
  refine (proj1 total_row_changes_nothing "" _ _ _).
  vm_compute; reflexivity.
Defined.

(** C2 as stated fails: the total row does not clear the motive, and the
    detail row after it is recorded under the old motive, in both files.
    A row whose text matches the total pattern but which the agency rule
    takes first is not a total row to the loop: it sets the agency. *)
Lemma total_row_keeps_motive :
  V4.EcAtm.row_step "" (V4.EcAtm.State "" "" "IN" "DEPOSITO") ["TOTAL"]
  = V4.EcAtm.Next (V4.EcAtm.State "" "" "IN" "DEPOSITO") []
  /\ matches (re_search rx_totales
                "PROSEGUR PARAGUAY S.A. (SUCURSAL: CDE) - TOTAL") = true
  /\ V4.EcAtm.row_step "" (V4.EcAtm.State "" "" "IN" "DEPOSITO")
       ["PROSEGUR PARAGUAY S.A. (SUCURSAL: CDE) - TOTAL"]
     = V4.EcAtm.Next (V4.EcAtm.State "CDE" "" "IN" "DEPOSITO") []
  /\ map V4.EcAtm.MOTIVO_MOVIMIENTO
       (V4.EcAtm.get_ec_atm ""
          [["INGRESOS"]; ["DEPOSITO"]; ["TOTAL"];
           ["15/03/2024"; "Centro"; "123456"; "1"; "100"; "0"]])
     = ["DEPOSITO"]
  /\ map Comsol.EcAtm.MOTIVO_MOVIMIENTO
       (Comsol.EcAtm.get_ec_atm
          [["INGRESOS"]; ["DEPOSITO"]; ["TOTAL"];
           ["15/03/2024"; "Centro"; "123456"; "1"; "100"; "0"]])
     = ["DEPOSITO"].
Proof. repeat split; vm_compute; reflexivity. Qed.

(** ** C9: the terminal marker *)

Lemma comsol_atm_marker_kinds (st : Comsol.EcAtm.state) (cells : row) :
  contains "INFORME DE PROCESOS" (upper_join_of cells) = true ->
  Comsol.EcAtm.classify st cells = Terminal
  \/ Comsol.EcAtm.classify st cells = Label
  \/ Comsol.EcAtm.classify st cells = Agency
  \/ Comsol.EcAtm.classify st cells = Statement.
Proof.
  intros H. pose proof (comsol_atm_classify_text st cells) as K.
  destruct (Comsol.EcAtm.classify st cells); auto.
  - unfold upper_join_of in H.
    destruct (line_join_of cells); [discriminate H|discriminate K].
  - rewrite K in H. discriminate H.
  - rewrite K in H. discriminate H.
  - destruct K as [K _]. congruence.
  - destruct K as [K _]. congruence.
Qed.

(** C9 (amended).  Once the loop reaches a terminal row -- a row whose
    folded text contains "INFORME DE PROCESOS" and that no rule above the
    terminal rule takes -- it stops: the variables and the records are those
    of the rows before it, whatever rows follow.  The rules above it are the
    agency header with a SUCURSAL match and the statement header with an
    "AL:" date in v4_2; the opening-balance label while no balance is
    captured, and any agency or statement header, in comsol. *)
Theorem terminal_row_ends_scan :
  (forall fb st pre t suf,
      V4.EcAtm.classify t = Terminal ->
      V4.EcAtm.run fb st (pre ++ t :: suf) = V4.EcAtm.run fb st pre)
  /\ (forall t,
        V4.EcAtm.classify t = Terminal ->
        contains "INFORME DE PROCESOS" (upper_join_of t) = true)
  /\ (forall t,
        contains "INFORME DE PROCESOS" (upper_join_of t) = true ->
        V4.EcAtm.classify t = Terminal
        \/ V4.EcAtm.classify t = Agency
        \/ V4.EcAtm.classify t = Statement)
  /\ (forall st pre t suf,
        Comsol.EcAtm.classify (fst (Comsol.EcAtm.run st pre)) t = Terminal ->
        Comsol.EcAtm.run st (pre ++ t :: suf) = Comsol.EcAtm.run st pre)
  /\ (forall st t,
        contains "INFORME DE PROCESOS" (upper_join_of t) = true ->
        Comsol.EcAtm.classify st t = Terminal
        \/ Comsol.EcAtm.classify st t = Label
        \/ Comsol.EcAtm.classify st t = Agency
        \/ Comsol.EcAtm.classify st t = Statement).
Proof.
  repeat match goal with |- _ /\ _ => split end.
  - intros fb st pre t suf K. apply v4_atm_run_terminal. exact K.
  - intros t K. pose proof (v4_atm_classify_text t) as T. rewrite K in T.
    exact T.
  - exact v4_atm_marker_kinds.
  - intros st pre t suf K. apply comsol_atm_run_terminal. exact K.
  - exact comsol_atm_marker_kinds.
Qed.

(** A total row, a label row and a detail row after the marker are not
    read. *)
Lemma terminal_row_ends_scan_witness :
  V4.EcAtm.run "" V4.EcAtm.initial
    ([["INGRESOS"]; ["DEPOSITO"]] ++
     ["Informe de procesos"] ::
     [["TOTAL"]; ["Saldo Anterior"; "5"];
      ["15/03/2024"; "Centro"; "123456"; "1"; "100"; "0"]])
  = V4.EcAtm.run "" V4.EcAtm.initial [["INGRESOS"]; ["DEPOSITO"]].
Proof.
  refine (proj1 terminal_row_ends_scan "" _ _ _ _ _).
  vm_compute; reflexivity.
Defined.

(** C9 as stated fails: a row that contains the marker but is taken by the
    agency rule does not stop the loop; the rows after it are read and add
    a record. *)
Lemma marker_in_agency_row_does_not_stop :
  contains "INFORME DE PROCESOS"
    (fold "PROSEGUR PARAGUAY S.A. (SUCURSAL: ASU) INFORME DE PROCESOS") = true
  /\ V4.EcAtm.get_ec_atm ""
       [["PROSEGUR PARAGUAY S.A. (SUCURSAL: ASU) INFORME DE PROCESOS"];
        ["INGRESOS"]; ["DEPOSITO"];
        ["15/03/2024"; "Centro"; "123456"; "1"; "100"; "0"]]
     = [V4.EcAtm.Record_ "15/03/2024" "Centro" "123456" "1" "100" "0" "IN"
          "ATM" "" "DEPOSITO" "ASU"].
Proof. split; vm_compute; reflexivity. Qed.

(** ** C4: the opening balance is captured once *)

(** C4 (amended).  Once opening-balance values are captured, the label
    rule takes no further row and no row of the rest of the sheet changes
    the captured values, for the two balances of [get_ec_atm] and for the
    balance of each sheet of [get_ec_banco].  A later row with "Saldo
    Anterior" is not skipped: it goes to the rules below the label rule,
    and in [get_ec_atm] such a row that no other rule takes and that holds
    no date becomes the motive of the section. *)
Theorem opening_balance_captured_once :
  (forall st cells,
      Comsol.EcAtm.captured st = true ->
      Comsol.EcAtm.classify st cells <> Label)
  /\ (forall st st' cells emitted,
        Comsol.EcAtm.captured st = true ->
        Comsol.EcAtm.row_step st cells = Comsol.EcAtm.Next st' emitted ->
        Comsol.EcAtm.saldo_ant_usd st' = Comsol.EcAtm.saldo_ant_usd st
        /\ Comsol.EcAtm.saldo_ant_pyg st' = Comsol.EcAtm.saldo_ant_pyg st)
  /\ (forall st rows1 rows2,
        Comsol.EcAtm.captured (fst (Comsol.EcAtm.run st rows1)) = true ->
        Comsol.EcAtm.saldo_ant_usd (fst (Comsol.EcAtm.run st (rows1 ++ rows2)))
        = Comsol.EcAtm.saldo_ant_usd (fst (Comsol.EcAtm.run st rows1))
        /\ Comsol.EcAtm.saldo_ant_pyg
             (fst (Comsol.EcAtm.run st (rows1 ++ rows2)))
           = Comsol.EcAtm.saldo_ant_pyg (fst (Comsol.EcAtm.run st rows1)))
  /\ (forall st cells,
        nonempty (Comsol.EcBanco.saldo_anterior_hoja st) = true ->
        Comsol.EcBanco.classify st cells <> Label)
  /\ (forall hoja st st' cells emitted,
        nonempty (Comsol.EcBanco.saldo_anterior_hoja st) = true ->
        Comsol.EcBanco.row_step hoja st cells
        = Comsol.EcBanco.Next st' emitted ->
        Comsol.EcBanco.saldo_anterior_hoja st'
        = Comsol.EcBanco.saldo_anterior_hoja st)
  /\ (forall hoja st rows1 rows2,
        nonempty (Comsol.EcBanco.saldo_anterior_hoja
                    (fst (Comsol.EcBanco.run hoja st rows1))) = true ->
        Comsol.EcBanco.saldo_anterior_hoja
          (fst (Comsol.EcBanco.run hoja st (rows1 ++ rows2)))
        = Comsol.EcBanco.saldo_anterior_hoja
            (fst (Comsol.EcBanco.run hoja st rows1)))
  /\ (forall st cells,
        Comsol.EcAtm.captured st = true ->
        nonempty (line_join_of cells) = true ->
        Comsol.EcAtm.row_step st cells
        = Comsol.EcAtm.after_label st (map strip cells) (line_join_of cells)
            (upper_join_of cells))
  /\ (forall hoja st cells,
        nonempty (Comsol.EcBanco.saldo_anterior_hoja st) = true ->
        nonempty (line_join_of cells) = true ->
        Comsol.EcBanco.row_step hoja st cells
        = Comsol.EcBanco.after_label hoja st (map strip cells)
            (line_join_of cells) (upper_join_of cells))
  /\ (forall st cells,
        Comsol.EcAtm.captured st = true ->
        contains "SALDO ANTERIOR" (upper_join_of cells) = true ->
        Comsol.EcAtm.classify st cells = Data ->
        date_index (map strip cells) = None ->
        nonempty (Comsol.EcAtm.ing_egr st) = true ->
        Comsol.EcAtm.row_step st cells
        = Comsol.EcAtm.Next
            (Comsol.EcAtm.State (Comsol.EcAtm.agencia st)
               (Comsol.EcAtm.fecha_archivo st) (Comsol.EcAtm.ing_egr st)
               (strip (line_join_of cells))
               (Comsol.EcAtm.saldo_ant_usd st)
               (Comsol.EcAtm.saldo_ant_pyg st)) []).
Proof.
  repeat match goal with |- _ /\ _ => split end.
  - exact comsol_atm_captured_no_label.
  - intros st st' cells emitted Hc E.
    destruct (comsol_atm_step_captured _ _ _ _ Hc E) as (H1 & H2 & _). auto.
  - intros st rows1 rows2. apply comsol_atm_capture_once.
  - exact comsol_bco_captured_no_label.
  - intros hoja st st' cells emitted Hc E.
    exact (comsol_bco_step_saldo _ _ _ _ _ E
             (comsol_bco_captured_no_label st cells Hc)).
  - intros hoja st rows1 rows2. apply comsol_bco_capture_once.
  - intros st cells Hc Hn. unfold Comsol.EcAtm.row_step. cbv zeta.
    unfold upper_join_of, line_join_of in *.
    rewrite Hn, Hc, andb_false_r. reflexivity.
  - intros hoja st cells Hc Hn. unfold Comsol.EcBanco.row_step. cbv zeta.
    unfold upper_join_of, line_join_of in *.
    rewrite Hn, Hc, andb_false_r. reflexivity.
  - intros st cells _ _ Hk Hd Hs.
    rewrite comsol_atm_step_by_kind, Hk, Hd, Hs. reflexivity.
Qed.

(** The label on two rows: the values of the first row stay, in
    [get_ec_atm] and in [get_ec_banco], and the second row becomes the
    motive of the section. *)
Lemma opening_balance_captured_once_witness :
  (Comsol.EcAtm.saldo_ant_usd
     (fst (Comsol.EcAtm.run Comsol.EcAtm.initial
             ([["Saldo Anterior"; ""; "1.200,50"; ""; "3.400.000"]] ++
              [["INGRESOS"]; ["SALDO ANTERIOR"; "99"; "98"]])))
   = "1.200,50"
   /\ Comsol.EcAtm.saldo_ant_pyg
        (fst (Comsol.EcAtm.run Comsol.EcAtm.initial
                ([["Saldo Anterior"; ""; "1.200,50"; ""; "3.400.000"]] ++
                 [["INGRESOS"]; ["SALDO ANTERIOR"; "99"; "98"]])))
      = "3.400.000")
  /\ Comsol.EcAtm.row_step
       (Comsol.EcAtm.State "" "" "IN" "" "1.200,50" "3.400.000")
       ["SALDO ANTERIOR"; "99"; "98"]
     = Comsol.EcAtm.Next
         (Comsol.EcAtm.State "" "" "IN" "SALDO ANTERIOR 99 98" "1.200,50"
            "3.400.000") []
  /\ Comsol.EcBanco.saldo_anterior_hoja
       (fst (Comsol.EcBanco.run "GUARANIES"
               (Comsol.EcBanco.initial "GUARANIES")
               ([["Saldo Anterior"; "3.400.000"]] ++
                [["INGRESOS"]; ["SALDO ANTERIOR"; "99"]])))
     = "3.400.000".
Proof.
  split; [|split].
  - refine (proj1 (proj2 (proj2 opening_balance_captured_once))
              Comsol.EcAtm.initial
              [["Saldo Anterior"; ""; "1.200,50"; ""; "3.400.000"]]
              [["INGRESOS"]; ["SALDO ANTERIOR"; "99"; "98"]] _).
    vm_compute; reflexivity.
  - refine (proj2 (proj2 (proj2 (proj2 (proj2 (proj2 (proj2 (proj2
              opening_balance_captured_once)))))))
              (Comsol.EcAtm.State "" "" "IN" "" "1.200,50" "3.400.000")
              ["SALDO ANTERIOR"; "99"; "98"] _ _ _ _ _);
      vm_compute; reflexivity.
  - refine (proj1 (proj2 (proj2 (proj2 (proj2 (proj2
              opening_balance_captured_once)))))
              "GUARANIES" (Comsol.EcBanco.initial "GUARANIES")
              [["Saldo Anterior"; "3.400.000"]]
              [["INGRESOS"]; ["SALDO ANTERIOR"; "99"]] _).
    vm_compute; reflexivity.
Defined.

(** C4 as stated fails where it says that a later row with the label is
    skipped.  After the balances are captured, the second label row of this
    sheet is read as the motive of the section, and the dated row below it
    is recorded under that motive, with the balances of the first label
    row; without the second label row the dated row has no motive and gives
    no record. *)
Lemma later_label_row_becomes_motive :
  Comsol.EcAtm.get_ec_atm
    [["Saldo Anterior"; ""; "1.200,50"; ""; "3.400.000"];
     ["INGRESOS"];
     ["SALDO ANTERIOR"; "99"; "98"];
     ["15/03/2024"; "Casa Matriz"; "000123"; "3"; "1.500.000"; "0"]]
  = [Comsol.EcAtm.Record_ "15/03/2024" "Casa Matriz" "000123" "3"
       "1.500.000" "0" "IN" "ATM" "" "SALDO ANTERIOR 99 98" ""
       "3.400.000" "1.200,50"]
  /\ Comsol.EcAtm.get_ec_atm
       [["Saldo Anterior"; ""; "1.200,50"; ""; "3.400.000"];
        ["INGRESOS"];
        ["15/03/2024"; "Casa Matriz"; "000123"; "3"; "1.500.000"; "0"]]
     = [].
Proof. split; vm_compute; reflexivity. Qed.

(** ** C6: clock times and dates are never denominations *)

(** C6.  In the inventory parsers a cell whose text contains ':' or '/' is
    never a denomination candidate, and the DENOMINACION of every line of
    [get_inv_atm] and [get_inv_bco] is the reading of a cell of the sheet
    whose text contains neither. *)
Theorem denomination_never_time_or_date (float_int : string -> option Z) :
  (forall c,
      contains ":" (V4.Inv._txt c) = true
      \/ contains "/" (V4.Inv._txt c) = true ->
      V4.Inv._to_int_denom float_int c = V4.Inv.Ok None)
  /\ (forall sheets l,
        In l (V4.Inv.get_inv_atm float_int sheets)
        \/ In l (V4.Inv.get_inv_bco float_int sheets) ->
        exists sh cells c,
          In sh sheets /\ In cells (V4.Inv.df sh) /\ In c cells
          /\ contains ":" (V4.Inv._txt c) = false
          /\ contains "/" (V4.Inv._txt c) = false
          /\ V4.Inv._to_int_denom float_int c
             = V4.Inv.Ok (Some (V4.Inv.DENOMINACION l))).
Proof.
  split.
  - apply to_int_denom_rejects.
  - intros sheets l H. exact (proj1 (inv_entry_lines float_int sheets l H)).
Qed.

(** A clock time and a date, whose digits alone would read 628 and
    23102025. *)
Lemma denomination_never_time_or_date_witness :
  V4.Inv._to_int_denom (fun _ => None) (V4.Inv.CStr "6:28") = V4.Inv.Ok None
  /\ V4.Inv._to_int_denom (fun _ => None) (V4.Inv.CStr "23/10/2025")
     = V4.Inv.Ok None.
Proof.
  split.
  - refine (proj1 (denomination_never_time_or_date (fun _ => None)) _ _).
    left; vm_compute; reflexivity.
  - refine (proj1 (denomination_never_time_or_date (fun _ => None)) _ _).
    right; vm_compute; reflexivity.
Defined.

(** ** C7: unclassified numeric rows *)

(** C7 (amended).  The inventory parsers add a line for a row only when a
    cash-grouping or value-type classifier is in force once the row's own
    keyword cells (those left of its denomination cell) are read: the line
    carries them and one at least is not empty, and with none in force before
    the row the keyword is among the row's own cells.  A row with no
    denomination cell establishes nothing: it leaves both classifiers as
    they are and adds no line; so a classifier of a line was read left of
    the denomination cell of the row of the line or of a row before it.
    With TESORO ATM and BILLETES in force the numeric row of the scenario
    gives one line with DENOMINACION 50000, DEPOSITO 12 and IMPORTE_TOTAL
    600000; with none in force it gives no line. *)
Theorem inventory_line_needs_classifier (float_int : string -> option Z) :
  (forall sheets l,
      In l (V4.Inv.get_inv_atm float_int sheets)
      \/ In l (V4.Inv.get_inv_bco float_int sheets) ->
      nonempty (V4.Inv.AGRUPACION_EFECTIVO l)
      || nonempty (V4.Inv.TIPO_VALOR l) = true)
  /\ (forall agrup_tokens tipo_tokens fecha ag st st' cells emitted l,
        V4.Inv.row_step float_int agrup_tokens tipo_tokens fecha ag st cells
        = V4.Inv.Ok (st', emitted) ->
        In l emitted ->
        V4.Inv.AGRUPACION_EFECTIVO l = V4.Inv.cur_agrup st'
        /\ V4.Inv.TIPO_VALOR l = V4.Inv.cur_tipo st'
        /\ nonempty (V4.Inv.cur_agrup st') || nonempty (V4.Inv.cur_tipo st')
           = true)
  /\ (forall agrup_tokens tipo_tokens fecha ag st st' cells emitted l,
        V4.Inv.cur_agrup st = "" -> V4.Inv.cur_tipo st = "" ->
        V4.Inv.row_step float_int agrup_tokens tipo_tokens fecha ag st cells
        = V4.Inv.Ok (st', emitted) ->
        In l emitted ->
        In (V4.Inv.AGRUPACION_EFECTIVO l) agrup_tokens
        \/ In (V4.Inv.TIPO_VALOR l) tipo_tokens)
  /\ (forall fecha ag divisa,
        V4.Inv.row_step float_int V4.Inv.ATM_AGRUP_TOKENS
          V4.Inv.ATM_TIPO_TOKENS fecha ag
          (V4.Inv.State divisa "TESORO ATM" "BILLETES")
          [V4.Inv.CStr "50000"; V4.Inv.CStr "12"; V4.Inv.CStr "0";
           V4.Inv.CStr "0"; V4.Inv.CStr "0"; V4.Inv.CStr "600000"]
        = V4.Inv.Ok
            (V4.Inv.State divisa "TESORO ATM" "BILLETES",
             [V4.Inv.Line fecha (or_str divisa "PYG") ag "TESORO ATM"
                "BILLETES" 50000 12 0 0 0 600000]))
  /\ (forall fecha ag divisa,
        V4.Inv.row_step float_int V4.Inv.ATM_AGRUP_TOKENS
          V4.Inv.ATM_TIPO_TOKENS fecha ag (V4.Inv.State divisa "" "")
          [V4.Inv.CStr "50000"; V4.Inv.CStr "12"; V4.Inv.CStr "0";
           V4.Inv.CStr "0"; V4.Inv.CStr "0"; V4.Inv.CStr "600000"]
        = V4.Inv.Ok (V4.Inv.State divisa "" "", []))
  /\ (forall agrup_tokens tipo_tokens fecha ag st cells,
        V4.Inv.nums_from float_int 0 cells = V4.Inv.Ok [] ->
        exists divisa,
          V4.Inv.row_step float_int agrup_tokens tipo_tokens fecha ag st
            cells
          = V4.Inv.Ok
              (V4.Inv.State divisa (V4.Inv.cur_agrup st)
                 (V4.Inv.cur_tipo st), []))
  /\ (forall agrup_tokens tipo_tokens fecha ag rows1 cells st st' emitted l,
        V4.Inv.cur_agrup st = "" -> V4.Inv.cur_tipo st = "" ->
        V4.Inv.row_step float_int agrup_tokens tipo_tokens fecha ag
          (V4.Inv.walk_state float_int agrup_tokens tipo_tokens fecha ag st
             rows1)
          cells
        = V4.Inv.Ok (st', emitted) ->
        In l emitted ->
        (nonempty (V4.Inv.AGRUPACION_EFECTIVO l) = true ->
         exists r col d rest,
           In r (rows1 ++ [cells])
           /\ V4.Inv.nums_from float_int 0 r = V4.Inv.Ok ((col, d) :: rest)
           /\ In (V4.Inv.AGRUPACION_EFECTIVO l) agrup_tokens
           /\ contains (V4.Inv.AGRUPACION_EFECTIVO l)
                (V4.Inv.left_text (firstn col r)) = true)
        /\ (nonempty (V4.Inv.TIPO_VALOR l) = true ->
            exists r col d rest,
              In r (rows1 ++ [cells])
              /\ V4.Inv.nums_from float_int 0 r
                 = V4.Inv.Ok ((col, d) :: rest)
              /\ In (V4.Inv.TIPO_VALOR l) tipo_tokens
              /\ contains (V4.Inv.TIPO_VALOR l)
                   (V4.Inv.left_text (firstn col r)) = true)).
Proof.
  repeat match goal with |- _ /\ _ => split end.
  - intros sheets l H. exact (proj2 (inv_entry_lines float_int sheets l H)).
  - intros agrup_tokens tipo_tokens fecha ag st st' cells emitted l E Hin.
    destruct (inv_step_line _ _ _ _ _ _ _ _ _ _ E Hin) as (_ & _ & H). exact H.
  - intros agrup_tokens tipo_tokens fecha ag st st' cells emitted l Ha Ht E Hin.
    exact (inv_step_unclassified _ _ _ _ _ _ _ _ _ _ Ha Ht E Hin).
  - intros fecha ag divisa. vm_compute. reflexivity.
  - intros fecha ag divisa. vm_compute. reflexivity.
  - intros agrup_tokens tipo_tokens fecha ag st cells N.
    exact (inv_step_no_number float_int agrup_tokens tipo_tokens fecha ag st
             cells N).
  - intros agrup_tokens tipo_tokens fecha ag rows1 cells st st' emitted l
      Ha Ht E Hin.
    destruct (inv_line_classifiers float_int agrup_tokens tipo_tokens fecha
                ag rows1 cells st st' emitted l E Hin) as [Ra Rt].
    rewrite Ha in Ra. rewrite Ht in Rt.
    split; intros N.
    + destruct Ra as [Ra|Ra]; [rewrite Ra in N; discriminate N|exact Ra].
    + destruct Rt as [Rt|Rt]; [rewrite Rt in N; discriminate N|exact Rt].
Qed.

(** A grouping row of the kind the sheets have: keyword cells left of the
    denomination.  Its line carries the keyword of the row. *)
Lemma inventory_line_needs_classifier_witness :
  In "TESORO ATM" V4.Inv.ATM_AGRUP_TOKENS
  \/ In "" V4.Inv.ATM_TIPO_TOKENS.
Proof.
  refine (proj1 (proj2 (proj2
                    (inventory_line_needs_classifier (fun _ => None))))
            V4.Inv.ATM_AGRUP_TOKENS V4.Inv.ATM_TIPO_TOKENS "" ""
            (V4.Inv.State "" "" "") (V4.Inv.State "" "TESORO ATM" "")
            [V4.Inv.CStr "Tesoro ATM"; V4.Inv.CStr "50000"; V4.Inv.CStr "12"]
            [V4.Inv.Line "" "PYG" "" "TESORO ATM" "" 50000 12 0 0 0 0]
            (V4.Inv.Line "" "PYG" "" "TESORO ATM" "" 50000 12 0 0 0 0)
            eq_refl eq_refl _ _).
  - vm_compute; reflexivity.
  - left; reflexivity.
Defined.

(** C7 as stated fails on both counts.  Rows that hold only a keyword do
    not establish a classifier, so the row sequence of the scenario gives no
    line: in the walk alone, and in [get_inv_atm] on a sheet whose block
    holds these rows, of which only the classified row below them gives a
    line.  A row is classified by its own cells, with no row before it; and
    rows that establish a classifier add a line themselves, so that a
    sequence of two such rows and the numeric row gives three lines. *)
Lemma keyword_only_rows_set_no_classifier :
  V4.Inv.walk (fun _ => None) V4.Inv.ATM_AGRUP_TOKENS V4.Inv.ATM_TIPO_TOKENS
    "" "" (V4.Inv.State "" "" "")
    [[V4.Inv.CStr "TESORO ATM"]; [V4.Inv.CStr "BILLETES"];
     [V4.Inv.CStr "50000"; V4.Inv.CStr "12"; V4.Inv.CStr "0";
      V4.Inv.CStr "0"; V4.Inv.CStr "0"; V4.Inv.CStr "600000"]]
  = []
  /\ (let hoja :=
        [[V4.Inv.CStr "SALDO DE INVENTARIO DE BILLETES ATM AL 15/03/2024"];
         [V4.Inv.CStr "PYG"]; [V4.Inv.CStr "TESORO ATM"];
         [V4.Inv.CStr "BILLETES"];
         [V4.Inv.CStr "50000"; V4.Inv.CStr "12"; V4.Inv.CStr "0";
          V4.Inv.CStr "0"; V4.Inv.CStr "0"; V4.Inv.CStr "600000"];
         [V4.Inv.CStr "FAJOS ATM"; V4.Inv.CStr "20000"; V4.Inv.CStr "5";
          V4.Inv.CStr "0"; V4.Inv.CStr "0"; V4.Inv.CStr "0";
          V4.Inv.CStr "100000"];
         [V4.Inv.CStr "TOTAL DE LA MONEDA PYG"]] in
      V4.Inv.localiza_bloque (fun _ => None) hoja
      = V4.Inv.Ok (1, 6, Some "PYG")
      /\ V4.Inv.get_inv_atm (fun _ => None)
           [V4.Inv.Sheet "15/03/2024" "ASU" hoja]
         = [V4.Inv.Line "15/03/2024" "PYG" "ASU" "FAJOS ATM" "" 20000 5 0 0
              0 100000])
  /\ V4.Inv.walk (fun _ => None) V4.Inv.ATM_AGRUP_TOKENS V4.Inv.ATM_TIPO_TOKENS
       "" "" (V4.Inv.State "" "" "")
       [[V4.Inv.CStr "TESORO ATM"; V4.Inv.CStr "50000"; V4.Inv.CStr "12";
         V4.Inv.CStr "0"; V4.Inv.CStr "0"; V4.Inv.CStr "0";
         V4.Inv.CStr "600000"]]
     = [V4.Inv.Line "" "PYG" "" "TESORO ATM" "" 50000 12 0 0 0 600000]
  /\ List.length
       (V4.Inv.walk (fun _ => None) V4.Inv.ATM_AGRUP_TOKENS
          V4.Inv.ATM_TIPO_TOKENS "" "" (V4.Inv.State "" "" "")
          [[V4.Inv.CStr "TESORO ATM"; V4.Inv.CStr "100000"];
           [V4.Inv.CStr "BILLETES"; V4.Inv.CStr "100000"];
           [V4.Inv.CStr "50000"; V4.Inv.CStr "12"; V4.Inv.CStr "0";
            V4.Inv.CStr "0"; V4.Inv.CStr "0"; V4.Inv.CStr "600000"]])
     = 3.
Proof. repeat split; vm_compute; reflexivity. Qed.

(** ** C8: bank rows without a receipt *)

Lemma v4_bco_with_moneda_same (st : V4.EcBanco.state) :
  V4.EcBanco.with_moneda st (V4.EcBanco.moneda_actual st) = st.
Proof. destruct st; reflexivity. Qed.

(** C8 (amended).  In the bank-statement ledger a data row that starts
    with a date and has no receipt token after it (v4_2: a token of six or
    more digits; comsol: a token with four or more digits) adds no record, and
    every record that is added has its receipt token.  The row leaves
    section, motive, agency, statement date and classification as they were;
    in v4_2 the sticky currency is first set to the row's currency word when
    it has one (and stays when it has none); in comsol no variable changes. *)
Theorem bank_row_without_receipt_dropped :
  (forall hoja fb st cells,
      V4.EcBanco.classify cells = Data ->
      matches (re_match rx_fecha_linea (V4.EcBanco.linea_of cells)) = true ->
      V4.EcBanco.receipt_index (split_ws (V4.EcBanco.linea_of cells)) = None ->
      V4.EcBanco.row_step hoja fb st cells
      = V4.EcBanco.Next
          (V4.EcBanco.State (V4.EcBanco.agencia st)
             (V4.EcBanco.fecha_archivo st) (V4.EcBanco.clasificacion st)
             (V4.EcBanco.ing_egr st) (V4.EcBanco.motivo_actual st)
             (V4.EcBanco.moneda_after st (V4.EcBanco.linea_of cells))) [])
  /\ (forall hoja fb st cells,
        V4.EcBanco.classify cells = Data ->
        matches (re_match rx_fecha_linea (V4.EcBanco.linea_of cells)) = true ->
        V4.EcBanco.receipt_index (split_ws (V4.EcBanco.linea_of cells))
        = None ->
        re_search V4.EcBanco.rx_moneda (V4.EcBanco.linea_of cells) = None ->
        V4.EcBanco.row_step hoja fb st cells = V4.EcBanco.Next st [])
  /\ (forall fb hojas r,
        In r (V4.EcBanco.get_ec_banco fb hojas) ->
        matches (re_fullmatch V4.EcBanco.rx_recibo (V4.EcBanco.RECIBO r))
        = true)
  /\ (forall hoja st cells,
        Comsol.EcBanco.classify st cells = Data ->
        Comsol.EcBanco.receipt_index (filter nonempty (map strip cells))
        = None ->
        Comsol.EcBanco.row_step hoja st cells = Comsol.EcBanco.Next st []).
Proof.
  repeat match goal with |- _ /\ _ => split end.
  - intros hoja fb st cells K Hd Hr.
    rewrite (v4_bco_step_data _ _ _ _ K).
    rewrite (v4_bco_data_row_no_receipt _ _ _ _ Hd Hr). reflexivity.
  - intros hoja fb st cells K Hd Hr Hm.
    rewrite (v4_bco_step_data _ _ _ _ K).
    rewrite (v4_bco_data_row_no_receipt _ _ _ _ Hd Hr).
    unfold V4.EcBanco.moneda_after. rewrite Hm.
    rewrite v4_bco_with_moneda_same. reflexivity.
  - intros fb hojas r Hin. unfold V4.EcBanco.get_ec_banco in Hin.
    apply in_flat_map in Hin. destruct Hin as ([hoja rows] & _ & Hin).
    unfold V4.EcBanco.sheet_records in Hin. simpl fst in Hin. simpl snd in Hin.
    apply v4_bco_run_records in Hin; [|left; reflexivity].
    exact (proj2 (proj2 Hin)).
  - intros hoja st cells K Hr.
    exact (proj2 (comsol_bco_data_row hoja st cells K) Hr).
Qed.

(** A dated row with a short number and no currency word. *)
Lemma bank_row_without_receipt_dropped_witness :
  V4.EcBanco.row_step "Hoja1" ""
    (V4.EcBanco.State "" "" "BCO" "IN" "DEPOSITO" "GUARANIES")
    ["15/03/2024"; "Casa Matriz"; "12"; "1.500.000"]
  = V4.EcBanco.Next
      (V4.EcBanco.State "" "" "BCO" "IN" "DEPOSITO" "GUARANIES") [].
Proof.
  refine (proj1 (proj2 bank_row_without_receipt_dropped) _ _ _ _ _ _ _ _);
    vm_compute; reflexivity.
Defined.

(** C8 as stated fails in v4_2: the dropped row changes the parse state
    when it carries a currency word. *)
Lemma dropped_bank_row_sets_currency :
  V4.EcBanco.classify ["15/03/2024"; "CASA USD"; "12"] = Data
  /\ matches (re_match rx_fecha_linea
               (V4.EcBanco.linea_of ["15/03/2024"; "CASA USD"; "12"])) = true
  /\ V4.EcBanco.receipt_index
       (split_ws (V4.EcBanco.linea_of ["15/03/2024"; "CASA USD"; "12"])) = None
  /\ V4.EcBanco.row_step "Hoja1" ""
       (V4.EcBanco.State "" "" "BCO" "IN" "DEPOSITO" "GUARANIES")
       ["15/03/2024"; "CASA USD"; "12"]
     = V4.EcBanco.Next
         (V4.EcBanco.State "" "" "BCO" "IN" "DEPOSITO" "USD") [].
Proof. repeat split; vm_compute; reflexivity. Qed.

(* ================================================================== *)
(** * Further properties of the parsers and their helpers                *)
(* ================================================================== *)

(** ** The cell helpers *)

Lemma nonempty_false (s : string) : nonempty s = false -> s = "".
Proof. destruct s; [reflexivity|discriminate]. Qed.

Lemma find_index_from_first {A} (p : A -> bool) (d : A) (l : list A) :
  forall k j, find_index_from p k l = Some j ->
    k <= j /\ j - k < List.length l
    /\ p (nth (j - k) l d) = true
    /\ forall m, m < j - k -> p (nth m l d) = false.
Proof.
  induction l as [|a l IH]; simpl; intros k j H; [discriminate|].
  destruct (p a) eqn:E.
  - injection H as <-. rewrite Nat.sub_diag.
    split; [lia|]. split; [lia|]. split; [exact E|].
    intros m Hm. lia.
  - destruct (IH _ _ H) as (H1 & H2 & H3 & H4).
    replace (j - k) with (S (j - S k)) by lia.
    split; [lia|]. split; [lia|]. split; [exact H3|].
    intros [|m] Hm; [exact E|]. apply H4. lia.
Qed.

Lemma find_index_from_nth_none {A} (p : A -> bool) (d : A) (l : list A) (k : nat) :
  find_index_from p k l = None <->
  forall m, m < List.length l -> p (nth m l d) = false.
Proof.
  rewrite find_index_from_none. split.
  - intros H m Hm. rewrite Forall_forall in H. apply H. apply nth_In. exact Hm.
  - intros H. apply Forall_forall. intros x Hx.
    destruct (In_nth _ _ d Hx) as (m & Hm & <-). apply H. exact Hm.
Qed.

Lemma first_non_empty_after_some (cells : list string) (i j : nat) :
  _first_non_empty_after cells i = Some j ->
  i < j < List.length cells
  /\ nonempty (strip (nth j cells "")) = true
  /\ forall k, i < k < j -> strip (nth k cells "") = "".
Proof.
  unfold _first_non_empty_after. intros H.
  destruct (find_index_from_first _ "" _ _ _ H) as (H1 & H2 & H3 & H4).
  rewrite length_skipn in H2. rewrite nth_skipn in H3.
  replace (S i + (j - S i)) with j in H3 by lia.
  split; [lia|]. split; [exact H3|].
  intros k Hk. apply nonempty_false.
    specialize (H4 (k - S i)). rewrite nth_skipn in H4.
    replace (S i + (k - S i)) with k in H4 by lia. apply H4. lia.
Qed.

Lemma first_non_empty_after_none (cells : list string) (i : nat) :
  _first_non_empty_after cells i = None <->
  forall k, i < k < List.length cells -> strip (nth k cells "") = "".
Proof.
  unfold _first_non_empty_after.
  rewrite (find_index_from_nth_none _ "" _ (S i)). split.
  - intros H k Hk. apply nonempty_false.
    specialize (H (k - S i)). rewrite nth_skipn, length_skipn in H.
    replace (S i + (k - S i)) with k in H by lia. apply H. lia.
  - intros H m Hm. rewrite length_skipn in Hm. rewrite nth_skipn.
    rewrite H by lia. reflexivity.
Qed.

Lemma get_cell_found (cells : list string) (j : nat) (default : string) :
  j < List.length cells ->
  nonempty (strip (nth j cells "")) = true ->
  _get_cell cells (Some j) default = strip (nth j cells "").
Proof.
  intros Hj Hn. unfold _get_cell.
  rewrite (nth_error_nth' cells "" Hj). cbv zeta. rewrite Hn. reflexivity.
Qed.

(** X1.  [_first_non_empty_after] returns the first cell to the right of
    [start_idx] that is not blank: every cell between the two is blank, and
    it returns [None] exactly when every cell to the right is blank.
    [_get_cell] at such an index is the stripped cell, never empty; at
    [None] or at an index past the row it is the default. *)
Theorem first_non_empty_after_spec :
  (forall cells i j,
      _first_non_empty_after cells i = Some j ->
      i < j < List.length cells
      /\ nonempty (strip (nth j cells "")) = true
      /\ forall k, i < k < j -> strip (nth k cells "") = "")
  /\ (forall cells i,
        _first_non_empty_after cells i = None <->
        forall k, i < k < List.length cells -> strip (nth k cells "") = "")
  /\ (forall cells i j default,
        _first_non_empty_after cells i = Some j ->
        _get_cell cells (Some j) default = strip (nth j cells "")
        /\ _get_cell cells (Some j) default <> "")
  /\ (forall cells idx default,
        List.length cells <= idx ->
        _get_cell cells (Some idx) default = default)
  /\ (forall cells default, _get_cell cells None default = default).
Proof.
  repeat match goal with |- _ /\ _ => split end.
  - exact first_non_empty_after_some.
  - exact first_non_empty_after_none.
  - intros cells i j default H.
    destruct (first_non_empty_after_some _ _ _ H) as (H1 & H2 & _).
    rewrite get_cell_found by (lia || exact H2).
    split; [reflexivity|].
    intros E. rewrite E in H2. discriminate H2.
  - intros cells idx default H. unfold _get_cell.
    apply nth_error_None in H. rewrite H. reflexivity.
  - reflexivity.
Qed.

(** A date, a blank cell and a padded name. *)
Lemma first_non_empty_after_spec_witness :
  0 < 2 < List.length ["15/03/2024"; " "; " Casa Matriz "]
  /\ nonempty (strip (nth 2 ["15/03/2024"; " "; " Casa Matriz "] "")) = true.
Proof.
  refine (let H := proj1 first_non_empty_after_spec
                     ["15/03/2024"; " "; " Casa Matriz "] 0 2 _ in
          conj (proj1 H) (proj1 (proj2 H))).
  vm_compute; reflexivity.
Defined.

Lemma find_index_from_fields (l : list string) :
  forall k,
    match find_index_from (fun c => nonempty (strip c)) k l with
    | None => filter nonempty (map strip l) = []
    | Some j =>
        k <= j
        /\ filter nonempty (map strip l)
           = strip (nth (j - k) l "")
             :: filter nonempty (map strip (skipn (S (j - k)) l))
    end.
Proof.
  induction l as [|a l IH]; intros k; simpl; [reflexivity|].
  destruct (nonempty (strip a)) eqn:E.
  - rewrite Nat.sub_diag. split; [lia|reflexivity].
  - specialize (IH (S k)).
    destruct (find_index_from _ (S k) l) as [j|]; [|exact IH].
    destruct IH as [Hle IH]. split; [lia|].
    replace (j - k) with (S (j - S k)) by lia. exact IH.
Qed.

(** The non-blank cells to the right of cell [i], stripped. *)
Lemma first_non_empty_after_fields (cells : list string) (i : nat) :
  match _first_non_empty_after cells i with
  | None => filter nonempty (map strip (skipn (S i) cells)) = []
  | Some j =>
      filter nonempty (map strip (skipn (S i) cells))
      = strip (nth j cells "")
        :: filter nonempty (map strip (skipn (S j) cells))
  end.
Proof.
  unfold _first_non_empty_after.
  pose proof (find_index_from_fields (skipn (S i) cells) (S i)) as H.
  destruct (find_index_from _ (S i) (skipn (S i) cells)) as [j|]; [|exact H].
  destruct H as [Hle H]. rewrite H. rewrite nth_skipn, skipn_skipn.
  replace (S i + (j - S i)) with j by lia.
  replace (S (j - S i) + S i) with (S j) by lia. reflexivity.
Qed.

Lemma next_after_none_iter (cells : list string) (n : nat) :
  Nat.iter n (next_after cells) None = None.
Proof. induction n as [|n IH]; simpl; [reflexivity|]. rewrite IH. reflexivity. Qed.

(** The cell reached by [n + 1] steps of [_first_non_empty_after] from
    cell [i] is the [n]-th non-blank cell to the right of [i]. *)
Lemma get_cell_chain (cells : list string) (default : string) :
  forall n i,
    _get_cell cells (Nat.iter (S n) (next_after cells) (Some i)) default
    = nth n (filter nonempty (map strip (skipn (S i) cells))) default.
Proof.
  induction n as [|n IH]; intros i.
  - cbn [Nat.iter nat_rect next_after].
    pose proof (first_non_empty_after_fields cells i) as F.
    destruct (_first_non_empty_after cells i) as [j|] eqn:E.
    + rewrite F. destruct (first_non_empty_after_some _ _ _ E) as (H1 & H2 & _).
      apply get_cell_found; [lia|exact H2].
    + rewrite F. reflexivity.
  - rewrite Nat.iter_succ_r.
    pose proof (first_non_empty_after_fields cells i) as F.
    cbn [next_after].
    destruct (_first_non_empty_after cells i) as [j|] eqn:E.
    + rewrite F. rewrite IH. reflexivity.
    + rewrite F. rewrite next_after_none_iter. destruct n; reflexivity.
Qed.

Lemma get_cell_chain_nonempty (cells : list string) (n i : nat) :
  or_str (_get_cell cells (Nat.iter (S n) (next_after cells) (Some i)) "0") "0"
  = nth n (filter nonempty (map strip (skipn (S i) cells))) "0".
Proof.
  rewrite get_cell_chain. unfold or_str.
  destruct (nonempty (nth n _ "0")) eqn:E; [reflexivity|].
  set (l := filter nonempty (map strip (skipn (S i) cells))) in *.
  assert (Hl : forall x, In x l -> nonempty x = true).
  { intros x Hx. unfold l in Hx. apply filter_In in Hx. exact (proj2 Hx). }
  destruct (Nat.lt_ge_cases n (List.length l)) as [Hn|Hn].
  - rewrite (Hl _ (nth_In l "0" Hn)) in E. discriminate E.
  - rewrite nth_overflow by exact Hn. reflexivity.
Qed.

(** X2.  A detail row of [get_ec_atm], in both files, reads its fields by
    position among the non-blank cells to the right of the date: SUCURSAL,
    RECIBO, BULTOS, GUARANIES and DOLARES are the first to the fifth of them,
    whatever blank cells lie between; a missing one is empty for the first
    three and "0" for the two amounts.  RECIBO is reduced to its digits when
    it has any. *)
Theorem ec_atm_detail_fields :
  (forall fb st strip_cells date_idx,
      let fields :=
        filter nonempty (map strip (skipn (S date_idx) strip_cells)) in
      let raw := nth 1 fields "" in
      V4.EcAtm.detail fb st strip_cells date_idx
      = V4.EcAtm.Record_ (nth date_idx strip_cells "") (nth 0 fields "")
          (if nonempty (_only_digits raw) then _only_digits raw else raw)
          (nth 2 fields "") (nth 3 fields "0") (nth 4 fields "0")
          (V4.EcAtm.ing_egr st) "ATM" (V4.EcAtm.fecha_archivo st)
          (V4.EcAtm.motivo_actual st)
          (if nonempty (V4.EcAtm.agencia st) then V4.EcAtm.agencia st else fb))
  /\ (forall st strip_cells date_idx,
        let fields :=
          filter nonempty (map strip (skipn (S date_idx) strip_cells)) in
        let raw := nth 1 fields "" in
        Comsol.EcAtm.detail st strip_cells date_idx
        = Comsol.EcAtm.Record_ (nth date_idx strip_cells "") (nth 0 fields "")
            (if nonempty (_only_digits raw) then _only_digits raw else raw)
            (nth 2 fields "") (nth 3 fields "0") (nth 4 fields "0")
            (Comsol.EcAtm.ing_egr st) "ATM" (Comsol.EcAtm.fecha_archivo st)
            (Comsol.EcAtm.motivo_actual st) (Comsol.EcAtm.agencia st)
            (Comsol.EcAtm.saldo_ant_pyg st) (Comsol.EcAtm.saldo_ant_usd st)).
Proof.
  split.
  - intros fb st strip_cells date_idx fields raw.
    unfold V4.EcAtm.detail. cbv zeta.
    pose proof (get_cell_chain strip_cells "" 0 date_idx) as H0.
    pose proof (get_cell_chain strip_cells "" 1 date_idx) as H1.
    pose proof (get_cell_chain strip_cells "" 2 date_idx) as H2.
    pose proof (get_cell_chain_nonempty strip_cells 3 date_idx) as H3.
    pose proof (get_cell_chain_nonempty strip_cells 4 date_idx) as H4.
    cbn [Nat.iter nat_rect next_after] in H0, H1, H2, H3, H4.
    rewrite H0, H1, H2, H3, H4. reflexivity.
  - intros st strip_cells date_idx fields raw.
    unfold Comsol.EcAtm.detail. cbv zeta.
    pose proof (get_cell_chain strip_cells "" 0 date_idx) as H0.
    pose proof (get_cell_chain strip_cells "" 1 date_idx) as H1.
    pose proof (get_cell_chain strip_cells "" 2 date_idx) as H2.
    pose proof (get_cell_chain_nonempty strip_cells 3 date_idx) as H3.
    pose proof (get_cell_chain_nonempty strip_cells 4 date_idx) as H4.
    cbn [Nat.iter nat_rect next_after] in H0, H1, H2, H3, H4.
    rewrite H0, H1, H2, H3, H4. reflexivity.
Qed.

(** ** [_only_digits] *)

Lemma keep_app (p : ascii -> bool) (a b : string) :
  keep p (a ++ b)%string = (keep p a ++ keep p b)%string.
Proof.
  induction a as [|c a IH]; simpl; [reflexivity|].
  destruct (p c); simpl; rewrite IH; reflexivity.
Qed.

Lemma keep_all (p : ascii -> bool) (s : string) :
  forallb p (list_ascii_of_string (keep p s)) = true.
Proof.
  induction s as [|c s IH]; simpl; [reflexivity|].
  destruct (p c) eqn:E; simpl; [rewrite E|]; exact IH.
Qed.

Lemma keep_id (p : ascii -> bool) (s : string) :
  forallb p (list_ascii_of_string s) = true <-> keep p s = s.
Proof.
  split.
  - induction s as [|c s IH]; simpl; [reflexivity|].
    intros H. apply andb_prop in H. destruct H as [H1 H2].
    rewrite H1, (IH H2). reflexivity.
  - intros H. rewrite <- H. apply keep_all.
Qed.

Lemma keep_length (p : ascii -> bool) (s : string) :
  String.length (keep p s) <= String.length s.
Proof.
  induction s as [|c s IH]; simpl; [lia|].
  destruct (p c); simpl; lia.
Qed.

(** X3.  [_only_digits] keeps the digits of a text in their order: its
    result holds digits only, it returns a text unchanged exactly when the
    text is made of digits, applying it twice changes nothing, it
    distributes over concatenation, and it never lengthens a text. *)
Theorem only_digits_spec :
  (forall s, forallb isdigit (list_ascii_of_string (_only_digits s)) = true)
  /\ (forall s,
        forallb isdigit (list_ascii_of_string s) = true <-> _only_digits s = s)
  /\ (forall s, _only_digits (_only_digits s) = _only_digits s)
  /\ (forall a b, _only_digits (a ++ b)%string
                     = (_only_digits a ++ _only_digits b)%string)
  /\ (forall s, String.length (_only_digits s) <= String.length s).
Proof.
  unfold _only_digits.
  repeat match goal with |- _ /\ _ => split end.
  - apply keep_all.
  - apply keep_id.
  - intros s. apply keep_id. apply keep_all.
  - apply keep_app.
  - apply keep_length.
Qed.

(** ** [_to_int] on the decimal text of an integer *)

Lemma forallb_string_impl (p q : ascii -> bool) (s : string) :
  (forall c, p c = true -> q c = true) ->
  forallb p (list_ascii_of_string s) = true ->
  forallb q (list_ascii_of_string s) = true.
Proof.
  intros Hpq. induction s as [|c s IH]; simpl; [reflexivity|].
  intros H. apply andb_prop in H. destruct H as [H1 H2].
  rewrite (Hpq _ H1), (IH H2). reflexivity.
Qed.

Lemma lstrip_id (s : string) :
  forallb (fun c => negb (isspace c)) (list_ascii_of_string s) = true ->
  lstrip s = s.
Proof.
  destruct s as [|c s]; simpl; [reflexivity|].
  intros H. apply andb_prop in H. destruct H as [H _].
  destruct (isspace c); [discriminate H|reflexivity].
Qed.

Lemma rstrip_id (s : string) :
  forallb (fun c => negb (isspace c)) (list_ascii_of_string s) = true ->
  rstrip s = s.
Proof.
  induction s as [|c s IH]; simpl; [reflexivity|].
  intros H. apply andb_prop in H. destruct H as [H1 H2].
  rewrite (IH H2). destruct s; [|reflexivity].
  destruct (isspace c); [discriminate H1|reflexivity].
Qed.

Lemma strip_id (s : string) :
  forallb (fun c => negb (isspace c)) (list_ascii_of_string s) = true ->
  strip s = s.
Proof. intros H. unfold strip. rewrite (lstrip_id _ H). apply rstrip_id, H. Qed.

Lemma replace_char_id (a b : ascii) (s : string) :
  forallb (fun c => negb (Ascii.eqb c a)) (list_ascii_of_string s) = true ->
  replace_char a b s = s.
Proof.
  induction s as [|c s IH]; simpl; [reflexivity|].
  intros H. apply andb_prop in H. destruct H as [H1 H2].
  rewrite (IH H2). destruct (Ascii.eqb c a); [discriminate H1|reflexivity].
Qed.

Lemma contains_char_absent (x : ascii) (s : string) :
  forallb (fun c => negb (Ascii.eqb c x)) (list_ascii_of_string s) = true ->
  contains (String x EmptyString) s = false.
Proof.
  induction s as [|c s IH]; simpl; [reflexivity|].
  intros H. apply andb_prop in H. destruct H as [H1 H2].
  rewrite (IH H2).
  destruct (Ascii.eqb_spec c x) as [->|N]; [discriminate H1|].
  destruct (ascii_dec x c) as [->|_]; [contradiction N; reflexivity|].
  reflexivity.
Qed.

(** A text without a point does not match [\d+\.\d+]. *)
Lemma star_digit_stuck (k : cursor -> option cursor) :
  (forall m, forallb (fun c => negb (Ascii.eqb c "."%char))
               (list_ascii_of_string (rest m)) = true -> k m = None) ->
  forall m,
    forallb (fun c => negb (Ascii.eqb c "."%char))
      (list_ascii_of_string (rest m)) = true ->
    run_re (Star digit) m k = None.
Proof.
  intros Hk m. cbn [run_re]. generalize (String.length (rest m)) as n.
  intros n; revert m. induction n as [|n IH]; intros m Hm.
  - apply Hk, Hm.
  - rewrite (Hk m Hm). unfold digit. cbn [run_re].
    destruct (rest m) as [|c t] eqn:E; [reflexivity|].
    destruct (isdecimal c); [|reflexivity].
    destruct (Nat.ltb _ _); [|reflexivity].
    rewrite IH; [reflexivity|].
    cbn [rest advance]. simpl in Hm. apply andb_prop in Hm. exact (proj2 Hm).
Qed.

Lemma rx_decimal_needs_point (s : string) :
  forallb (fun c => negb (Ascii.eqb c "."%char)) (list_ascii_of_string s) = true ->
  re_fullmatch V4.Inv.rx_decimal s = None.
Proof.
  intros H. unfold re_fullmatch, V4.Inv.rx_decimal, seqs, plus.
  cbn [fold_right]. unfold digit at 1. cbn [run_re].
  unfold start_at. cbn [rest].
  destruct s as [|c t]; [reflexivity|].
  destruct (isdecimal c); [|reflexivity].
  apply star_digit_stuck.
  - intros m Hm. unfold chr. cbn [run_re].
    destruct (rest m) as [|d u]; [reflexivity|].
    simpl in Hm. apply andb_prop in Hm. destruct Hm as [Hd _].
    rewrite Ascii.eqb_sym. destruct (Ascii.eqb d "."); [discriminate Hd|].
    reflexivity.
  - cbn [rest advance]. simpl in H. apply andb_prop in H. exact (proj2 H).
Qed.

Lemma uint_text_decimal (d : Decimal.uint) :
  forallb isdecimal (list_ascii_of_string (NilEmpty.string_of_uint d)) = true.
Proof. induction d; simpl; try reflexivity; exact IHd. Qed.

Lemma digits_value_acc (d : Decimal.uint) :
  forall p,
    V4.Inv.digits_value (Z.pos p) (NilEmpty.string_of_uint d)
    = Some (Z.pos (Pos.of_uint_acc d p)).
Proof.
  induction d; intros p; cbn [NilEmpty.string_of_uint Pos.of_uint_acc];
    try reflexivity;
    cbn [V4.Inv.digits_value];
    match goal with
    | |- context [isdecimal ?c] =>
        change (isdecimal c) with true; cbv iota
    end;
    rewrite <- IHd; f_equal;
    match goal with
    | |- context [Z.of_N ?n] =>
        let v := eval vm_compute in (Z.of_N n) in change (Z.of_N n) with v
    end; lia.
Qed.

Lemma digits_value_uint (d : Decimal.uint) :
  V4.Inv.digits_value 0 (NilEmpty.string_of_uint d)
  = Some (Z.of_N (Pos.of_uint d)).
Proof.
  induction d; cbn [NilEmpty.string_of_uint Pos.of_uint];
    try reflexivity;
    cbn [V4.Inv.digits_value];
    match goal with
    | |- context [isdecimal ?c] =>
        change (isdecimal c) with true; cbv iota
    end;
    first [ exact IHd | apply (digits_value_acc d) ].
Qed.

Lemma digits_value_pos (p : positive) :
  V4.Inv.digits_value 0 (NilZero.string_of_uint (Pos.to_uint p))
  = Some (Z.pos p).
Proof.
  assert (E : NilZero.string_of_uint (Pos.to_uint p)
              = NilEmpty.string_of_uint (Pos.to_uint p)).
  { pose proof (Unsigned.to_uint_nonnil p) as N.
    destruct (Pos.to_uint p); [contradiction N; reflexivity|reflexivity..]. }
  rewrite E, digits_value_uint, DecimalPos.Unsigned.of_to. reflexivity.
Qed.

Lemma decimal_char_facts (c : ascii) :
  isdecimal c = true ->
  isspace c = false /\ Ascii.eqb c (ascii_of_N 160) = false
  /\ Ascii.eqb c "-"%char = false /\ Ascii.eqb c "."%char = false
  /\ Ascii.eqb c ":"%char = false /\ Ascii.eqb c "/"%char = false.
Proof.
  destruct c as [[] [] [] [] [] [] [] []]; intros H;
    try discriminate H; repeat split; reflexivity.
Qed.

Lemma signed_text_chars (p : ascii -> bool) (neg : bool) (u : string) :
  p "-"%char = true ->
  (forall c, isdecimal c = true -> p c = true) ->
  forallb isdecimal (list_ascii_of_string u) = true ->
  forallb p (list_ascii_of_string ((if neg then "-" else "") ++ u)) = true.
Proof.
  intros Hm Hd Hu. pose proof (forallb_string_impl _ _ _ Hd Hu) as H.
  destruct neg; simpl; [rewrite Hm|]; exact H.
Qed.

(** The digits [int] reads at most. *)
Lemma int_of_digits_signed (neg : bool) (u : string) (v : Z) :
  forallb isdecimal (list_ascii_of_string u) = true ->
  nonempty u = true ->
  (Z.of_nat (String.length u) <= 4300)%Z ->
  V4.Inv.digits_value 0 u = Some v ->
  V4.Inv.int_of_digits ((if neg then "-" else "") ++ u)
  = Some (if neg then (- v)%Z else v).
Proof.
  intros Hu Hn Hl Hv.
  destruct u as [|c u]; [discriminate Hn|].
  assert (Hc : isdecimal c = true).
  { simpl in Hu. apply andb_prop in Hu. exact (proj1 Hu). }
  destruct (decimal_char_facts c Hc) as (_ & _ & Hm & _).
  assert (L : (V4.Inv.MAX_STR_DIGITS <? Z.of_nat (String.length (String c u)))%Z
              = false).
  { apply Z.ltb_ge. exact Hl. }
  destruct neg; cbn [append V4.Inv.int_of_digits].
  - change (Ascii.eqb "-" "-") with true. cbv iota. rewrite L.
    cbn [nonempty]. rewrite Hv. reflexivity.
  - rewrite Hm. rewrite L. exact Hv.
Qed.

(** A run of decimal digits, with or without a minus sign before it, is
    read as its value. *)
Lemma to_int_signed_text (float_int : string -> option Z) (neg : bool)
  (u : string) (v : Z) :
  forallb isdecimal (list_ascii_of_string u) = true ->
  nonempty u = true ->
  (Z.of_nat (String.length u) <= 4300)%Z ->
  V4.Inv.digits_value 0 u = Some v ->
  V4.Inv._to_int float_int (V4.Inv.CStr ((if neg then "-" else "") ++ u))
  = V4.Inv.Ok (Some (if neg then (- v)%Z else v))
  /\ V4.Inv._to_int_denom float_int
       (V4.Inv.CStr ((if neg then "-" else "") ++ u))
     = V4.Inv.Ok (Some (if neg then (- v)%Z else v)).
Proof.
  intros Hu Hn Hl Hv.
  pose proof (int_of_digits_signed neg u v Hu Hn Hl Hv) as Hint.
  set (s0 := ((if neg then "-" else "") ++ u)%string) in *.
  assert (Hsp : strip s0 = s0).
  { apply strip_id. apply signed_text_chars; [reflexivity| |exact Hu].
    intros c Hc. destruct (decimal_char_facts c Hc) as (-> & _). reflexivity. }
  assert (Hnb : replace_char (ascii_of_N 160) " " s0 = s0).
  { apply replace_char_id. apply signed_text_chars; [reflexivity| |exact Hu].
    intros c Hc. destruct (decimal_char_facts c Hc) as (_ & -> & _).
    reflexivity. }
  assert (Hpt : re_fullmatch V4.Inv.rx_decimal s0 = None).
  { apply rx_decimal_needs_point.
    apply signed_text_chars; [reflexivity| |exact Hu].
    intros c Hc. destruct (decimal_char_facts c Hc) as (_ & _ & _ & -> & _).
    reflexivity. }
  assert (Hk : keep (fun c => isdecimal c || Ascii.eqb c "-"%char) s0 = s0).
  { apply keep_id. apply signed_text_chars; [reflexivity| |exact Hu].
    intros c Hc. rewrite Hc. reflexivity. }
  assert (Hc1 : contains ":" s0 = false).
  { apply contains_char_absent.
    apply signed_text_chars; [reflexivity| |exact Hu].
    intros c Hc. destruct (decimal_char_facts c Hc) as (_ & _ & _ & _ & -> & _).
    reflexivity. }
  assert (Hc2 : contains "/" s0 = false).
  { apply contains_char_absent.
    apply signed_text_chars; [reflexivity| |exact Hu].
    intros c Hc. destruct (decimal_char_facts c Hc) as (_ & _ & _ & _ & _ & ->).
    reflexivity. }
  assert (Hto : V4.Inv._to_int float_int (V4.Inv.CStr s0)
                = V4.Inv.Ok (Some (if neg then (- v)%Z else v))).
  { unfold V4.Inv._to_int. cbv zeta.
    cbn [V4.Inv.isna V4.Inv.round_number]. unfold V4.Inv.text_read.
    change (V4.Inv._txt (V4.Inv.CStr s0)) with (strip s0).
    rewrite Hsp, Hnb, Hsp, Hpt, Hk, Hint. cbn [matches].
    destruct u as [|c u]; [discriminate Hn|].
    simpl in Hu. apply andb_prop in Hu. destruct Hu as [Hc Hu].
    destruct (decimal_char_facts c Hc) as (_ & _ & Hm & _).
    unfold s0. destruct neg.
    - cbn [append nonempty negb String.eqb Ascii.eqb Bool.eqb andb orb].
      rewrite Hm. reflexivity.
    - cbn [append nonempty negb String.eqb].
      rewrite Hm. reflexivity. }
  split; [exact Hto|].
  unfold V4.Inv._to_int_denom. cbv zeta.
  change (V4.Inv._txt (V4.Inv.CStr s0)) with (strip s0).
  rewrite Hsp, Hc1, Hc2. exact Hto.
Qed.

(** A run of digits spells a number of as many digits at least. *)
Lemma digits_value_lower (s : string) :
  forall acc v,
    (0 <= acc)%Z ->
    V4.Inv.digits_value acc s = Some v ->
    (acc * 10 ^ Z.of_nat (String.length s) <= v)%Z.
Proof.
  induction s as [|c s IH]; intros acc v Ha H.
  - simpl in H. injection H as <-. simpl. lia.
  - cbn [V4.Inv.digits_value] in H.
    destruct (isdecimal c) eqn:Hc; [|discriminate H].
    pose proof (N2Z.is_nonneg (code c - 48)) as Hd.
    apply IH in H; [|lia].
    cbn [String.length]. rewrite Nat2Z.inj_succ, Z.pow_succ_r by lia.
    assert (P : (0 <= 10 ^ Z.of_nat (String.length s))%Z)
      by (apply Z.pow_nonneg; lia).
    nia.
Qed.

(** The decimal text of a positive number has no leading zero. *)
Lemma to_uint_head (p : positive) :
  exists c t,
    NilZero.string_of_uint (Pos.to_uint p) = String c t
    /\ isdecimal c = true
    /\ (1 <= Z.of_N (code c - 48))%Z.
Proof.
  pose proof (Unsigned.to_uint_nonnil p) as N.
  pose proof (Unsigned.to_uint_nonzero p) as NZ.
  assert (U : Decimal.unorm (Pos.to_uint p) = Pos.to_uint p).
  { rewrite <- (DecimalPos.Unsigned.to_of (Pos.to_uint p)).
    rewrite DecimalPos.Unsigned.of_to. reflexivity. }
  destruct (Pos.to_uint p) as [|d|d|d|d|d|d|d|d|d|d] eqn:E;
    [contradiction N; reflexivity| |..];
    try (eexists; eexists; split; [reflexivity|];
         split; [reflexivity|vm_compute; discriminate]).
  exfalso. unfold Decimal.unorm in U. cbn [Decimal.nzhead] in U.
  pose proof (DecimalFacts.nb_digits_nzhead d) as L.
  destruct (Decimal.nzhead d) eqn:Hd.
  - injection U as U. subst d. apply NZ. reflexivity.
  - rewrite U in L. cbn [Decimal.nb_digits] in L. lia.
  - rewrite U in L. cbn [Decimal.nb_digits] in L. lia.
  - rewrite U in L. cbn [Decimal.nb_digits] in L. lia.
  - rewrite U in L. cbn [Decimal.nb_digits] in L. lia.
  - rewrite U in L. cbn [Decimal.nb_digits] in L. lia.
  - rewrite U in L. cbn [Decimal.nb_digits] in L. lia.
  - rewrite U in L. cbn [Decimal.nb_digits] in L. lia.
  - rewrite U in L. cbn [Decimal.nb_digits] in L. lia.
  - rewrite U in L. cbn [Decimal.nb_digits] in L. lia.
  - rewrite U in L. cbn [Decimal.nb_digits] in L. lia.
Qed.

(** A number below 10^4300 has at most 4300 digits. *)
Lemma to_uint_length (p : positive) :
  (Z.pos p < 10 ^ 4300)%Z ->
  (Z.of_nat (String.length (NilZero.string_of_uint (Pos.to_uint p)))
   <= 4300)%Z.
Proof.
  intros Hp. pose proof (digits_value_pos p) as V.
  destruct (to_uint_head p) as (c & t & E & Hc & H1).
  rewrite E in *. cbn [V4.Inv.digits_value] in V. rewrite Hc in V.
  apply digits_value_lower in V; [|lia].
  cbn [String.length]. rewrite Nat2Z.inj_succ.
  destruct (Z.le_gt_cases 4300 (Z.of_nat (String.length t))) as [G|G];
    [exfalso|lia].
  pose proof (Z.pow_le_mono_r 10 4300 _ ltac:(lia) G) as M.
  remember (10 ^ 4300)%Z as K eqn:EK.
  remember (10 ^ Z.of_nat (String.length t))%Z as X eqn:EX.
  assert (PK : (0 < K)%Z) by (subst K; apply Z.pow_pos_nonneg; lia).
  clear EK EX. nia.
Qed.

(** X4.  [_to_int] and [_to_int_denom] read back the decimal text of a
    whole number: for [z] below the digit limit of [int], both return [z]
    on [str(z)], minus sign included, and [_to_int_denom] returns [z] on
    the number itself, which it reads through its text. *)
Theorem to_int_reads_integer_text (float_int : string -> option Z) (z : Z) :
  (Z.abs z < 10 ^ 4300)%Z ->
  V4.Inv._to_int float_int (V4.Inv.CStr (V4.Inv.str (V4.Inv.CInt z)))
  = V4.Inv.Ok (Some z)
  /\ V4.Inv._to_int_denom float_int
       (V4.Inv.CStr (V4.Inv.str (V4.Inv.CInt z)))
     = V4.Inv.Ok (Some z)
  /\ V4.Inv._to_int_denom float_int (V4.Inv.CInt z) = V4.Inv.Ok (Some z).
Proof.
  intros Hz.
  assert (P : forall p,
             forallb isdecimal
               (list_ascii_of_string
                  (NilZero.string_of_uint (Pos.to_uint p))) = true
             /\ nonempty (NilZero.string_of_uint (Pos.to_uint p)) = true).
  { intros p. pose proof (Unsigned.to_uint_nonnil p) as N.
    pose proof (uint_text_decimal (Pos.to_uint p)) as D.
    destruct (Pos.to_uint p); [contradiction N; reflexivity|..];
      split; solve [exact D | reflexivity]. }
  assert (R : V4.Inv._to_int float_int
                (V4.Inv.CStr (V4.Inv.str (V4.Inv.CInt z)))
              = V4.Inv.Ok (Some z)
              /\ V4.Inv._to_int_denom float_int
                   (V4.Inv.CStr (V4.Inv.str (V4.Inv.CInt z)))
                 = V4.Inv.Ok (Some z)).
  { destruct z as [|p|p]; cbn [V4.Inv.str Z.to_int NilZero.string_of_int].
    - refine (to_int_signed_text float_int false "0" 0 eq_refl eq_refl _
                eq_refl).
      simpl. lia.
    - destruct (P p) as [D N].
      exact (to_int_signed_text float_int false _ _ D N
               (to_uint_length p Hz) (digits_value_pos p)).
    - destruct (P p) as [D N].
      exact (to_int_signed_text float_int true _ _ D N
               (to_uint_length p Hz) (digits_value_pos p)). }
  destruct R as [R1 R2]. split; [exact R1|]. split; [exact R2|].
  unfold V4.Inv._to_int_denom in *. cbv zeta in *.
  change (V4.Inv._txt (V4.Inv.CStr (V4.Inv.str (V4.Inv.CInt z))))
    with (V4.Inv._txt (V4.Inv.CInt z)) in R2.
  exact R2.
Qed.

(** A negative amount. *)
Lemma to_int_reads_integer_text_witness :
  V4.Inv._to_int (fun _ => None) (V4.Inv.CStr "-50000")
  = V4.Inv.Ok (Some (-50000)%Z)
  /\ V4.Inv._to_int_denom (fun _ => None) (V4.Inv.CStr "-50000")
     = V4.Inv.Ok (Some (-50000)%Z)
  /\ V4.Inv._to_int_denom (fun _ => None) (V4.Inv.CInt (-50000))
     = V4.Inv.Ok (Some (-50000)%Z).
Proof.
  refine (to_int_reads_integer_text (fun _ => None) (-50000) _).
  vm_compute; reflexivity.
Defined.

(** ** [_to_int] on other texts *)

Lemma keep_lstrip (p : ascii -> bool) (s : string) :
  (forall c, isspace c = true -> p c = false) ->
  keep p (lstrip s) = keep p s.
Proof.
  intros H. induction s as [|c s IH]; simpl; [reflexivity|].
  destruct (isspace c) eqn:E; [|reflexivity].
  rewrite (H c E). exact IH.
Qed.

Lemma keep_rstrip (p : ascii -> bool) (s : string) :
  (forall c, isspace c = true -> p c = false) ->
  keep p (rstrip s) = keep p s.
Proof.
  intros H. induction s as [|c s IH]; simpl; [reflexivity|].
  destruct (rstrip s) as [|d t] eqn:E.
  - simpl in IH. destruct (isspace c) eqn:Ec.
    + rewrite (H c Ec). exact IH.
    + simpl. rewrite <- IH. reflexivity.
  - cbn [keep]. cbn [keep] in IH. rewrite IH. reflexivity.
Qed.

Lemma keep_strip (p : ascii -> bool) (s : string) :
  (forall c, isspace c = true -> p c = false) ->
  keep p (strip s) = keep p s.
Proof.
  intros H. unfold strip. rewrite keep_rstrip, keep_lstrip by exact H.
  reflexivity.
Qed.


Lemma forallb_lstrip (p : ascii -> bool) (s : string) :
  forallb p (list_ascii_of_string s) = true ->
  forallb p (list_ascii_of_string (lstrip s)) = true.
Proof.
  induction s as [|c s IH]; simpl; [reflexivity|].
  intros H. destruct (isspace c); [|exact H].
  apply andb_prop in H. exact (IH (proj2 H)).
Qed.

Lemma forallb_rstrip (p : ascii -> bool) (s : string) :
  forallb p (list_ascii_of_string s) = true ->
  forallb p (list_ascii_of_string (rstrip s)) = true.
Proof.
  induction s as [|c s IH]; simpl; [reflexivity|].
  intros H. apply andb_prop in H. destruct H as [H1 H2].
  specialize (IH H2). destruct (rstrip s) as [|d t].
  - destruct (isspace c); simpl; [reflexivity|rewrite H1; reflexivity].
  - cbn [list_ascii_of_string forallb]. rewrite H1. exact IH.
Qed.

Lemma forallb_strip (p : ascii -> bool) (s : string) :
  forallb p (list_ascii_of_string s) = true ->
  forallb p (list_ascii_of_string (strip s)) = true.
Proof. intros H. apply forallb_rstrip, forallb_lstrip, H. Qed.










Lemma forallb_string_app (p : ascii -> bool) (a b : string) :
  forallb p (list_ascii_of_string (a ++ b))
  = forallb p (list_ascii_of_string a) && forallb p (list_ascii_of_string b).
Proof.
  induction a as [|c a IH]; simpl; [reflexivity|].
  rewrite IH, andb_assoc. reflexivity.
Qed.


(** [_to_int] lets an exception escape only from the float conversion of
    the text of its argument. *)
Lemma to_int_raise_text (float_int : string -> option Z) (x : V4.Inv.cell) :
  V4.Inv._to_int float_int x = V4.Inv.Raise ->
  matches (re_fullmatch V4.Inv.rx_decimal (V4.Inv.text_read x)) = true
  /\ float_int (V4.Inv.text_read x) = None.
Proof.
  unfold V4.Inv._to_int. destruct (V4.Inv.isna x); [discriminate|].
  destruct (V4.Inv.round_number x); [discriminate|]. cbv zeta.
  set (s1 := V4.Inv.text_read x).
  destruct (negb (nonempty s1)); [discriminate|].
  destruct (matches (re_fullmatch V4.Inv.rx_decimal s1)) eqn:E.
  - destruct (float_int s1) eqn:F; [discriminate|].
    intros _. split; reflexivity.
  - destruct (_ || _); discriminate.
Qed.




(** ** Agency resolution *)

Lemma v4_truthy_code (text : string) :
  V4.truthy (V4._agencia_code_from_text text) = V4._agencia_code_from_text text.
Proof.
  destruct (V4._agencia_code_from_text text) as [code|] eqn:E; [|reflexivity].
  destruct (normalize_canonical_code code (agencia_code_canonical _ _ E))
    as [_ N].
  unfold V4.truthy. rewrite N. reflexivity.
Qed.

Lemma v4_first_code_canonical (parts : list string) (code : string) :
  V4.first_code parts = Some code ->
  In code ["OVD"; "ENC"; "CON"; "ASU"; "CDE"]
  /\ exists part, In part parts /\ V4._agencia_code_from_text part = Some code.
Proof.
  induction parts as [|p parts IH]; simpl; [discriminate|].
  rewrite v4_truthy_code.
  destruct (V4._agencia_code_from_text p) as [c|] eqn:E.
  - intros H. injection H as <-. split.
    + exact (agencia_code_canonical _ _ E).
    + exists p. split; [left; reflexivity|exact E].
  - intros H. destruct (IH H) as (H1 & part & H2 & H3).
    split; [exact H1|]. exists part. split; [right; exact H2|exact H3].
Qed.

Lemma v4_first_code_none (parts : list string) :
  V4.first_code parts = None <->
  forall part, In part parts -> V4._agencia_code_from_text part = None.
Proof.
  induction parts as [|p parts IH]; simpl.
  - split; [intros _ part []|reflexivity].
  - rewrite v4_truthy_code.
    destruct (V4._agencia_code_from_text p) as [c|] eqn:E.
    + split; [discriminate|]. intros H. rewrite <- E. apply H. left; reflexivity.
    + rewrite IH. split.
      * intros H part [<-|Hp]; [exact E|apply H, Hp].
      * intros H part Hp. apply H. right; exact Hp.
Qed.

Lemma v4_resolve_doc (doc filename : string) (parts : list string) :
  nonempty doc = true ->
  V4._resolve_agencia doc filename parts = V4.normalize_agencia_col (Some doc).
Proof.
  intros H. unfold V4._resolve_agencia, V4.normalize_agencia_col.
  rewrite H, v4_truthy_code.
  destruct (V4._agencia_code_from_text doc) as [code|] eqn:E; [|reflexivity].
  destruct (normalize_canonical_code code (agencia_code_canonical _ _ E))
    as [_ N].
  unfold or_str. rewrite N. reflexivity.
Qed.

Lemma v4_resolve_no_doc (filename : string) (parts : list string) :
  V4._resolve_agencia "" filename parts = ""
  \/ In (V4._resolve_agencia "" filename parts)
       ["OVD"; "ENC"; "CON"; "ASU"; "CDE"].
Proof.
  unfold V4._resolve_agencia. cbn [nonempty]. rewrite v4_truthy_code.
  destruct (V4._agencia_code_from_text filename) as [code|] eqn:E.
  - right. exact (agencia_code_canonical _ _ E).
  - destruct (V4.first_code (rev parts)) as [code|] eqn:F.
    + right. exact (proj1 (v4_first_code_canonical _ _ F)).
    + left. reflexivity.
Qed.

Lemma v4_normalize_fixed (val : option string) :
  V4.normalize_agencia_col (Some (V4.normalize_agencia_col val))
  = V4.normalize_agencia_col val.
Proof.
  destruct val as [v|]; [|reflexivity].
  unfold V4.normalize_agencia_col at 2 3.
  destruct (V4._agencia_code_from_text v) as [code|] eqn:E.
  - destruct (normalize_canonical_code code (agencia_code_canonical _ _ E))
      as [N1 N2].
    unfold or_str. rewrite N2. exact N1.
  - unfold V4.normalize_agencia_col. rewrite E. reflexivity.
Qed.

Lemma v4_first_code_skip (skipped rest : list string) :
  (forall part, In part skipped -> V4._agencia_code_from_text part = None) ->
  V4.first_code (skipped ++ rest) = V4.first_code rest.
Proof.
  induction skipped as [|q skipped IH]; intros H; [reflexivity|].
  cbn [app V4.first_code]. rewrite v4_truthy_code, (H q (or_introl eq_refl)).
  apply IH. intros part Hp. apply H. right. exact Hp.
Qed.

(** X7.  [_resolve_agencia] takes the agency from the document first, then
    from the file name, then from the parts of the path, the last first.
    A document agency is normalised as [normalize_agencia_col] does;
    without one, a code found in the file name wins whatever the folders
    say, the last part of the path that names an agency wins over the parts
    above it, and the result is empty when nothing names an agency.  The
    result is always a fixed point of [normalize_agencia_col]. *)
Theorem resolve_agencia_priority :
  (forall doc filename parts,
      nonempty doc = true ->
      V4._resolve_agencia doc filename parts
      = V4.normalize_agencia_col (Some doc))
  /\ (forall filename parts code,
        V4._agencia_code_from_text filename = Some code ->
        V4._resolve_agencia "" filename parts = code)
  /\ (forall filename above part below code,
        V4._agencia_code_from_text filename = None ->
        V4._agencia_code_from_text part = Some code ->
        (forall q, In q below -> V4._agencia_code_from_text q = None) ->
        V4._resolve_agencia "" filename (above ++ part :: below) = code)
  /\ (forall filename parts,
        V4._agencia_code_from_text filename = None ->
        (forall part, In part parts ->
           V4._agencia_code_from_text part = None) ->
        V4._resolve_agencia "" filename parts = "")
  /\ (forall filename parts,
        V4._resolve_agencia "" filename parts = ""
        \/ In (V4._resolve_agencia "" filename parts)
             ["OVD"; "ENC"; "CON"; "ASU"; "CDE"])
  /\ (forall doc filename parts,
        V4.normalize_agencia_col (Some (V4._resolve_agencia doc filename parts))
        = V4._resolve_agencia doc filename parts).
Proof.
  repeat match goal with |- _ /\ _ => split end.
  - exact v4_resolve_doc.
  - intros filename parts code E. unfold V4._resolve_agencia.
    cbn [nonempty]. rewrite v4_truthy_code, E. reflexivity.
  - intros filename above part below code E F H.
    unfold V4._resolve_agencia.
    cbn [nonempty]. rewrite v4_truthy_code, E, rev_app_distr.
    cbn [rev]. rewrite <- app_assoc, v4_first_code_skip.
    + cbn [app V4.first_code]. rewrite v4_truthy_code, F. reflexivity.
    + intros q Hq. apply H. apply in_rev. exact Hq.
  - intros filename parts E H. unfold V4._resolve_agencia.
    cbn [nonempty]. rewrite v4_truthy_code, E.
    assert (F : V4.first_code (rev parts) = None).
    { apply v4_first_code_none. intros part Hp. apply H.
      apply in_rev. exact Hp. }
    rewrite F. reflexivity.
  - exact v4_resolve_no_doc.
  - intros doc filename parts. destruct (nonempty doc) eqn:D.
    + rewrite (v4_resolve_doc _ filename parts D). apply v4_normalize_fixed.
    + apply nonempty_false in D. subst doc.
      destruct (v4_resolve_no_doc filename parts) as [->|H].
      * reflexivity.
      * exact (proj1 (normalize_canonical_code _ H)).
Qed.

(** A file in the folder of one agency, inside the folder of another. *)
Lemma resolve_agencia_priority_witness :
  V4._resolve_agencia "" "EC_ATM_1.xlsx"
    (["/"; "datos"; "ASU"] ++ "Ciudad del Este" :: ["EC_ATM_1.xlsx"])
  = "CDE".
Proof.
  refine (proj1 (proj2 (proj2 resolve_agencia_priority))
            "EC_ATM_1.xlsx" ["/"; "datos"; "ASU"] "Ciudad del Este"
            ["EC_ATM_1.xlsx"] "CDE" _ _ _).
  - vm_compute; reflexivity.
  - vm_compute; reflexivity.
  - intros q [<-|[]]. vm_compute; reflexivity.
Defined.


(** ** Case folding and stripping *)

Lemma string_app_assoc (a b c : string) :
  ((a ++ b) ++ c)%string = (a ++ b ++ c)%string.
Proof. induction a as [|x a IH]; simpl; [reflexivity|]. rewrite IH. reflexivity. Qed.

Lemma upper_app (a b : string) : upper (a ++ b) = (upper a ++ upper b)%string.
Proof.
  induction a as [|c a IH]; simpl; [reflexivity|].
  rewrite IH, string_app_assoc. reflexivity.
Qed.

Lemma upper_char_stable (c : ascii) : upper (upper_char c) = upper_char c.
Proof. destruct c as [[] [] [] [] [] [] [] []]; reflexivity. Qed.

Lemma upper_idempotent (s : string) : upper (upper s) = upper s.
Proof.
  induction s as [|c s IH]; simpl; [reflexivity|].
  rewrite upper_app, upper_char_stable, IH. reflexivity.
Qed.

Lemma fold_char_stable (c : ascii) :
  fold (upper_char (base_char c)) = upper_char (base_char c).
Proof. destruct c as [[] [] [] [] [] [] [] []]; reflexivity. Qed.

Lemma strip_marks_app (a b : string) :
  strip_marks (a ++ b) = (strip_marks a ++ strip_marks b)%string.
Proof. induction a as [|c a IH]; simpl; [reflexivity|]. rewrite IH. reflexivity. Qed.

Lemma fold_app (a b : string) : fold (a ++ b) = (fold a ++ fold b)%string.
Proof. unfold fold. rewrite strip_marks_app, upper_app. reflexivity. Qed.

Lemma fold_idempotent (s : string) : fold (fold s) = fold s.
Proof.
  induction s as [|c s IH]; [reflexivity|].
  change (fold (String c s)) with (upper_char (base_char c) ++ fold s)%string.
  rewrite fold_app, fold_char_stable, IH. reflexivity.
Qed.

(** A text is folded when folding leaves each of its characters. *)
Lemma folded_chars (s : string) :
  forallb (fun c => String.eqb (fold (String c EmptyString)) (String c EmptyString))
    (list_ascii_of_string (fold s)) = true.
Proof.
  induction s as [|c s IH]; [reflexivity|].
  change (fold (String c s)) with (upper_char (base_char c) ++ fold s)%string.
  rewrite forallb_string_app, IH, andb_true_r.
  clear. destruct c as [[] [] [] [] [] [] [] []]; reflexivity.
Qed.

Lemma fold_of_folded (s : string) :
  forallb (fun c => String.eqb (fold (String c EmptyString)) (String c EmptyString))
    (list_ascii_of_string s) = true ->
  fold s = s.
Proof.
  induction s as [|c s IH]; [reflexivity|]. simpl forallb.
  intros H. apply andb_prop in H. destruct H as [H1 H2].
  change (String c s) with (String c EmptyString ++ s)%string at 1.
  rewrite fold_app, (IH H2). apply String.eqb_eq in H1. rewrite H1.
  reflexivity.
Qed.

Lemma fold_strip_fold (s : string) : fold (strip (fold s)) = strip (fold s).
Proof. apply fold_of_folded, forallb_strip, folded_chars. Qed.

Lemma lstrip_idempotent (s : string) : lstrip (lstrip s) = lstrip s.
Proof.
  induction s as [|c s IH]; simpl; [reflexivity|].
  destruct (isspace c) eqn:E; [exact IH|]. simpl. rewrite E. reflexivity.
Qed.

Lemma rstrip_idempotent (s : string) : rstrip (rstrip s) = rstrip s.
Proof.
  induction s as [|c s IH]; simpl; [reflexivity|].
  destruct (rstrip s) as [|d t] eqn:E.
  - destruct (isspace c) eqn:Ec; simpl; [reflexivity|]. rewrite Ec. reflexivity.
  - cbn [rstrip]. cbn [rstrip] in IH. rewrite IH. reflexivity.
Qed.

Lemma lstrip_rstrip (s : string) : lstrip (rstrip s) = rstrip (lstrip s).
Proof.
  induction s as [|c s IH]; [reflexivity|].
  cbn [lstrip rstrip]. destruct (isspace c) eqn:Ec.
  - rewrite <- IH. destruct (rstrip s) as [|d t]; [reflexivity|].
    change (lstrip (String c (String d t)))
      with (if isspace c then lstrip (String d t) else String c (String d t)).
    rewrite Ec. reflexivity.
  - cbn [rstrip]. destruct (rstrip s) as [|d t]; cbn [lstrip]; rewrite Ec;
      reflexivity.
Qed.

Lemma strip_idempotent (s : string) : strip (strip s) = strip s.
Proof.
  unfold strip. rewrite lstrip_rstrip, lstrip_idempotent, rstrip_idempotent.
  reflexivity.
Qed.


(** ** Currency normalisers *)

Lemma or_str_empty (t : string) : or_str t "" = t.
Proof. destruct t; reflexivity. Qed.

Lemma v4_moneda_range (token : string) :
  In (V4.normalize_moneda_iso token) ["PYG"; "USD"; "EUR"; "BRL"; "ARS"]
  \/ (V4.normalize_moneda_iso token = strip (fold token)
      /\ V4.normalize_moneda_iso (strip (fold token)) = strip (fold token)).
Proof.
  assert (F : forall t0,
             In (V4.normalize_moneda_iso t0) ["PYG"; "USD"; "EUR"; "BRL"; "ARS"]
             \/ V4.normalize_moneda_iso t0 = strip (fold t0)).
  { intros t0. unfold V4.normalize_moneda_iso. cbv zeta.
    change (upper (_strip_accents t0)) with (fold t0).
    repeat match goal with
           | |- In (if ?b then _ else _) _ \/ _ =>
               destruct b; [left; simpl; auto 10|]
           end.
    right. apply or_str_empty. }
  destruct (F token) as [H|H]; [left; exact H|]. right. split; [exact H|].
  revert H. unfold V4.normalize_moneda_iso. cbv zeta.
  change (upper (_strip_accents token)) with (fold token).
  change (upper (_strip_accents (strip (fold token))))
    with (fold (strip (fold token))).
  rewrite fold_strip_fold, strip_idempotent. intros H. exact H.
Qed.

Lemma v4_moneda_idempotent (token : string) :
  V4.normalize_moneda_iso (V4.normalize_moneda_iso token)
  = V4.normalize_moneda_iso token.
Proof.
  destruct (v4_moneda_range token) as [H|[H1 H2]].
  - simpl in H.
    destruct H as [<-|[<-|[<-|[<-|[<-|[]]]]]]; vm_compute; reflexivity.
  - rewrite H1. exact H2.
Qed.

Lemma comsol_moneda_v4 (token : string) :
  Comsol.EcBanco._normaliza_moneda_iso token
  = or_str (V4.normalize_moneda_iso token) "PYG".
Proof.
  unfold Comsol.EcBanco._normaliza_moneda_iso, V4.normalize_moneda_iso.
  cbv zeta. set (t0 := strip (upper (_strip_accents token))).
  repeat match goal with
         | |- context [if ?b then _ else _] => destruct b; [reflexivity|]
         end.
  rewrite or_str_empty. reflexivity.
Qed.

Lemma comsol_moneda_nonempty (token : string) :
  nonempty (Comsol.EcBanco._normaliza_moneda_iso token) = true.
Proof.
  rewrite comsol_moneda_v4. unfold or_str.
  destruct (nonempty (V4.normalize_moneda_iso token)) eqn:E;
    [exact E|reflexivity].
Qed.

Lemma comsol_moneda_idempotent (token : string) :
  Comsol.EcBanco._normaliza_moneda_iso
    (Comsol.EcBanco._normaliza_moneda_iso token)
  = Comsol.EcBanco._normaliza_moneda_iso token.
Proof.
  rewrite (comsol_moneda_v4 token). unfold or_str.
  destruct (nonempty (V4.normalize_moneda_iso token)) eqn:E;
    [|vm_compute; reflexivity].
  rewrite comsol_moneda_v4, v4_moneda_idempotent. unfold or_str.
  rewrite E. reflexivity.
Qed.

Lemma comsol_guess_range (sheet_name : string) :
  In (Comsol.EcBanco._guess_currency_from_sheet_name sheet_name)
    ["DOLARES"; "EUROS"; "REALES"; "PESOS"; "GUARANIES"].
Proof.
  unfold Comsol.EcBanco._guess_currency_from_sheet_name. cbv zeta.
  repeat match goal with
         | |- context [if ?b then _ else _] => destruct b; [simpl; auto 10|]
         end.
  simpl; auto 10.
Qed.

Lemma v4_guess_range (sheet_name : string) :
  In (V4.EcBanco._guess_currency_from_sheet_name sheet_name)
    ["DOLARES"; "EUROS"; "REALES"; "PESOS"; "GUARANIES"; ""].
Proof.
  unfold V4.EcBanco._guess_currency_from_sheet_name. cbv zeta.
  repeat match goal with
         | |- context [if ?b then _ else _] => destruct b; [simpl; auto 10|]
         end.
  simpl; auto 10.
Qed.

Lemma divisa_range (code_upper : string) :
  V4.Inv.normaliza_divisa_inventario code_upper = "PYG"
  \/ V4.Inv.normaliza_divisa_inventario code_upper = "USD"
  \/ (V4.Inv.normaliza_divisa_inventario code_upper = upper code_upper
      /\ V4.Inv.normaliza_divisa_inventario (upper code_upper)
         = upper code_upper).
Proof.
  unfold V4.Inv.normaliza_divisa_inventario. cbv zeta.
  rewrite upper_idempotent.
  set (code := upper code_upper).
  destruct (contains "PYG" code || contains "GUARANI" (_strip_accents code));
    [left; reflexivity|].
  destruct (contains "USD" code || contains "DOLAR" (_strip_accents code));
    [right; left; reflexivity|].
  unfold or_str. destruct (nonempty code); [|left; reflexivity].
  right; right. split; reflexivity.
Qed.

Lemma divisa_idempotent (code_upper : string) :
  V4.Inv.normaliza_divisa_inventario
    (V4.Inv.normaliza_divisa_inventario code_upper)
  = V4.Inv.normaliza_divisa_inventario code_upper.
Proof.
  destruct (divisa_range code_upper) as [->|[->|[-> H]]];
    [reflexivity|reflexivity|exact H].
Qed.

Lemma divisa_nonempty (code_upper : string) :
  nonempty (V4.Inv.normaliza_divisa_inventario code_upper) = true.
Proof.
  unfold V4.Inv.normaliza_divisa_inventario. cbv zeta.
  destruct (contains "PYG" _ || _); [reflexivity|].
  destruct (contains "USD" _ || _); [reflexivity|].
  unfold or_str. destruct (nonempty (upper code_upper)) eqn:N;
    [exact N|reflexivity].
Qed.

(** X8.  [normalize_moneda_iso] of v4_2 is idempotent.  Its result is one
    of the five ISO codes, or else the token itself without accents, in
    upper case and stripped, which it then leaves as it is.  Each
    currency name [_guess_currency_from_sheet_name] can return normalises
    to an ISO code, and its empty answer to the empty text. *)
Theorem normalize_moneda_iso_fixed :
  (forall token,
      V4.normalize_moneda_iso (V4.normalize_moneda_iso token)
      = V4.normalize_moneda_iso token)
  /\ (forall token,
        In (V4.normalize_moneda_iso token) ["PYG"; "USD"; "EUR"; "BRL"; "ARS"]
        \/ (V4.normalize_moneda_iso token
            = strip (upper (_strip_accents token))
            /\ V4.normalize_moneda_iso (strip (upper (_strip_accents token)))
               = strip (upper (_strip_accents token))))
  /\ (forall sheet_name,
        In (V4.normalize_moneda_iso
              (V4.EcBanco._guess_currency_from_sheet_name sheet_name))
          ["USD"; "EUR"; "BRL"; "ARS"; "PYG"; ""]).
Proof.
  split; [exact v4_moneda_idempotent|]. split; [exact v4_moneda_range|].
  intros sheet_name.
  destruct (v4_guess_range sheet_name) as [<-|[<-|[<-|[<-|[<-|[<-|[]]]]]]];
    vm_compute; auto 10.
Qed.

(** X9.  [_normaliza_moneda_iso] of comsol never returns an empty text: it
    is [normalize_moneda_iso] of v4_2 with "PYG" in place of the empty
    answer.  It is idempotent, and the currency name
    [_guess_currency_from_sheet_name] of comsol gives for a sheet always
    normalises to one of the five ISO codes. *)
Theorem normaliza_moneda_iso_never_empty :
  (forall token,
      nonempty (Comsol.EcBanco._normaliza_moneda_iso token) = true)
  /\ (forall token,
        Comsol.EcBanco._normaliza_moneda_iso token
        = or_str (V4.normalize_moneda_iso token) "PYG")
  /\ (forall token,
        Comsol.EcBanco._normaliza_moneda_iso
          (Comsol.EcBanco._normaliza_moneda_iso token)
        = Comsol.EcBanco._normaliza_moneda_iso token)
  /\ (forall sheet_name,
        In (Comsol.EcBanco._normaliza_moneda_iso
              (Comsol.EcBanco._guess_currency_from_sheet_name sheet_name))
          ["USD"; "EUR"; "BRL"; "ARS"; "PYG"]).
Proof.
  split; [exact comsol_moneda_nonempty|]. split; [exact comsol_moneda_v4|].
  split; [exact comsol_moneda_idempotent|].
  intros sheet_name.
  destruct (comsol_guess_range sheet_name) as [<-|[<-|[<-|[<-|[<-|[]]]]]];
    vm_compute; auto 10.
Qed.


(** ** The currency of the inventory lines *)

Section InventoryDivisa.

Variable float_int : string -> option Z.
Variable AGRUP_TOKENS TIPO_TOKENS : list string.

Lemma inv_step_divisa (fecha ag : string) (st st' : V4.Inv.state)
  (cells : list V4.Inv.cell) (e : list V4.Inv.line) :
  V4.Inv.row_step float_int AGRUP_TOKENS TIPO_TOKENS fecha ag st cells
  = V4.Inv.Ok (st', e) ->
  (V4.Inv.cur_divisa st' = V4.Inv.cur_divisa st
   \/ V4.Inv.cur_divisa st' = "USD" \/ V4.Inv.cur_divisa st' = "PYG")
  /\ forall l, In l e ->
       V4.Inv.DIVISA l = or_str (V4.Inv.cur_divisa st') "PYG".
Proof.
  unfold V4.Inv.row_step. cbv zeta.
  assert (D : V4.Inv.divisa_after (V4.Inv.cur_divisa st) cells
              = V4.Inv.cur_divisa st
              \/ V4.Inv.divisa_after (V4.Inv.cur_divisa st) cells = "USD"
              \/ V4.Inv.divisa_after (V4.Inv.cur_divisa st) cells = "PYG").
  { unfold V4.Inv.divisa_after.
    destruct (V4.Inv.has_token "USD" _); [auto|].
    destruct (V4.Inv.has_token "PYG" _); auto. }
  destruct (V4.Inv.is_stop_row cells).
  { intros H; injection H as <- <-. split; [auto|intros l []]. }
  destruct (V4.Inv.nums_from float_int 0 cells) as [nums|]; [|discriminate].
  cbn [V4.Inv.bind]. destruct nums as [|[denom_col denom_val] nums].
  { intros H; injection H as <- <-. split; [exact D|intros l []]. }
  destruct (negb _).
  { intros H; injection H as <- <-. split; [exact D|intros l []]. }
  destruct (V4.Inv.take_nums float_int 5 (skipn (S denom_col) cells))
    as [vals|]; [|discriminate].
  cbn [V4.Inv.bind]. intros H; injection H as <- <-.
  split; [exact D|]. intros l [<-|[]]. reflexivity.
Qed.

Lemma inv_walk_divisa (P : string -> Prop) (fecha ag : string)
  (rows : list (list V4.Inv.cell)) :
  P "USD" -> P "PYG" ->
  forall st l,
    P (V4.Inv.cur_divisa st) ->
    In l (V4.Inv.walk float_int AGRUP_TOKENS TIPO_TOKENS fecha ag st rows) ->
    exists d, P d /\ V4.Inv.DIVISA l = or_str d "PYG".
Proof.
  intros Pu Pp. induction rows as [|cells rows IH]; intros st l Hst; simpl;
    [intros []|].
  destruct (V4.Inv.row_step float_int AGRUP_TOKENS TIPO_TOKENS fecha ag st
              cells) as [[st' e]|] eqn:E; [|intros []].
  destruct (inv_step_divisa _ _ _ _ _ _ E) as [D L].
  assert (Hst' : P (V4.Inv.cur_divisa st')).
  { destruct D as [->|[->| ->]]; assumption. }
  intros Hin. apply in_app_or in Hin. destruct Hin as [Hin|Hin].
  - exists (V4.Inv.cur_divisa st'). split; [exact Hst'|exact (L _ Hin)].
  - exact (IH _ _ Hst' Hin).
Qed.

End InventoryDivisa.

(** X10.  [normaliza_divisa_inventario] is idempotent and never returns an
    empty text.  Every line of [get_inv_atm] carries a DIVISA that is not
    empty and that [normaliza_divisa_inventario] leaves as it is, so the
    final pass of [run] over that column changes nothing; every line of
    [get_inv_bco] carries "USD" or "PYG". *)
Theorem inventory_divisa_normalised (float_int : string -> option Z) :
  (forall code,
      V4.Inv.normaliza_divisa_inventario
        (V4.Inv.normaliza_divisa_inventario code)
      = V4.Inv.normaliza_divisa_inventario code)
  /\ (forall code,
        nonempty (V4.Inv.normaliza_divisa_inventario code) = true)
  /\ (forall sheets l,
        In l (V4.Inv.get_inv_atm float_int sheets) ->
        nonempty (V4.Inv.DIVISA l) = true
        /\ V4.Inv.normaliza_divisa_inventario (V4.Inv.DIVISA l)
           = V4.Inv.DIVISA l)
  /\ (forall sheets l,
        In l (V4.Inv.get_inv_bco float_int sheets) ->
        V4.Inv.DIVISA l = "USD" \/ V4.Inv.DIVISA l = "PYG").
Proof.
  repeat match goal with |- _ /\ _ => split end.
  - exact divisa_idempotent.
  - exact divisa_nonempty.
  - intros sheets l H. unfold V4.Inv.get_inv_atm in H.
    apply in_flat_map in H. destruct H as (sh & _ & H).
    unfold V4.Inv.inv_atm_sheet in H.
    destruct (V4.Inv.localiza_bloque float_int (V4.Inv.df sh))
      as [[[row_start row_end] code]|]; [|contradiction].
    apply (inv_walk_divisa float_int _ _
             (fun d => nonempty d = true
                       /\ V4.Inv.normaliza_divisa_inventario d = d)) in H.
    + destruct H as (d & [N F] & ->). unfold or_str. rewrite N. auto.
    + split; reflexivity.
    + split; reflexivity.
    + cbn [V4.Inv.cur_divisa]. split;
        [apply divisa_nonempty|apply divisa_idempotent].
  - intros sheets l H. unfold V4.Inv.get_inv_bco in H.
    apply in_flat_map in H. destruct H as (sh & _ & H).
    unfold V4.Inv.inv_bco_sheet in H.
    apply (inv_walk_divisa float_int _ _
             (fun d => d = "" \/ d = "USD" \/ d = "PYG")) in H; auto.
    destruct H as (d & [->|[->| ->]] & ->); auto.
Qed.

(** A block whose end marker names the euro. *)
Lemma inventory_divisa_normalised_witness :
  nonempty
    (V4.Inv.DIVISA
       (V4.Inv.Line "15/03/2024" "EUR" "ASU" "TESORO ATM" "BILLETES"
          100 5 0 0 0 500)) = true
  /\ V4.Inv.normaliza_divisa_inventario
       (V4.Inv.DIVISA
          (V4.Inv.Line "15/03/2024" "EUR" "ASU" "TESORO ATM" "BILLETES"
             100 5 0 0 0 500))
     = V4.Inv.DIVISA
         (V4.Inv.Line "15/03/2024" "EUR" "ASU" "TESORO ATM" "BILLETES"
            100 5 0 0 0 500).
Proof.
  refine (proj1 (proj2 (proj2 (inventory_divisa_normalised (fun _ => None))))
            [V4.Inv.Sheet "15/03/2024" "ASU"
               [[V4.Inv.CStr "Divisa"; V4.Inv.CStr "x"];
                [V4.Inv.CStr "TESORO ATM"; V4.Inv.CStr "BILLETES";
                 V4.Inv.CInt 100; V4.Inv.CInt 5; V4.Inv.CInt 0;
                 V4.Inv.CInt 0; V4.Inv.CInt 0; V4.Inv.CInt 500];
                [V4.Inv.CStr "Total de la moneda EUR"]]]
            (V4.Inv.Line "15/03/2024" "EUR" "ASU" "TESORO ATM" "BILLETES"
               100 5 0 0 0 500) _).
  vm_compute. left. reflexivity.
Defined.


(** ** The dispatchers *)

Lemma prefix_comparable (s : string) :
  forall p q,
    String.prefix p s = true -> String.prefix q s = true ->
    String.prefix p q = true \/ String.prefix q p = true.
Proof.
  induction s as [|c s IH]; intros [|a p] [|b q]; simpl; auto; try discriminate.
  destruct (ascii_dec a c) as [->|]; [|discriminate].
  destruct (ascii_dec b c) as [->|]; [|discriminate].
  destruct (ascii_dec c c) as [_|N]; [|contradiction N; reflexivity].
  apply IH.
Qed.

Lemma prefix_trans (p q s : string) :
  String.prefix p q = true -> String.prefix q s = true ->
  String.prefix p s = true.
Proof.
  revert p q. induction s as [|c s IH]; intros [|a p] [|b q]; simpl; auto;
    try discriminate.
  destruct (ascii_dec a b) as [->|]; [|discriminate].
  destruct (ascii_dec b c) as [->|]; [|discriminate].
  apply IH.
Qed.

Lemma prefix_contains (p s : string) :
  String.prefix p s = true -> contains p s = true.
Proof.
  intros H. destruct s; simpl; simpl in H; rewrite H; reflexivity.
Qed.

(** Two of the prefixes of the dispatcher never hold together. *)
Ltac other_prefixes H :=
  repeat match goal with
         | |- context [String.prefix ?q ?n] =>
             lazymatch type of H with
             | String.prefix q n = true => fail
             | _ =>
                 let E := fresh "E" in
                 destruct (String.prefix q n) eqn:E;
                 [ exfalso;
                   let C := fresh "C" in
                   destruct (prefix_comparable _ _ _ H E) as [C|C];
                   vm_compute in C; discriminate C
                 | ]
             end
         end.

Lemma detect_type_prefix (n p tag : string) :
  In (p, tag)
    [("EC_ATM", "EC_ATM"); ("EC_BANCO", "EC_BANCO"); ("EC_BCO", "EC_BANCO");
     ("EC_BULTOS_ATM", "EC_BULTOS_ATM"); ("EC_BULTOS_BCO", "EC_BULTOS_BCO");
     ("EC_BULTOS_BANCO", "EC_BULTOS_BCO"); ("INV_BILLETES_ATM", "INV_ATM");
     ("INV_ATM", "INV_ATM"); ("INV_BILLETES_BANCO", "INV_BCO");
     ("INV_BCO", "INV_BCO"); ("INV_BANCO", "INV_BCO")] ->
  startswith n p = true ->
  V4._detect_type n = tag.
Proof.
  unfold V4._detect_type, startswith. simpl.
  intros [E|[E|[E|[E|[E|[E|[E|[E|[E|[E|[E|[]]]]]]]]]]]]; injection E as <- <-;
    intros H; rewrite H; other_prefixes H; reflexivity.
Qed.

Lemma detect_type_none (n : string) :
  V4._detect_type n = "" <->
  forall p,
    In p ["EC_ATM"; "EC_BANCO"; "EC_BCO"; "EC_BULTOS_ATM"; "EC_BULTOS_BCO";
          "EC_BULTOS_BANCO"; "INV_BILLETES_ATM"; "INV_ATM";
          "INV_BILLETES_BANCO"; "INV_BCO"; "INV_BANCO"] ->
    startswith n p = false.
Proof.
  unfold V4._detect_type, startswith. split.
  - intros H p Hp.
    repeat match type of H with
           | (if ?b then _ else _) = _ =>
               let E := fresh "E" in
               destruct b eqn:E; [discriminate H|]
           end.
    repeat match goal with
           | E : _ || _ = false |- _ =>
               apply orb_false_elim in E; destruct E
           end.
    simpl in Hp.
    repeat match type of Hp with
           | _ \/ _ => destruct Hp as [<-|Hp]; [assumption|]
           end.
    contradiction.
  - intros H.
    repeat match goal with
           | |- context [String.prefix ?q n] =>
               rewrite (H q) by (simpl; auto 20)
           end.
    reflexivity.
Qed.


Lemma detect_type_sound (n : string) :
  V4._detect_type n = ""
  \/ exists p,
       In (p, V4._detect_type n)
         [("EC_ATM", "EC_ATM"); ("EC_BANCO", "EC_BANCO"); ("EC_BCO", "EC_BANCO");
          ("EC_BULTOS_ATM", "EC_BULTOS_ATM"); ("EC_BULTOS_BCO", "EC_BULTOS_BCO");
          ("EC_BULTOS_BANCO", "EC_BULTOS_BCO"); ("INV_BILLETES_ATM", "INV_ATM");
          ("INV_ATM", "INV_ATM"); ("INV_BILLETES_BANCO", "INV_BCO");
          ("INV_BCO", "INV_BCO"); ("INV_BANCO", "INV_BCO")]
       /\ startswith n p = true.
Proof.
  unfold V4._detect_type, startswith.
  repeat match goal with
         | |- (if ?b then _ else _) = _ \/ _ =>
             let E := fresh "E" in
             destruct b eqn:E;
             [ right;
               repeat match type of E with
                      | _ || _ = true =>
                          apply orb_prop in E; destruct E as [E|E]
                      end;
               (eexists; split; [|exact E]; simpl; auto 20)
             | ]
         end.
  left. reflexivity.
Qed.

(** X11.  [_detect_type] of v4_2 goes by the prefix of the file name alone:
    a name that starts with one of the eleven prefixes gets the type of that
    prefix, whatever the order of the tests, and a name gets a type only
    when it starts with one of them. *)
Theorem detect_type_by_prefix :
  (forall n p tag,
      In (p, tag)
        [("EC_ATM", "EC_ATM"); ("EC_BANCO", "EC_BANCO"); ("EC_BCO", "EC_BANCO");
         ("EC_BULTOS_ATM", "EC_BULTOS_ATM"); ("EC_BULTOS_BCO", "EC_BULTOS_BCO");
         ("EC_BULTOS_BANCO", "EC_BULTOS_BCO"); ("INV_BILLETES_ATM", "INV_ATM");
         ("INV_ATM", "INV_ATM"); ("INV_BILLETES_BANCO", "INV_BCO");
         ("INV_BCO", "INV_BCO"); ("INV_BANCO", "INV_BCO")] ->
      startswith n p = true ->
      V4._detect_type n = tag)
  /\ (forall n,
        V4._detect_type n = ""
        \/ exists p,
             In (p, V4._detect_type n)
               [("EC_ATM", "EC_ATM"); ("EC_BANCO", "EC_BANCO");
                ("EC_BCO", "EC_BANCO"); ("EC_BULTOS_ATM", "EC_BULTOS_ATM");
                ("EC_BULTOS_BCO", "EC_BULTOS_BCO");
                ("EC_BULTOS_BANCO", "EC_BULTOS_BCO");
                ("INV_BILLETES_ATM", "INV_ATM"); ("INV_ATM", "INV_ATM");
                ("INV_BILLETES_BANCO", "INV_BCO"); ("INV_BCO", "INV_BCO");
                ("INV_BANCO", "INV_BCO")]
             /\ startswith n p = true).
Proof. split; [exact detect_type_prefix|exact detect_type_sound]. Qed.

(** A parcel ledger of the bank. *)
Lemma detect_type_by_prefix_witness :
  V4._detect_type "EC_BULTOS_BANCO_0324.XLSX" = "EC_BULTOS_BCO".
Proof.
  refine (proj1 detect_type_by_prefix "EC_BULTOS_BANCO_0324.XLSX"
            "EC_BULTOS_BANCO" "EC_BULTOS_BCO" _ _).
  - do 5 right. left. reflexivity.
  - vm_compute; reflexivity.
Defined.

(** The dispatcher of comsol on the names the dispatcher of v4_2 knows. *)
Lemma detectar_tipo_ec (n p tag : string) :
  In (p, tag)
    [("EC_ATM", "EC_ATM"); ("EC_BANCO", "EC_EFECT_BCO");
     ("EC_BCO", "EC_EFECT_BCO"); ("EC_BULTOS_ATM", "EC_BULTOS_ATM");
     ("EC_BULTOS_BCO", "EC_BULTOS_BCO"); ("EC_BULTOS_BANCO", "EC_BULTOS_BCO")] ->
  startswith n p = true ->
  Comsol._detectar_tipo n = Some tag.
Proof.
  unfold Comsol._detectar_tipo, startswith. simpl.
  intros [E|[E|[E|[E|[E|[E|[]]]]]]]; injection E as <- <-; intros H;
    try rewrite (prefix_contains _ _ H); rewrite ?H; other_prefixes H;
    rewrite ?orb_true_r; reflexivity.
Qed.

Lemma detectar_tipo_inv_atm (n p : string) :
  In p ["INV_BILLETES_ATM"; "INV_ATM"] ->
  startswith n p = true ->
  Comsol._detectar_tipo n
  = Some (if contains "EC_BULTOS_BANCO" n then "EC_BULTOS_BCO" else "INV_ATM").
Proof.
  unfold Comsol._detectar_tipo, startswith. simpl.
  intros [<-|[<-|[]]] H; rewrite H; other_prefixes H;
    destruct (contains "EC_BULTOS_BANCO" n); rewrite ?orb_true_r; reflexivity.
Qed.

Lemma detectar_tipo_inv_bco (n p : string) :
  In p ["INV_BILLETES_BANCO"; "INV_BCO"; "INV_BANCO"] ->
  startswith n p = true ->
  Comsol._detectar_tipo n
  = Some (if contains "EC_BULTOS_BANCO" n then "EC_BULTOS_BCO"
          else if contains "ATM" n then "INV_ATM" else "INV_BCO").
Proof.
  unfold Comsol._detectar_tipo, startswith. simpl.
  intros [<-|[<-|[<-|[]]]] H;
    match type of H with
    | String.prefix ?q n = true =>
        pose proof (prefix_contains _ _ (prefix_trans "INV" q n eq_refl H)) as I
    end;
    rewrite H, I; other_prefixes H;
    destruct (contains "EC_BULTOS_BANCO" n); cbn [orb andb];
    try reflexivity;
    destruct (contains "ATM" n); cbn [orb andb]; rewrite ?orb_true_r;
    reflexivity.
Qed.

(** X12.  On every file name the dispatcher of v4_2 recognises, the
    dispatcher of comsol answers too.  A ledger name gets the same type
    (the bank ledger under the name EC_EFECT_BCO).  An inventory name is
    routed by what it contains as well: one that contains EC_BULTOS_BANCO
    goes to the parcel parser of the bank, and a bank inventory whose name
    contains ATM goes to the inventory parser of the ATMs. *)
Theorem detectar_tipo_on_known_names :
  (forall n p tag,
      In (p, tag)
        [("EC_ATM", "EC_ATM"); ("EC_BANCO", "EC_EFECT_BCO");
         ("EC_BCO", "EC_EFECT_BCO"); ("EC_BULTOS_ATM", "EC_BULTOS_ATM");
         ("EC_BULTOS_BCO", "EC_BULTOS_BCO");
         ("EC_BULTOS_BANCO", "EC_BULTOS_BCO")] ->
      startswith n p = true ->
      Comsol._detectar_tipo n = Some tag)
  /\ (forall n p,
        In p ["INV_BILLETES_ATM"; "INV_ATM"] ->
        startswith n p = true ->
        Comsol._detectar_tipo n
        = Some (if contains "EC_BULTOS_BANCO" n then "EC_BULTOS_BCO"
                else "INV_ATM"))
  /\ (forall n p,
        In p ["INV_BILLETES_BANCO"; "INV_BCO"; "INV_BANCO"] ->
        startswith n p = true ->
        Comsol._detectar_tipo n
        = Some (if contains "EC_BULTOS_BANCO" n then "EC_BULTOS_BCO"
                else if contains "ATM" n then "INV_ATM" else "INV_BCO"))
  /\ (forall n, V4._detect_type n <> "" -> Comsol._detectar_tipo n <> None).
Proof.
  split; [exact detectar_tipo_ec|]. split; [exact detectar_tipo_inv_atm|].
  split; [exact detectar_tipo_inv_bco|].
  intros n Hn.
  destruct (detect_type_sound n) as [E|(p & Hin & Hs)]; [contradiction|].
  clear Hn. revert Hin. generalize (V4._detect_type n). intros tag Hin.
  cbn [In] in Hin.
  destruct Hin as [E|[E|[E|[E|[E|[E|[E|[E|[E|[E|[E|[]]]]]]]]]]]];
    injection E as <- <-.
  1-6: erewrite detectar_tipo_ec; [discriminate| |exact Hs]; simpl; auto 10.
  1-2: erewrite detectar_tipo_inv_atm; [discriminate| |exact Hs];
    simpl; auto.
  1-3: erewrite detectar_tipo_inv_bco; [discriminate| |exact Hs];
    simpl; auto.
Qed.

(** A bank inventory with ATM in its name. *)
Lemma detectar_tipo_on_known_names_witness :
  Comsol._detectar_tipo "INV_BCO_ATM.XLSX" = Some "INV_ATM".
Proof.
  refine (proj1 (proj2 (proj2 detectar_tipo_on_known_names))
            "INV_BCO_ATM.XLSX" "INV_BCO" _ _).
  - right. left. reflexivity.
  - vm_compute; reflexivity.
Defined.


(** ** The parcel ledgers *)

(** One step of the walk to the right: the next non-blank cell and the
    non-blank cells after it. *)
Lemma or_str_nonempty (x d : string) : nonempty x = true -> or_str x d = x.
Proof. intros H. unfold or_str. rewrite H. reflexivity. Qed.

Ltac next_field cells j :=
  let E := fresh "E" in
  let F := fresh "F" in
  let k := fresh "j" in
  pose proof (first_non_empty_after_fields cells j) as F;
  destruct (_first_non_empty_after cells j) as [k|] eqn:E;
  [ let H1 := fresh "H" in
    let H2 := fresh "N" in
    destruct (first_non_empty_after_some _ _ _ E) as (H1 & H2 & _);
    rewrite F;
    rewrite ?(get_cell_found cells k "" (proj2 H1) H2);
    rewrite ?(get_cell_found cells k "0" (proj2 H1) H2);
    rewrite ?(or_str_nonempty _ "0" H2);
    clear F
  | rewrite F; clear F ].

Lemma v4_bultos_atm_detail (d : bool) (fb : string) (st : V4.BultosAtm.state)
  (cells : list string) (i : nat) :
  V4.BultosAtm.detail d fb st cells i
  = let fields := filter nonempty (map strip (skipn (S i) cells)) in
    if Nat.ltb (List.length fields) 5 then V4.Inv.Raise
    else
      let raw := nth 1 fields "" in
      let recibo := if nonempty (_only_digits raw) then _only_digits raw
                    else raw in
      let ag := or_str (V4.BultosAtm.agencia st) fb in
      let pyg :=
        V4.BultosAtm.Record_ (nth i cells "") (nth 0 fields "") recibo
          (nth 2 fields "0") "PYG" (nth 3 fields "0")
          (V4.BultosAtm.ing_egr st) "ATM" (V4.BultosAtm.fecha_archivo st)
          (V4.BultosAtm.motivo_actual st) ag in
      let usd :=
        V4.BultosAtm.Record_ (nth i cells "") (nth 0 fields "") recibo
          (nth 4 fields "0") "USD" (nth 5 fields "0")
          (V4.BultosAtm.ing_egr st) "ATM" (V4.BultosAtm.fecha_archivo st)
          (V4.BultosAtm.motivo_actual st) ag in
      V4.Inv.Ok (if d && V4.BultosAtm.zero_like (nth 5 fields "0")
                 then [pyg] else [pyg; usd]).
Proof.
  unfold V4.BultosAtm.detail. cbv zeta.
  next_field cells i; [|reflexivity].
  cbn [next_after].
  next_field cells j; [|reflexivity].
  cbn [V4.BultosAtm.after_unguarded V4.Inv.bind].
  next_field cells j0; [|reflexivity].
  cbn [V4.BultosAtm.after_unguarded V4.Inv.bind].
  next_field cells j1; [|reflexivity].
  cbn [V4.BultosAtm.after_unguarded V4.Inv.bind].
  next_field cells j2; [|reflexivity].
  cbn [V4.BultosAtm.after_unguarded V4.Inv.bind].
  next_field cells j3.
  - cbn [List.length Nat.ltb Nat.leb nth]. reflexivity.
  - cbn [List.length Nat.ltb Nat.leb nth _get_cell or_str nonempty].
    reflexivity.
Qed.


Lemma comsol_bultos_atm_detail (d : bool) (st : Comsol.BultosAtm.state)
  (cells : list string) (i : nat) :
  Comsol.BultosAtm.detail d st cells i
  = let fields := filter nonempty (map strip (skipn (S i) cells)) in
    let raw := nth 1 fields "" in
    let recibo := or_str (_only_digits raw) raw in
    let pyg :=
      Comsol.BultosAtm.Record_ (nth i cells "") (nth 0 fields "") recibo
        (nth 2 fields "") "PYG" (nth 3 fields "0")
        (Comsol.BultosAtm.ing_egr st) "ATM" (Comsol.BultosAtm.fecha_archivo st)
        (Comsol.BultosAtm.motivo_actual st) (Comsol.BultosAtm.agencia st)
        (Comsol.BultosAtm.saldo_ant_pyg st) (Comsol.BultosAtm.saldo_ant_usd st)
    in
    let usd :=
      Comsol.BultosAtm.Record_ (nth i cells "") (nth 0 fields "") recibo
        (nth 4 fields "") "USD" (nth 5 fields "0")
        (Comsol.BultosAtm.ing_egr st) "ATM" (Comsol.BultosAtm.fecha_archivo st)
        (Comsol.BultosAtm.motivo_actual st) (Comsol.BultosAtm.agencia st)
        (Comsol.BultosAtm.saldo_ant_pyg st) (Comsol.BultosAtm.saldo_ant_usd st)
    in
    if d && Comsol._is_zero_like (nth 5 fields "0") then [pyg] else [pyg; usd].
Proof.
  unfold Comsol.BultosAtm.detail. cbv zeta.
  pose proof (get_cell_chain cells "" 0 i) as H0.
  pose proof (get_cell_chain cells "" 1 i) as H1.
  pose proof (get_cell_chain cells "" 2 i) as H2.
  pose proof (get_cell_chain_nonempty cells 3 i) as H3.
  pose proof (get_cell_chain cells "" 4 i) as H4.
  pose proof (get_cell_chain_nonempty cells 5 i) as H5.
  cbn [Nat.iter nat_rect next_after] in H0, H1, H2, H3, H4, H5.
  rewrite H0, H1, H2, H3, H4, H5. reflexivity.
Qed.

(** What one row of [get_ec_bultos_atm] of v4_2 does to the section and
    which records it adds. *)
Lemma v4_bultos_atm_step (d : bool) (fb : string)
  (st st' : V4.BultosAtm.state) (cells : row)
  (e : list V4.BultosAtm.record) :
  V4.BultosAtm.row_step d fb st cells = V4.BultosAtm.Next st' e ->
  (V4.BultosAtm.ing_egr st' = V4.BultosAtm.ing_egr st
   \/ (upper_join_of cells = "INGRESOS"
       /\ V4.BultosAtm.ing_egr st' = "IN"
       /\ V4.BultosAtm.motivo_actual st' = "")
   \/ (upper_join_of cells = "EGRESOS"
       /\ V4.BultosAtm.ing_egr st' = "OUT"
       /\ V4.BultosAtm.motivo_actual st' = ""))
  /\ (e = []
      \/ (nonempty (V4.BultosAtm.ing_egr st) = true
          /\ nonempty (V4.BultosAtm.motivo_actual st) = true
          /\ st' = st
          /\ exists date_idx,
               date_index (map strip cells) = Some date_idx
               /\ V4.BultosAtm.detail d fb st (map strip cells) date_idx
                  = V4.Inv.Ok e)).
Proof.
  unfold V4.BultosAtm.row_step, upper_join_of, line_join_of. cbv zeta.
  set (line_join := join_cells (map strip cells)).
  set (upper_join := upper (_strip_accents line_join)).
  destruct (negb (nonempty line_join));
    [intros H; injection H as <- <-; auto|].
  destruct (if contains "PROSEGUR PARAGUAY S.A." upper_join
            then re_search rx_sucursal line_join else None);
    [intros H; injection H as <- <-; auto|].
  destruct (if contains "ESTADO DE CUENTA DE BULTOS DE ATM" upper_join
            then re_search rx_al_fecha line_join else None);
    [intros H; injection H as <- <-; auto|].
  destruct (upper_join =? "INGRESOS") eqn:E3.
  { apply String.eqb_eq in E3. intros H; injection H as <- <-. auto 10. }
  destruct (upper_join =? "EGRESOS") eqn:E4.
  { apply String.eqb_eq in E4. intros H; injection H as <- <-. auto 10. }
  destruct (contains "INFORME DE PROCESOS" upper_join); [discriminate|].
  destruct (matches (re_search rx_totales line_join));
    [intros H; injection H as <- <-; auto|].
  destruct (date_index (map strip cells)) as [date_idx|].
  - destruct (nonempty (V4.BultosAtm.ing_egr st)) eqn:N1; cbn [andb];
      [|intros H; injection H as <- <-; auto].
    destruct (nonempty (V4.BultosAtm.motivo_actual st)) eqn:N2;
      [|intros H; injection H as <- <-; auto].
    destruct (V4.BultosAtm.detail d fb st (map strip cells) date_idx)
      as [recs|] eqn:D; [|discriminate].
    intros H; injection H as <- <-. split; [auto|]. right.
    split; [reflexivity|]. split; [reflexivity|]. split; [reflexivity|].
    exists date_idx. split; [reflexivity|exact D].
  - destruct (nonempty (V4.BultosAtm.ing_egr st));
      intros H; injection H as <- <-; auto.
Qed.

Lemma v4_bultos_atm_step_raise (d : bool) (fb : string)
  (st : V4.BultosAtm.state) (cells : row) :
  V4.BultosAtm.row_step d fb st cells = V4.BultosAtm.Raise ->
  nonempty (V4.BultosAtm.ing_egr st) = true
  /\ nonempty (V4.BultosAtm.motivo_actual st) = true
  /\ exists date_idx,
       date_index (map strip cells) = Some date_idx
       /\ V4.BultosAtm.detail d fb st (map strip cells) date_idx
          = V4.Inv.Raise.
Proof.
  unfold V4.BultosAtm.row_step. cbv zeta.
  set (line_join := join_cells (map strip cells)).
  set (upper_join := upper (_strip_accents line_join)).
  destruct (negb (nonempty line_join)); [discriminate|].
  destruct (if contains "PROSEGUR PARAGUAY S.A." upper_join
            then re_search rx_sucursal line_join else None); [discriminate|].
  destruct (if contains "ESTADO DE CUENTA DE BULTOS DE ATM" upper_join
            then re_search rx_al_fecha line_join else None); [discriminate|].
  destruct (upper_join =? "INGRESOS"); [discriminate|].
  destruct (upper_join =? "EGRESOS"); [discriminate|].
  destruct (contains "INFORME DE PROCESOS" upper_join); [discriminate|].
  destruct (matches (re_search rx_totales line_join)); [discriminate|].
  destruct (date_index (map strip cells)) as [date_idx|].
  - destruct (nonempty (V4.BultosAtm.ing_egr st)) eqn:N1; cbn [andb];
      [|discriminate].
    destruct (nonempty (V4.BultosAtm.motivo_actual st)) eqn:N2;
      [|discriminate].
    destruct (V4.BultosAtm.detail d fb st (map strip cells) date_idx)
      as [recs|] eqn:D; [discriminate|].
    intros _. split; [reflexivity|]. split; [reflexivity|].
    exists date_idx. split; [reflexivity|exact D].
  - destruct (nonempty (V4.BultosAtm.ing_egr st)); discriminate.
Qed.

(** The records of one detail row of v4_2: section, motive, and the two
    currencies. *)
Lemma v4_bultos_atm_detail_records (d : bool) (fb : string)
  (st : V4.BultosAtm.state) (cells : list string) (i : nat)
  (e : list V4.BultosAtm.record) :
  V4.BultosAtm.detail d fb st cells i = V4.Inv.Ok e ->
  (exists pyg rest,
      e = pyg :: rest /\ V4.BultosAtm.MONEDA pyg = "PYG"
      /\ (rest = []
          \/ exists usd,
               rest = [usd] /\ V4.BultosAtm.MONEDA usd = "USD"
               /\ V4.BultosAtm.FECHA usd = V4.BultosAtm.FECHA pyg
               /\ V4.BultosAtm.SUCURSAL usd = V4.BultosAtm.SUCURSAL pyg
               /\ V4.BultosAtm.RECIBO usd = V4.BultosAtm.RECIBO pyg))
  /\ forall r, In r e ->
       V4.BultosAtm.ING_EGR r = V4.BultosAtm.ing_egr st
       /\ V4.BultosAtm.MOTIVO_MOVIMIENTO r = V4.BultosAtm.motivo_actual st
       /\ nonempty (V4.BultosAtm.BULTOS r) = true
       /\ nonempty (V4.BultosAtm.IMPORTE r) = true
       /\ (V4.BultosAtm.MONEDA r = "PYG"
           \/ (V4.BultosAtm.MONEDA r = "USD"
               /\ (d = true ->
                   V4.BultosAtm.zero_like (V4.BultosAtm.IMPORTE r) = false))).
Proof.
  rewrite v4_bultos_atm_detail. cbv zeta.
  set (fields := filter nonempty (map strip (skipn (S i) cells))).
  destruct (Nat.ltb (List.length fields) 5) eqn:L; [discriminate|].
  apply Nat.ltb_ge in L.
  assert (Hn : forall k dflt, nonempty dflt = true ->
                              nonempty (nth k fields dflt) = true).
  { intros k dflt Hd. destruct (Nat.lt_ge_cases k (List.length fields)) as [Hk|Hk].
    - pose proof (nth_In fields dflt Hk) as Hin. unfold fields in Hin at 2.
      apply filter_In in Hin. exact (proj2 Hin).
    - rewrite nth_overflow by exact Hk. exact Hd. }
  intros H; injection H as <-.
  destruct (d && V4.BultosAtm.zero_like (nth 5 fields "0")) eqn:Z.
  - split.
    + eexists; eexists. split; [reflexivity|]. split; [reflexivity|].
      left; reflexivity.
    + intros r [<-|[]]. cbn.
      split; [reflexivity|]. split; [reflexivity|].
      split; [apply Hn; reflexivity|]. split; [apply Hn; reflexivity|].
      left; reflexivity.
  - split.
    + eexists; eexists. split; [reflexivity|]. split; [reflexivity|].
      right. eexists. split; [reflexivity|]. cbn. auto.
    + intros r [<-|[<-|[]]]; cbn;
        (split; [reflexivity|]); (split; [reflexivity|]);
        (split; [apply Hn; reflexivity|]); (split; [apply Hn; reflexivity|]).
      * left; reflexivity.
      * right. split; [reflexivity|]. intros ->. exact Z.
Qed.


Lemma v4_bultos_atm_run_records (d : bool) (fb : string) (rows : list row) :
  forall st final recs,
    Spec.section_value (V4.BultosAtm.ing_egr st) ->
    V4.BultosAtm.run d fb st rows = V4.Inv.Ok (final, recs) ->
    forall r, In r recs ->
      (V4.BultosAtm.ING_EGR r = "IN" \/ V4.BultosAtm.ING_EGR r = "OUT")
      /\ nonempty (V4.BultosAtm.MOTIVO_MOVIMIENTO r) = true
      /\ nonempty (V4.BultosAtm.BULTOS r) = true
      /\ nonempty (V4.BultosAtm.IMPORTE r) = true
      /\ (V4.BultosAtm.MONEDA r = "PYG"
          \/ (V4.BultosAtm.MONEDA r = "USD"
              /\ (d = true ->
                  V4.BultosAtm.zero_like (V4.BultosAtm.IMPORTE r) = false))).
Proof.
  induction rows as [|cells rows IH]; intros st final recs Hsec; simpl.
  { intros H; injection H as <- <-. intros r []. }
  destruct (V4.BultosAtm.row_step d fb st cells) as [st' e| |] eqn:E;
    [|intros H; injection H as <- <-; intros r []|discriminate].
  destruct (V4.BultosAtm.run d fb st' rows) as [[final' more]|] eqn:R;
    [|discriminate].
  intros H; injection H as <- <-. intros r Hin.
  destruct (v4_bultos_atm_step _ _ _ _ _ _ E) as [S G].
  apply in_app_or in Hin. destruct Hin as [Hin|Hin].
  - destruct G as [->|(N1 & N2 & _ & i & _ & D)]; [contradiction|].
    destruct (v4_bultos_atm_detail_records _ _ _ _ _ _ D) as [_ P].
    destruct (P r Hin) as (P1 & P2 & P3 & P4 & P5).
    rewrite P1, P2. split; [|auto].
    destruct Hsec as [Hs|[Hs|Hs]]; rewrite Hs in *; auto; discriminate.
  - apply (IH st' final' more); [|exact R|exact Hin].
    destruct S as [H|[(_ & H & _)|(_ & H & _)]];
      unfold Spec.section_value; rewrite H; auto.
Qed.

Lemma v4_bultos_atm_no_section (d : bool) (fb : string) (rows : list row) :
  forall st,
    V4.BultosAtm.ing_egr st = "" ->
    (forall cells, In cells rows ->
       contains "INGRESOS" (upper_join_of cells) = false
       /\ contains "EGRESOS" (upper_join_of cells) = false) ->
    exists final, V4.BultosAtm.run d fb st rows = V4.Inv.Ok (final, []).
Proof.
  induction rows as [|cells rows IH]; intros st Hst Hrows; simpl.
  { exists st. reflexivity. }
  destruct (V4.BultosAtm.row_step d fb st cells) as [st' e| |] eqn:E.
  - destruct (v4_bultos_atm_step _ _ _ _ _ _ E) as [S G].
    assert (He : e = []).
    { destruct G as [->|(N1 & _)]; [reflexivity|].
      rewrite Hst in N1. discriminate. }
    assert (Hst' : V4.BultosAtm.ing_egr st' = "").
    { destruct (Hrows cells (or_introl eq_refl)) as [Hi Ho].
      destruct S as [H|[(H & _)|(H & _)]].
      - congruence.
      - rewrite H in Hi. discriminate.
      - rewrite H in Ho. discriminate. }
    destruct (IH st' Hst' (fun c Hc => Hrows c (or_intror Hc))) as [final ->].
    exists final. rewrite He. reflexivity.
  - exists st. reflexivity.
  - destruct (v4_bultos_atm_step_raise _ _ _ _ E) as (N1 & _).
    rewrite Hst in N1. discriminate.
Qed.


Lemma comsol_bultos_atm_step (d : bool) (st st' : Comsol.BultosAtm.state)
  (cells : row) (e : list Comsol.BultosAtm.record) :
  Comsol.BultosAtm.row_step d st cells = Comsol.BultosAtm.Next st' e ->
  (Comsol.BultosAtm.ing_egr st' = Comsol.BultosAtm.ing_egr st
   \/ (upper_join_of cells = "INGRESOS"
       /\ Comsol.BultosAtm.ing_egr st' = "IN"
       /\ Comsol.BultosAtm.motivo_actual st' = "")
   \/ (upper_join_of cells = "EGRESOS"
       /\ Comsol.BultosAtm.ing_egr st' = "OUT"
       /\ Comsol.BultosAtm.motivo_actual st' = ""))
  /\ (e = []
      \/ (nonempty (Comsol.BultosAtm.ing_egr st) = true
          /\ nonempty (Comsol.BultosAtm.motivo_actual st) = true
          /\ st' = st
          /\ exists date_idx,
               date_index (map strip cells) = Some date_idx
               /\ e = Comsol.BultosAtm.detail d st (map strip cells) date_idx))
  /\ (Comsol.BultosAtm.captured st = true ->
      Comsol.BultosAtm.saldo_ant_pyg st' = Comsol.BultosAtm.saldo_ant_pyg st
      /\ Comsol.BultosAtm.saldo_ant_usd st' = Comsol.BultosAtm.saldo_ant_usd st).
Proof.
  unfold Comsol.BultosAtm.row_step, upper_join_of, line_join_of. cbv zeta.
  set (line_join := join_cells (map strip cells)).
  set (upper_join := upper (_strip_accents line_join)).
  destruct (negb (nonempty line_join));
    [intros H; injection H as <- <-; auto|].
  destruct (contains "SALDO ANTERIOR" upper_join
            && negb (Comsol.BultosAtm.captured st)) eqn:L.
  { intros H; injection H as <- <-. split; [auto|]. split; [auto|].
    intros Hc. rewrite Hc, andb_false_r in L. discriminate L. }
  clear L.
  destruct (contains "PROSEGUR PARAGUAY S.A." upper_join).
  { destruct (re_search rx_sucursal line_join);
      intros H; injection H as <- <-; auto. }
  destruct (contains "ESTADO DE CUENTA DE BULTOS DE ATM" upper_join).
  { destruct (re_search rx_al_fecha line_join);
      intros H; injection H as <- <-; auto. }
  destruct (upper_join =? "INGRESOS") eqn:E3.
  { apply String.eqb_eq in E3. intros H; injection H as <- <-. auto 10. }
  destruct (upper_join =? "EGRESOS") eqn:E4.
  { apply String.eqb_eq in E4. intros H; injection H as <- <-. auto 10. }
  destruct (contains "INFORME DE PROCESOS" upper_join); [discriminate|].
  destruct (matches (re_search rx_totales line_join));
    [intros H; injection H as <- <-; auto|].
  destruct (date_index (map strip cells)) as [date_idx|].
  - destruct (nonempty (Comsol.BultosAtm.ing_egr st)) eqn:N1; cbn [andb];
      [|intros H; injection H as <- <-; auto].
    destruct (nonempty (Comsol.BultosAtm.motivo_actual st)) eqn:N2;
      [|intros H; injection H as <- <-; auto].
    intros H; injection H as <- <-. split; [auto|]. split; [|auto]. right.
    split; [reflexivity|]. split; [reflexivity|]. split; [reflexivity|].
    exists date_idx. split; reflexivity.
  - destruct (nonempty (Comsol.BultosAtm.ing_egr st));
      intros H; injection H as <- <-; auto.
Qed.

Lemma comsol_bultos_atm_detail_records (d : bool)
  (st : Comsol.BultosAtm.state) (cells : list string) (i : nat) :
  (exists pyg rest,
      Comsol.BultosAtm.detail d st cells i = pyg :: rest
      /\ Comsol.BultosAtm.MONEDA pyg = "PYG"
      /\ (rest = []
          \/ exists usd,
               rest = [usd] /\ Comsol.BultosAtm.MONEDA usd = "USD"
               /\ Comsol.BultosAtm.FECHA usd = Comsol.BultosAtm.FECHA pyg
               /\ Comsol.BultosAtm.SUCURSAL usd = Comsol.BultosAtm.SUCURSAL pyg
               /\ Comsol.BultosAtm.RECIBO usd = Comsol.BultosAtm.RECIBO pyg))
  /\ forall r, In r (Comsol.BultosAtm.detail d st cells i) ->
       Comsol.BultosAtm.ING_EGR r = Comsol.BultosAtm.ing_egr st
       /\ Comsol.BultosAtm.MOTIVO_MOVIMIENTO r
          = Comsol.BultosAtm.motivo_actual st
       /\ Comsol.BultosAtm.SALDO_ANTERIOR_PYG r
          = Comsol.BultosAtm.saldo_ant_pyg st
       /\ Comsol.BultosAtm.SALDO_ANTERIOR_USD r
          = Comsol.BultosAtm.saldo_ant_usd st
       /\ nonempty (Comsol.BultosAtm.IMPORTE r) = true
       /\ (Comsol.BultosAtm.MONEDA r = "PYG"
           \/ (Comsol.BultosAtm.MONEDA r = "USD"
               /\ (d = true ->
                   Comsol._is_zero_like (Comsol.BultosAtm.IMPORTE r) = false))).
Proof.
  rewrite comsol_bultos_atm_detail. cbv zeta.
  set (fields := filter nonempty (map strip (skipn (S i) cells))).
  assert (Hn : forall k dflt, nonempty dflt = true ->
                              nonempty (nth k fields dflt) = true).
  { intros k dflt Hd. destruct (Nat.lt_ge_cases k (List.length fields)) as [Hk|Hk].
    - pose proof (nth_In fields dflt Hk) as Hin. unfold fields in Hin at 2.
      apply filter_In in Hin. exact (proj2 Hin).
    - rewrite nth_overflow by exact Hk. exact Hd. }
  destruct (d && Comsol._is_zero_like (nth 5 fields "0")) eqn:Z.
  - split.
    + eexists; eexists. split; [reflexivity|]. split; [reflexivity|].
      left; reflexivity.
    + intros r [<-|[]]. cbn.
      repeat (split; [reflexivity|]). split; [apply Hn; reflexivity|].
      left; reflexivity.
  - split.
    + eexists; eexists. split; [reflexivity|]. split; [reflexivity|].
      right. eexists. split; [reflexivity|]. cbn. auto.
    + intros r [<-|[<-|[]]]; cbn;
        repeat (split; [reflexivity|]); (split; [apply Hn; reflexivity|]).
      * left; reflexivity.
      * right. split; [reflexivity|]. intros ->. exact Z.
Qed.

Lemma comsol_bultos_atm_run_records (d : bool) (rows : list row) :
  forall st,
    Spec.section_value (Comsol.BultosAtm.ing_egr st) ->
    forall r, In r (snd (Comsol.BultosAtm.run d st rows)) ->
      (Comsol.BultosAtm.ING_EGR r = "IN" \/ Comsol.BultosAtm.ING_EGR r = "OUT")
      /\ nonempty (Comsol.BultosAtm.MOTIVO_MOVIMIENTO r) = true
      /\ nonempty (Comsol.BultosAtm.IMPORTE r) = true
      /\ (Comsol.BultosAtm.MONEDA r = "PYG"
          \/ (Comsol.BultosAtm.MONEDA r = "USD"
              /\ (d = true ->
                  Comsol._is_zero_like (Comsol.BultosAtm.IMPORTE r) = false))).
Proof.
  induction rows as [|cells rows IH]; intros st Hsec r; simpl; [intros []|].
  destruct (Comsol.BultosAtm.row_step d st cells) as [st' e|] eqn:E;
    [|intros []].
  destruct (Comsol.BultosAtm.run d st' rows) as [final more] eqn:R. simpl.
  intros Hin. destruct (comsol_bultos_atm_step _ _ _ _ _ E) as (S & G & _).
  apply in_app_or in Hin. destruct Hin as [Hin|Hin].
  - destruct G as [->|(N1 & N2 & _ & i & _ & ->)]; [contradiction|].
    destruct (comsol_bultos_atm_detail_records d st (map strip cells) i)
      as [_ P].
    destruct (P r Hin) as (P1 & P2 & _ & _ & P5 & P6).
    rewrite P1, P2. split; [|auto].
    destruct Hsec as [Hs|[Hs|Hs]]; rewrite Hs in *; auto; discriminate.
  - apply (IH st'); [|rewrite R; exact Hin].
    destruct S as [H|[(_ & H & _)|(_ & H & _)]];
      unfold Spec.section_value; rewrite H; auto.
Qed.

Lemma comsol_bultos_atm_no_section (d : bool) (rows : list row) :
  forall st,
    Comsol.BultosAtm.ing_egr st = "" ->
    (forall cells, In cells rows ->
       contains "INGRESOS" (upper_join_of cells) = false
       /\ contains "EGRESOS" (upper_join_of cells) = false) ->
    snd (Comsol.BultosAtm.run d st rows) = [].
Proof.
  induction rows as [|cells rows IH]; intros st Hst Hrows; simpl;
    [reflexivity|].
  destruct (Comsol.BultosAtm.row_step d st cells) as [st' e|] eqn:E;
    [|reflexivity].
  destruct (comsol_bultos_atm_step _ _ _ _ _ E) as (S & G & _).
  assert (He : e = []).
  { destruct G as [->|(N1 & _)]; [reflexivity|].
    rewrite Hst in N1. discriminate. }
  assert (Hst' : Comsol.BultosAtm.ing_egr st' = "").
  { destruct (Hrows cells (or_introl eq_refl)) as [Hi Ho].
    destruct S as [H|[(H & _)|(H & _)]].
    - congruence.
    - rewrite H in Hi. discriminate.
    - rewrite H in Ho. discriminate. }
  specialize (IH st' Hst' (fun c Hc => Hrows c (or_intror Hc))).
  destruct (Comsol.BultosAtm.run d st' rows). simpl in *. subst. reflexivity.
Qed.

Lemma comsol_bultos_atm_run_captured (d : bool) (rows : list row) :
  forall st,
    Comsol.BultosAtm.captured st = true ->
    Comsol.BultosAtm.saldo_ant_pyg (fst (Comsol.BultosAtm.run d st rows))
    = Comsol.BultosAtm.saldo_ant_pyg st
    /\ Comsol.BultosAtm.saldo_ant_usd (fst (Comsol.BultosAtm.run d st rows))
       = Comsol.BultosAtm.saldo_ant_usd st.
Proof.
  induction rows as [|cells rows IH]; intros st Hc; simpl; [auto|].
  destruct (Comsol.BultosAtm.row_step d st cells) as [st' e|] eqn:E; [|auto].
  destruct (comsol_bultos_atm_step _ _ _ _ _ E) as (_ & _ & K).
  destruct (K Hc) as [K1 K2].
  assert (Hc' : Comsol.BultosAtm.captured st' = true).
  { unfold Comsol.BultosAtm.captured in *. rewrite K1, K2. exact Hc. }
  destruct (IH st' Hc') as [I1 I2].
  destruct (Comsol.BultosAtm.run d st' rows) as [final more]. simpl in *.
  rewrite I1, I2. auto.
Qed.


Lemma v4_bultos_atm_step_data (d : bool) (fb : string)
  (st : V4.BultosAtm.state) (cells : row) :
  V4.BultosAtm.classify cells = Data ->
  V4.BultosAtm.row_step d fb st cells
  = match date_index (map strip cells) with
    | None =>
        if nonempty (V4.BultosAtm.ing_egr st)
        then V4.BultosAtm.Next
               (V4.BultosAtm.State (V4.BultosAtm.agencia st)
                  (V4.BultosAtm.fecha_archivo st) (V4.BultosAtm.ing_egr st)
                  (strip (line_join_of cells))) []
        else V4.BultosAtm.Next st []
    | Some date_idx =>
        if nonempty (V4.BultosAtm.ing_egr st)
           && nonempty (V4.BultosAtm.motivo_actual st)
        then match V4.BultosAtm.detail d fb st (map strip cells) date_idx with
             | V4.Inv.Ok emitted => V4.BultosAtm.Next st emitted
             | V4.Inv.Raise => V4.BultosAtm.Raise
             end
        else V4.BultosAtm.Next st []
    end.
Proof.
  unfold V4.BultosAtm.row_step, V4.BultosAtm.classify, line_join_of. cbv zeta.
  set (line_join := join_cells (map strip cells)).
  set (upper_join := upper (_strip_accents line_join)).
  destruct (negb (nonempty line_join)); [discriminate|].
  destruct (contains "PROSEGUR PARAGUAY S.A." upper_join); cbn [andb];
    [destruct (re_search rx_sucursal line_join); cbn [matches];
     [discriminate|]|];
  (destruct (contains "ESTADO DE CUENTA DE BULTOS DE ATM" upper_join);
    cbn [andb];
    [destruct (re_search rx_al_fecha line_join); cbn [matches];
     [discriminate|]|];
   (destruct (upper_join =? "INGRESOS"); [discriminate|];
    destruct (upper_join =? "EGRESOS"); [discriminate|];
    destruct (contains "INFORME DE PROCESOS" upper_join); [discriminate|];
    destruct (matches (re_search rx_totales line_join)); [discriminate|];
    reflexivity)).
Qed.

Lemma v4_bultos_atm_raise_data (d : bool) (fb : string)
  (st : V4.BultosAtm.state) (cells : row) :
  V4.BultosAtm.row_step d fb st cells = V4.BultosAtm.Raise ->
  V4.BultosAtm.classify cells = Data.
Proof.
  unfold V4.BultosAtm.row_step, V4.BultosAtm.classify. cbv zeta.
  set (line_join := join_cells (map strip cells)).
  set (upper_join := upper (_strip_accents line_join)).
  destruct (negb (nonempty line_join)); [discriminate|].
  destruct (contains "PROSEGUR PARAGUAY S.A." upper_join); cbn [andb];
    [destruct (re_search rx_sucursal line_join); cbn [matches];
     [discriminate|]|];
  (destruct (contains "ESTADO DE CUENTA DE BULTOS DE ATM" upper_join);
    cbn [andb];
    [destruct (re_search rx_al_fecha line_join); cbn [matches];
     [discriminate|]|];
   (destruct (upper_join =? "INGRESOS"); [discriminate|];
    destruct (upper_join =? "EGRESOS"); [discriminate|];
    destruct (contains "INFORME DE PROCESOS" upper_join); [discriminate|];
    destruct (matches (re_search rx_totales line_join)); [discriminate|];
    reflexivity)).
Qed.

Lemma v4_bultos_atm_raise_iff (d : bool) (fb : string)
  (st : V4.BultosAtm.state) (cells : row) :
  V4.BultosAtm.row_step d fb st cells = V4.BultosAtm.Raise <->
  V4.BultosAtm.classify cells = Data
  /\ nonempty (V4.BultosAtm.ing_egr st) = true
  /\ nonempty (V4.BultosAtm.motivo_actual st) = true
  /\ exists date_idx,
       date_index (map strip cells) = Some date_idx
       /\ List.length
            (filter nonempty
               (map strip (skipn (S date_idx) (map strip cells)))) < 5.
Proof.
  split.
  - intros H. pose proof (v4_bultos_atm_raise_data _ _ _ _ H) as K.
    destruct (v4_bultos_atm_step_raise _ _ _ _ H) as (N1 & N2 & i & Hi & D).
    split; [exact K|]. split; [exact N1|]. split; [exact N2|].
    exists i. split; [exact Hi|].
    rewrite v4_bultos_atm_detail in D. cbv zeta in D.
    destruct (Nat.ltb _ 5) eqn:L; [|discriminate D].
    apply Nat.ltb_lt in L. exact L.
  - intros (K & N1 & N2 & i & Hi & L).
    rewrite (v4_bultos_atm_step_data _ _ _ _ K), Hi, N1, N2. cbn [andb].
    rewrite v4_bultos_atm_detail. cbv zeta.
    apply Nat.ltb_lt in L. rewrite L. reflexivity.
Qed.


Lemma map_strip_skipn (n : nat) (cells : list string) :
  map strip (skipn n (map strip cells)) = skipn n (map strip cells).
Proof.
  revert n. induction cells as [|c cells IH]; intros [|n]; simpl;
    try reflexivity.
  - rewrite strip_idempotent. f_equal. exact (IH 0).
  - apply IH.
Qed.

(** *** [get_ec_bultos_bco] of v4_2 *)

Lemma v4_bultos_bco_receipt_token (parts : list string) (i : nat) :
  V4.BultosBco.receipt_index parts = Some i ->
  matches (re_fullmatch V4.EcBanco.rx_recibo (_strip_accents (nth i parts "")))
  = true
  /\ 1 <= i.
Proof.
  unfold V4.BultosBco.receipt_index. intros H.
  pose proof (find_index_from_ge _ _ _ _ H) as Hle.
  destruct (find_index_from_sound _ _ _ _ H) as (x & Hx & Hp).
  split; [|exact Hle].
  assert (E : nth i parts "" = x).
  { destruct parts as [|p parts]; [destruct (i - 1); discriminate Hx|].
    simpl in Hx. destruct i as [|i]; [lia|]. simpl.
    replace (S i - 1) with i in Hx by lia.
    exact (nth_error_nth _ _ _ Hx). }
  rewrite E. exact Hp.
Qed.

Lemma v4_bultos_bco_moneda_after (st : V4.BultosBco.state) (linea : string) :
  V4.BultosBco.moneda_after st linea = V4.BultosBco.moneda_actual st
  \/ exists tok,
       V4.BultosBco.moneda_after st linea = V4.normalize_moneda_iso tok.
Proof.
  unfold V4.BultosBco.moneda_after.
  destruct (re_search V4.BultosBco.rx_moneda linea) as [m|]; [right|left].
  - exists (group m). reflexivity.
  - reflexivity.
Qed.

Lemma v4_bultos_bco_step_by_kind (fb : string) (st : V4.BultosBco.state)
  (cells : row) :
  V4.BultosBco.row_step fb st cells =
  match V4.BultosBco.classify cells with
  | Blank | Total | Label => V4.BultosBco.Next st []
  | Agency =>
      V4.BultosBco.Next
        (V4.BultosBco.State
           (match re_search rx_sucursal (line_join_of cells) with
            | Some m => strip (group m)
            | None => V4.BultosBco.agencia st
            end)
           (V4.BultosBco.fecha_archivo st) (V4.BultosBco.ing_egr st)
           (V4.BultosBco.motivo_actual st) (V4.BultosBco.moneda_actual st)) []
  | Statement =>
      V4.BultosBco.Next
        (V4.BultosBco.State (V4.BultosBco.agencia st)
           (match re_search rx_al_fecha_sp (line_join_of cells) with
            | Some m_f => group m_f
            | None => V4.BultosBco.fecha_archivo st
            end)
           (V4.BultosBco.ing_egr st) (V4.BultosBco.motivo_actual st)
           (V4.BultosBco.moneda_after st (line_join_of cells))) []
  | SectionIn =>
      V4.BultosBco.Next
        (V4.BultosBco.State (V4.BultosBco.agencia st)
           (V4.BultosBco.fecha_archivo st) "IN" ""
           (V4.BultosBco.moneda_actual st)) []
  | SectionOut =>
      V4.BultosBco.Next
        (V4.BultosBco.State (V4.BultosBco.agencia st)
           (V4.BultosBco.fecha_archivo st) "OUT" ""
           (V4.BultosBco.moneda_actual st)) []
  | Terminal => V4.BultosBco.Break
  | Data =>
      V4.BultosBco.data_row fb st (filter nonempty (map strip cells))
        (line_join_of cells)
  end.
Proof.
  unfold V4.BultosBco.row_step, V4.BultosBco.classify, line_join_of,
    join_cells. cbv zeta.
  set (linea := join " " (filter nonempty (map strip cells))).
  set (linea_up := upper (_strip_accents linea)).
  destruct (negb (nonempty linea)); [reflexivity|].
  destruct (contains "PROSEGUR PARAGUAY S.A." linea_up); cbn [andb];
    [destruct (re_search rx_sucursal linea); cbn [matches];
     [reflexivity|]|];
  (destruct (contains "ESTADO DE CUENTA DE" linea_up); [reflexivity|];
   destruct (linea_up =? "INGRESOS"); [reflexivity|];
   destruct (linea_up =? "EGRESOS"); [reflexivity|];
   destruct (contains "INFORME DE PROCESOS" linea_up); [reflexivity|];
   destruct (matches (re_search rx_totales linea)); reflexivity).
Qed.

Lemma v4_bultos_bco_classify_text (cells : row) :
  match V4.BultosBco.classify cells with
  | SectionIn => upper_join_of cells = "INGRESOS"
  | SectionOut => upper_join_of cells = "EGRESOS"
  | _ => True
  end.
Proof.
  unfold V4.BultosBco.classify, upper_join_of, line_join_of, join_cells.
  cbv zeta.
  set (linea := join " " (filter nonempty (map strip cells))).
  set (linea_up := upper (_strip_accents linea)).
  destruct (negb (nonempty linea)); [exact I|].
  destruct (_ && _); [exact I|].
  destruct (contains "ESTADO DE CUENTA DE" linea_up); [exact I|].
  destruct (linea_up =? "INGRESOS") eqn:E3; [apply String.eqb_eq; exact E3|].
  destruct (linea_up =? "EGRESOS") eqn:E4; [apply String.eqb_eq; exact E4|].
  destruct (contains "INFORME DE PROCESOS" linea_up); [exact I|].
  destruct (matches (re_search rx_totales linea)); exact I.
Qed.

Lemma v4_bultos_bco_data_row (fb : string) (st st' : V4.BultosBco.state)
  (parts : list string) (linea : string) (e : list V4.BultosBco.record) :
  V4.BultosBco.data_row fb st parts linea = V4.BultosBco.Next st' e ->
  V4.BultosBco.ing_egr st' = V4.BultosBco.ing_egr st
  /\ (V4.BultosBco.moneda_actual st' = V4.BultosBco.moneda_actual st
      \/ exists tok,
           V4.BultosBco.moneda_actual st' = V4.normalize_moneda_iso tok)
  /\ (e = []
      \/ (nonempty (V4.BultosBco.ing_egr st) = true
          /\ nonempty (V4.BultosBco.motivo_actual st) = true
          /\ V4.BultosBco.motivo_actual st' = V4.BultosBco.motivo_actual st
          /\ matches (re_match rx_fecha_linea linea) = true
          /\ exists r,
               e = [r]
               /\ V4.BultosBco.ING_EGR r = V4.BultosBco.ing_egr st
               /\ V4.BultosBco.MOTIVO_MOVIMIENTO r
                  = V4.BultosBco.motivo_actual st
               /\ V4.BultosBco.MONEDA r
                  = or_str (V4.BultosBco.moneda_actual st') "PYG"
               /\ matches (re_fullmatch V4.EcBanco.rx_recibo
                             (_strip_accents (V4.BultosBco.RECIBO r)))
                  = true)).
Proof.
  unfold V4.BultosBco.data_row. cbv zeta.
  pose proof (v4_bultos_bco_moneda_after st linea) as M.
  destruct (matches (re_search V4.BultosBco.rx_moneda linea)
            && negb (matches (re_match rx_fecha_linea linea))).
  { intros H; injection H as <- <-. cbn. auto. }
  destruct (matches (re_match rx_fecha_linea linea)) eqn:Dt.
  - rewrite andb_false_r, andb_true_r.
    destruct (nonempty (V4.BultosBco.ing_egr st)) eqn:N1; cbn [andb];
      [|intros H; injection H as <- <-; auto].
    destruct (nonempty (V4.BultosBco.motivo_actual st)) eqn:N2;
      [|intros H; injection H as <- <-; auto].
    unfold V4.BultosBco.detail.
    destruct parts as [|fecha_oper parts'];
      [intros H; injection H as <- <-; auto|].
    destruct (V4.BultosBco.receipt_index (fecha_oper :: parts'))
      as [idx|] eqn:R; [|intros H; injection H as <- <-; auto].
    cbv zeta. intros H; injection H as <- <-. cbn.
    split; [reflexivity|]. split; [exact M|]. right.
    repeat (split; [reflexivity|]). eexists. split; [reflexivity|]. cbn.
    repeat (split; [reflexivity|]).
    exact (proj1 (v4_bultos_bco_receipt_token _ _ R)).
  - rewrite andb_true_r, andb_false_r.
    destruct (nonempty (V4.BultosBco.ing_egr st));
      intros H; injection H as <- <-; auto.
Qed.

Lemma v4_bultos_bco_step (fb : string) (st st' : V4.BultosBco.state)
  (cells : row) (e : list V4.BultosBco.record) :
  V4.BultosBco.row_step fb st cells = V4.BultosBco.Next st' e ->
  (V4.BultosBco.ing_egr st' = V4.BultosBco.ing_egr st
   \/ (upper_join_of cells = "INGRESOS" /\ V4.BultosBco.ing_egr st' = "IN")
   \/ (upper_join_of cells = "EGRESOS" /\ V4.BultosBco.ing_egr st' = "OUT"))
  /\ (V4.BultosBco.moneda_actual st' = V4.BultosBco.moneda_actual st
      \/ exists tok,
           V4.BultosBco.moneda_actual st' = V4.normalize_moneda_iso tok)
  /\ (e = []
      \/ (nonempty (V4.BultosBco.ing_egr st) = true
          /\ nonempty (V4.BultosBco.motivo_actual st) = true
          /\ exists r,
               e = [r]
               /\ V4.BultosBco.ING_EGR r = V4.BultosBco.ing_egr st
               /\ V4.BultosBco.MOTIVO_MOVIMIENTO r
                  = V4.BultosBco.motivo_actual st
               /\ V4.BultosBco.MONEDA r
                  = or_str (V4.BultosBco.moneda_actual st') "PYG"
               /\ matches (re_fullmatch V4.EcBanco.rx_recibo
                             (_strip_accents (V4.BultosBco.RECIBO r)))
                  = true)).
Proof.
  rewrite v4_bultos_bco_step_by_kind.
  pose proof (v4_bultos_bco_classify_text cells) as K.
  pose proof (v4_bultos_bco_moneda_after st (line_join_of cells)) as M.
  destruct (V4.BultosBco.classify cells);
    try (intros H; injection H as <- <-; cbn; auto 10; fail);
    try discriminate.
  intros H. destruct (v4_bultos_bco_data_row _ _ _ _ _ _ H) as (H1 & H2 & H3).
  split; [auto|]. split; [exact H2|].
  destruct H3 as [->|(N1 & N2 & _ & _ & R)]; [auto|]. right. auto.
Qed.


Lemma v4_moneda_or_pyg_fixed (tok : string) :
  V4.normalize_moneda_iso (or_str (V4.normalize_moneda_iso tok) "PYG")
  = or_str (V4.normalize_moneda_iso tok) "PYG"
  /\ nonempty (or_str (V4.normalize_moneda_iso tok) "PYG") = true.
Proof.
  unfold or_str. destruct (nonempty (V4.normalize_moneda_iso tok)) eqn:N.
  - split; [apply v4_moneda_idempotent|exact N].
  - split; vm_compute; reflexivity.
Qed.

Lemma v4_bultos_bco_run_records (fb : string) (rows : list row) :
  forall st,
    Spec.section_value (V4.BultosBco.ing_egr st) ->
    (exists tok, V4.BultosBco.moneda_actual st = V4.normalize_moneda_iso tok) ->
    forall r, In r (snd (V4.BultosBco.run fb st rows)) ->
      (V4.BultosBco.ING_EGR r = "IN" \/ V4.BultosBco.ING_EGR r = "OUT")
      /\ nonempty (V4.BultosBco.MOTIVO_MOVIMIENTO r) = true
      /\ nonempty (V4.BultosBco.MONEDA r) = true
      /\ V4.normalize_moneda_iso (V4.BultosBco.MONEDA r) = V4.BultosBco.MONEDA r
      /\ matches (re_fullmatch V4.EcBanco.rx_recibo
                    (_strip_accents (V4.BultosBco.RECIBO r))) = true.
Proof.
  induction rows as [|cells rows IH]; intros st Hsec Hmon r; simpl;
    [intros []|].
  destruct (V4.BultosBco.row_step fb st cells) as [st' e|] eqn:E; [|intros []].
  destruct (V4.BultosBco.run fb st' rows) as [final more] eqn:R. simpl.
  destruct (v4_bultos_bco_step _ _ _ _ _ E) as (S & M & G).
  assert (Hmon' : exists tok,
             V4.BultosBco.moneda_actual st' = V4.normalize_moneda_iso tok).
  { destruct M as [->|M]; [exact Hmon|exact M]. }
  intros Hin. apply in_app_or in Hin. destruct Hin as [Hin|Hin].
  - destruct G as [->|(N1 & N2 & r0 & -> & G1 & G2 & G3 & G4)];
      [contradiction|].
    destruct Hin as [<-|[]]. rewrite G1, G2, G3.
    destruct Hmon' as [tok ->].
    destruct (v4_moneda_or_pyg_fixed tok) as [F1 F2].
    split; [|auto].
    destruct Hsec as [Hs|[Hs|Hs]]; rewrite Hs in *; auto; discriminate.
  - apply (IH st'); [|exact Hmon'|rewrite R; exact Hin].
    destruct S as [H|[(_ & H)|(_ & H)]];
      unfold Spec.section_value; rewrite H; auto.
Qed.

Lemma v4_bultos_bco_no_section (fb : string) (rows : list row) :
  forall st,
    V4.BultosBco.ing_egr st = "" ->
    (forall cells, In cells rows ->
       contains "INGRESOS" (upper_join_of cells) = false
       /\ contains "EGRESOS" (upper_join_of cells) = false) ->
    snd (V4.BultosBco.run fb st rows) = [].
Proof.
  induction rows as [|cells rows IH]; intros st Hst Hrows; simpl;
    [reflexivity|].
  destruct (V4.BultosBco.row_step fb st cells) as [st' e|] eqn:E;
    [|reflexivity].
  destruct (v4_bultos_bco_step _ _ _ _ _ E) as (S & _ & G).
  assert (He : e = []).
  { destruct G as [->|(N1 & _)]; [reflexivity|].
    rewrite Hst in N1. discriminate. }
  assert (Hst' : V4.BultosBco.ing_egr st' = "").
  { destruct (Hrows cells (or_introl eq_refl)) as [Hi Ho].
    destruct S as [H|[(H & _)|(H & _)]].
    - congruence.
    - rewrite H in Hi. discriminate.
    - rewrite H in Ho. discriminate. }
  specialize (IH st' Hst' (fun c Hc => Hrows c (or_intror Hc))).
  destruct (V4.BultosBco.run fb st' rows). simpl in *. subst. reflexivity.
Qed.

(** A row with a currency word and no date at its start only sets the
    currency. *)
Lemma v4_bultos_bco_currency_row (fb : string) (st : V4.BultosBco.state)
  (cells : row) (m : cursor) :
  V4.BultosBco.classify cells = Data ->
  re_search V4.BultosBco.rx_moneda (line_join_of cells) = Some m ->
  matches (re_match rx_fecha_linea (line_join_of cells)) = false ->
  V4.BultosBco.row_step fb st cells
  = V4.BultosBco.Next
      (V4.BultosBco.State (V4.BultosBco.agencia st)
         (V4.BultosBco.fecha_archivo st) (V4.BultosBco.ing_egr st)
         (V4.BultosBco.motivo_actual st) (V4.normalize_moneda_iso (group m)))
      [].
Proof.
  intros K Hm Hd. rewrite v4_bultos_bco_step_by_kind, K.
  unfold V4.BultosBco.data_row, V4.BultosBco.moneda_after,
    V4.BultosBco.with_moneda. cbv zeta.
  rewrite Hm, Hd. reflexivity.
Qed.

(** *** The parsers of comsol that never reach their detail branch *)

Lemma comsol_bultos_bco_step_motive (st st' : Comsol.BultosBco.state)
  (cells : row) (e : list Comsol.BultosBco.record) :
  Comsol.BultosBco.motivo_actual st = "" ->
  Comsol.BultosBco.row_step st cells = Comsol.BultosBco.Next st' e ->
  Comsol.BultosBco.motivo_actual st' = "" /\ e = [].
Proof.
  intros Hm. unfold Comsol.BultosBco.row_step. cbv zeta.
  set (parts_all := filter nonempty (map strip cells)).
  set (linea := join " " parts_all).
  set (linea_up := upper (_strip_accents linea)).
  destruct (negb (nonempty linea)); [intros H; injection H as <- <-; auto|].
  destruct (contains "SALDO ANTERIOR" linea_up && _);
    [intros H; injection H as <- <-; auto|].
  destruct (contains "PROSEGUR PARAGUAY S.A." linea_up).
  { destruct (re_search rx_sucursal linea);
      intros H; injection H as <- <-; auto. }
  destruct (contains "ESTADO DE CUENTA DE" linea_up);
    [intros H; injection H as <- <-; auto|].
  destruct (linea_up =? "INGRESOS"); [intros H; injection H as <- <-; auto|].
  destruct (linea_up =? "EGRESOS"); [intros H; injection H as <- <-; auto|].
  destruct (contains "INFORME DE PROCESOS" linea_up); [discriminate|].
  destruct (matches (re_search rx_totales linea));
    [intros H; injection H as <- <-; auto|].
  rewrite Hm. cbn [nonempty andb]. rewrite andb_false_r. cbn [andb].
  intros H; injection H as <- <-; auto.
Qed.

Lemma comsol_bultos_bco_run_no_records (rows : list row) :
  forall st,
    Comsol.BultosBco.motivo_actual st = "" ->
    snd (Comsol.BultosBco.run st rows) = []
    /\ Comsol.BultosBco.motivo_actual (fst (Comsol.BultosBco.run st rows)) = "".
Proof.
  induction rows as [|cells rows IH]; intros st Hm; simpl; [auto|].
  destruct (Comsol.BultosBco.row_step st cells) as [st' e|] eqn:E; [|auto].
  destruct (comsol_bultos_bco_step_motive _ _ _ _ Hm E) as [Hm' ->].
  destruct (IH st' Hm') as [I1 I2].
  destruct (Comsol.BultosBco.run st' rows) as [final more]. simpl in *.
  subst. auto.
Qed.

(** *** The parcel ledgers, as a user of the parsers sees them *)

(** X13.  A detail row of [get_ec_bultos_atm] reads its fields by position
    among the non-blank cells to the right of the date: SUCURSAL, RECIBO,
    then parcels and amount in guaranies, then parcels and amount in
    dollars, and gives one PYG record followed by one USD record, the second
    left out when [descartar_usd_cero] is set and the dollar amount is
    zero-like.  In v4_2 a missing parcel count or amount is "0" and a row
    with fewer than five such cells raises; in comsol a missing parcel count
    is empty, a missing amount is "0", and no row raises. *)
Theorem bultos_atm_detail_fields :
  (forall d fb st cells i,
      V4.BultosAtm.detail d fb st cells i
      = let fields := filter nonempty (map strip (skipn (S i) cells)) in
        if Nat.ltb (List.length fields) 5 then V4.Inv.Raise
        else
          let raw := nth 1 fields "" in
          let recibo := if nonempty (_only_digits raw) then _only_digits raw
                        else raw in
          let ag := or_str (V4.BultosAtm.agencia st) fb in
          let pyg :=
            V4.BultosAtm.Record_ (nth i cells "") (nth 0 fields "") recibo
              (nth 2 fields "0") "PYG" (nth 3 fields "0")
              (V4.BultosAtm.ing_egr st) "ATM" (V4.BultosAtm.fecha_archivo st)
              (V4.BultosAtm.motivo_actual st) ag in
          let usd :=
            V4.BultosAtm.Record_ (nth i cells "") (nth 0 fields "") recibo
              (nth 4 fields "0") "USD" (nth 5 fields "0")
              (V4.BultosAtm.ing_egr st) "ATM" (V4.BultosAtm.fecha_archivo st)
              (V4.BultosAtm.motivo_actual st) ag in
          V4.Inv.Ok (if d && V4.BultosAtm.zero_like (nth 5 fields "0")
                     then [pyg] else [pyg; usd]))
  /\ (forall d st cells i,
        Comsol.BultosAtm.detail d st cells i
        = let fields := filter nonempty (map strip (skipn (S i) cells)) in
          let raw := nth 1 fields "" in
          let recibo := or_str (_only_digits raw) raw in
          let pyg :=
            Comsol.BultosAtm.Record_ (nth i cells "") (nth 0 fields "")
              recibo (nth 2 fields "") "PYG" (nth 3 fields "0")
              (Comsol.BultosAtm.ing_egr st) "ATM"
              (Comsol.BultosAtm.fecha_archivo st)
              (Comsol.BultosAtm.motivo_actual st)
              (Comsol.BultosAtm.agencia st)
              (Comsol.BultosAtm.saldo_ant_pyg st)
              (Comsol.BultosAtm.saldo_ant_usd st) in
          let usd :=
            Comsol.BultosAtm.Record_ (nth i cells "") (nth 0 fields "")
              recibo (nth 4 fields "") "USD" (nth 5 fields "0")
              (Comsol.BultosAtm.ing_egr st) "ATM"
              (Comsol.BultosAtm.fecha_archivo st)
              (Comsol.BultosAtm.motivo_actual st)
              (Comsol.BultosAtm.agencia st)
              (Comsol.BultosAtm.saldo_ant_pyg st)
              (Comsol.BultosAtm.saldo_ant_usd st) in
          if d && Comsol._is_zero_like (nth 5 fields "0")
          then [pyg] else [pyg; usd]).
Proof.
  split.
  - intros d fb st cells i. apply v4_bultos_atm_detail.
  - intros d st cells i. apply comsol_bultos_atm_detail.
Qed.

Lemma v4_bultos_atm_run_ok (d : bool) (fb : string) (rows : list row) :
  (forall cells date_idx,
      In cells rows ->
      date_index (map strip cells) = Some date_idx ->
      5 <= List.length
             (filter nonempty (skipn (S date_idx) (map strip cells)))) ->
  forall st, exists final recs,
    V4.BultosAtm.run d fb st rows = V4.Inv.Ok (final, recs).
Proof.
  induction rows as [|cells rows IH]; intros H st; simpl.
  { exists st, []. reflexivity. }
  destruct (V4.BultosAtm.row_step d fb st cells) as [st' e| |] eqn:E.
  - destruct (IH (fun c i Hc => H c i (or_intror Hc)) st')
      as (final & recs & ->).
    exists final, (e ++ recs). reflexivity.
  - exists st, []. reflexivity.
  - exfalso. apply v4_bultos_atm_raise_iff in E.
    destruct E as (_ & _ & _ & i & Hi & L).
    rewrite map_strip_skipn in L.
    pose proof (H cells i (or_introl eq_refl) Hi). lia.
Qed.

(** X14.  [get_ec_bultos_atm] of v4_2 calls [_first_non_empty_after] with
    no guard against [None].  A row raises exactly when it reaches the
    detail rule (it is no header, section, terminal or total row, a section
    and a motive are set, and it has a date cell) with fewer than five
    non-blank cells to the right of the date.  When every row with a date
    cell has at least five, the function returns its records. *)
Theorem bultos_atm_short_row_raises :
  (forall d fb st cells,
      V4.BultosAtm.row_step d fb st cells = V4.BultosAtm.Raise <->
      V4.BultosAtm.classify cells = Data
      /\ nonempty (V4.BultosAtm.ing_egr st) = true
      /\ nonempty (V4.BultosAtm.motivo_actual st) = true
      /\ exists date_idx,
           date_index (map strip cells) = Some date_idx
           /\ List.length
                (filter nonempty (skipn (S date_idx) (map strip cells))) < 5)
  /\ (forall d fb rows,
        (forall cells date_idx,
            In cells rows ->
            date_index (map strip cells) = Some date_idx ->
            5 <= List.length
                   (filter nonempty (skipn (S date_idx) (map strip cells)))) ->
        exists recs, V4.BultosAtm.get_ec_bultos_atm d fb rows = V4.Inv.Ok recs).
Proof.
  split.
  - intros d fb st cells.
    pose proof (v4_bultos_atm_raise_iff d fb st cells) as H.
    setoid_rewrite map_strip_skipn in H. exact H.
  - intros d fb rows H. unfold V4.BultosAtm.get_ec_bultos_atm.
    destruct (v4_bultos_atm_run_ok d fb rows H V4.BultosAtm.initial)
      as (final & recs & ->).
    exists recs. reflexivity.
Qed.

(** A deposit row with a receipt and one parcel count, and nothing after. *)
Lemma bultos_atm_short_row_raises_witness :
  V4.BultosAtm.row_step true "ASU" (V4.BultosAtm.State "" "" "IN" "DEPOSITO")
    ["15/03/2024"; "Casa Matriz"; "000123"; "3"]
  = V4.BultosAtm.Raise.
Proof.
  refine (proj2 (proj1 bultos_atm_short_row_raises true "ASU"
                   (V4.BultosAtm.State "" "" "IN" "DEPOSITO")
                   ["15/03/2024"; "Casa Matriz"; "000123"; "3"]) _).
  split; [vm_compute; reflexivity|].
  split; [reflexivity|]. split; [reflexivity|].
  exists 0. split; [vm_compute; reflexivity|simpl; lia].
Defined.

Lemma comsol_bultos_atm_run_saldos (d : bool) (rows : list row) :
  forall st r,
    Comsol.BultosAtm.captured st = true ->
    In r (snd (Comsol.BultosAtm.run d st rows)) ->
    Comsol.BultosAtm.SALDO_ANTERIOR_PYG r = Comsol.BultosAtm.saldo_ant_pyg st
    /\ Comsol.BultosAtm.SALDO_ANTERIOR_USD r
       = Comsol.BultosAtm.saldo_ant_usd st.
Proof.
  induction rows as [|cells rows IH]; intros st r Hc; simpl; [intros []|].
  destruct (Comsol.BultosAtm.row_step d st cells) as [st' e|] eqn:E;
    [|intros []].
  destruct (comsol_bultos_atm_step _ _ _ _ _ E) as (_ & G & K).
  destruct (K Hc) as [K1 K2].
  assert (Hc' : Comsol.BultosAtm.captured st' = true).
  { unfold Comsol.BultosAtm.captured in *. rewrite K1, K2. exact Hc. }
  specialize (IH st' r Hc').
  destruct (Comsol.BultosAtm.run d st' rows) as [final more].
  cbn [snd] in *. intros Hin. apply in_app_or in Hin.
  destruct Hin as [Hin|Hin].
  - destruct G as [->|(_ & _ & _ & i & _ & ->)]; [contradiction|].
    destruct (comsol_bultos_atm_detail_records d st (map strip cells) i)
      as [_ P].
    destruct (P r Hin) as (_ & _ & P3 & P4 & _). auto.
  - rewrite <- K1, <- K2. apply IH. exact Hin.
Qed.

Lemma comsol_atm_step_saldo_fields (st st' : Comsol.EcAtm.state)
  (cells : row) (emitted : list Comsol.EcAtm.record)
  (r : Comsol.EcAtm.record) :
  Comsol.EcAtm.row_step st cells = Comsol.EcAtm.Next st' emitted ->
  In r emitted ->
  Comsol.EcAtm.SALDO_ANTERIOR_PYG r = Comsol.EcAtm.saldo_ant_pyg st
  /\ Comsol.EcAtm.SALDO_ANTERIOR_USD r = Comsol.EcAtm.saldo_ant_usd st.
Proof.
  rewrite comsol_atm_step_by_kind.
  destruct (Comsol.EcAtm.classify st cells);
    try (intros H; injection H as <- <-; intros []); try discriminate.
  destruct (date_index (map strip cells)) as [d|].
  - destruct (nonempty (Comsol.EcAtm.ing_egr st)) eqn:E1; cbn [andb];
      [destruct (nonempty (Comsol.EcAtm.motivo_actual st)) eqn:E2|];
      intros H; injection H as <- <-; intros Hin; try contradiction.
    destruct Hin as [<-|[]]. split; reflexivity.
  - destruct (nonempty (Comsol.EcAtm.ing_egr st));
      intros H; injection H as <- <-; intros [].
Qed.

Lemma comsol_atm_run_saldos (rows : list row) :
  forall st r,
    Comsol.EcAtm.captured st = true ->
    In r (snd (Comsol.EcAtm.run st rows)) ->
    Comsol.EcAtm.SALDO_ANTERIOR_PYG r = Comsol.EcAtm.saldo_ant_pyg st
    /\ Comsol.EcAtm.SALDO_ANTERIOR_USD r = Comsol.EcAtm.saldo_ant_usd st.
Proof.
  induction rows as [|cells rows IH]; intros st r Hc; simpl; [intros []|].
  destruct (Comsol.EcAtm.row_step st cells) as [st' e|] eqn:E; [|intros []].
  destruct (comsol_atm_step_captured _ _ _ _ Hc E) as (K1 & K2 & Hc').
  specialize (IH st' r Hc').
  destruct (Comsol.EcAtm.run st' rows) as [final more].
  cbn [snd] in *. intros Hin. apply in_app_or in Hin.
  destruct Hin as [Hin|Hin].
  - exact (comsol_atm_step_saldo_fields _ _ _ _ _ E Hin).
  - rewrite <- K1, <- K2. apply IH. exact Hin.
Qed.

(** X15.  Every record of [get_ec_bultos_atm], in both files, was read
    inside a section and under a motive: its ING_EGR is "IN" or "OUT", its
    motive and its amount are not empty, and its currency is "PYG" or
    "USD", a USD record never carrying a zero-like amount when
    [descartar_usd_cero] is set.  A sheet with no row that contains
    "INGRESOS" or "EGRESOS" gives no record. *)
Theorem bultos_atm_records_gated :
  (forall d fb rows recs r,
      V4.BultosAtm.get_ec_bultos_atm d fb rows = V4.Inv.Ok recs ->
      In r recs ->
      (V4.BultosAtm.ING_EGR r = "IN" \/ V4.BultosAtm.ING_EGR r = "OUT")
      /\ nonempty (V4.BultosAtm.MOTIVO_MOVIMIENTO r) = true
      /\ nonempty (V4.BultosAtm.BULTOS r) = true
      /\ nonempty (V4.BultosAtm.IMPORTE r) = true
      /\ (V4.BultosAtm.MONEDA r = "PYG"
          \/ (V4.BultosAtm.MONEDA r = "USD"
              /\ (d = true ->
                  V4.BultosAtm.zero_like (V4.BultosAtm.IMPORTE r) = false))))
  /\ (forall d rows r,
        In r (Comsol.BultosAtm.get_ec_bultos_atm d rows) ->
        (Comsol.BultosAtm.ING_EGR r = "IN"
         \/ Comsol.BultosAtm.ING_EGR r = "OUT")
        /\ nonempty (Comsol.BultosAtm.MOTIVO_MOVIMIENTO r) = true
        /\ nonempty (Comsol.BultosAtm.IMPORTE r) = true
        /\ (Comsol.BultosAtm.MONEDA r = "PYG"
            \/ (Comsol.BultosAtm.MONEDA r = "USD"
                /\ (d = true ->
                    Comsol._is_zero_like (Comsol.BultosAtm.IMPORTE r)
                    = false))))
  /\ (forall d fb rows,
        (forall cells, In cells rows ->
           contains "INGRESOS" (upper_join_of cells) = false
           /\ contains "EGRESOS" (upper_join_of cells) = false) ->
        V4.BultosAtm.get_ec_bultos_atm d fb rows = V4.Inv.Ok [])
  /\ (forall d rows,
        (forall cells, In cells rows ->
           contains "INGRESOS" (upper_join_of cells) = false
           /\ contains "EGRESOS" (upper_join_of cells) = false) ->
        Comsol.BultosAtm.get_ec_bultos_atm d rows = []).
Proof.
  repeat match goal with |- _ /\ _ => split end.
  - intros d fb rows recs r H. unfold V4.BultosAtm.get_ec_bultos_atm in H.
    destruct (V4.BultosAtm.run d fb V4.BultosAtm.initial rows)
      as [[final recs']|] eqn:R; [|discriminate].
    injection H as <-.
    apply (v4_bultos_atm_run_records d fb rows V4.BultosAtm.initial final
             recs'); [left; reflexivity|exact R].
  - intros d rows r. unfold Comsol.BultosAtm.get_ec_bultos_atm.
    apply comsol_bultos_atm_run_records. left. reflexivity.
  - intros d fb rows H. unfold V4.BultosAtm.get_ec_bultos_atm.
    destruct (v4_bultos_atm_no_section d fb rows V4.BultosAtm.initial
                eq_refl H) as [final ->].
    reflexivity.
  - intros d rows H. unfold Comsol.BultosAtm.get_ec_bultos_atm.
    apply comsol_bultos_atm_no_section; [reflexivity|exact H].
Qed.

(** The dollar record of a deposit row. *)
Lemma bultos_atm_records_gated_witness :
  let r :=
    Comsol.BultosAtm.Record_ "15/03/2024" "Casa Matriz" "000123" "1" "USD"
      "200" "IN" "ATM" "" "DEPOSITOS" "" "" "" in
  (Comsol.BultosAtm.ING_EGR r = "IN" \/ Comsol.BultosAtm.ING_EGR r = "OUT")
  /\ nonempty (Comsol.BultosAtm.MOTIVO_MOVIMIENTO r) = true
  /\ nonempty (Comsol.BultosAtm.IMPORTE r) = true.
Proof.
  refine (let H :=
            proj1 (proj2 bultos_atm_records_gated) true
              [["INGRESOS"]; ["DEPOSITOS"];
               ["15/03/2024"; "Casa Matriz"; "000123"; "3"; "1.500.000";
                "1"; "200"]]
              (Comsol.BultosAtm.Record_ "15/03/2024" "Casa Matriz" "000123"
                 "1" "USD" "200" "IN" "ATM" "" "DEPOSITOS" "" "" "") _ in
          conj (proj1 H) (conj (proj1 (proj2 H)) (proj1 (proj2 (proj2 H))))).
  vm_compute. right. left. reflexivity.
Defined.

Lemma v4_bultos_bco_sheet (fb : string) (hojas : list (string * list row))
  (r : V4.BultosBco.record) :
  In r (V4.BultosBco.get_ec_bultos_bco fb hojas) ->
  exists hoja,
    In hoja hojas
    /\ In r (snd (V4.BultosBco.run fb (V4.BultosBco.initial (fst hoja))
                    (snd hoja))).
Proof.
  unfold V4.BultosBco.get_ec_bultos_bco. intros H.
  apply in_flat_map in H. destruct H as (hoja & H1 & H2).
  exists hoja. split; [exact H1|exact H2].
Qed.

(** X16.  Every record of [get_ec_bultos_bco] of v4_2 was read inside a
    section and under a motive, its RECIBO is a run of six or more digits,
    and its MONEDA is never empty and is a value [normalize_moneda_iso]
    leaves as it is, so the final pass of [run] over that column changes
    nothing.  A workbook with no row that contains "INGRESOS" or "EGRESOS"
    gives no record. *)
Theorem bultos_bco_records_gated :
  (forall fb hojas r,
      In r (V4.BultosBco.get_ec_bultos_bco fb hojas) ->
      (V4.BultosBco.ING_EGR r = "IN" \/ V4.BultosBco.ING_EGR r = "OUT")
      /\ nonempty (V4.BultosBco.MOTIVO_MOVIMIENTO r) = true
      /\ nonempty (V4.BultosBco.MONEDA r) = true
      /\ V4.normalize_moneda_iso (V4.BultosBco.MONEDA r)
         = V4.BultosBco.MONEDA r
      /\ matches (re_fullmatch V4.EcBanco.rx_recibo
                    (_strip_accents (V4.BultosBco.RECIBO r))) = true)
  /\ (forall fb hojas,
        (forall hoja cells, In hoja hojas -> In cells (snd hoja) ->
           contains "INGRESOS" (upper_join_of cells) = false
           /\ contains "EGRESOS" (upper_join_of cells) = false) ->
        V4.BultosBco.get_ec_bultos_bco fb hojas = []).
Proof.
  split.
  - intros fb hojas r H.
    destruct (v4_bultos_bco_sheet fb hojas r H) as (hoja & _ & Hr).
    apply (v4_bultos_bco_run_records fb (snd hoja)
             (V4.BultosBco.initial (fst hoja))); [| |exact Hr].
    + left. reflexivity.
    + exists (fst hoja). reflexivity.
  - intros fb hojas H. unfold V4.BultosBco.get_ec_bultos_bco.
    induction hojas as [|hoja hojas IH]; [reflexivity|].
    cbn [flat_map]. unfold V4.BultosBco.sheet_records at 1.
    rewrite v4_bultos_bco_no_section.
    + apply IH. intros h c Hh. apply H. right. exact Hh.
    + reflexivity.
    + intros c Hc. apply (H hoja c); [left; reflexivity|exact Hc].
Qed.

(** A deposit row of a sheet named after no currency. *)
Lemma bultos_bco_records_gated_witness :
  let r :=
    V4.BultosBco.Record_ "15/03/2024" "Casa Matriz" "000123" "3" "HOJA1"
      "1.500.000" "IN" "BULTO BCO" "" "DEPOSITOS" "ASU" in
  (V4.BultosBco.ING_EGR r = "IN" \/ V4.BultosBco.ING_EGR r = "OUT")
  /\ nonempty (V4.BultosBco.MOTIVO_MOVIMIENTO r) = true
  /\ nonempty (V4.BultosBco.MONEDA r) = true
  /\ V4.normalize_moneda_iso (V4.BultosBco.MONEDA r) = V4.BultosBco.MONEDA r
  /\ matches (re_fullmatch V4.EcBanco.rx_recibo
                (_strip_accents (V4.BultosBco.RECIBO r))) = true.
Proof.
  refine (proj1 bultos_bco_records_gated "ASU"
            [("Hoja1",
              [["INGRESOS"]; ["DEPOSITOS"];
               ["15/03/2024"; "Casa Matriz"; "000123"; "3"; "1.500.000"]])]
            (V4.BultosBco.Record_ "15/03/2024" "Casa Matriz" "000123" "3"
               "HOJA1" "1.500.000" "IN" "BULTO BCO" "" "DEPOSITOS" "ASU") _).
  vm_compute. left. reflexivity.
Defined.

Lemma v4_bultos_bco_motive_row (fb : string) (st : V4.BultosBco.state)
  (cells : row) :
  V4.BultosBco.classify cells = Data ->
  re_search V4.BultosBco.rx_moneda (line_join_of cells) = None ->
  matches (re_match rx_fecha_linea (line_join_of cells)) = false ->
  nonempty (V4.BultosBco.ing_egr st) = true ->
  V4.BultosBco.row_step fb st cells
  = V4.BultosBco.Next
      (V4.BultosBco.State (V4.BultosBco.agencia st)
         (V4.BultosBco.fecha_archivo st) (V4.BultosBco.ing_egr st)
         (strip (line_join_of cells)) (V4.BultosBco.moneda_actual st))
      [].
Proof.
  intros K M D N. rewrite v4_bultos_bco_step_by_kind, K.
  unfold V4.BultosBco.data_row. cbv zeta.
  rewrite M, D, N. reflexivity.
Qed.

(** X17.  In [get_ec_bultos_bco] of v4_2 a row that is no header, section,
    terminal or total row and does not start with a date is read for the
    currency before it is read as a motive.  When its text contains a
    currency word anywhere, letters of a longer word included, the row sets
    the currency and nothing else: the motive stays as it was.  Only a row
    without any currency word becomes the motive of the section. *)
Theorem bultos_bco_currency_before_motive :
  (forall fb st cells m,
      V4.BultosBco.classify cells = Data ->
      re_search V4.BultosBco.rx_moneda (line_join_of cells) = Some m ->
      matches (re_match rx_fecha_linea (line_join_of cells)) = false ->
      V4.BultosBco.row_step fb st cells
      = V4.BultosBco.Next
          (V4.BultosBco.State (V4.BultosBco.agencia st)
             (V4.BultosBco.fecha_archivo st) (V4.BultosBco.ing_egr st)
             (V4.BultosBco.motivo_actual st)
             (V4.normalize_moneda_iso (group m)))
          [])
  /\ (forall fb st cells,
        V4.BultosBco.classify cells = Data ->
        re_search V4.BultosBco.rx_moneda (line_join_of cells) = None ->
        matches (re_match rx_fecha_linea (line_join_of cells)) = false ->
        nonempty (V4.BultosBco.ing_egr st) = true ->
        V4.BultosBco.row_step fb st cells
        = V4.BultosBco.Next
            (V4.BultosBco.State (V4.BultosBco.agencia st)
               (V4.BultosBco.fecha_archivo st) (V4.BultosBco.ing_egr st)
               (strip (line_join_of cells))
               (V4.BultosBco.moneda_actual st))
            []).
Proof.
  split.
  - exact v4_bultos_bco_currency_row.
  - exact v4_bultos_bco_motive_row.
Qed.

(** A line without a currency word becomes the motive; a line with the
    letters ARS inside one of its words sets the currency instead. *)
Lemma bultos_bco_currency_before_motive_witness :
  V4.BultosBco.row_step "ASU"
    (V4.BultosBco.State "" "" "IN" "DEPOSITOS" "PYG")
    ["RETIROS"; "DE CAJA"]
  = V4.BultosBco.Next
      (V4.BultosBco.State "" "" "IN" "RETIROS DE CAJA" "PYG") []
  /\ V4.BultosBco.row_step "ASU"
       (V4.BultosBco.State "" "" "IN" "DEPOSITOS" "PYG")
       ["DEPOSITOS A ACREDITARSE"]
     = V4.BultosBco.Next (V4.BultosBco.State "" "" "IN" "DEPOSITOS" "ARS") [].
Proof.
  split.
  - refine (proj2 bultos_bco_currency_before_motive "ASU"
              (V4.BultosBco.State "" "" "IN" "DEPOSITOS" "PYG")
              ["RETIROS"; "DE CAJA"] _ _ _ _);
      vm_compute; reflexivity.
  - destruct (re_search V4.BultosBco.rx_moneda
                (line_join_of ["DEPOSITOS A ACREDITARSE"])) as [m|] eqn:E;
      [|vm_compute in E; discriminate E].
    rewrite (proj1 bultos_bco_currency_before_motive "ASU"
               (V4.BultosBco.State "" "" "IN" "DEPOSITOS" "PYG")
               ["DEPOSITOS A ACREDITARSE"] m eq_refl E eq_refl).
    vm_compute in E. injection E as <-. vm_compute; reflexivity.
Defined.

Lemma comsol_bultos_bco_sheet_empty (hoja : string * list row) :
  Comsol.BultosBco.sheet_records hoja = [].
Proof.
  unfold Comsol.BultosBco.sheet_records.
  apply (comsol_bultos_bco_run_no_records (snd hoja)). reflexivity.
Qed.

Lemma comsol_bco_sheet_empty (hoja : string * list row) :
  Comsol.EcBanco.sheet_records hoja = [].
Proof.
  unfold Comsol.EcBanco.sheet_records.
  apply comsol_bco_run_no_records. reflexivity.
Qed.

Lemma flat_map_nil {A B} (f : A -> list B) (l : list A) :
  (forall a, f a = []) -> flat_map f l = [].
Proof.
  intros H. induction l as [|a l IH]; [reflexivity|].
  cbn [flat_map]. rewrite H, IH. reflexivity.
Qed.

(** X18.  [get_ec_banco] and [get_ec_bultos_bco] of comsol give no record,
    whatever the workbook: both emit only under a motive, and neither ever
    sets one, the only assignments to [motivo_actual] being the empty text
    at the start of a sheet and at a section row. *)
Theorem comsol_bank_parsers_emit_nothing :
  (forall hojas, Comsol.EcBanco.get_ec_banco hojas = [])
  /\ (forall hojas, Comsol.BultosBco.get_ec_bultos_bco hojas = []).
Proof.
  split; intros hojas.
  - apply flat_map_nil. exact comsol_bco_sheet_empty.
  - apply flat_map_nil. exact comsol_bultos_bco_sheet_empty.
Qed.

(** X19.  In [get_ec_atm] and [get_ec_bultos_atm] of comsol, once an
    opening balance is captured every record read from the rows that follow
    carries the captured values in SALDO_ANTERIOR_PYG and
    SALDO_ANTERIOR_USD, and the values are those the state holds after the
    last row. *)
Theorem records_carry_opening_balance :
  (forall st rows r,
      Comsol.EcAtm.captured st = true ->
      In r (snd (Comsol.EcAtm.run st rows)) ->
      Comsol.EcAtm.SALDO_ANTERIOR_PYG r = Comsol.EcAtm.saldo_ant_pyg st
      /\ Comsol.EcAtm.SALDO_ANTERIOR_USD r = Comsol.EcAtm.saldo_ant_usd st
      /\ Comsol.EcAtm.saldo_ant_pyg (fst (Comsol.EcAtm.run st rows))
         = Comsol.EcAtm.saldo_ant_pyg st
      /\ Comsol.EcAtm.saldo_ant_usd (fst (Comsol.EcAtm.run st rows))
         = Comsol.EcAtm.saldo_ant_usd st)
  /\ (forall d st rows r,
        Comsol.BultosAtm.captured st = true ->
        In r (snd (Comsol.BultosAtm.run d st rows)) ->
        Comsol.BultosAtm.SALDO_ANTERIOR_PYG r
        = Comsol.BultosAtm.saldo_ant_pyg st
        /\ Comsol.BultosAtm.SALDO_ANTERIOR_USD r
           = Comsol.BultosAtm.saldo_ant_usd st
        /\ Comsol.BultosAtm.saldo_ant_pyg
             (fst (Comsol.BultosAtm.run d st rows))
           = Comsol.BultosAtm.saldo_ant_pyg st
        /\ Comsol.BultosAtm.saldo_ant_usd
             (fst (Comsol.BultosAtm.run d st rows))
           = Comsol.BultosAtm.saldo_ant_usd st).
Proof.
  split.
  - intros st rows r Hc Hin.
    destruct (comsol_atm_run_saldos rows st r Hc Hin) as [H1 H2].
    destruct (comsol_atm_run_captured rows st Hc) as [H3 H4]. auto.
  - intros d st rows r Hc Hin.
    destruct (comsol_bultos_atm_run_saldos d rows st r Hc Hin) as [H1 H2].
    destruct (comsol_bultos_atm_run_captured d rows st Hc) as [H3 H4]. auto.
Qed.

(** A deposit row after the balances "1.200,50" and "3.400.000". *)
Lemma records_carry_opening_balance_witness :
  let r :=
    Comsol.EcAtm.Record_ "15/03/2024" "Casa Matriz" "000123" "3"
      "1.500.000" "0" "IN" "ATM" "" "DEPOSITOS" "" "3.400.000" "1.200,50" in
  Comsol.EcAtm.SALDO_ANTERIOR_PYG r = "3.400.000"
  /\ Comsol.EcAtm.SALDO_ANTERIOR_USD r = "1.200,50".
Proof.
  refine (let H :=
            proj1 records_carry_opening_balance
              (Comsol.EcAtm.State "" "" "" "" "1.200,50" "3.400.000")
              [["INGRESOS"]; ["DEPOSITOS"];
               ["15/03/2024"; "Casa Matriz"; "000123"; "3"; "1.500.000";
                "0"]]
              (Comsol.EcAtm.Record_ "15/03/2024" "Casa Matriz" "000123" "3"
                 "1.500.000" "0" "IN" "ATM" "" "DEPOSITOS" "" "3.400.000"
                 "1.200,50") _ _ in
          conj (proj1 H) (proj1 (proj2 H))).
  - vm_compute; reflexivity.
  - vm_compute. left. reflexivity.
Defined.


(** ** The agencies of comsol *)

Lemma comsol_code_canonical (text code : string) :
  Comsol._agencia_code_from_text text = Some code ->
  In code ["ASU"; "CDE"; "CNC"; "ENC"; "OVD"].
Proof.
  unfold Comsol._agencia_code_from_text.
  destruct (negb (nonempty text)); [discriminate|]. cbv zeta.
  destruct (find _ (map fst Comsol.AGENCIA_ALIASES)) as [c|] eqn:E.
  - intros H; injection H as <-. apply find_some in E. exact (proj1 E).
  - destruct (find _ Comsol.AGENCIA_ALIASES) as [[c l]|] eqn:F;
      [|discriminate].
    intros H; injection H as <-. apply find_some in F.
    destruct F as [F _]. simpl in F.
    repeat (destruct F as [F|F]; [injection F as <- _; simpl; auto 10|]).
    contradiction.
Qed.

Lemma comsol_code_fixed (code : string) :
  In code ["ASU"; "CDE"; "CNC"; "ENC"; "OVD"] ->
  Comsol._agencia_code_from_text code = Some code /\ nonempty code = true.
Proof.
  simpl. intros [<-|[<-|[<-|[<-|[<-|[]]]]]]; split; vm_compute; reflexivity.
Qed.

Lemma comsol_truthy_code (text : string) :
  V4.truthy (Comsol._agencia_code_from_text text)
  = Comsol._agencia_code_from_text text.
Proof.
  destruct (Comsol._agencia_code_from_text text) as [code|] eqn:E;
    [|reflexivity].
  destruct (comsol_code_fixed code (comsol_code_canonical _ _ E)) as [_ N].
  unfold V4.truthy. rewrite N. reflexivity.
Qed.

Lemma comsol_code_or_range (text : string) :
  In (Comsol.code_or text) ["ASU"; "CDE"; "CNC"; "ENC"; "OVD"]
  \/ (Comsol.code_or text = text
      /\ Comsol._agencia_code_from_text text = None).
Proof.
  unfold Comsol.code_or. rewrite comsol_truthy_code.
  destruct (Comsol._agencia_code_from_text text) as [code|] eqn:E.
  - left. exact (comsol_code_canonical _ _ E).
  - right. auto.
Qed.

Lemma comsol_code_or_idempotent (text : string) :
  Comsol.code_or (Comsol.code_or text) = Comsol.code_or text.
Proof.
  destruct (comsol_code_or_range text) as [H|[H1 H2]].
  - unfold Comsol.code_or at 1. rewrite comsol_truthy_code.
    rewrite (proj1 (comsol_code_fixed _ H)). reflexivity.
  - rewrite H1. exact H1.
Qed.

Lemma comsol_digit_map_range (d : string) :
  In (Comsol.AGENCIA_FILE_DIGIT_MAP d) ["ASU"; "CDE"; "CNC"; "ENC"; "OVD"; ""].
Proof.
  unfold Comsol.AGENCIA_FILE_DIGIT_MAP.
  repeat match goal with
         | |- context [if ?b then _ else _] => destruct b; [simpl; auto 10|]
         end.
  simpl; auto 10.
Qed.

Lemma comsol_infer_range (name : string) :
  In (Comsol.infer_agencia_from_filename name)
    ["ASU"; "CDE"; "CNC"; "ENC"; "OVD"; ""].
Proof.
  unfold Comsol.infer_agencia_from_filename.
  destruct (re_search _ _); [apply comsol_digit_map_range|simpl; auto 10].
Qed.

Lemma comsol_first_code_canonical (parts : list string) (code : string) :
  Comsol.first_code parts = Some code ->
  In code ["ASU"; "CDE"; "CNC"; "ENC"; "OVD"].
Proof.
  induction parts as [|p parts IH]; simpl; [discriminate|].
  rewrite comsol_truthy_code.
  destruct (Comsol._agencia_code_from_text p) as [c|] eqn:E; [|exact IH].
  intros H; injection H as <-. exact (comsol_code_canonical _ _ E).
Qed.

Lemma comsol_resolve_range (name : string) (parts : list string)
  (carpeta : option string) :
  In (Comsol.resolve_agencia_base name parts carpeta)
    ["ASU"; "CDE"; "CNC"; "ENC"; "OVD"; ""].
Proof.
  assert (W : forall c, In c ["ASU"; "CDE"; "CNC"; "ENC"; "OVD"] ->
                        In c ["ASU"; "CDE"; "CNC"; "ENC"; "OVD"; ""]).
  { simpl. intros c H. repeat (destruct H as [H|H]; [auto 10|]). contradiction. }
  unfold Comsol.resolve_agencia_base. cbv zeta.
  destruct (nonempty (Comsol.infer_agencia_from_filename name));
    [apply comsol_infer_range|].
  destruct carpeta as [c|].
  - destruct (nonempty c).
    + rewrite comsol_truthy_code.
      destruct (Comsol._agencia_code_from_text c) as [code|] eqn:E.
      * apply W. exact (comsol_code_canonical _ _ E).
      * destruct (Comsol.first_code (rev parts)) as [code|] eqn:F;
          [apply W; exact (comsol_first_code_canonical _ _ F)|simpl; auto 10].
    + destruct (Comsol.first_code (rev parts)) as [code|] eqn:F;
        [apply W; exact (comsol_first_code_canonical _ _ F)|simpl; auto 10].
  - destruct (Comsol.first_code (rev parts)) as [code|] eqn:F;
      [apply W; exact (comsol_first_code_canonical _ _ F)|simpl; auto 10].
Qed.

Lemma comsol_code_or_resolve (name : string) (parts : list string)
  (carpeta : option string) :
  nonempty (Comsol.resolve_agencia_base name parts carpeta) = true ->
  Comsol.code_or (Comsol.resolve_agencia_base name parts carpeta)
  = Comsol.resolve_agencia_base name parts carpeta.
Proof.
  intros N. pose proof (comsol_resolve_range name parts carpeta) as R.
  set (b := Comsol.resolve_agencia_base name parts carpeta) in *.
  simpl in R.
  destruct R as [R|[R|[R|[R|[R|[R|[]]]]]]]; rewrite <- R in *;
    vm_compute; reflexivity.
Qed.

Lemma map_const_length {A B} (b : B) (l : list A) :
  List.length (map (fun _ => b) l) = List.length l.
Proof. apply length_map. Qed.

Lemma filter_strip_const (b : string) (l : list string) :
  l <> [] -> strip b = b -> nonempty b = true ->
  exists rest, filter nonempty (map strip (map (fun _ => b) l)) = b :: rest.
Proof.
  intros Hl Hs Hn. destruct l as [|x l]; [contradiction Hl; reflexivity|].
  simpl. rewrite Hs, Hn. eexists. reflexivity.
Qed.


Lemma comsol_code_strip (c : string) :
  In c ["ASU"; "CDE"; "CNC"; "ENC"; "OVD"] -> strip c = c.
Proof.
  simpl. intros [<-|[<-|[<-|[<-|[<-|[]]]]]]; vm_compute; reflexivity.
Qed.

Lemma comsol_fill_first (col : list string) (name : string)
  (parts : list string) (carpeta : option string) (v : string)
  (rest : list string) :
  filter nonempty (map strip col) = v :: rest ->
  Comsol.fill_agencia_column col name parts carpeta
  = map (fun _ => Comsol.code_or v) col
  /\ nonempty (Comsol.code_or v) = true
  /\ strip (Comsol.code_or v) = Comsol.code_or v.
Proof.
  intros F.
  assert (Hv : nonempty v = true /\ strip v = v).
  { assert (Hin : In v (filter nonempty (map strip col)))
      by (rewrite F; left; reflexivity).
    apply filter_In in Hin. destruct Hin as [Hin Hn]. split; [exact Hn|].
    apply in_map_iff in Hin. destruct Hin as (x & <- & _).
    apply strip_idempotent. }
  destruct Hv as [Hn Hs].
  assert (Hc : nonempty (Comsol.code_or v) = true
               /\ strip (Comsol.code_or v) = Comsol.code_or v).
  { destruct (comsol_code_or_range v) as [H|[H _]].
    - split; [exact (proj2 (comsol_code_fixed _ H))|apply comsol_code_strip, H].
    - rewrite H. auto. }
  split; [|exact Hc].
  unfold Comsol.fill_agencia_column.
  destruct col as [|x col]; [discriminate F|].
  cbv zeta. rewrite F. rewrite (proj1 Hc). cbn [negb].
  rewrite comsol_code_or_idempotent. reflexivity.
Qed.

Lemma comsol_fill_blank (col : list string) (name : string)
  (parts : list string) (carpeta : option string) :
  filter nonempty (map strip col) = [] ->
  Comsol.fill_agencia_column col name parts carpeta
  = if nonempty (Comsol.resolve_agencia_base name parts carpeta)
    then map (fun _ => Comsol.resolve_agencia_base name parts carpeta) col
    else col.
Proof.
  intros F. unfold Comsol.fill_agencia_column.
  destruct col as [|x col]; [destruct (nonempty _); reflexivity|].
  cbv zeta. rewrite F.
  destruct (nonempty (Comsol.resolve_agencia_base name parts carpeta)) eqn:N;
    cbn [negb]; [|reflexivity].
  rewrite (comsol_code_or_resolve _ _ _ N). reflexivity.
Qed.

Lemma comsol_fill_const (c : string) (col : list string) (name : string)
  (parts : list string) (carpeta : option string) :
  nonempty c = true -> strip c = c -> Comsol.code_or c = c ->
  Comsol.fill_agencia_column (map (fun _ => c) col) name parts carpeta
  = map (fun _ => c) col.
Proof.
  intros Hn Hs Hc. destruct col as [|x col]; [reflexivity|].
  destruct (comsol_fill_first (map (fun _ => c) (x :: col)) name parts carpeta
              c (filter nonempty (map strip (map (fun _ => c) col))))
    as [H _].
  { simpl. rewrite Hs, Hn. reflexivity. }
  rewrite H, Hc, map_map. reflexivity.
Qed.

(** X20.  [fill_agencia_column] writes one value into every row of the
    AGENCIA column and keeps the number of rows.  When the column has a
    non-blank value, the first of them decides, turned into its agency code
    when it names one, and the values of the other rows are overwritten;
    when the column is blank, the value is that of [resolve_agencia_base],
    and the column stays as it is when that is empty too.  Applying the
    function twice changes nothing. *)
Theorem fill_agencia_column_constant :
  (forall col name parts carpeta,
      List.length (Comsol.fill_agencia_column col name parts carpeta)
      = List.length col)
  /\ (forall col name parts carpeta v rest,
        filter nonempty (map strip col) = v :: rest ->
        Comsol.fill_agencia_column col name parts carpeta
        = map (fun _ => Comsol.code_or v) col)
  /\ (forall col name parts carpeta,
        filter nonempty (map strip col) = [] ->
        Comsol.fill_agencia_column col name parts carpeta
        = if nonempty (Comsol.resolve_agencia_base name parts carpeta)
          then map (fun _ => Comsol.resolve_agencia_base name parts carpeta)
                 col
          else col)
  /\ (forall col name parts carpeta,
        Comsol.fill_agencia_column
          (Comsol.fill_agencia_column col name parts carpeta)
          name parts carpeta
        = Comsol.fill_agencia_column col name parts carpeta).
Proof.
  assert (L : forall col name parts carpeta,
             Comsol.fill_agencia_column col name parts carpeta = col
             \/ exists c,
                  nonempty c = true /\ strip c = c /\ Comsol.code_or c = c
                  /\ Comsol.fill_agencia_column col name parts carpeta
                     = map (fun _ => c) col).
  { intros col name parts carpeta.
    destruct (filter nonempty (map strip col)) as [|v rest] eqn:F.
    - rewrite (comsol_fill_blank _ _ _ _ F).
      destruct (nonempty (Comsol.resolve_agencia_base name parts carpeta))
        eqn:N; [right|left; reflexivity].
      exists (Comsol.resolve_agencia_base name parts carpeta).
      split; [exact N|]. split; [|split; [|reflexivity]].
      + pose proof (comsol_resolve_range name parts carpeta) as R.
        simpl in R.
        destruct R as [R|[R|[R|[R|[R|[R|[]]]]]]]; rewrite <- R;
          vm_compute; reflexivity.
      + exact (comsol_code_or_resolve _ _ _ N).
    - destruct (comsol_fill_first _ name parts carpeta _ _ F) as (H & N & S).
      right. exists (Comsol.code_or v).
      split; [exact N|]. split; [exact S|].
      split; [apply comsol_code_or_idempotent|exact H]. }
  repeat match goal with |- _ /\ _ => split end.
  - intros col name parts carpeta.
    destruct (L col name parts carpeta) as [->|(c & _ & _ & _ & ->)];
      [reflexivity|apply length_map].
  - intros col name parts carpeta v rest F.
    exact (proj1 (comsol_fill_first _ _ _ _ _ _ F)).
  - exact comsol_fill_blank.
  - intros col name parts carpeta.
    destruct (L col name parts carpeta) as [E|(c & N & S & C & E)].
    + rewrite E. exact E.
    + rewrite E. apply comsol_fill_const; assumption.
Qed.

(** A column whose first value names Asuncion and whose last names another
    agency. *)
Lemma fill_agencia_column_constant_witness :
  Comsol.fill_agencia_column [""; " Asuncion "; "CDE"] "EC_ATM.xlsx" [] None
  = ["ASU"; "ASU"; "ASU"].
Proof.
  refine (proj1 (proj2 fill_agencia_column_constant)
            [""; " Asuncion "; "CDE"] "EC_ATM.xlsx" [] None "Asuncion"
            ["CDE"] _).
  vm_compute; reflexivity.
Defined.

Lemma comsol_code_nonempty (text code : string) :
  Comsol._agencia_code_from_text text = Some code -> nonempty text = true.
Proof.
  unfold Comsol._agencia_code_from_text.
  destruct (nonempty text); [reflexivity|discriminate].
Qed.

(** X21.  [resolve_agencia_base] of comsol answers one of the five agency
    codes or the empty text.  A digit code [1_10] to [5_10] in the file name
    wins over everything else; without one, [agencia_carpeta] decides when
    it names an agency; the folders of the path come last.  Every code
    [_agencia_code_from_text] returns is one of the five and is read back
    as itself. *)
Theorem resolve_agencia_base_priority :
  (forall text code,
      Comsol._agencia_code_from_text text = Some code ->
      In code ["ASU"; "CDE"; "CNC"; "ENC"; "OVD"]
      /\ Comsol._agencia_code_from_text code = Some code)
  /\ (forall name,
        In (Comsol.infer_agencia_from_filename name)
          ["ASU"; "CDE"; "CNC"; "ENC"; "OVD"; ""])
  /\ (forall name parts carpeta,
        nonempty (Comsol.infer_agencia_from_filename name) = true ->
        Comsol.resolve_agencia_base name parts carpeta
        = Comsol.infer_agencia_from_filename name)
  /\ (forall name parts c code,
        Comsol.infer_agencia_from_filename name = "" ->
        Comsol._agencia_code_from_text c = Some code ->
        Comsol.resolve_agencia_base name parts (Some c) = code)
  /\ (forall name parts carpeta,
        In (Comsol.resolve_agencia_base name parts carpeta)
          ["ASU"; "CDE"; "CNC"; "ENC"; "OVD"; ""]).
Proof.
  repeat match goal with |- _ /\ _ => split end.
  - intros text code H. pose proof (comsol_code_canonical _ _ H) as C.
    split; [exact C|exact (proj1 (comsol_code_fixed _ C))].
  - exact comsol_infer_range.
  - intros name parts carpeta N. unfold Comsol.resolve_agencia_base.
    cbv zeta. rewrite N. reflexivity.
  - intros name parts c code I H. unfold Comsol.resolve_agencia_base.
    cbv zeta. rewrite I. cbn [nonempty].
    rewrite (comsol_code_nonempty _ _ H), comsol_truthy_code, H.
    reflexivity.
  - exact comsol_resolve_range.
Qed.

(** The digit code of the file name against the folder and the argument. *)
Lemma resolve_agencia_base_priority_witness :
  Comsol.resolve_agencia_base "EC_ATM_2_10.xlsx" ["/"; "ASU"] (Some "OVD")
  = "CDE".
Proof.
  refine (proj1 (proj2 (proj2 resolve_agencia_base_priority))
            "EC_ATM_2_10.xlsx" ["/"; "ASU"] (Some "OVD") _).
  vm_compute; reflexivity.
Defined.


(** ** Zero-like amounts *)

Lemma keep_remove_char (p : ascii -> bool) (a : ascii) (s : string) :
  p a = false -> keep p (remove_char a s) = keep p s.
Proof.
  intros Ha. unfold remove_char. induction s as [|c s IH]; simpl;
    [reflexivity|].
  destruct (Ascii.eqb_spec c a) as [->|_]; cbn [negb].
  - rewrite Ha. exact IH.
  - simpl. rewrite IH. reflexivity.
Qed.

Lemma zero_like_kept (p : ascii -> bool) (s : string) :
  p ","%char = false -> p "."%char = false ->
  (forall c, isspace c = true -> p c = false) ->
  keep p (strip (remove_char "." (remove_char "," s))) = keep p s.
Proof.
  intros Hc Hd Hs.
  rewrite keep_strip by exact Hs.
  rewrite keep_remove_char by exact Hd.
  apply keep_remove_char. exact Hc.
Qed.

Lemma space_not_zero (c : ascii) :
  isspace c = true -> Ascii.eqb c "0"%char = false.
Proof.
  destruct c as [[] [] [] [] [] [] [] []]; intros H; try discriminate H;
    reflexivity.
Qed.

Lemma zero_like_two_zeros (s : string) :
  2 <= String.length (keep (fun c => Ascii.eqb c "0"%char) s) ->
  Comsol._is_zero_like s = false.
Proof.
  intros H. unfold Comsol._is_zero_like. cbv zeta.
  set (t := strip (remove_char "." (remove_char "," s))).
  assert (K : keep (fun c => Ascii.eqb c "0"%char) t
              = keep (fun c => Ascii.eqb c "0"%char) s)
    by (apply zero_like_kept; [reflexivity|reflexivity|exact space_not_zero]).
  destruct (t =? "") eqn:E1.
  { apply String.eqb_eq in E1. rewrite E1 in K. rewrite <- K in H.
    simpl in H. lia. }
  destruct (t =? "0") eqn:E2; [|reflexivity].
  apply String.eqb_eq in E2. rewrite E2 in K. rewrite <- K in H.
  simpl in H. lia.
Qed.

Lemma zero_like_other_char (s : string) :
  existsb (fun c => negb (Ascii.eqb c "0"%char || Ascii.eqb c ","%char
                          || Ascii.eqb c "."%char || isspace c))
    (list_ascii_of_string s) = true ->
  Comsol._is_zero_like s = false.
Proof.
  intros H. unfold Comsol._is_zero_like. cbv zeta.
  set (p := fun c => negb (Ascii.eqb c "0"%char || Ascii.eqb c ","%char
                           || Ascii.eqb c "."%char || isspace c)) in *.
  set (t := strip (remove_char "." (remove_char "," s))).
  assert (K : keep p t = keep p s).
  { apply zero_like_kept; [reflexivity|reflexivity|].
    intros c Hc. unfold p. rewrite Hc, !orb_true_r. reflexivity. }
  assert (N : nonempty (keep p s) = true).
  { clear K t. induction s as [|c s IH]; simpl in *; [discriminate H|].
    destruct (p c); [reflexivity|]. exact (IH H). }
  rewrite <- K in N.
  destruct (t =? "") eqn:E1.
  { apply String.eqb_eq in E1. rewrite E1 in N. discriminate N. }
  destruct (t =? "0") eqn:E2; [|reflexivity].
  apply String.eqb_eq in E2. rewrite E2 in N. discriminate N.
Qed.

(** X22.  The zero test of the parcel ledgers, [_is_zero_like] in comsol
    and the inline test of [get_ec_bultos_atm] in v4_2, is the same
    function, and it knows a single zero only: an amount with two or more
    zero digits, such as a zero with decimals, is not zero-like, and neither
    is an amount with any character besides zeros, commas, points and white
    space.  With [descartar_usd_cero] set, the USD record of such a row is
    kept. *)
Theorem zero_like_single_zero :
  (forall s, V4.BultosAtm.zero_like s = Comsol._is_zero_like s)
  /\ (forall s,
        2 <= String.length (keep (fun c => Ascii.eqb c "0"%char) s) ->
        Comsol._is_zero_like s = false)
  /\ (forall s,
        existsb (fun c => negb (Ascii.eqb c "0"%char || Ascii.eqb c ","%char
                                || Ascii.eqb c "."%char || isspace c))
          (list_ascii_of_string s) = true ->
        Comsol._is_zero_like s = false).
Proof.
  split; [reflexivity|].
  split; [exact zero_like_two_zeros|exact zero_like_other_char].
Qed.

(** A zero with two decimals. *)
Lemma zero_like_single_zero_witness : Comsol._is_zero_like "0,00" = false.
Proof.
  refine (proj1 (proj2 zero_like_single_zero) "0,00" _).
  simpl; lia.
Defined.


(** ** The end marker of the inventory block *)

Lemma find_index_from_app {A} (p : A -> bool) (pre : list A) (x : A)
  (suf : list A) :
  Forall (fun a => p a = false) pre -> p x = true ->
  forall k, find_index_from p k (pre ++ x :: suf) = Some (k + List.length pre).
Proof.
  intros Hpre Hx. induction Hpre as [|a pre Ha _ IH]; intros k; simpl.
  - rewrite Hx. f_equal. lia.
  - rewrite Ha, IH. f_equal. lia.
Qed.

Lemma find_app_first {A} (p : A -> bool) (pre : list A) (x : A)
  (suf : list A) :
  Forall (fun a => p a = false) pre -> p x = true ->
  find p (pre ++ x :: suf) = Some x.
Proof.
  intros Hpre Hx. induction Hpre as [|a pre Ha _ IH]; simpl.
  - rewrite Hx. reflexivity.
  - rewrite Ha. exact IH.
Qed.

Lemma firstn_length_app {A} (pre suf : list A) :
  firstn (List.length pre) (pre ++ suf) = pre.
Proof.
  rewrite firstn_app, Nat.sub_diag, firstn_all. simpl. apply app_nil_r.
Qed.

Lemma block_rows {A} (pre suf : list A) (row_start : nat) :
  firstn (List.length pre - row_start) (skipn row_start (pre ++ suf))
  = skipn row_start pre.
Proof.
  rewrite skipn_app, firstn_app, length_skipn.
  rewrite Nat.sub_diag, firstn_O, app_nil_r.
  rewrite firstn_all2 by (rewrite length_skipn; lia). reflexivity.
Qed.

Lemma row_end_of_marker (pre : list (list V4.Inv.cell))
  (fin : list V4.Inv.cell) (suf : list (list V4.Inv.cell)) :
  Forall (fun r => V4.Inv.is_fin_row r = false) pre ->
  V4.Inv.is_fin_row fin = true ->
  V4.Inv.row_end_of (pre ++ fin :: suf) = List.length pre.
Proof.
  intros Hpre Hfin. unfold V4.Inv.row_end_of, find_index.
  rewrite (find_index_from_app _ _ _ _ Hpre Hfin). reflexivity.
Qed.

Lemma inv_bco_sheet_marker (float_int : string -> option Z) (f a : string)
  (pre : list (list V4.Inv.cell)) (fin : list V4.Inv.cell)
  (suf : list (list V4.Inv.cell)) :
  Forall (fun r => V4.Inv.is_fin_row r = false) pre ->
  V4.Inv.is_fin_row fin = true ->
  V4.Inv.inv_bco_sheet float_int (V4.Inv.Sheet f a (pre ++ fin :: suf))
  = V4.Inv.walk float_int V4.Inv.BCO_AGRUP_TOKENS V4.Inv.BCO_TIPO_TOKENS f a
      (V4.Inv.State "" "" "") pre.
Proof.
  intros Hpre Hfin. unfold V4.Inv.inv_bco_sheet.
  cbn [V4.Inv.df V4.Inv.meta_fecha V4.Inv.agencia_resuelta].
  rewrite (row_end_of_marker _ _ _ Hpre Hfin), firstn_length_app.
  reflexivity.
Qed.

Lemma inv_atm_sheet_marker (float_int : string -> option Z) (f a : string)
  (pre : list (list V4.Inv.cell)) (fin : list V4.Inv.cell)
  (suf : list (list V4.Inv.cell)) :
  Forall (fun r => V4.Inv.is_fin_row r = false) pre ->
  V4.Inv.is_fin_row fin = true ->
  V4.Inv.inv_atm_sheet float_int (V4.Inv.Sheet f a (pre ++ fin :: suf))
  = match
      match V4.Inv.buscar_inicio_por_divisa pre (List.length pre) with
      | Some (S i) => V4.Inv.Ok (Some (S i))
      | _ => V4.Inv.buscar_inicio_fallback float_int pre (List.length pre)
      end
    with
    | V4.Inv.Ok (Some row_start) =>
        V4.Inv.walk float_int V4.Inv.ATM_AGRUP_TOKENS V4.Inv.ATM_TIPO_TOKENS
          f a
          (V4.Inv.State
             (V4.Inv.normaliza_divisa_inventario
                (match V4.Inv.capturar_codigo_total
                         (join " | " (map V4.Inv._upper fin)) with
                 | Some c => c
                 | None => ""
                 end)) "" "")
          (skipn row_start pre)
    | _ => []
    end.
Proof.
  intros Hpre Hfin. unfold V4.Inv.inv_atm_sheet, V4.Inv.localiza_bloque.
  cbn [V4.Inv.df V4.Inv.meta_fecha V4.Inv.agencia_resuelta].
  unfold V4.Inv.buscar_fin_y_codigo.
  rewrite (find_app_first _ _ _ _ Hpre Hfin).
  rewrite (row_end_of_marker _ _ _ Hpre Hfin).
  unfold V4.Inv.buscar_inicio_por_divisa, V4.Inv.buscar_inicio_fallback.
  rewrite !firstn_length_app, firstn_all.
  destruct (find_index _ pre) as [[|i]|];
    [destruct (V4.Inv.inicio_fallback_from float_int 0 pre) as [[rs|]|]
    | 
    |destruct (V4.Inv.inicio_fallback_from float_int 0 pre) as [[rs|]|]];
    cbn [V4.Inv.bind]; try reflexivity; rewrite block_rows; reflexivity.
Qed.

Lemma no_marker_rows (pre : list (list V4.Inv.cell)) :
  forallb (fun r => negb (V4.Inv.is_fin_row r)) pre = true ->
  Forall (fun r => V4.Inv.is_fin_row r = false) pre.
Proof.
  intros H. apply Forall_forall. intros r Hr.
  apply (proj1 (forallb_forall _ _) H) in Hr.
  apply negb_true_iff in Hr. exact Hr.
Qed.

(** X23.  The inventory parsers stop at the first row that contains "TOTAL
    DE LA MONEDA".  For the date and agency found for a sheet, the lines of
    [get_inv_bco] are those of the walk over the rows before that row, and
    the lines of [get_inv_atm] depend on the rows before it and on the
    marker row itself, which gives the currency code: whatever rows follow
    the marker, the lines are the same. *)
Theorem inventory_rows_after_marker_unread
  (float_int : string -> option Z) :
  forall f a pre fin suf suf',
    forallb (fun r => negb (V4.Inv.is_fin_row r)) pre = true ->
    V4.Inv.is_fin_row fin = true ->
    V4.Inv.inv_bco_sheet float_int (V4.Inv.Sheet f a (pre ++ fin :: suf))
    = V4.Inv.walk float_int V4.Inv.BCO_AGRUP_TOKENS V4.Inv.BCO_TIPO_TOKENS
        f a (V4.Inv.State "" "" "") pre
    /\ V4.Inv.inv_bco_sheet float_int (V4.Inv.Sheet f a (pre ++ fin :: suf))
       = V4.Inv.inv_bco_sheet float_int
           (V4.Inv.Sheet f a (pre ++ fin :: suf'))
    /\ V4.Inv.inv_atm_sheet float_int (V4.Inv.Sheet f a (pre ++ fin :: suf))
       = V4.Inv.inv_atm_sheet float_int
           (V4.Inv.Sheet f a (pre ++ fin :: suf')).
Proof.
  intros f a pre fin suf suf' Hpre Hfin. apply no_marker_rows in Hpre.
  split; [exact (inv_bco_sheet_marker float_int f a pre fin suf Hpre Hfin)|].
  split.
  - rewrite (inv_bco_sheet_marker float_int f a pre fin suf Hpre Hfin).
    rewrite (inv_bco_sheet_marker float_int f a pre fin suf' Hpre Hfin).
    reflexivity.
  - rewrite (inv_atm_sheet_marker float_int f a pre fin suf Hpre Hfin).
    rewrite (inv_atm_sheet_marker float_int f a pre fin suf' Hpre Hfin).
    reflexivity.
Qed.

(** A second block after the marker is not read. *)
Lemma inventory_rows_after_marker_unread_witness :
  V4.Inv.inv_bco_sheet (fun _ => None)
    (V4.Inv.Sheet "15/03/2024" "ASU"
       ([[V4.Inv.CStr "USD"];
         [V4.Inv.CStr "TESORO EFECTIVO"; V4.Inv.CStr "BILLETES";
          V4.Inv.CInt 100; V4.Inv.CInt 5]]
        ++ [V4.Inv.CStr "Total de la moneda USD"]
        :: [[V4.Inv.CStr "TESORO EFECTIVO"; V4.Inv.CStr "BILLETES";
             V4.Inv.CInt 50; V4.Inv.CInt 7]]))
  = V4.Inv.inv_bco_sheet (fun _ => None)
      (V4.Inv.Sheet "15/03/2024" "ASU"
         ([[V4.Inv.CStr "USD"];
           [V4.Inv.CStr "TESORO EFECTIVO"; V4.Inv.CStr "BILLETES";
            V4.Inv.CInt 100; V4.Inv.CInt 5]]
          ++ [V4.Inv.CStr "Total de la moneda USD"] :: [])).
Proof.
  refine (proj1 (proj2 (inventory_rows_after_marker_unread (fun _ => None)
                          "15/03/2024" "ASU"
                          [[V4.Inv.CStr "USD"];
                           [V4.Inv.CStr "TESORO EFECTIVO";
                            V4.Inv.CStr "BILLETES";
                            V4.Inv.CInt 100; V4.Inv.CInt 5]]
                          [V4.Inv.CStr "Total de la moneda USD"]
                          [[V4.Inv.CStr "TESORO EFECTIVO";
                            V4.Inv.CStr "BILLETES";
                            V4.Inv.CInt 50; V4.Inv.CInt 7]]
                          [] _ _)));
    vm_compute; reflexivity.
Defined.


(** ** [_agencia_code_from_text] *)

Lemma v4_code_word_first (text c : string) :
  nonempty text = true ->
  In c ["OVD"; "ENC"; "CON"; "ASU"; "CDE"] ->
  V4.has_word c (fold text) = true ->
  exists c',
    V4._agencia_code_from_text text = Some c'
    /\ In c' ["OVD"; "ENC"; "CON"; "ASU"; "CDE"]
    /\ V4.has_word c' (fold text) = true.
Proof.
  intros N Hc Hw. unfold V4._agencia_code_from_text. rewrite N. cbn [negb].
  cbv zeta. change (upper (_strip_accents text)) with (fold text).
  destruct (find (fun code => V4.has_word code (fold text))
              (map fst V4.AGENCIA_ALIASES)) as [c'|] eqn:F.
  - apply find_some in F. exists c'. split; [reflexivity|]. exact F.
  - exfalso. pose proof (find_none _ _ F c Hc) as H. cbv beta in H.
    rewrite Hw in H. discriminate H.
Qed.

Lemma v4_code_justified (text c : string) :
  V4._agencia_code_from_text text = Some c ->
  nonempty text = true
  /\ exists aliases,
       In (c, aliases) V4.AGENCIA_ALIASES
       /\ (V4.has_word c (fold text) = true
           \/ exists al, In al aliases
                         /\ V4.has_word (fold al) (fold text) = true).
Proof.
  unfold V4._agencia_code_from_text.
  destruct (nonempty text); cbn [negb]; [|discriminate]. cbv zeta.
  change (upper (_strip_accents text)) with (fold text).
  intros H. split; [reflexivity|].
  destruct (find (fun code => V4.has_word code (fold text))
              (map fst V4.AGENCIA_ALIASES)) as [c'|] eqn:F.
  - injection H as <-. apply find_some in F. destruct F as [F1 F2].
    apply in_map_iff in F1. destruct F1 as ([c0 aliases] & E & Hin).
    simpl in E. subst c0. exists aliases. split; [exact Hin|left; exact F2].
  - destruct (find (V4.alias_hit (fold text)) V4.AGENCIA_ALIASES)
      as [[c0 aliases]|] eqn:G; [|discriminate H].
    injection H as <-. apply find_some in G. destruct G as [G1 G2].
    exists aliases. split; [exact G1|right].
    unfold V4.alias_hit in G2. apply existsb_exists in G2.
    destruct G2 as (al & Hal & Hw). exists al. split; [exact Hal|exact Hw].
Qed.

Lemma v4_code_alias_found (text c al : string) (aliases : list string) :
  nonempty text = true ->
  In (c, aliases) V4.AGENCIA_ALIASES ->
  In al aliases ->
  V4.has_word (fold al) (fold text) = true ->
  exists c', V4._agencia_code_from_text text = Some c'.
Proof.
  intros N Hc Hal Hw. unfold V4._agencia_code_from_text. rewrite N.
  cbn [negb]. cbv zeta. change (upper (_strip_accents text)) with (fold text).
  destruct (find (fun code => V4.has_word code (fold text))
              (map fst V4.AGENCIA_ALIASES)) as [c'|]; [eexists; reflexivity|].
  destruct (find (V4.alias_hit (fold text)) V4.AGENCIA_ALIASES)
    as [[c0 l]|] eqn:G; [eexists; reflexivity|].
  exfalso. pose proof (find_none _ _ G (c, aliases) Hc) as H.
  unfold V4.alias_hit in H. cbn [snd] in H.
  assert (E : existsb (fun al0 => V4.has_word (upper (_strip_accents al0))
                                    (fold text)) aliases = true).
  { apply existsb_exists. exists al. split; [exact Hal|exact Hw]. }
  rewrite E in H. discriminate H.
Qed.

(** X24.  [_agencia_code_from_text] of v4_2 answers only with reason, and
    whenever there is one.  A code it returns is one of the five, and the
    text, without accents and in upper case, holds that code or one of its
    aliases as a whole word.  A non-empty text that holds an alias as a
    whole word gets a code; when it holds a code as a whole word, the code
    returned is one the text holds as a word, so that a code always wins
    over the alias of another agency.  Each code is read as itself, and the
    empty text gives [None]. *)
Theorem agencia_code_from_text_justified :
  (forall text c,
      V4._agencia_code_from_text text = Some c ->
      In c ["OVD"; "ENC"; "CON"; "ASU"; "CDE"]
      /\ exists aliases,
           In (c, aliases) V4.AGENCIA_ALIASES
           /\ (V4.has_word c (upper (_strip_accents text)) = true
               \/ exists al,
                    In al aliases
                    /\ V4.has_word (upper (_strip_accents al))
                         (upper (_strip_accents text)) = true))
  /\ (forall text c aliases al,
        nonempty text = true ->
        In (c, aliases) V4.AGENCIA_ALIASES ->
        In al aliases ->
        V4.has_word (upper (_strip_accents al))
          (upper (_strip_accents text)) = true ->
        exists c', V4._agencia_code_from_text text = Some c')
  /\ (forall text c,
        nonempty text = true ->
        In c ["OVD"; "ENC"; "CON"; "ASU"; "CDE"] ->
        V4.has_word c (upper (_strip_accents text)) = true ->
        exists c',
          V4._agencia_code_from_text text = Some c'
          /\ In c' ["OVD"; "ENC"; "CON"; "ASU"; "CDE"]
          /\ V4.has_word c' (upper (_strip_accents text)) = true)
  /\ (forall c,
        In c ["OVD"; "ENC"; "CON"; "ASU"; "CDE"] ->
        V4._agencia_code_from_text c = Some c)
  /\ V4._agencia_code_from_text "" = None.
Proof.
  repeat match goal with |- _ /\ _ => split end.
  - intros text c H. split; [exact (agencia_code_canonical _ _ H)|].
    exact (proj2 (v4_code_justified _ _ H)).
  - intros text c aliases al. exact (v4_code_alias_found text c al aliases).
  - exact v4_code_word_first.
  - simpl. intros c [<-|[<-|[<-|[<-|[<-|[]]]]]]; vm_compute; reflexivity.
  - reflexivity.
Qed.

(** A text with the alias of one agency and the code of another. *)
Lemma agencia_code_from_text_justified_witness :
  exists c',
    V4._agencia_code_from_text "Oviedo - ASU" = Some c'
    /\ In c' ["OVD"; "ENC"; "CON"; "ASU"; "CDE"]
    /\ V4.has_word c' (upper (_strip_accents "Oviedo - ASU")) = true.
Proof.
  refine (proj1 (proj2 (proj2 agencia_code_from_text_justified))
            "Oviedo - ASU" "ASU" _ _ _).
  - reflexivity.
  - simpl. auto.
  - vm_compute; reflexivity.
Defined.

(** ** What the matcher has walked when it answers *)

Lemma or_else_some {A} (x y : option A) (v : A) :
  or_else x y = Some v -> x = Some v \/ (x = None /\ y = Some v).
Proof. destruct x; simpl; intros H; [left; exact H|right; auto]. Qed.

(** Every answer of the matcher comes from a walk of the pattern followed
    by an answer of the continuation. *)
Lemma run_re_walks (r : regex) :
  forall m k m',
    run_re r m k = Some m' ->
    exists m1, walks r m m1 /\ k m1 = Some m'.
Proof.
  induction r as [|p|a IHa b IHb|a IHa b IHb|a IHa|a IHa|a IHa| | |];
    intros m k m' H; cbn [run_re] in H.
  - exists m. split; [constructor|exact H].
  - destruct (rest m) as [|c t] eqn:E; [discriminate H|].
    destruct (p c) eqn:P; [|discriminate H].
    exists (advance c t m). split; [constructor; assumption|exact H].
  - apply IHa in H. destruct H as (m1 & W1 & H).
    apply IHb in H. destruct H as (m2 & W2 & H).
    exists m2. split; [econstructor; eassumption|exact H].
  - apply or_else_some in H. destruct H as [H|[_ H]].
    + apply IHa in H. destruct H as (m1 & W & H).
      exists m1. split; [apply walks_alt_l; exact W|exact H].
    + apply IHb in H. destruct H as (m1 & W & H).
      exists m1. split; [apply walks_alt_r; exact W|exact H].
  - revert H. generalize (String.length (rest m)). intros n. revert m.
    induction n as [|n IHn]; intros m H.
    + exists m. split; [constructor|exact H].
    + apply or_else_some in H. destruct H as [H|[_ H]].
      * apply IHa in H. destruct H as (m1 & W & H).
        destruct (Nat.ltb _ _); [|discriminate H].
        apply IHn in H. destruct H as (m2 & W2 & H).
        exists m2. split; [eapply walks_star_s; eassumption|exact H].
      * exists m. split; [constructor|exact H].
  - revert H. generalize (String.length (rest m)). intros n. revert m.
    induction n as [|n IHn]; intros m H.
    + exists m. split; [constructor|exact H].
    + apply or_else_some in H. destruct H as [H|[_ H]].
      * exists m. split; [constructor|exact H].
      * apply IHa in H. destruct H as (m1 & W & H).
        destruct (Nat.ltb _ _); [|discriminate H].
        apply IHn in H. destruct H as (m2 & W2 & H).
        exists m2. split; [eapply walks_lazy_s; eassumption|exact H].
  - apply IHa in H. destruct H as (m1 & W & H).
    exists (close_group m1). split; [constructor; exact W|exact H].
  - destruct (before m) eqn:E; [discriminate H|].
    exists m. split; [constructor; exact E|exact H].
  - destruct (at_eol m) eqn:E; [|discriminate H].
    exists m. split; [constructor; exact E|exact H].
  - destruct (xorb _ _) eqn:E; [|discriminate H].
    exists m. split; [constructor; exact E|exact H].
Qed.

Lemma search_from_walks (r : regex) (s : string) :
  forall b m',
    search_from r b s = Some m' ->
    exists b' s', walks r (start_at b' s') m'.
Proof.
  induction s as [|c t IH]; intros b m' H; cbn [search_from] in H.
  - destruct (run_re r (start_at b "") Some) as [m|] eqn:E; [|discriminate H].
    injection H as <-. apply run_re_walks in E.
    destruct E as (m1 & W & E). injection E as ->. eauto.
  - destruct (run_re r (start_at b (String c t)) Some) as [m|] eqn:E.
    + injection H as <-. apply run_re_walks in E.
      destruct E as (m1 & W & E). injection E as ->. eauto.
    + apply IH in H. exact H.
Qed.

(** A pattern without a group leaves the group of the cursor alone and
    walks over a prefix of the text. *)
Lemma walks_groupless (r : regex) (m m1 : cursor) :
  walks r m m1 ->
  groupless r = true ->
  opened m1 = opened m /\ group1 m1 = group1 m
  /\ exists s, rest m = (s ++ rest m1)%string.
Proof.
  induction 1 as [m|p c t m E P|a b m1 m2 m3 _ IH1 _ IH2|a b m1 m2 _ IH
                 |a b m1 m2 _ IH|a m|a m1 m2 m3 _ IH1 _ IH2|a m
                 |a m1 m2 m3 _ IH1 _ IH2|a m m1 _ _|m E|m E|m E];
    cbn [groupless]; intros G;
    try (repeat split; try reflexivity; exists ""; reflexivity).
  - repeat split; try reflexivity.
    exists (String c ""). rewrite E. reflexivity.
  - apply andb_true_iff in G. destruct G as [Ga Gb].
    destruct (IH1 Ga) as (O1 & G1 & s & E1).
    destruct (IH2 Gb) as (O2 & G2 & t & E2).
    repeat split; try congruence.
    exists (s ++ t)%string. rewrite E1, E2, string_app_assoc. reflexivity.
  - apply andb_true_iff in G. exact (IH (proj1 G)).
  - apply andb_true_iff in G. exact (IH (proj2 G)).
  - destruct (IH1 G) as (O1 & G1 & s & E1).
    destruct (IH2 G) as (O2 & G2 & t & E2).
    repeat split; try congruence.
    exists (s ++ t)%string. rewrite E1, E2, string_app_assoc. reflexivity.
  - destruct (IH1 G) as (O1 & G1 & s & E1).
    destruct (IH2 G) as (O2 & G2 & t & E2).
    repeat split; try congruence.
    exists (s ++ t)%string. rewrite E1, E2, string_app_assoc. reflexivity.
  - discriminate G.
Qed.

Lemma substring_prefix (s t : string) :
  substring 0 (String.length (s ++ t) - String.length t) (s ++ t) = s.
Proof.
  assert (L : String.length (s ++ t) - String.length t = String.length s).
  { assert (A : String.length (s ++ t)
                 = String.length s + String.length t).
    { induction s as [|c s IH]; cbn [append String.length];
        [reflexivity|rewrite IH; reflexivity]. }
    lia. }
  rewrite L. clear L. induction s as [|c s IH]; simpl.
  - destruct t; reflexivity.
  - rewrite IH. reflexivity.
Qed.

(** The text of a group without inner groups is the text its pattern walked
    over. *)
Lemma walks_group_text (a : regex) (m m2 : cursor) :
  walks (Group a) m m2 ->
  groupless a = true ->
  exists m1 s,
    walks a (open_group m) m1
    /\ rest m = (s ++ rest m1)%string
    /\ rest m2 = rest m1
    /\ group m2 = s.
Proof.
  intros W G. inversion W as [| | | | | | | | |a' m' m1 W1| | |]; subst.
  destruct (walks_groupless _ _ _ W1 G) as (O & _ & s & E).
  cbn [open_group opened rest] in O, E.
  exists m1, s. split; [exact W1|]. split; [exact E|].
  split; [reflexivity|].
  unfold group, close_group. cbn [group1]. rewrite O, E.
  apply substring_prefix.
Qed.

Lemma re_search_walks (r : regex) (s : string) (m' : cursor) :
  re_search r s = Some m' -> exists b' s', walks r (start_at b' s') m'.
Proof. apply search_from_walks. Qed.

Lemma re_match_walks (r : regex) (s : string) (m' : cursor) :
  re_match r s = Some m' -> walks r (start_at None s) m'.
Proof.
  intros H. apply run_re_walks in H. destruct H as (m1 & W & E).
  injection E as ->. exact W.
Qed.

(** Inversion of a walk over a pattern written out with its constructors. *)
Ltac walk_inv :=
  repeat match goal with
         | H : walks (Seq _ _) _ _ |- _ => inversion H; clear H; subst
         | H : walks (Alt _ _) _ _ |- _ => inversion H; clear H; subst
         | H : walks Eps _ _ |- _ => inversion H; clear H; subst
         | H : walks (Chr _) _ _ |- _ => inversion H; clear H; subst
         end.

(** The characters of [x] before its suffix [t]. *)
Ltac strip_suffix x t :=
  lazymatch x with
  | t => constr:(EmptyString)
  | String ?c ?x' => let p := strip_suffix x' t in constr:(String c p)
  end.

(** The text a walk of [\d{1,2}/\d{1,2}/\d{4}] went over is a date. *)
Lemma walks_date_dmy (m m1 : cursor) :
  walks date_dmy m m1 ->
  exists s,
    rest m = (s ++ rest m1)%string
    /\ matches (re_fullmatch date_dmy s) = true.
Proof.
  unfold date_dmy, opt, digit, chr. cbn [seqs fold_right]. intros W.
  walk_inv; cbn [rest advance] in *;
    repeat match goal with
           | H : Ascii.eqb _ _ = true |- _ =>
               apply Ascii.eqb_eq in H; subst
           end;
    repeat match goal with
           | H : rest ?m = _ |- _ => rewrite H
           | H : ?t = String _ _ |- _ => is_var t; subst t
           end.
  all: match goal with
       | |- exists s, ?x = (s ++ ?t)%string /\ _ =>
           let p := strip_suffix x t in exists p
       end; split; [reflexivity|].
  all: unfold re_fullmatch, date_dmy, opt, digit, chr;
    cbn [seqs fold_right run_re start_at rest advance or_else matches
         before opened group1 Ascii.eqb];
    repeat match goal with
           | H : isdecimal ?c = true |- _ => rewrite !H; clear H
           end;
    cbn [or_else matches Ascii.eqb Bool.eqb isdecimal].
  all: repeat match goal with
           | |- context [isdecimal "/"%char] =>
               change (isdecimal "/"%char) with false
           end;
    cbn [or_else matches]; reflexivity.
Qed.

Lemma string_length_app (s t : string) :
  String.length (s ++ t) = String.length s + String.length t.
Proof.
  induction s as [|c s IH]; cbn [append String.length];
    [reflexivity|rewrite IH; reflexivity].
Qed.

Lemma string_app_inv_tail (s s' r : string) :
  (s ++ r)%string = (s' ++ r)%string -> s = s'.
Proof.
  revert s'. induction s as [|c s IH]; intros [|c' s'] H.
  - reflexivity.
  - exfalso. apply (f_equal String.length) in H.
    rewrite !string_length_app in H. cbn [String.length] in H. lia.
  - exfalso. apply (f_equal String.length) in H.
    rewrite !string_length_app in H. cbn [String.length] in H. lia.
  - cbn [append] in H. injection H as -> H. f_equal. exact (IH _ H).
Qed.

Lemma walks_seq_tail (a b : regex) (m m' : cursor) :
  walks (Seq a b) m m' -> exists m1, walks a m m1 /\ walks b m1 m'.
Proof.
  intros W. inversion W; subst. eexists; split; eassumption.
Qed.

(** A group followed by a pattern without groups: the text of the group
    is the text its pattern walked over. *)
Lemma walks_seq_group (a b : regex) (m m' : cursor) :
  walks (Seq (Group a) b) m m' ->
  groupless a = true -> groupless b = true ->
  exists m1 s,
    walks a (open_group m) m1
    /\ rest m = (s ++ rest m1)%string
    /\ group m' = s.
Proof.
  intros W Ga Gb. apply walks_seq_tail in W. destruct W as (m2 & W1 & W2).
  destruct (walks_group_text _ _ _ W1 Ga) as (m1 & s & Wa & E & _ & Hg).
  destruct (walks_groupless _ _ _ W2 Gb) as (_ & G & _).
  exists m1, s. split; [exact Wa|]. split; [exact E|].
  unfold group in *. rewrite G. exact Hg.
Qed.

Lemma group_date (b : regex) (m m' : cursor) :
  walks (Seq (Group date_dmy) b) m m' ->
  groupless b = true ->
  matches (re_fullmatch date_dmy (group m')) = true.
Proof.
  intros W Gb.
  destruct (walks_seq_group _ _ _ _ W eq_refl Gb) as (m1 & s & Wa & E & ->).
  destruct (walks_date_dmy _ _ Wa) as (s' & E' & F).
  cbn [open_group rest] in E'. rewrite E in E'.
  apply string_app_inv_tail in E'. subst s'. exact F.
Qed.

(** The date read after "AL:" is a date. *)
Lemma al_fecha_group_date (line : string) (m : cursor) :
  re_search rx_al_fecha line = Some m ->
  matches (re_fullmatch date_dmy (group m)) = true.
Proof.
  intros H. apply re_search_walks in H. destruct H as (b & s & W).
  unfold rx_al_fecha in W. cbn [seqs fold_right] in W.
  apply walks_seq_tail in W. destruct W as (m1 & _ & W).
  apply walks_seq_tail in W. destruct W as (m2 & _ & W).
  exact (group_date _ _ _ W eq_refl).
Qed.

Lemma al_fecha_sp_group_date (line : string) (m : cursor) :
  re_search rx_al_fecha_sp line = Some m ->
  matches (re_fullmatch date_dmy (group m)) = true.
Proof.
  intros H. apply re_search_walks in H. destruct H as (b & s & W).
  unfold rx_al_fecha_sp in W. cbn [seqs fold_right] in W.
  apply walks_seq_tail in W. destruct W as (m1 & _ & W).
  apply walks_seq_tail in W. destruct W as (m2 & _ & W).
  exact (group_date _ _ _ W eq_refl).
Qed.

(** The digit read by [AGENCIA_FILE_PATTERN] is one of 1 to 5. *)
Lemma file_pattern_group (name : string) (m : cursor) :
  re_search Comsol.AGENCIA_FILE_PATTERN name = Some m ->
  In (group m) ["1"; "2"; "3"; "4"; "5"].
Proof.
  intros H. apply re_search_walks in H. destruct H as (b & s & W).
  unfold Comsol.AGENCIA_FILE_PATTERN in W. cbv zeta in W.
  cbn [seqs fold_right] in W.
  apply walks_seq_tail in W. destruct W as (m1 & _ & W).
  destruct (walks_seq_group _ _ _ _ W eq_refl eq_refl)
    as (m2 & t & Wa & E & ->).
  inversion Wa as [|p c t' m0 Hr Hp| | | | | | | | | | |]; subst.
  cbn [open_group rest advance] in *. rewrite Hr in E.
  change (String c t') with (String c "" ++ t')%string in E.
  apply string_app_inv_tail in E. subst t.
  revert Hp. clear.
  destruct c as [[] [] [] [] [] [] [] []]; intros H; try discriminate H;
    simpl; auto 10.
Qed.

(** ** The currency words *)

Lemma fold_lower_char (c : ascii) :
  upper_char (base_char c) = upper_char (base_char (lower_char c)).
Proof. destruct c as [[] [] [] [] [] [] [] []]; reflexivity. Qed.

(** Two characters equal under IGNORECASE fold to the same text. *)
Lemma ci_eq_fold (a b : ascii) :
  ci_eq a b = true -> upper_char (base_char a) = upper_char (base_char b).
Proof.
  unfold ci_eq. intros H. apply Ascii.eqb_eq in H.
  rewrite (fold_lower_char a), (fold_lower_char b), H. reflexivity.
Qed.

Lemma fold_cons (c : ascii) (s : string) :
  fold (String c s) = (upper_char (base_char c) ++ fold s)%string.
Proof. reflexivity. Qed.

(** [normalize_moneda_iso] reads its token through its folding. *)
Lemma v4_moneda_through_fold (s : string) :
  V4.normalize_moneda_iso s = V4.normalize_moneda_iso (fold s).
Proof.
  unfold V4.normalize_moneda_iso.
  change (upper (_strip_accents s)) with (fold s).
  change (upper (_strip_accents (fold s))) with (fold (fold s)).
  rewrite fold_idempotent. reflexivity.
Qed.

(** Turn the facts of a walk over letters under IGNORECASE into the
    folding of each character. *)
Ltac ci_facts :=
  repeat match goal with
         | H : existsb _ _ = true |- _ =>
             cbn in H; apply orb_true_iff in H; destruct H as [H|H]
         | H : (_ || _)%bool = true |- _ =>
             apply orb_true_iff in H; destruct H as [H|H]
         | H : false = true |- _ => discriminate H
         | H : ci_eq _ _ = true |- _ => apply ci_eq_fold in H; cbn in H
         end.

Ltac pick_member :=
  cbn [In]; repeat first [left; reflexivity | right].

Ltac fold_word :=
  rewrite ?fold_cons;
  repeat match goal with
         | H : upper_char (base_char ?c) = _ |- _ => rewrite H; clear H
         | H : _ = upper_char (base_char ?c) |- _ => rewrite <- H; clear H
         end.

Lemma walks_moneda_bultos (m m1 : cursor) (a : regex) :
  V4.BultosBco.rx_moneda = Group a ->
  walks a m m1 ->
  exists s,
    rest m = (s ++ rest m1)%string
    /\ In (fold s)
         ["GUARANIES"; "DOLARES"; "EURO"; "EUROS"; "REALE"; "REALES";
          "PESO"; "PESOS"; "PYG"; "GS"; "G$"; "USD"; "US$"; "U$S"; "R$";
          "BRL"; "EUR"; "ARS"; "$"].
Proof.
  unfold V4.BultosBco.rx_moneda. intros E. injection E as <-.
  unfold opt, chr_ci, one_of_ci.
  cbn [alts seqs fold_right lit_ci]. intros W.
  walk_inv; cbn [rest advance] in *;
    repeat match goal with
           | H : rest ?m = _ |- _ => rewrite H
           | H : ?t = String _ _ |- _ => is_var t; subst t
           end.
  all: match goal with
       | |- exists s, ?x = (s ++ ?t)%string /\ _ =>
           let p := strip_suffix x t in exists p
       end; split; [reflexivity|].
  all: ci_facts; fold_word; pick_member.
Qed.

Lemma walks_moneda_banco (m m1 : cursor) (a b : regex) :
  V4.EcBanco.rx_moneda = Seq WordB (Seq (Group a) b) ->
  walks a m m1 ->
  exists s,
    rest m = (s ++ rest m1)%string
    /\ In (fold s)
         ["GUARANIES"; "DOLARES"; "EURO"; "EUROS"; "REALE"; "REALES";
          "PESO"; "PESOS"; "PYG"; "USD"; "EUR"; "BRL"; "ARS"].
Proof.
  unfold V4.EcBanco.rx_moneda. cbn [seqs fold_right].
  intros E. injection E as <- _.
  unfold opt, chr_ci, one_of_ci.
  cbn [alts seqs fold_right lit_ci]. intros W.
  walk_inv; cbn [rest advance] in *;
    repeat match goal with
           | H : rest ?m = _ |- _ => rewrite H
           | H : ?t = String _ _ |- _ => is_var t; subst t
           end.
  all: match goal with
       | |- exists s, ?x = (s ++ ?t)%string /\ _ =>
           let p := strip_suffix x t in exists p
       end; split; [reflexivity|].
  all: ci_facts; fold_word; pick_member.
Qed.

(** Whatever currency word [rx_moneda] finds, [normalize_moneda_iso] turns
    it into an ISO code. *)
Lemma bultos_moneda_group_iso (linea : string) (m : cursor) :
  re_search V4.BultosBco.rx_moneda linea = Some m ->
  In (V4.normalize_moneda_iso (group m)) ["PYG"; "USD"; "EUR"; "BRL"; "ARS"].
Proof.
  intros H. apply re_search_walks in H. destruct H as (b & s & W).
  destruct (walks_group_text _ _ _ W eq_refl) as (m1 & t & Wa & E & _ & <-).
  destruct (walks_moneda_bultos _ _ _ eq_refl Wa) as (t' & E' & F).
  cbn [open_group rest] in E'. rewrite E in E'.
  apply string_app_inv_tail in E'. subst t'.
  rewrite v4_moneda_through_fold. cbn [In] in F.
  repeat match goal with
         | H : _ \/ _ |- _ => destruct H as [H|H]
         | H : False |- _ => contradiction
         end;
    rewrite <- F; vm_compute; auto 10.
Qed.

Lemma banco_moneda_group_iso (linea : string) (m : cursor) :
  re_search V4.EcBanco.rx_moneda linea = Some m ->
  In (V4.normalize_moneda_iso (group m)) ["PYG"; "USD"; "EUR"; "BRL"; "ARS"].
Proof.
  intros H. apply re_search_walks in H. destruct H as (b & s & W).
  unfold V4.EcBanco.rx_moneda in W. cbn [seqs fold_right] in W.
  apply walks_seq_tail in W. destruct W as (m0 & _ & W).
  destruct (walks_seq_group _ _ _ _ W eq_refl eq_refl)
    as (m1 & t & Wa & E & <-).
  destruct (walks_moneda_banco _ _ _ _ eq_refl Wa) as (t' & E' & F).
  cbn [open_group rest] in E'. rewrite E in E'.
  apply string_app_inv_tail in E'. subst t'.
  rewrite v4_moneda_through_fold. cbn [In] in F.
  repeat match goal with
         | H : _ \/ _ |- _ => destruct H as [H|H]
         | H : False |- _ => contradiction
         end;
    rewrite <- F; vm_compute; auto 10.
Qed.

(** ** The dates of the records *)

Lemma date_index_cell (strip_cells : list string) (date_idx : nat) :
  date_index strip_cells = Some date_idx ->
  matches (re_match rx_fecha_cell (nth date_idx strip_cells "")) = true.
Proof.
  unfold date_index, find_index. intros H.
  destruct (find_index_from_sound _ _ _ _ H) as (x & Hx & Hp).
  rewrite Nat.sub_0_r in Hx. rewrite (nth_error_nth _ _ "" Hx). exact Hp.
Qed.

(** The tests of a loop body, one after the other. *)
Ltac step_cases :=
  repeat match goal with
         | |- context [match (if ?b then _ else _) with _ => _ end] =>
             destruct b eqn:?
         | |- context [match re_search ?r ?s with _ => _ end] =>
             destruct (re_search r s) eqn:?
         | |- context [match date_index ?l with _ => _ end] =>
             destruct (date_index l) eqn:?
         | |- context [if ?b then _ else _] => destruct b eqn:?
         end.

Ltac step_result :=
  let H := fresh "H" in
  intros H; first [discriminate H | injection H as <- <-].

Ltac date_state :=
  first [ left; reflexivity
        | right; cbn;
          first [ eapply al_fecha_group_date; eassumption
                | eapply al_fecha_sp_group_date; eassumption ] ].

Lemma v4_atm_step_dates (fb : string) (st st' : V4.EcAtm.state)
  (cells : row) (e : list V4.EcAtm.record) :
  V4.EcAtm.row_step fb st cells = V4.EcAtm.Next st' e ->
  (V4.EcAtm.fecha_archivo st' = V4.EcAtm.fecha_archivo st
   \/ matches (re_fullmatch date_dmy (V4.EcAtm.fecha_archivo st')) = true)
  /\ forall r, In r e ->
       V4.EcAtm.FECHA_ARCHIVO r = V4.EcAtm.fecha_archivo st
       /\ matches (re_match rx_fecha_cell (V4.EcAtm.FECHA r)) = true.
Proof.
  unfold V4.EcAtm.row_step. cbv zeta. step_cases; step_result;
    (split; [date_state|]); intros r Hr; try contradiction.
  all: destruct Hr as [<-|[]]; split; [reflexivity|].
  all: apply date_index_cell; assumption.
Qed.

Lemma comsol_atm_step_dates (st st' : Comsol.EcAtm.state)
  (cells : row) (e : list Comsol.EcAtm.record) :
  Comsol.EcAtm.row_step st cells = Comsol.EcAtm.Next st' e ->
  (Comsol.EcAtm.fecha_archivo st' = Comsol.EcAtm.fecha_archivo st
   \/ matches (re_fullmatch date_dmy (Comsol.EcAtm.fecha_archivo st'))
      = true)
  /\ forall r, In r e ->
       Comsol.EcAtm.FECHA_ARCHIVO r = Comsol.EcAtm.fecha_archivo st
       /\ matches (re_match rx_fecha_cell (Comsol.EcAtm.FECHA r)) = true.
Proof.
  unfold Comsol.EcAtm.row_step, Comsol.EcAtm.after_label. cbv zeta.
  step_cases; step_result;
    (split; [date_state|]); intros r Hr; try contradiction.
  all: destruct Hr as [<-|[]]; split; [reflexivity|].
  all: apply date_index_cell; assumption.
Qed.

Lemma v4_bultos_atm_step_dates (d : bool) (fb : string)
  (st st' : V4.BultosAtm.state) (cells : row)
  (e : list V4.BultosAtm.record) :
  V4.BultosAtm.row_step d fb st cells = V4.BultosAtm.Next st' e ->
  (V4.BultosAtm.fecha_archivo st' = V4.BultosAtm.fecha_archivo st
   \/ matches (re_fullmatch date_dmy (V4.BultosAtm.fecha_archivo st'))
      = true)
  /\ forall r, In r e ->
       V4.BultosAtm.FECHA_ARCHIVO r = V4.BultosAtm.fecha_archivo st
       /\ matches (re_match rx_fecha_cell (V4.BultosAtm.FECHA r)) = true.
Proof.
  unfold V4.BultosAtm.row_step. cbv zeta. step_cases;
    try (step_result; (split; [date_state|]); intros r Hr; contradiction).
  all: destruct (V4.BultosAtm.detail d fb st (map strip cells) _) as [l|]
         eqn:D; step_result; (split; [date_state|]); intros r Hr.
  all: rewrite v4_bultos_atm_detail in D; cbv zeta in D;
    destruct (Nat.ltb _ 5); [discriminate D|]; injection D as <-;
    destruct (d && _); cbn [In] in Hr;
    repeat match goal with
           | H : _ \/ _ |- _ => destruct H as [H|H]
           | H : False |- _ => contradiction
           end;
    subst r; (split; [reflexivity|]); apply date_index_cell; assumption.
Qed.

Lemma comsol_bultos_atm_step_dates (d : bool)
  (st st' : Comsol.BultosAtm.state) (cells : row)
  (e : list Comsol.BultosAtm.record) :
  Comsol.BultosAtm.row_step d st cells = Comsol.BultosAtm.Next st' e ->
  (Comsol.BultosAtm.fecha_archivo st' = Comsol.BultosAtm.fecha_archivo st
   \/ matches (re_fullmatch date_dmy (Comsol.BultosAtm.fecha_archivo st'))
      = true)
  /\ forall r, In r e ->
       Comsol.BultosAtm.FECHA_ARCHIVO r = Comsol.BultosAtm.fecha_archivo st
       /\ matches (re_match rx_fecha_cell (Comsol.BultosAtm.FECHA r)) = true.
Proof.
  unfold Comsol.BultosAtm.row_step. cbv zeta. step_cases; step_result;
    (split; [date_state|]); intros r Hr; try contradiction.
  all: rewrite comsol_bultos_atm_detail in Hr; cbv zeta in Hr;
    destruct (d && _); cbn [In] in Hr;
    repeat match goal with
           | H : _ \/ _ |- _ => destruct H as [H|H]
           | H : False |- _ => contradiction
           end;
    subst r; (split; [reflexivity|]); apply date_index_cell; assumption.
Qed.

(** A date-shaped text, or none yet. *)
Ltac date_kept Hst S :=
  destruct S as [S|S]; [rewrite S; exact Hst|right; exact S].

Lemma v4_atm_run_dates (fb : string) (rows : list row) :
  forall st r,
    (V4.EcAtm.fecha_archivo st = ""
     \/ matches (re_fullmatch date_dmy (V4.EcAtm.fecha_archivo st)) = true) ->
    In r (snd (V4.EcAtm.run fb st rows)) ->
    (V4.EcAtm.FECHA_ARCHIVO r = ""
     \/ matches (re_fullmatch date_dmy (V4.EcAtm.FECHA_ARCHIVO r)) = true)
    /\ matches (re_match rx_fecha_cell (V4.EcAtm.FECHA r)) = true.
Proof.
  induction rows as [|cells rows IH]; intros st r Hst; simpl; [intros []|].
  destruct (V4.EcAtm.row_step fb st cells) as [st' e|] eqn:E; [|intros []].
  destruct (v4_atm_step_dates _ _ _ _ _ E) as [S Q].
  specialize (IH st' r).
  destruct (V4.EcAtm.run fb st' rows) as [final more]. cbn [snd] in *.
  intros Hin. apply in_app_or in Hin. destruct Hin as [Hin|Hin].
  - destruct (Q r Hin) as [Q1 Q2]. rewrite Q1. split; [exact Hst|exact Q2].
  - apply IH; [|exact Hin]. date_kept Hst S.
Qed.

Lemma comsol_atm_run_dates (rows : list row) :
  forall st r,
    (Comsol.EcAtm.fecha_archivo st = ""
     \/ matches (re_fullmatch date_dmy (Comsol.EcAtm.fecha_archivo st))
        = true) ->
    In r (snd (Comsol.EcAtm.run st rows)) ->
    (Comsol.EcAtm.FECHA_ARCHIVO r = ""
     \/ matches (re_fullmatch date_dmy (Comsol.EcAtm.FECHA_ARCHIVO r))
        = true)
    /\ matches (re_match rx_fecha_cell (Comsol.EcAtm.FECHA r)) = true.
Proof.
  induction rows as [|cells rows IH]; intros st r Hst; simpl; [intros []|].
  destruct (Comsol.EcAtm.row_step st cells) as [st' e|] eqn:E; [|intros []].
  destruct (comsol_atm_step_dates _ _ _ _ E) as [S Q].
  specialize (IH st' r).
  destruct (Comsol.EcAtm.run st' rows) as [final more]. cbn [snd] in *.
  intros Hin. apply in_app_or in Hin. destruct Hin as [Hin|Hin].
  - destruct (Q r Hin) as [Q1 Q2]. rewrite Q1. split; [exact Hst|exact Q2].
  - apply IH; [|exact Hin]. date_kept Hst S.
Qed.

Lemma v4_bultos_atm_run_dates (d : bool) (fb : string) (rows : list row) :
  forall st final recs r,
    (V4.BultosAtm.fecha_archivo st = ""
     \/ matches (re_fullmatch date_dmy (V4.BultosAtm.fecha_archivo st))
        = true) ->
    V4.BultosAtm.run d fb st rows = V4.Inv.Ok (final, recs) ->
    In r recs ->
    (V4.BultosAtm.FECHA_ARCHIVO r = ""
     \/ matches (re_fullmatch date_dmy (V4.BultosAtm.FECHA_ARCHIVO r))
        = true)
    /\ matches (re_match rx_fecha_cell (V4.BultosAtm.FECHA r)) = true.
Proof.
  induction rows as [|cells rows IH]; intros st final recs r Hst; simpl.
  { intros H; injection H as <- <-. intros []. }
  destruct (V4.BultosAtm.row_step d fb st cells) as [st' e| |] eqn:E;
    [|intros H; injection H as <- <-; intros []|discriminate].
  destruct (V4.BultosAtm.run d fb st' rows) as [[final' more]|] eqn:R;
    [|discriminate].
  intros H; injection H as <- <-. intros Hin.
  destruct (v4_bultos_atm_step_dates _ _ _ _ _ _ E) as [S Q].
  apply in_app_or in Hin. destruct Hin as [Hin|Hin].
  - destruct (Q r Hin) as [Q1 Q2]. rewrite Q1. split; [exact Hst|exact Q2].
  - apply (IH st' final' more r); [|exact R|exact Hin]. date_kept Hst S.
Qed.

Lemma comsol_bultos_atm_run_dates (d : bool) (rows : list row) :
  forall st r,
    (Comsol.BultosAtm.fecha_archivo st = ""
     \/ matches (re_fullmatch date_dmy (Comsol.BultosAtm.fecha_archivo st))
        = true) ->
    In r (snd (Comsol.BultosAtm.run d st rows)) ->
    (Comsol.BultosAtm.FECHA_ARCHIVO r = ""
     \/ matches (re_fullmatch date_dmy (Comsol.BultosAtm.FECHA_ARCHIVO r))
        = true)
    /\ matches (re_match rx_fecha_cell (Comsol.BultosAtm.FECHA r)) = true.
Proof.
  induction rows as [|cells rows IH]; intros st r Hst; simpl; [intros []|].
  destruct (Comsol.BultosAtm.row_step d st cells) as [st' e|] eqn:E;
    [|intros []].
  destruct (comsol_bultos_atm_step_dates _ _ _ _ _ E) as [S Q].
  specialize (IH st' r).
  destruct (Comsol.BultosAtm.run d st' rows) as [final more].
  cbn [snd] in *.
  intros Hin. apply in_app_or in Hin. destruct Hin as [Hin|Hin].
  - destruct (Q r Hin) as [Q1 Q2]. rewrite Q1. split; [exact Hst|exact Q2].
  - apply IH; [|exact Hin]. date_kept Hst S.
Qed.

(** ** The currency and the date of the bank records *)

Ltac bank_state :=
  first [ left; reflexivity
        | right; cbn;
          first [ eapply banco_moneda_group_iso; eassumption
                | eapply bultos_moneda_group_iso; eassumption
                | eapply al_fecha_group_date; eassumption
                | eapply al_fecha_sp_group_date; eassumption ] ].

Lemma v4_bco_step_currency (hoja fb : string) (st st' : V4.EcBanco.state)
  (cells : row) (e : list V4.EcBanco.record) :
  V4.EcBanco.row_step hoja fb st cells = V4.EcBanco.Next st' e ->
  (V4.EcBanco.moneda_actual st' = V4.EcBanco.moneda_actual st
   \/ In (V4.normalize_moneda_iso (V4.EcBanco.moneda_actual st'))
        ["PYG"; "USD"; "EUR"; "BRL"; "ARS"])
  /\ (V4.EcBanco.fecha_archivo st' = V4.EcBanco.fecha_archivo st
      \/ matches (re_fullmatch date_dmy (V4.EcBanco.fecha_archivo st'))
         = true)
  /\ forall r, In r e ->
       V4.EcBanco.MONEDA r = V4.EcBanco.moneda_actual st'
       /\ V4.EcBanco.FECHA_ARCHIVO r = V4.EcBanco.fecha_archivo st'.
Proof.
  unfold V4.EcBanco.row_step, V4.EcBanco.data_row, V4.EcBanco.moneda_after,
    V4.EcBanco.with_moneda. cbv zeta.
  cbn [V4.EcBanco.agencia V4.EcBanco.fecha_archivo V4.EcBanco.clasificacion
       V4.EcBanco.ing_egr V4.EcBanco.motivo_actual V4.EcBanco.moneda_actual].
  step_cases; step_result;
    (split; [bank_state|split; [bank_state|]]); intros r Hr;
    try contradiction.
  all: unfold V4.EcBanco.detail in Hr; cbv zeta in Hr;
    destruct (split_ws _) as [|p0 parts]; [contradiction|];
    destruct (V4.EcBanco.receipt_index _); [|contradiction];
    destruct Hr as [<-|[]]; split; reflexivity.
Qed.

Lemma v4_bco_run_currency (hoja fb : string) (rows : list row) :
  forall st r,
    In (V4.normalize_moneda_iso (V4.EcBanco.moneda_actual st))
      ["PYG"; "USD"; "EUR"; "BRL"; "ARS"] ->
    (V4.EcBanco.fecha_archivo st = ""
     \/ matches (re_fullmatch date_dmy (V4.EcBanco.fecha_archivo st))
        = true) ->
    In r (snd (V4.EcBanco.run hoja fb st rows)) ->
    In (V4.normalize_moneda_iso (V4.EcBanco.MONEDA r))
      ["PYG"; "USD"; "EUR"; "BRL"; "ARS"]
    /\ (V4.EcBanco.FECHA_ARCHIVO r = ""
        \/ matches (re_fullmatch date_dmy (V4.EcBanco.FECHA_ARCHIVO r))
           = true).
Proof.
  induction rows as [|cells rows IH]; intros st r Hm Hf; simpl;
    [intros []|].
  destruct (V4.EcBanco.row_step hoja fb st cells) as [st' e|st'] eqn:E;
    [|intros []].
  destruct (v4_bco_step_currency _ _ _ _ _ _ E) as (M & F & Q).
  assert (Hm' : In (V4.normalize_moneda_iso (V4.EcBanco.moneda_actual st'))
                  ["PYG"; "USD"; "EUR"; "BRL"; "ARS"]).
  { destruct M as [M|M]; [rewrite M; exact Hm|exact M]. }
  assert (Hf' : V4.EcBanco.fecha_archivo st' = ""
                \/ matches (re_fullmatch date_dmy
                              (V4.EcBanco.fecha_archivo st')) = true).
  { date_kept Hf F. }
  specialize (IH st' r Hm' Hf').
  destruct (V4.EcBanco.run hoja fb st' rows) as [final more].
  cbn [snd] in *.
  intros Hin. apply in_app_or in Hin. destruct Hin as [Hin|Hin].
  - destruct (Q r Hin) as [-> ->]. split; assumption.
  - exact (IH Hin).
Qed.

Lemma v4_bultos_bco_step_currency (fb : string)
  (st st' : V4.BultosBco.state) (cells : row)
  (e : list V4.BultosBco.record) :
  V4.BultosBco.row_step fb st cells = V4.BultosBco.Next st' e ->
  (V4.BultosBco.moneda_actual st' = V4.BultosBco.moneda_actual st
   \/ In (V4.BultosBco.moneda_actual st') ["PYG"; "USD"; "EUR"; "BRL"; "ARS"])
  /\ (V4.BultosBco.fecha_archivo st' = V4.BultosBco.fecha_archivo st
      \/ matches (re_fullmatch date_dmy (V4.BultosBco.fecha_archivo st'))
         = true)
  /\ forall r, In r e ->
       V4.BultosBco.MONEDA r = or_str (V4.BultosBco.moneda_actual st') "PYG"
       /\ V4.BultosBco.FECHA_ARCHIVO r = V4.BultosBco.fecha_archivo st'.
Proof.
  unfold V4.BultosBco.row_step. cbv zeta.
  set (parts := filter nonempty (map strip cells)).
  set (linea := join " " parts). clearbody linea.
  unfold V4.BultosBco.data_row, V4.BultosBco.detail,
    V4.BultosBco.moneda_after, V4.BultosBco.with_moneda. cbv zeta.
  cbn [V4.BultosBco.agencia V4.BultosBco.fecha_archivo V4.BultosBco.ing_egr
       V4.BultosBco.motivo_actual V4.BultosBco.moneda_actual].
  clearbody parts.
  step_cases;
    repeat match goal with
           | |- context [match parts with _ => _ end] => destruct parts
           | |- context [match V4.BultosBco.receipt_index ?l with _ => _ end]
             => destruct (V4.BultosBco.receipt_index l) eqn:?
           | |- context [match re_search ?r ?s with _ => _ end] =>
               destruct (re_search r s) eqn:?
           end;
    step_result;
    (split; [bank_state|split; [bank_state|]]); intros r Hr;
    try contradiction.
  all: destruct Hr as [<-|[]]; split; reflexivity.
Qed.

Lemma v4_bultos_bco_run_currency (fb hoja : string) (rows : list row) :
  forall st r,
    (In (V4.BultosBco.moneda_actual st) ["PYG"; "USD"; "EUR"; "BRL"; "ARS"]
     \/ V4.BultosBco.moneda_actual st = V4.normalize_moneda_iso hoja) ->
    (V4.BultosBco.fecha_archivo st = ""
     \/ matches (re_fullmatch date_dmy (V4.BultosBco.fecha_archivo st))
        = true) ->
    In r (snd (V4.BultosBco.run fb st rows)) ->
    (In (V4.BultosBco.MONEDA r) ["PYG"; "USD"; "EUR"; "BRL"; "ARS"]
     \/ V4.BultosBco.MONEDA r = or_str (V4.normalize_moneda_iso hoja) "PYG")
    /\ (V4.BultosBco.FECHA_ARCHIVO r = ""
        \/ matches (re_fullmatch date_dmy (V4.BultosBco.FECHA_ARCHIVO r))
           = true).
Proof.
  induction rows as [|cells rows IH]; intros st r Hm Hf; simpl;
    [intros []|].
  destruct (V4.BultosBco.row_step fb st cells) as [st' e|] eqn:E;
    [|intros []].
  destruct (v4_bultos_bco_step_currency _ _ _ _ _ E) as (M & F & Q).
  assert (Hm' : In (V4.BultosBco.moneda_actual st')
                  ["PYG"; "USD"; "EUR"; "BRL"; "ARS"]
                \/ V4.BultosBco.moneda_actual st'
                   = V4.normalize_moneda_iso hoja).
  { destruct M as [M|M]; [rewrite M; exact Hm|left; exact M]. }
  assert (Hf' : V4.BultosBco.fecha_archivo st' = ""
                \/ matches (re_fullmatch date_dmy
                              (V4.BultosBco.fecha_archivo st')) = true).
  { date_kept Hf F. }
  specialize (IH st' r Hm' Hf').
  destruct (V4.BultosBco.run fb st' rows) as [final more].
  cbn [snd] in *.
  intros Hin. apply in_app_or in Hin. destruct Hin as [Hin|Hin].
  - destruct (Q r Hin) as [-> ->]. split; [|exact Hf'].
    destruct Hm' as [H|H].
    + left. cbn [In] in H.
      repeat match goal with
             | H : _ \/ _ |- _ => destruct H as [H|H]
             | H : False |- _ => contradiction
             end;
        rewrite <- H; simpl; auto 10.
    + right. rewrite H. reflexivity.
  - exact (IH Hin).
Qed.

Lemma v4_bco_initial_currency (hoja : string) :
  In (V4.normalize_moneda_iso
        (V4.EcBanco.moneda_actual (V4.EcBanco.initial hoja)))
    ["PYG"; "USD"; "EUR"; "BRL"; "ARS"].
Proof.
  unfold V4.EcBanco.initial. cbn [V4.EcBanco.moneda_actual].
  destruct (v4_guess_range hoja) as [<-|[<-|[<-|[<-|[<-|[<-|[]]]]]]];
    vm_compute; auto 10.
Qed.

(** X25.  The dates of the ATM ledgers are dates.  In [get_ec_atm] and
    [get_ec_bultos_atm], in both files, the FECHA of every record is a cell
    that matches the date pattern of the parser, and its FECHA_ARCHIVO is
    either empty, when no statement header with a date was read before the
    row, or a text of the form [\d{1,2}/\d{1,2}/\d{4}] and nothing else. *)
Theorem atm_record_dates :
  (forall fb rows r,
      In r (V4.EcAtm.get_ec_atm fb rows) ->
      (V4.EcAtm.FECHA_ARCHIVO r = ""
       \/ matches (re_fullmatch date_dmy (V4.EcAtm.FECHA_ARCHIVO r)) = true)
      /\ matches (re_match rx_fecha_cell (V4.EcAtm.FECHA r)) = true)
  /\ (forall rows r,
        In r (Comsol.EcAtm.get_ec_atm rows) ->
        (Comsol.EcAtm.FECHA_ARCHIVO r = ""
         \/ matches (re_fullmatch date_dmy (Comsol.EcAtm.FECHA_ARCHIVO r))
            = true)
        /\ matches (re_match rx_fecha_cell (Comsol.EcAtm.FECHA r)) = true)
  /\ (forall d fb rows recs r,
        V4.BultosAtm.get_ec_bultos_atm d fb rows = V4.Inv.Ok recs ->
        In r recs ->
        (V4.BultosAtm.FECHA_ARCHIVO r = ""
         \/ matches (re_fullmatch date_dmy (V4.BultosAtm.FECHA_ARCHIVO r))
            = true)
        /\ matches (re_match rx_fecha_cell (V4.BultosAtm.FECHA r)) = true)
  /\ (forall d rows r,
        In r (Comsol.BultosAtm.get_ec_bultos_atm d rows) ->
        (Comsol.BultosAtm.FECHA_ARCHIVO r = ""
         \/ matches (re_fullmatch date_dmy
                       (Comsol.BultosAtm.FECHA_ARCHIVO r)) = true)
        /\ matches (re_match rx_fecha_cell (Comsol.BultosAtm.FECHA r))
           = true).
Proof.
  repeat match goal with |- _ /\ _ => split end.
  - intros fb rows r. apply v4_atm_run_dates. left. reflexivity.
  - intros rows r. apply comsol_atm_run_dates. left. reflexivity.
  - intros d fb rows recs r H. unfold V4.BultosAtm.get_ec_bultos_atm in H.
    destruct (V4.BultosAtm.run d fb V4.BultosAtm.initial rows)
      as [[final recs']|] eqn:R; [|discriminate].
    injection H as <-.
    apply (v4_bultos_atm_run_dates d fb rows V4.BultosAtm.initial final
             recs'); [left; reflexivity|exact R].
  - intros d rows r. apply comsol_bultos_atm_run_dates. left. reflexivity.
Qed.

(** A deposit row under a statement header. *)
Lemma atm_record_dates_witness :
  let r :=
    V4.EcAtm.Record_ "15/03/2024" "Casa Matriz" "000123456" "3" "1.500.000"
      "0" "IN" "ATM" "31/03/2024" "DEPOSITOS" "ASU" in
  (V4.EcAtm.FECHA_ARCHIVO r = ""
   \/ matches (re_fullmatch date_dmy (V4.EcAtm.FECHA_ARCHIVO r)) = true)
  /\ matches (re_match rx_fecha_cell (V4.EcAtm.FECHA r)) = true.
Proof.
  refine (proj1 atm_record_dates "ASU"
            [["ESTADO DE CUENTA DE BILLETES ATM AL: 31/03/2024"];
             ["INGRESOS"]; ["DEPOSITOS"];
             ["15/03/2024"; "Casa Matriz"; "000123456"; "3"; "1.500.000";
              "0"]]
            (V4.EcAtm.Record_ "15/03/2024" "Casa Matriz" "000123456" "3"
               "1.500.000" "0" "IN" "ATM" "31/03/2024" "DEPOSITOS" "ASU")
            _).
  vm_compute. left. reflexivity.
Defined.

Lemma v4_bco_sheet (fb : string) (hojas : list (string * list row))
  (r : V4.EcBanco.record) :
  In r (V4.EcBanco.get_ec_banco fb hojas) ->
  exists hoja,
    In hoja hojas
    /\ In r (snd (V4.EcBanco.run (fst hoja) fb
                    (V4.EcBanco.initial (fst hoja)) (snd hoja))).
Proof.
  unfold V4.EcBanco.get_ec_banco. intros H.
  apply in_flat_map in H. destruct H as (hoja & H1 & H2).
  exists hoja. split; [exact H1|exact H2].
Qed.

(** X26.  The currency of the bank records of v4_2.  Whatever currency
    word the pattern of [get_ec_banco] or of [get_ec_bultos_bco] finds in a
    line, [normalize_moneda_iso] turns it into one of the five ISO codes.
    So the MONEDA of every record of [get_ec_banco] becomes an ISO code in
    the final pass of [run], and the MONEDA of a record of
    [get_ec_bultos_bco] is an ISO code or, when no currency word was read
    in its sheet before it, the normalised name of the sheet.  The
    FECHA_ARCHIVO of these records is empty or a date and nothing else. *)
Theorem bank_record_currency :
  (forall linea m,
      re_search V4.EcBanco.rx_moneda linea = Some m ->
      In (V4.normalize_moneda_iso (group m))
        ["PYG"; "USD"; "EUR"; "BRL"; "ARS"])
  /\ (forall linea m,
        re_search V4.BultosBco.rx_moneda linea = Some m ->
        In (V4.normalize_moneda_iso (group m))
          ["PYG"; "USD"; "EUR"; "BRL"; "ARS"])
  /\ (forall fb hojas r,
        In r (V4.EcBanco.get_ec_banco fb hojas) ->
        In (V4.normalize_moneda_iso (V4.EcBanco.MONEDA r))
          ["PYG"; "USD"; "EUR"; "BRL"; "ARS"]
        /\ (V4.EcBanco.FECHA_ARCHIVO r = ""
            \/ matches (re_fullmatch date_dmy (V4.EcBanco.FECHA_ARCHIVO r))
               = true))
  /\ (forall fb hojas r,
        In r (V4.BultosBco.get_ec_bultos_bco fb hojas) ->
        (In (V4.BultosBco.MONEDA r) ["PYG"; "USD"; "EUR"; "BRL"; "ARS"]
         \/ exists hoja,
              In hoja hojas
              /\ V4.BultosBco.MONEDA r
                 = or_str (V4.normalize_moneda_iso (fst hoja)) "PYG")
        /\ (V4.BultosBco.FECHA_ARCHIVO r = ""
            \/ matches (re_fullmatch date_dmy
                          (V4.BultosBco.FECHA_ARCHIVO r)) = true)).
Proof.
  split; [exact banco_moneda_group_iso|].
  split; [exact bultos_moneda_group_iso|]. split.
  - intros fb hojas r H.
    destruct (v4_bco_sheet fb hojas r H) as (hoja & _ & Hr).
    apply (v4_bco_run_currency (fst hoja) fb (snd hoja)
             (V4.EcBanco.initial (fst hoja)));
      [apply v4_bco_initial_currency|left; reflexivity|exact Hr].
  - intros fb hojas r H.
    destruct (v4_bultos_bco_sheet fb hojas r H) as (hoja & Hh & Hr).
    destruct (v4_bultos_bco_run_currency fb (fst hoja) (snd hoja)
                (V4.BultosBco.initial (fst hoja)) r) as [M F];
      [right; reflexivity|left; reflexivity|exact Hr|].
    split; [|exact F].
    destruct M as [M|M]; [left; exact M|right].
    exists hoja. split; [exact Hh|exact M].
Qed.

(** A deposit row with the word for euros, in a sheet named after
    nothing. *)
Lemma bank_record_currency_witness :
  let r :=
    V4.EcBanco.Record_ "Hoja1" "ASU" "" "IN" "" "DEPOSITOS" "15/03/2024"
      "Casa Euros" "123456" "3" "Euros" "1.500" in
  In (V4.normalize_moneda_iso (V4.EcBanco.MONEDA r))
    ["PYG"; "USD"; "EUR"; "BRL"; "ARS"]
  /\ (V4.EcBanco.FECHA_ARCHIVO r = ""
      \/ matches (re_fullmatch date_dmy (V4.EcBanco.FECHA_ARCHIVO r)) = true).
Proof.
  refine (proj1 (proj2 (proj2 bank_record_currency)) "ASU"
            [("Hoja1",
              [["INGRESOS"]; ["DEPOSITOS"];
               ["15/03/2024"; "Casa Euros"; "123456"; "3"; "1.500"]])]
            (V4.EcBanco.Record_ "Hoja1" "ASU" "" "IN" "" "DEPOSITOS"
               "15/03/2024" "Casa Euros" "123456" "3" "Euros" "1.500") _).
  vm_compute. left. reflexivity.
Defined.

(** X27.  [infer_agencia_from_filename] answers with a code exactly when
    its pattern finds a digit 1 to 5 followed by [_10] and set off from
    other digits: the digit read is always one the map knows, so the empty
    default of the map is never used, and the answer is empty only when the
    pattern finds nothing. *)
Theorem infer_agencia_from_filename_digit :
  (forall name m,
      re_search Comsol.AGENCIA_FILE_PATTERN (upper name) = Some m ->
      In (group m) ["1"; "2"; "3"; "4"; "5"]
      /\ Comsol.infer_agencia_from_filename name
         = Comsol.AGENCIA_FILE_DIGIT_MAP (group m)
      /\ In (Comsol.infer_agencia_from_filename name)
           ["ASU"; "CDE"; "CNC"; "ENC"; "OVD"])
  /\ (forall name,
        Comsol.infer_agencia_from_filename name = "" <->
        re_search Comsol.AGENCIA_FILE_PATTERN (upper name) = None).
Proof.
  assert (A : forall name m,
             re_search Comsol.AGENCIA_FILE_PATTERN (upper name) = Some m ->
             In (group m) ["1"; "2"; "3"; "4"; "5"]
             /\ Comsol.infer_agencia_from_filename name
                = Comsol.AGENCIA_FILE_DIGIT_MAP (group m)
             /\ In (Comsol.infer_agencia_from_filename name)
                  ["ASU"; "CDE"; "CNC"; "ENC"; "OVD"]).
  { intros name m H. pose proof (file_pattern_group _ _ H) as G.
    unfold Comsol.infer_agencia_from_filename. rewrite H.
    split; [exact G|]. split; [reflexivity|].
    cbn [In] in G.
    repeat match goal with
           | H : _ \/ _ |- _ => destruct H as [H|H]
           | H : False |- _ => contradiction
           end;
      rewrite <- G; vm_compute; auto 10. }
  split; [exact A|].
  intros name. split.
  - intros E.
    destruct (re_search Comsol.AGENCIA_FILE_PATTERN (upper name)) as [m|]
      eqn:H; [|reflexivity].
    destruct (A name m H) as (_ & _ & I). rewrite E in I.
    exfalso. cbn [In] in I.
    repeat match goal with
           | H : _ \/ _ |- _ => destruct H as [H|H]
           | H : False |- _ => contradiction
           end;
      discriminate I.
  - intros H. unfold Comsol.infer_agencia_from_filename. rewrite H.
    reflexivity.
Qed.

(** A file of the second agency. *)
Lemma infer_agencia_from_filename_digit_witness :
  exists m,
    re_search Comsol.AGENCIA_FILE_PATTERN (upper "ec_atm_2_10.xlsx") = Some m
    /\ In (Comsol.infer_agencia_from_filename "ec_atm_2_10.xlsx")
         ["ASU"; "CDE"; "CNC"; "ENC"; "OVD"].
Proof.
  destruct (re_search Comsol.AGENCIA_FILE_PATTERN (upper "ec_atm_2_10.xlsx"))
    as [m|] eqn:E; [|vm_compute in E; discriminate E].
  exists m. split; [reflexivity|].
  exact (proj2 (proj2 (proj1 infer_agencia_from_filename_digit
                         "ec_atm_2_10.xlsx" m E))).
Defined.

(** ** The label row of the opening balance *)

Lemma valores_desde_nonempty (cells : list string) (v : string) :
  In v (Comsol.valores_desde cells) -> nonempty v = true.
Proof.
  rewrite valores_desde_filter. intros H. apply filter_In in H.
  destruct H as [_ H]. apply andb_true_iff in H. exact (proj1 H).
Qed.

Lemma saldos_nonempty (strip_cells : list string) (e v : string) :
  In v (Comsol._extraer_saldos_desde_fila strip_cells e) ->
  nonempty v = true.
Proof.
  unfold Comsol._extraer_saldos_desde_fila.
  generalize (upper (_strip_accents e)). intros l.
  induction strip_cells as [|c t IH]; cbn [Comsol.saldos_scan];
    [intros []|].
  destruct (contains l _); [apply valores_desde_nonempty|exact IH].
Qed.

(** A row with the label has a text. *)
Lemma label_row_has_text (cells : row) :
  contains "SALDO ANTERIOR" (upper_join_of cells) = true ->
  negb (nonempty (join_cells (map strip cells))) = false.
Proof.
  unfold upper_join_of, line_join_of.
  destruct (nonempty (join_cells (map strip cells))) eqn:N;
    [reflexivity|].
  rewrite (nonempty_false _ N). vm_compute. discriminate.
Qed.

Lemma comsol_atm_label_step (st : Comsol.EcAtm.state) (cells : row) :
  Comsol.EcAtm.captured st = false ->
  contains "SALDO ANTERIOR" (upper_join_of cells) = true ->
  Comsol.EcAtm.row_step st cells
  = Comsol.EcAtm.Next (Comsol.EcAtm.capture st (map strip cells)) [].
Proof.
  intros Hc L. unfold Comsol.EcAtm.row_step. cbv zeta.
  rewrite (label_row_has_text cells L).
  unfold upper_join_of, line_join_of in L. rewrite L, Hc. reflexivity.
Qed.

Lemma comsol_bultos_atm_label_step (d : bool)
  (st : Comsol.BultosAtm.state) (cells : row) :
  Comsol.BultosAtm.captured st = false ->
  contains "SALDO ANTERIOR" (upper_join_of cells) = true ->
  Comsol.BultosAtm.row_step d st cells
  = Comsol.BultosAtm.Next (Comsol.BultosAtm.capture st (map strip cells)) [].
Proof.
  intros Hc L. unfold Comsol.BultosAtm.row_step. cbv zeta.
  rewrite (label_row_has_text cells L).
  unfold upper_join_of, line_join_of in L. rewrite L, Hc. reflexivity.
Qed.

Lemma orb_false_both (a b : bool) :
  a || b = false -> a = false /\ b = false.
Proof. destruct a, b; simpl; intros H; try discriminate H; auto. Qed.

(** The rows after a label row that gave a balance. *)
Lemma comsol_atm_run_after_label (st : Comsol.EcAtm.state) (cells : row)
  (rows : list row) :
  Comsol.EcAtm.captured st = false ->
  contains "SALDO ANTERIOR" (upper_join_of cells) = true ->
  Comsol.EcAtm.run st (cells :: rows)
  = Comsol.EcAtm.run (Comsol.EcAtm.capture st (map strip cells)) rows.
Proof.
  intros Hc L. cbn [Comsol.EcAtm.run].
  rewrite (comsol_atm_label_step st cells Hc L).
  destruct (Comsol.EcAtm.run _ rows). reflexivity.
Qed.

Lemma comsol_bultos_atm_run_after_label (d : bool)
  (st : Comsol.BultosAtm.state) (cells : row) (rows : list row) :
  Comsol.BultosAtm.captured st = false ->
  contains "SALDO ANTERIOR" (upper_join_of cells) = true ->
  Comsol.BultosAtm.run d st (cells :: rows)
  = Comsol.BultosAtm.run d
      (Comsol.BultosAtm.capture st (map strip cells)) rows.
Proof.
  intros Hc L. cbn [Comsol.BultosAtm.run].
  rewrite (comsol_bultos_atm_label_step d st cells Hc L).
  destruct (Comsol.BultosAtm.run d _ rows). reflexivity.
Qed.

(** X28.  In comsol, a label row of the opening balance that holds too few
    values is still taken by the label rule.  In [get_ec_atm] a row with
    one value gives the USD balance only: the PYG balance stays empty up
    to the end of the sheet, in the state and in every record, whatever
    label rows follow.  In [get_ec_bultos_atm] a row with fewer than two
    values changes nothing, so that a later label row can still be read,
    and a row with two or three values gives the PYG balance (the second
    value) and leaves the USD balance empty up to the end of the sheet. *)
Theorem short_label_row_balances :
  (forall st (cells : row) (rows : list row) v,
      Comsol.EcAtm.captured st = false ->
      contains "SALDO ANTERIOR" (upper_join_of cells) = true ->
      Comsol._extraer_saldos_desde_fila (map strip cells) Comsol.ETIQUETA
      = [v] ->
      Comsol.EcAtm.saldo_ant_usd (fst (Comsol.EcAtm.run st (cells :: rows)))
      = v
      /\ Comsol.EcAtm.saldo_ant_pyg
           (fst (Comsol.EcAtm.run st (cells :: rows))) = ""
      /\ forall r,
           In r (snd (Comsol.EcAtm.run st (cells :: rows))) ->
           Comsol.EcAtm.SALDO_ANTERIOR_USD r = v
           /\ Comsol.EcAtm.SALDO_ANTERIOR_PYG r = "")
  /\ (forall d st (cells : row) (rows : list row),
        Comsol.BultosAtm.captured st = false ->
        contains "SALDO ANTERIOR" (upper_join_of cells) = true ->
        length (Comsol._extraer_saldos_desde_fila (map strip cells)
                  Comsol.ETIQUETA) < 2 ->
        Comsol.BultosAtm.run d st (cells :: rows)
        = Comsol.BultosAtm.run d st rows)
  /\ (forall d st (cells : row) (rows : list row) v0 v1 more,
        Comsol.BultosAtm.captured st = false ->
        contains "SALDO ANTERIOR" (upper_join_of cells) = true ->
        Comsol._extraer_saldos_desde_fila (map strip cells) Comsol.ETIQUETA
        = v0 :: v1 :: more ->
        length more < 2 ->
        Comsol.BultosAtm.saldo_ant_pyg
          (fst (Comsol.BultosAtm.run d st (cells :: rows))) = v1
        /\ Comsol.BultosAtm.saldo_ant_usd
             (fst (Comsol.BultosAtm.run d st (cells :: rows))) = ""
        /\ forall r,
             In r (snd (Comsol.BultosAtm.run d st (cells :: rows))) ->
             Comsol.BultosAtm.SALDO_ANTERIOR_PYG r = v1
             /\ Comsol.BultosAtm.SALDO_ANTERIOR_USD r = "").
Proof.
  split; [|split].
  - intros st cells rows v Hc L S.
    assert (Nv : nonempty v = true).
    { apply (saldos_nonempty (map strip cells) Comsol.ETIQUETA).
      rewrite S. left. reflexivity. }
    rewrite (comsol_atm_run_after_label st cells rows Hc L).
    apply orb_false_both in Hc. destruct Hc as [_ Hp].
    apply nonempty_false in Hp.
    set (st1 := Comsol.EcAtm.capture st (map strip cells)).
    assert (U : Comsol.EcAtm.saldo_ant_usd st1 = v).
    { unfold st1, Comsol.EcAtm.capture. cbv zeta. rewrite S. reflexivity. }
    assert (P : Comsol.EcAtm.saldo_ant_pyg st1 = "").
    { unfold st1, Comsol.EcAtm.capture. cbv zeta. rewrite S. exact Hp. }
    assert (C : Comsol.EcAtm.captured st1 = true).
    { unfold Comsol.EcAtm.captured. rewrite U, Nv. reflexivity. }
    destruct (comsol_atm_run_captured rows st1 C) as [H1 H2].
    rewrite H1, H2, U, P. split; [reflexivity|]. split; [reflexivity|].
    intros r Hin.
    destruct (comsol_atm_run_saldos rows st1 r C Hin) as [R1 R2].
    rewrite R1, R2, U, P. split; reflexivity.
  - intros d st cells rows Hc L S.
    rewrite (comsol_bultos_atm_run_after_label d st cells rows Hc L).
    f_equal. unfold Comsol.BultosAtm.capture. cbv zeta.
    destruct (Comsol._extraer_saldos_desde_fila _ _) as [|a [|b l]];
      [destruct st; reflexivity|destruct st; reflexivity|].
    cbn [length] in S. lia.
  - intros d st cells rows v0 v1 more Hc L S Hm.
    assert (Nv : nonempty v1 = true).
    { apply (saldos_nonempty (map strip cells) Comsol.ETIQUETA).
      rewrite S. right. left. reflexivity. }
    rewrite (comsol_bultos_atm_run_after_label d st cells rows Hc L).
    apply orb_false_both in Hc. destruct Hc as [_ Hu].
    apply nonempty_false in Hu.
    set (st1 := Comsol.BultosAtm.capture st (map strip cells)).
    assert (P : Comsol.BultosAtm.saldo_ant_pyg st1 = v1).
    { unfold st1, Comsol.BultosAtm.capture. cbv zeta. rewrite S.
      reflexivity. }
    assert (U : Comsol.BultosAtm.saldo_ant_usd st1 = "").
    { unfold st1, Comsol.BultosAtm.capture. cbv zeta. rewrite S.
      destruct more as [|a [|b l]]; [exact Hu|exact Hu|].
      cbn [length] in Hm. lia. }
    assert (C : Comsol.BultosAtm.captured st1 = true).
    { unfold Comsol.BultosAtm.captured. rewrite P, Nv. reflexivity. }
    destruct (comsol_bultos_atm_run_captured d rows st1 C) as [H1 H2].
    rewrite H1, H2, U, P. split; [reflexivity|]. split; [reflexivity|].
    intros r Hin.
    destruct (comsol_bultos_atm_run_saldos d rows st1 r C Hin) as [R1 R2].
    rewrite R1, R2, U, P. split; reflexivity.
Qed.

(** A sheet whose first label row holds one value and whose second holds
    two; and a sheet of bultos whose label rows hold one, then two, then
    four values. *)
Lemma short_label_row_balances_witness :
  let atm :=
    [["Saldo Anterior:"; "USD"; "1.200,50"];
     ["Saldo Anterior:"; "9"; "3.400.000"]] in
  let bultos :=
    [["Saldo Anterior"; "12"];
     ["Saldo Anterior"; "12"; "3.400.000"];
     ["Saldo Anterior"; "12"; "5.000.000"; "4"; "1.200,50"]] in
  (Comsol.EcAtm.saldo_ant_usd (fst (Comsol.EcAtm.run Comsol.EcAtm.initial atm))
   = "1.200,50"
   /\ Comsol.EcAtm.saldo_ant_pyg
        (fst (Comsol.EcAtm.run Comsol.EcAtm.initial atm)) = "")
  /\ Comsol.BultosAtm.run true Comsol.BultosAtm.initial bultos
     = Comsol.BultosAtm.run true Comsol.BultosAtm.initial (tl bultos)
  /\ Comsol.BultosAtm.saldo_ant_pyg
       (fst (Comsol.BultosAtm.run true Comsol.BultosAtm.initial (tl bultos)))
     = "3.400.000"
  /\ Comsol.BultosAtm.saldo_ant_usd
       (fst (Comsol.BultosAtm.run true Comsol.BultosAtm.initial (tl bultos)))
     = "".
Proof.
  intros atm bultos.
  destruct short_label_row_balances as (A & B & C).
  split; [|split].
  - refine (let H := A Comsol.EcAtm.initial
                       ["Saldo Anterior:"; "USD"; "1.200,50"]
                       [["Saldo Anterior:"; "9"; "3.400.000"]]
                       "1.200,50" _ _ _ in
            conj (proj1 H) (proj1 (proj2 H)));
      vm_compute; reflexivity.
  - refine (B true Comsol.BultosAtm.initial ["Saldo Anterior"; "12"]
              (tl bultos) _ _ _);
      [vm_compute; reflexivity|vm_compute; reflexivity|vm_compute; lia].
  - refine (let H := C true Comsol.BultosAtm.initial
                       ["Saldo Anterior"; "12"; "3.400.000"]
                       [["Saldo Anterior"; "12"; "5.000.000"; "4";
                         "1.200,50"]]
                       "12" "3.400.000" [] _ _ _ _ in
            conj (proj1 H) (proj1 (proj2 H)));
      [vm_compute; reflexivity|vm_compute; reflexivity
      |vm_compute; reflexivity|simpl; lia].
Defined.

(** ** The rounding of [float] *)

Lemma div_half_even_bounds (n d : Z) :
  (0 <= n)%Z -> (0 < d)%Z ->
  (2 * n - d <= 2 * d * Float.div_half_even n d <= 2 * n + d)%Z.
Proof.
  intros Hn Hd. unfold Float.div_half_even. cbv zeta.
  pose proof (Z.div_mod n d ltac:(lia)) as E.
  pose proof (Z.mod_pos_bound n d Hd) as B.
  destruct (Z.compare_spec (2 * (n mod d)) d) as [H|H|H];
    [destruct (Z.even (n / d))|..]; nia.
Qed.

(** A quotient within a half of an even number rounds up to it. *)
Lemma div_half_even_ge (n d k : Z) :
  (0 <= n)%Z -> (0 < d)%Z -> Z.even k = true ->
  ((2 * k - 1) * d <= 2 * n)%Z ->
  (k <= Float.div_half_even n d)%Z.
Proof.
  intros Hn Hd Hk H. unfold Float.div_half_even. cbv zeta.
  pose proof (Z.div_mod n d ltac:(lia)) as E.
  pose proof (Z.mod_pos_bound n d Hd) as B.
  assert (Q : (k - 1 <= n / d)%Z) by nia.
  destruct (Z.compare_spec (2 * (n mod d)) d) as [C|C|C].
  - destruct (Z.even (n / d)) eqn:Ev; [|lia].
    destruct (Z.eq_dec (n / d) (k - 1)) as [Eq|Ne]; [|lia].
    rewrite Eq in Ev. replace (k - 1)%Z with (Z.pred k) in Ev by lia.
    rewrite Z.even_pred in Ev. rewrite <- Z.negb_even, Hk in Ev.
    discriminate Ev.
  - nia.
  - lia.
Qed.

Lemma div_half_even_le (n d k : Z) :
  (0 <= n)%Z -> (0 < d)%Z -> (n < k * d)%Z ->
  (Float.div_half_even n d <= k)%Z.
Proof.
  intros Hn Hd H. pose proof (div_half_even_bounds n d Hn Hd) as B. nia.
Qed.

Lemma scaled_nonneg (n d e : Z) :
  (0 <= e)%Z -> Float.scaled n d e = (n, (d * 2 ^ e)%Z).
Proof.
  intros He. unfold Float.scaled.
  destruct (Z.leb_spec 0 e); [reflexivity|lia].
Qed.

(** A quotient rounds to infinity from 2^1024 - 2^970 on. *)
Lemma round_ratio_overflow (n d : Z) :
  (0 < n)%Z -> (0 < d)%Z ->
  Float.round_ratio n d = None <-> ((2 ^ 1024 - 2 ^ 970) * d <= n)%Z.
Proof.
  intros Hn Hd.
  destruct (Z.log2_spec n Hn) as [Ln Un].
  destruct (Z.log2_spec d Hd) as [Ld Ud].
  pose proof (Z.log2_nonneg n) as Nn. pose proof (Z.log2_nonneg d) as Nd.
  unfold Float.round_ratio. cbv zeta.
  set (lp := Z.log2 n) in *. set (lq := Z.log2 d) in *.
  set (e1 := (lp - lq - 53)%Z).
  set (e2 := let (a, b) := Float.scaled n d e1 in
             if (2 ^ 53 <=? a / b)%Z then (e1 + 1)%Z else e1).
  set (e := Z.max e2 (-1074)).
  set (m := let (a, b) := Float.scaled n d e in Float.div_half_even a b).
  (* the exponents *)
  assert (E2 : (e1 <= e2 <= e1 + 1)%Z).
  { unfold e2. destruct (Float.scaled n d e1) as [a b].
    destruct (2 ^ 53 <=? a / b)%Z; lia. }
  assert (P : forall k : Z, (0 <= k)%Z -> (0 < 2 ^ k)%Z)
    by (intros k Hk; apply Z.pow_pos_nonneg; lia).
  assert (S : forall a b : Z, (0 <= a)%Z -> (0 <= b)%Z ->
                          (2 ^ (a + b) = 2 ^ a * 2 ^ b)%Z)
    by (intros a b Ha Hb; apply Z.pow_add_r; assumption).
  assert (M : forall a b : Z, (0 <= a <= b)%Z -> (2 ^ a <= 2 ^ b)%Z)
    by (intros a b Hab; apply Z.pow_le_mono_r; lia).
  (* the bound of the quotient by the logarithms *)
  assert (Up : (n < 2 ^ (lq + (lp - lq + 1)) )%Z).
  { replace (lq + (lp - lq + 1))%Z with (Z.succ lp) by lia. exact Un. }
  assert (Lo : (2 ^ lp <= n)%Z) by exact Ln.
  rewrite Z.pow_succ_r in Ud by lia.
  split.
  - (* overflow: the quotient is large *)
    intros H.
    destruct (Z.le_gt_cases ((2 ^ 1024 - 2 ^ 970) * d) n) as [G|G];
      [exact G|exfalso].
    assert (B1 : (e1 <= 971)%Z).
    { destruct (Z.le_gt_cases e1 971) as [L|L]; [exact L|exfalso].
      assert (lq + 1025 <= lp)%Z by (unfold e1 in L; lia).
      pose proof (M (lq + 1025)%Z lp ltac:(lia)) as M1.
      rewrite (S lq 1025%Z) in M1 by lia.
      pose proof (P lq Nd). nia. }
    assert (B2 : (e2 <= 971)%Z).
    { destruct (Z.eq_dec e1 971) as [Eq|Ne]; [|lia].
      unfold e2. rewrite Eq, scaled_nonneg by lia.
      destruct (Z.leb_spec (2 ^ 53) (n / (d * 2 ^ 971))) as [T|T]; [|lia].
      exfalso.
      pose proof (Z.mul_div_le n (d * 2 ^ 971) ltac:(nia)) as Q.
      nia. }
    assert (B3 : (e <= 971)%Z) by (unfold e; lia).
    destruct (m =? 2 ^ 53)%Z eqn:Em.
    + apply Z.eqb_eq in Em.
      destruct (Z.ltb_spec 971 (e + 1)) as [T|T]; [|discriminate H].
      assert (Ee : e = 971%Z) by lia.
      unfold m in Em. rewrite Ee, scaled_nonneg in Em by lia.
      pose proof (div_half_even_bounds n (d * 2 ^ 971) ltac:(lia)
                    ltac:(nia)) as B.
      rewrite Em in B. nia.
    + destruct (Z.ltb_spec 971 e) as [T|T]; [lia|discriminate H].
  - (* a large quotient overflows *)
    intros G.
    assert (B1 : (970 <= e1)%Z).
    { destruct (Z.le_gt_cases 970 e1) as [L|L]; [exact L|exfalso].
      assert (lp + 1 <= lq + 1023)%Z by (unfold e1 in L; lia).
      assert (U2 : (n < 2 ^ (lq + 1023))%Z).
      { eapply Z.lt_le_trans; [exact Un|].
        apply M. lia. }
      rewrite (S lq 1023%Z) in U2 by lia.
      pose proof (P lq Nd). nia. }
    assert (U3 : (e2 = 971 -> n < 2 ^ 1024 * d)%Z).
    { intros L. destruct (Z.eq_dec e1 971) as [Eq|Ne].
      - revert L. unfold e2. rewrite Eq, scaled_nonneg by lia.
        destruct (Z.leb_spec (2 ^ 53) (n / (d * 2 ^ 971))) as [T|T];
          [lia|intros _].
        pose proof (Z.div_mod n (d * 2 ^ 971) ltac:(nia)) as Q.
        pose proof (Z.mod_pos_bound n (d * 2 ^ 971) ltac:(nia)) as R.
        nia.
      - assert (lp + 1 <= lq + 1024)%Z by (unfold e1 in *; lia).
        assert (U2 : (n < 2 ^ (lq + 1024))%Z).
        { eapply Z.lt_le_trans; [exact Un|]. apply M. lia. }
        rewrite (S lq 1024%Z) in U2 by lia. nia. }
    assert (B2 : (971 <= e2)%Z).
    { destruct (Z.eq_dec e1 970) as [Eq|Ne]; [|lia].
      unfold e2. rewrite Eq, scaled_nonneg by lia.
      destruct (Z.leb_spec (2 ^ 53) (n / (d * 2 ^ 970))) as [T|T]; [lia|].
      exfalso.
      assert (Q : (2 ^ 53 <= n / (d * 2 ^ 970))%Z).
      { apply Z.div_le_lower_bound; nia. }
      lia. }
    assert (Ee : e = e2) by (unfold e; lia).
    destruct (Z.eq_dec e2 971) as [Eq|Ne].
    + assert (Em : m = (2 ^ 53)%Z).
      { unfold m. rewrite Ee, Eq, scaled_nonneg by lia.
        apply Z.le_antisymm.
        - apply div_half_even_le; [lia|nia|].
          specialize (U3 Eq). nia.
        - apply div_half_even_ge; [lia|nia|reflexivity|nia]. }
      rewrite Em, Z.eqb_refl.
      destruct (Z.ltb_spec 971 (e + 1)) as [T|T]; [reflexivity|lia].
    + destruct (m =? 2 ^ 53)%Z;
        [destruct (Z.ltb_spec 971 (e + 1)) as [T|T]
        |destruct (Z.ltb_spec 971 e) as [T|T]];
        solve [reflexivity | lia].
Qed.

(** ** The texts [float] reads *)

Lemma walks_star_chr (p : ascii -> bool) (r : regex) (m m1 : cursor) :
  walks r m m1 -> r = Star (Chr p) ->
  exists a,
    rest m = (a ++ rest m1)%string
    /\ forallb p (list_ascii_of_string a) = true.
Proof.
  induction 1 as [m|p' c t m E P|a b m1 m2 m3 _ _ _ _|a b m1 m2 _ _
                 |a b m1 m2 _ _|a m|a m1 m2 m3 W1 _ W2 IH|a m
                 |a m1 m2 m3 _ _ _ _|a m m1 _ _|m E|m E|m E];
    intros R; try discriminate R.
  - exists EmptyString. split; reflexivity.
  - injection R as ->. destruct (IH eq_refl) as (s & E & F).
    inversion W1 as [|p' c t m0 Hr Hp| | | | | | | | | | |]; subst.
    cbn [rest advance] in E. exists (String c s).
    rewrite Hr, E. split; [reflexivity|].
    cbn [list_ascii_of_string forallb]. rewrite Hp, F. reflexivity.
Qed.

(** A run of one digit or more. *)
Lemma walks_plus_digit (m m1 : cursor) :
  walks (plus digit) m m1 ->
  exists a,
    rest m = (a ++ rest m1)%string
    /\ forallb isdecimal (list_ascii_of_string a) = true
    /\ nonempty a = true.
Proof.
  unfold plus, digit. intros W.
  inversion W as [| |a b m1' m2 m3 W1 W2| | | | | | | | | |]; subst.
  inversion W1 as [|p' c t m0 Hr Hp| | | | | | | | | | |]; subst.
  destruct (walks_star_chr isdecimal _ _ _ W2 eq_refl) as (s & E & F).
  cbn [rest advance] in E. exists (String c s).
  rewrite Hr, E. split; [reflexivity|]. split; [|reflexivity].
  cbn [list_ascii_of_string forallb]. rewrite Hp, F. reflexivity.
Qed.

Lemma string_app_nil_r (s : string) : (s ++ "")%string = s.
Proof. induction s as [|c s IH]; cbn [append]; congruence. Qed.

(** A text that matches [\d+\.\d+] is two runs of digits with a point
    between them. *)
Lemma rx_decimal_shape (s : string) :
  matches (re_fullmatch V4.Inv.rx_decimal s) = true ->
  exists a b,
    s = (a ++ "." ++ b)%string
    /\ forallb isdecimal (list_ascii_of_string a) = true
    /\ nonempty a = true
    /\ forallb isdecimal (list_ascii_of_string b) = true
    /\ nonempty b = true.
Proof.
  unfold re_fullmatch.
  destruct (run_re V4.Inv.rx_decimal (start_at None s) _) as [m'|] eqn:R;
    [intros _|discriminate].
  apply run_re_walks in R. destruct R as (m1 & W & K).
  assert (E1 : rest m1 = EmptyString)
    by (destruct (rest m1); [reflexivity|discriminate K]).
  unfold V4.Inv.rx_decimal in W. cbn [seqs fold_right] in W.
  inversion W as [| |r1 r2 c1 c2 c3 Wa W'| | | | | | | | | |]; subst.
  inversion W' as [| |r1 r2 c1' c3' c4 Wp W''| | | | | | | | | |]; subst.
  inversion W'' as [| |r1 r2 c1'' c4' c5 Wb We| | | | | | | | | |]; subst.
  inversion We; subst.
  destruct (walks_plus_digit _ _ Wa) as (a & Ea & Fa & Na).
  destruct (walks_plus_digit _ _ Wb) as (b & Eb & Fb & Nb).
  unfold chr in Wp.
  inversion Wp as [|p' c t m0 Hr Hp| | | | | | | | | | |]; subst.
  cbn [rest advance start_at] in *.
  apply Ascii.eqb_eq in Hp. subst c.
  exists a, b. rewrite Ea, Hr, Eb, E1.
  rewrite string_app_nil_r. split; [reflexivity|auto].
Qed.

Lemma split_point_decimal (a b : string) :
  forallb isdecimal (list_ascii_of_string a) = true ->
  Float.split_point (a ++ "." ++ b) = (a, b).
Proof.
  induction a as [|c a IH]; intros H; [reflexivity|].
  cbn [list_ascii_of_string forallb] in H. apply andb_prop in H.
  destruct H as [Hc Ha]. cbn [append Float.split_point].
  destruct (decimal_char_facts c Hc) as (_ & _ & _ & -> & _).
  change (a ++ String "." b)%string with (a ++ "." ++ b)%string.
  rewrite (IH Ha). reflexivity.
Qed.

Lemma decimal_digit_range (c : ascii) :
  isdecimal c = true -> (0 <= Z.of_N (N_of_ascii c) - 48 <= 9)%Z.
Proof.
  unfold isdecimal, between, code. intros H. apply andb_prop in H.
  destruct H as [H1 H2]. apply N.leb_le in H1, H2. lia.
Qed.

(** A run of digits after the digits of [acc] spells a number that
    begins with [acc]. *)
Lemma digits_Z_bounds (s : string) :
  forallb isdecimal (list_ascii_of_string s) = true ->
  forall acc,
    (0 <= acc)%Z ->
    (acc * 10 ^ Z.of_nat (String.length s) <= Float.digits_Z acc s
     < (acc + 1) * 10 ^ Z.of_nat (String.length s))%Z.
Proof.
  induction s as [|c s IH]; intros H acc Ha.
  - cbn [Float.digits_Z String.length]. simpl. lia.
  - cbn [list_ascii_of_string forallb] in H. apply andb_prop in H.
    destruct H as [Hc Hs]. pose proof (decimal_digit_range c Hc) as R.
    cbn [Float.digits_Z String.length].
    rewrite Nat2Z.inj_succ, Z.pow_succ_r by lia.
    specialize (IH Hs (10 * acc + (Z.of_N (N_of_ascii c) - 48))%Z
                  ltac:(lia)).
    assert (P : (0 < 10 ^ Z.of_nat (String.length s))%Z)
      by (apply Z.pow_pos_nonneg; lia).
    nia.
Qed.

(** [int(float(s))] raises on the texts whose number is 2^1024 - 2^970
    or more: those [float] reads as infinity. *)
Lemma int_of_text_overflow (a b : string) :
  forallb isdecimal (list_ascii_of_string a) = true ->
  forallb isdecimal (list_ascii_of_string b) = true ->
  Float.int_of_text (a ++ "." ++ b) = None
  <-> ((2 ^ 1024 - 2 ^ 970) * 10 ^ Z.of_nat (String.length b)
       <= Float.digits_Z 0 (a ++ b))%Z.
Proof.
  intros Ha Hb. unfold Float.int_of_text.
  rewrite (split_point_decimal a b Ha). unfold Float.of_decimal.
  assert (Hab : forallb isdecimal (list_ascii_of_string (a ++ b)) = true)
    by (rewrite forallb_string_app, Ha, Hb; reflexivity).
  pose proof (digits_Z_bounds _ Hab 0%Z ltac:(lia)) as [L _].
  set (n := Float.digits_Z 0 (a ++ b)) in *.
  set (d := (10 ^ Z.of_nat (String.length b))%Z).
  assert (Pd : (0 < d)%Z) by (apply Z.pow_pos_nonneg; lia).
  unfold Float.of_ratio.
  destruct (Z.eqb_spec n 0) as [E|E].
  - cbn [Float.trunc]. split; [discriminate|].
    intros G. exfalso. rewrite E in G.
    assert ((0 < 2 ^ 1024 - 2 ^ 970)%Z) by reflexivity. nia.
  - rewrite <- (round_ratio_overflow n d ltac:(lia) Pd).
    destruct (Float.round_ratio n d) as [[m e]|]; cbn [Float.trunc];
      split; solve [discriminate | reflexivity].
Qed.

(** A text with at most 308 digits before the point is below 10^308, and
    [float] reads it as a finite number. *)
Lemma int_of_text_short (a b : string) :
  forallb isdecimal (list_ascii_of_string a) = true ->
  forallb isdecimal (list_ascii_of_string b) = true ->
  String.length a <= 308 ->
  Float.int_of_text (a ++ "." ++ b) <> None.
Proof.
  intros Ha Hb Hl H. apply (int_of_text_overflow a b Ha Hb) in H.
  assert (Hab : forallb isdecimal (list_ascii_of_string (a ++ b)) = true)
    by (rewrite forallb_string_app, Ha, Hb; reflexivity).
  pose proof (digits_Z_bounds _ Hab 0%Z ltac:(lia)) as [_ U].
  rewrite string_length_app, Nat2Z.inj_add, Z.pow_add_r in U by lia.
  assert (Pb : (0 < 10 ^ Z.of_nat (String.length b))%Z)
    by (apply Z.pow_pos_nonneg; lia).
  assert (Pa : (10 ^ Z.of_nat (String.length a) <= 10 ^ 308)%Z)
    by (apply Z.pow_le_mono_r; lia).
  assert (T : (10 ^ 308 < 2 ^ 1024 - 2 ^ 970)%Z) by reflexivity.
  nia.
Qed.

(** ** The exceptions of the inventory walk *)

Lemma lstrip_length (s : string) :
  String.length (lstrip s) <= String.length s.
Proof.
  induction s as [|c s IH]; cbn [lstrip String.length]; [lia|].
  destruct (isspace c); cbn [String.length]; lia.
Qed.

Lemma rstrip_length (s : string) :
  String.length (rstrip s) <= String.length s.
Proof.
  induction s as [|c s IH]; cbn [rstrip String.length]; [lia|].
  destruct (rstrip s); [destruct (isspace c)|]; cbn [String.length] in *; lia.
Qed.

Lemma strip_length (s : string) :
  String.length (strip s) <= String.length s.
Proof.
  unfold strip. pose proof (rstrip_length (lstrip s)).
  pose proof (lstrip_length s). lia.
Qed.

Lemma replace_char_length (a b : ascii) (s : string) :
  String.length (replace_char a b s) = String.length s.
Proof.
  induction s as [|c s IH]; cbn [replace_char String.length]; congruence.
Qed.

Lemma text_read_length (c : V4.Inv.cell) :
  String.length (V4.Inv.text_read c) <= String.length (V4.Inv._txt c).
Proof.
  unfold V4.Inv.text_read.
  pose proof (strip_length
                (replace_char (ascii_of_N 160) " " (V4.Inv._txt c))) as H.
  rewrite replace_char_length in H. exact H.
Qed.

(** [_to_int_denom] hands [_to_int] the text of the cell: the text read
    is the same. *)
Lemma text_read_txt (c : V4.Inv.cell) :
  V4.Inv.text_read (V4.Inv.CStr (V4.Inv._txt c)) = V4.Inv.text_read c.
Proof.
  unfold V4.Inv.text_read.
  change (V4.Inv._txt (V4.Inv.CStr (V4.Inv._txt c)))
    with (strip (V4.Inv._txt c)).
  unfold V4.Inv._txt. destruct (V4.Inv.isna c); [reflexivity|].
  rewrite strip_idempotent. reflexivity.
Qed.

Section InventoryRaises.

Variable float_int : string -> option Z.
Variable AGRUP_TOKENS TIPO_TOKENS : list string.

(** The cell whose text is of the form digits.digits and is not
    converted. *)
Let unread (c : V4.Inv.cell) : Prop :=
  matches (re_fullmatch V4.Inv.rx_decimal (V4.Inv.text_read c)) = true
  /\ float_int (V4.Inv.text_read c) = None.

Lemma to_int_denom_raise (c : V4.Inv.cell) :
  V4.Inv._to_int_denom float_int c = V4.Inv.Raise -> unread c.
Proof.
  unfold V4.Inv._to_int_denom. cbv zeta.
  destruct (_ || _); [discriminate|]. intros H.
  apply to_int_raise_text in H. rewrite text_read_txt in H. exact H.
Qed.

Lemma nums_from_raise (cells : list V4.Inv.cell) :
  forall j,
    V4.Inv.nums_from float_int j cells = V4.Inv.Raise ->
    exists c, In c cells /\ unread c.
Proof.
  induction cells as [|c t IH]; intros j; cbn [V4.Inv.nums_from];
    [discriminate|].
  destruct (V4.Inv._to_int_denom float_int c) as [v|] eqn:E;
    cbn [V4.Inv.bind].
  - destruct (V4.Inv.nums_from float_int (S j) t) as [l|] eqn:N;
      cbn [V4.Inv.bind]; [discriminate|].
    intros _. destruct (IH _ N) as (c' & Hin & Hc).
    exists c'. split; [right; exact Hin|exact Hc].
  - intros _. exists c. split; [left; reflexivity|].
    exact (to_int_denom_raise c E).
Qed.

Lemma next_num_raise (cells : list V4.Inv.cell) :
  V4.Inv.next_num float_int cells = V4.Inv.Raise ->
  exists c, In c cells /\ unread c.
Proof.
  induction cells as [|c t IH]; cbn [V4.Inv.next_num]; [discriminate|].
  destruct (V4.Inv._to_int float_int c) as [[n|]|] eqn:E; cbn [V4.Inv.bind].
  - discriminate.
  - intros H. destruct (IH H) as (c' & Hin & Hc).
    exists c'. split; [right; exact Hin|exact Hc].
  - intros _. exists c. split; [left; reflexivity|].
    exact (to_int_raise_text float_int c E).
Qed.

(** The cells [next_num] leaves are cells of the row. *)
Lemma next_num_after (cells after : list V4.Inv.cell) (v : Z) :
  V4.Inv.next_num float_int cells = V4.Inv.Ok (Some (v, after)) ->
  forall c, In c after -> In c cells.
Proof.
  induction cells as [|c t IH]; cbn [V4.Inv.next_num]; [discriminate|].
  destruct (V4.Inv._to_int float_int c) as [[n|]|]; cbn [V4.Inv.bind].
  - intros H. injection H as <- <-. intros c' Hin. right. exact Hin.
  - intros H c' Hin. right. exact (IH H c' Hin).
  - discriminate.
Qed.

Lemma take_nums_raise (n : nat) :
  forall cells,
    V4.Inv.take_nums float_int n cells = V4.Inv.Raise ->
    exists c, In c cells /\ unread c.
Proof.
  induction n as [|n IH]; intros cells; cbn [V4.Inv.take_nums];
    [discriminate|].
  destruct (V4.Inv.next_num float_int cells) as [[[v after]|]|] eqn:E;
    cbn [V4.Inv.bind].
  - destruct (V4.Inv.take_nums float_int n after) as [vs|] eqn:T;
      cbn [V4.Inv.bind]; [discriminate|].
    intros _. destruct (IH _ T) as (c & Hin & Hc).
    exists c. split; [exact (next_num_after _ _ _ E c Hin)|exact Hc].
  - destruct (V4.Inv.take_nums float_int n []) as [vs|] eqn:T;
      cbn [V4.Inv.bind]; [discriminate|].
    intros _. destruct (IH _ T) as (c & [] & _).
  - intros _. exact (next_num_raise cells E).
Qed.

Lemma inv_row_step_raise (fecha ag : string) (st : V4.Inv.state)
  (cells : list V4.Inv.cell) :
  V4.Inv.row_step float_int AGRUP_TOKENS TIPO_TOKENS fecha ag st cells
  = V4.Inv.Raise ->
  exists c, In c cells /\ unread c.
Proof.
  unfold V4.Inv.row_step.
  destruct (V4.Inv.is_stop_row cells); [discriminate|]. cbv zeta.
  destruct (V4.Inv.nums_from float_int 0 cells) as [nums|] eqn:N;
    cbn [V4.Inv.bind]; [|intros _; exact (nums_from_raise cells 0 N)].
  destruct nums as [|[denom_col denom_val] nums]; [discriminate|].
  destruct (negb _); [discriminate|].
  destruct (V4.Inv.take_nums float_int 5 (skipn (S denom_col) cells))
    as [vs|] eqn:T; cbn [V4.Inv.bind]; [discriminate|].
  intros _. destruct (take_nums_raise _ _ T) as (c & Hin & Hc).
  exists c. split; [exact (In_skipn_in _ _ _ Hin)|exact Hc].
Qed.

(** Past rows that do not raise, the walk goes on from the state they
    leave. *)
Lemma inv_walk_app (fecha ag : string)
  (rows1 rows2 : list (list V4.Inv.cell)) :
  (forall cells c, In cells rows1 -> In c cells -> ~ unread c) ->
  forall st,
    V4.Inv.walk float_int AGRUP_TOKENS TIPO_TOKENS fecha ag st
      (rows1 ++ rows2)
    = V4.Inv.walk float_int AGRUP_TOKENS TIPO_TOKENS fecha ag st rows1
      ++ V4.Inv.walk float_int AGRUP_TOKENS TIPO_TOKENS fecha ag
           (V4.Inv.walk_state float_int AGRUP_TOKENS TIPO_TOKENS fecha ag
              st rows1)
           rows2.
Proof.
  induction rows1 as [|r rows1 IH]; intros H st; [reflexivity|].
  cbn [app V4.Inv.walk V4.Inv.walk_state].
  destruct (V4.Inv.row_step float_int AGRUP_TOKENS TIPO_TOKENS fecha ag st r)
    as [[st1 e]|] eqn:E.
  - rewrite IH, app_assoc; [reflexivity|].
    intros cells c Hr Hc. exact (H cells c (or_intror Hr) Hc).
  - exfalso. destruct (inv_row_step_raise _ _ _ _ E) as (c & Hc & U).
    exact (H r c (or_introl eq_refl) Hc U).
Qed.

End InventoryRaises.

(** A cell whose text has at most 308 characters is converted by
    Python's [int(float(s))]. *)
Lemma short_text_converts (c : V4.Inv.cell) :
  String.length (V4.Inv._txt c) <= 308 ->
  matches (re_fullmatch V4.Inv.rx_decimal (V4.Inv.text_read c)) = true ->
  Float.int_of_text (V4.Inv.text_read c) <> None.
Proof.
  intros Hl Hm. pose proof (text_read_length c) as L.
  destruct (rx_decimal_shape _ Hm) as (a & b & E & Ha & _ & Hb & _).
  rewrite E in *. apply int_of_text_short; [exact Ha|exact Hb|].
  rewrite string_length_app in L. lia.
Qed.

(** X6.  What the row walk of the inventory parsers lets escape.  A row
    raises only through one of its cells whose text, as [_to_int] reads
    it, has the form digits.digits and is not converted by
    [int(float(s))]; past rows without such a cell, the lines of a block
    are the lines of its first rows followed by the lines of the remaining
    rows, walked from the state the first rows leave.  Python's
    conversion fails on a text digits.digits exactly when its number is
    2^1024 - 2^970 or more, which [float] reads as infinity; so a row whose
    cell texts have at most 308 characters each never raises. *)
Theorem inventory_walk_exceptions :
  (forall float_int agrup_tokens tipo_tokens fecha ag st cells,
      V4.Inv.row_step float_int agrup_tokens tipo_tokens fecha ag st cells
      = V4.Inv.Raise ->
      exists c,
        In c cells
        /\ matches (re_fullmatch V4.Inv.rx_decimal (V4.Inv.text_read c))
           = true
        /\ float_int (V4.Inv.text_read c) = None)
  /\ (forall float_int agrup_tokens tipo_tokens fecha ag rows1 rows2 st,
        (forall cells c,
            In cells rows1 -> In c cells ->
            matches (re_fullmatch V4.Inv.rx_decimal (V4.Inv.text_read c))
            = true ->
            float_int (V4.Inv.text_read c) <> None) ->
        V4.Inv.walk float_int agrup_tokens tipo_tokens fecha ag st
          (rows1 ++ rows2)
        = V4.Inv.walk float_int agrup_tokens tipo_tokens fecha ag st rows1
          ++ V4.Inv.walk float_int agrup_tokens tipo_tokens fecha ag
               (V4.Inv.walk_state float_int agrup_tokens tipo_tokens fecha
                  ag st rows1)
               rows2)
  /\ (forall a b,
        forallb isdecimal (list_ascii_of_string a) = true ->
        forallb isdecimal (list_ascii_of_string b) = true ->
        Float.int_of_text (a ++ "." ++ b) = None
        <-> ((2 ^ 1024 - 2 ^ 970) * 10 ^ Z.of_nat (String.length b)
             <= Float.digits_Z 0 (a ++ b))%Z)
  /\ (forall agrup_tokens tipo_tokens fecha ag st cells,
        (forall c, In c cells -> String.length (V4.Inv._txt c) <= 308) ->
        exists st' e,
          V4.Inv.row_step Float.int_of_text agrup_tokens tipo_tokens fecha
            ag st cells
          = V4.Inv.Ok (st', e)).
Proof.
  split; [|split; [|split]].
  - intros float_int agrup_tokens tipo_tokens fecha ag st cells H.
    destruct (inv_row_step_raise _ _ _ _ _ _ _ H) as (c & Hc & U1 & U2).
    exists c. auto.
  - intros float_int agrup_tokens tipo_tokens fecha ag rows1 rows2 st H.
    apply inv_walk_app. intros cells c Hr Hc [U1 U2].
    exact (H cells c Hr Hc U1 U2).
  - exact int_of_text_overflow.
  - intros agrup_tokens tipo_tokens fecha ag st cells H.
    destruct (V4.Inv.row_step Float.int_of_text agrup_tokens tipo_tokens
                fecha ag st cells) as [[st' e]|] eqn:E;
      [exists st', e; reflexivity|exfalso].
    destruct (inv_row_step_raise _ _ _ _ _ _ _ E) as (c & Hc & U1 & U2).
    exact (short_text_converts c (H c Hc) U1 U2).
Qed.

(** A grouping row with whole numbers, a text with a decimal point and two
    fractions: the denomination is read through its text and the amounts
    3.5 and 2.5 are rounded to the even neighbour. *)
Lemma inventory_walk_exceptions_witness :
  let cells :=
    [V4.Inv.CStr "TESORO ATM"; V4.Inv.CInt 50000; V4.Inv.CStr "12.0";
     V4.Inv.CFloat (Float.Finite false 7 (-1));
     V4.Inv.CFloat (Float.Finite false 5 (-1)); V4.Inv.CInt 0;
     V4.Inv.CInt 600000] in
  (forall c, In c cells -> String.length (V4.Inv._txt c) <= 308)
  /\ exists st' e,
       V4.Inv.row_step Float.int_of_text V4.Inv.ATM_AGRUP_TOKENS
         V4.Inv.ATM_TIPO_TOKENS "15/03/2024" "ASU"
         (V4.Inv.State "PYG" "" "") cells
       = V4.Inv.Ok (st', e)
       /\ e = [V4.Inv.Line "15/03/2024" "PYG" "ASU" "TESORO ATM" "" 50000
                 12 4 2 0 600000].
Proof.
  intros cells.
  assert (H : forall c, In c cells -> String.length (V4.Inv._txt c) <= 308).
  { intros c Hc. repeat (destruct Hc as [<-|Hc]; [vm_compute; lia|]).
    destruct Hc. }
  split; [exact H|].
  destruct (proj2 (proj2 (proj2 inventory_walk_exceptions))
              V4.Inv.ATM_AGRUP_TOKENS V4.Inv.ATM_TIPO_TOKENS "15/03/2024"
              "ASU" (V4.Inv.State "PYG" "" "") cells H) as (st' & e & E).
  exists st', e. split; [exact E|].
  vm_compute in E. injection E as _ <-. reflexivity.
Defined.

(** ** [_to_int] on numbers *)






